(** * corona-sim: a shallow embedding of the simulation engine

    The development follows the Python sources:
    - [exercise_2.py]  (module [Exercise2]): the self-contained script, one
      fixed health table, one contact regime;
    - [simulate_v2.py] (module [SimulateV2]): the engine with pluggable
      callbacks, its series bookkeeping, [write_data] and [test_condition];
    - [exercise_3d.py] (module [Exercise3d]): the passes of the script split
      into [evaluate_health_for_day], [advance_health_state] and
      [evaluate_contacts], over the state of the engine.

    Conventions.
    - Python [int] is [Z].  A Python [float] is the rational it denotes, in
      [Q]; comparisons of floats are exact, so [<] and [>] on [Q] are the
      comparisons of the code.  Sums and products of floats are taken
      exactly (rounding is not modelled); a statement that relies on a sum
      or a difference of floats being what the code computes says so, with
      [binary64], and holds where the code does not round.
    - The module [random] is a tape of raw draws with a read position: one
      cell is consumed by each call of [random.random] or [random.randint].
      Theorems quantify over every tape, hence over every sequence of draws
      the generator can deliver.
    - A Python exception is a [Raise]; a [while] loop runs on fuel and
      yields [Timeout] when the fuel is spent.
    - Lists are Python lists: objects are identified with their position, an
      in-place update of a dict stored in a list is an update at its index. *)

From Stdlib Require Import ZArith QArith Lia Lqa Ascii.
From stdpp Require Import base list strings.

Local Open Scope Z_scope.

(** ** Outcomes of Python code *)

Inductive exn : Type := KeyError | ValueError | IndexError | TypeError.

Inductive result (A : Type) : Type :=
| Ok (a : A)
| Raise (e : exn)
| Timeout.

Arguments Ok {A} a.
Arguments Raise {A} e.
Arguments Timeout {A}.

Definition bind {A B : Type} (m : result A) (k : A -> result B) : result B :=
  match m with
  | Ok a => k a
  | Raise e => Raise e
  | Timeout => Timeout
  end.

Notation "x <- m ;; k" := (bind m (fun x => k))
  (at level 100, m at next level, right associativity).

Definition from_key {A : Type} (o : option A) : result A :=
  match o with
  | Some a => Ok a
  | None => Raise KeyError
  end.

(** ** Numbers *)

Definition Qltb (x y : Q) : bool := negb (Qle_bool y x).


(** ** Python list primitives *)

(** [l[i]]: a negative index counts from the end, anything out of range
    raises [IndexError]. *)
Definition py_index {A : Type} (l : list A) (i : Z) : result nat :=
  let n := Z.of_nat (length l) in
  if (0 <=? i) && (i <? n) then Ok (Z.to_nat i)
  else if (- n <=? i) && (i <? 0) then Ok (Z.to_nat (n + i))
  else Raise IndexError.

Definition py_get {A : Type} (l : list A) (i : Z) : result A :=
  k <- py_index l i ;;
  match l !! k with
  | Some a => Ok a
  | None => Raise IndexError
  end.

(** [l.remove(x)]: drops the first element equal to [x]; [ValueError] when
    there is none. *)
Fixpoint py_remove {A : Type} (eqb : A -> A -> bool) (x : A) (l : list A)
  : result (list A) :=
  match l with
  | [] => Raise ValueError
  | y :: l' =>
      if eqb y x then Ok l'
      else l'' <- py_remove eqb x l' ;; Ok (y :: l'')
  end.

(** [range(n)] as a number of iterations, and [int(n / 2)] for an [int] n:
    true division followed by truncation towards zero.  The division is a
    float division; its result is exact, and [int_half] is what the code
    computes, for [|n| < 2^53]. *)
Definition range_len (n : Z) : nat := Z.to_nat n.

Definition int_half (n : Z) : Z := Z.quot n 2.

(** ** The random source *)

Record rng : Type := { tape : nat -> N; pos : nat }.

Definition rng_next (g : rng) : rng := {| tape := tape g; pos := S (pos g) |}.

Definition two53 : positive := 9007199254740992.

(** [random.random()]: a multiple of 2^-53 in [0, 1). *)
Definition random (g : rng) : Q * rng :=
  (Z.of_N (tape g (pos g) mod Npos two53) # two53, rng_next g).

(** [random.randint(a, b)]: an integer of [a, b]; [ValueError] on an empty
    range. *)
Definition randint (a b : Z) (g : rng) : result (Z * rng) :=
  if b <? a then Raise ValueError
  else Ok (a + Z.of_N (tape g (pos g)) mod (b - a + 1), rng_next g).

(** [random.seed(s)] for a generator [mt] that maps a seed to its stream. *)
Definition seed (mt : Z -> nat -> N) (s : Z) : rng := {| tape := mt s; pos := 0 |}.

(** ** Health states, shared by the three programs *)

Inductive health : Type :=
| well | infected | contagious | recovering | immune | dead.

Definition health_eqb (a b : health) : bool :=
  match a, b with
  | well, well | infected, infected | contagious, contagious
  | recovering, recovering | immune, immune | dead, dead => true
  | _, _ => false
  end.

(** The double written [0.03]. *)
Definition float_0_03 : Q := (1080863910568919 # 36028797018963968)%Q.

(** One entry of the [HEALTH_STATES] dict.  The entry of ['dead'] has no
    ['next state'] and no ['death rate'] key. *)
Record health_state : Type := {
  days_at_state : Z;
  can_be_infected : bool;
  next_state : option health;
  death_rate : option Q
}.

Definition HEALTH_STATES (s : health) : health_state :=
  match s with
  | well => {| days_at_state := -1; can_be_infected := true;
               next_state := Some infected; death_rate := Some 0%Q |}
  | infected => {| days_at_state := 2; can_be_infected := false;
                   next_state := Some contagious; death_rate := Some 0%Q |}
  | contagious => {| days_at_state := 4; can_be_infected := false;
                     next_state := Some recovering; death_rate := Some float_0_03 |}
  | recovering => {| days_at_state := 10; can_be_infected := false;
                     next_state := Some immune; death_rate := Some 0%Q |}
  | immune => {| days_at_state := -1; can_be_infected := false;
                 next_state := Some well; death_rate := Some 0%Q |}
  | dead => {| days_at_state := -1; can_be_infected := false;
               next_state := None; death_rate := None |}
  end.

(** The table with the death rate of one state replaced. *)
Definition with_death_rate (tbl : health -> health_state) (s : health) (r : Q)
  : health -> health_state :=
  fun s' =>
    if health_eqb s' s then
      {| days_at_state := days_at_state (tbl s');
         can_be_infected := can_be_infected (tbl s');
         next_state := next_state (tbl s');
         death_rate := Some r |}
    else tbl s'.

(** A person dict [{'id': .., 'state': .., 'days': ..}]. *)
Record person : Type := { id : Z; state : health; days : Z }.

Definition person_eqb (a b : person) : bool :=
  (id a =? id b) && health_eqb (state a) (state b) && (days a =? days b).

Definition set_state (p : person) (s : health) : person :=
  {| id := id p; state := s; days := days p |}.

Definition set_days (p : person) (d : Z) : person :=
  {| id := id p; state := state p; days := d |}.

(** * exercise_2.py *)

Module Exercise2.

(** The constants of the script.  [default_config] holds the values of the
    source; the theorems hold for every setting. *)
Record config : Type := {
  POPULATION : Z;
  INITIAL_INFECTION : Z;
  SIMULATION_DAYS : Z;
  daily_contacts : Z;
  transmission_probability : Q;
  health_table : health -> health_state
}.

Definition default_config : config := {|
  POPULATION := 10000;
  INITIAL_INFECTION := 20;
  SIMULATION_DAYS := 200;
  daily_contacts := 10;
  transmission_probability := float_0_03;
  health_table := HEALTH_STATES
|}.

(** The variables the day loop reads and writes, apart from the series. *)
Record sim : Type := {
  people : list person;
  current_population : Z;
  new_cases : Z;
  new_recoveries : Z;
  new_deaths : Z;
  gen : rng
}.

Definition set_people (w : sim) (l : list person) : sim :=
  {| people := l; current_population := current_population w;
     new_cases := new_cases w; new_recoveries := new_recoveries w;
     new_deaths := new_deaths w; gen := gen w |}.

Definition set_gen (w : sim) (g : rng) : sim :=
  {| people := people w; current_population := current_population w;
     new_cases := new_cases w; new_recoveries := new_recoveries w;
     new_deaths := new_deaths w; gen := g |}.

Definition count_case (w : sim) : sim :=
  {| people := people w; current_population := current_population w;
     new_cases := new_cases w + 1; new_recoveries := new_recoveries w;
     new_deaths := new_deaths w; gen := gen w |}.

Definition count_recovery (w : sim) : sim :=
  {| people := people w; current_population := current_population w;
     new_cases := new_cases w; new_recoveries := new_recoveries w + 1;
     new_deaths := new_deaths w; gen := gen w |}.

Definition count_death (w : sim) : sim :=
  {| people := people w; current_population := current_population w - 1;
     new_cases := new_cases w; new_recoveries := new_recoveries w;
     new_deaths := new_deaths w + 1; gen := gen w |}.

Definition reset_counters (w : sim) : sim :=
  {| people := people w; current_population := current_population w;
     new_cases := 0; new_recoveries := 0; new_deaths := 0; gen := gen w |}.

(** The tracking lists and the maxima. *)
Record stats : Type := {
  cumulative_cases : list Z;
  active_cases : list Z;
  cumulative_recoveries : list Z;
  cumulative_deaths : list Z;
  daily_new_cases : list Z;
  daily_new_active_cases : list Z;
  daily_new_recoveries : list Z;
  daily_new_deaths : list Z;
  maximum_active_cases : Z;
  maximum_active_cases_day : Z;
  maximum_daily_new_cases : Z;
  maximum_new_cases_day : Z;
  maximum_new_cases_cumulative : Z
}.

Section Run.

Variable cfg : config.

(** Lines 58-62: the healthy population. *)
Definition initial_people : list person :=
  map (fun i => {| id := Z.of_nat i; state := well; days := 1 |})
      (seq 0 (range_len (POPULATION cfg))).

(** Lines 68-69: [INITIAL_INFECTION] random picks are set to contagious. *)
Fixpoint infect_initial (n : nat) (l : list person) (g : rng)
  : result (list person * rng) :=
  match n with
  | O => Ok (l, g)
  | S n' =>
      r <- randint 0 (POPULATION cfg - 1) g ;;
      k <- py_index l (fst r) ;;
      p <- py_get l (fst r) ;;
      infect_initial n' (<[k := set_state p contagious]> l) (snd r)
  end.

(** Lines 83-95. *)
Definition initial_stats : stats := {|
  cumulative_cases := [INITIAL_INFECTION cfg];
  active_cases := [INITIAL_INFECTION cfg];
  cumulative_recoveries := [0];
  cumulative_deaths := [0];
  daily_new_cases := [0];
  daily_new_active_cases := [0];
  daily_new_recoveries := [0];
  daily_new_deaths := [0];
  maximum_active_cases := 0;
  maximum_active_cases_day := 0;
  maximum_daily_new_cases := 0;
  maximum_new_cases_day := 0;
  maximum_new_cases_cumulative := 0
|}.

(** Lines 109-126: the body of the health loop for the person at index [i]. *)
Definition health_step (i : nat) (p : person) (w : sim) : result sim :=
  let health_state := health_table cfg (state p) in
  let p1 := set_days p (days p + 1) in
  let w1 := set_people w (<[i := p1]> (people w)) in
  if (0 <? days_at_state health_state) && (days_at_state health_state <? days p1)
  then
    rate <- from_key (death_rate health_state) ;;
    let advance (w2 : sim) : result sim :=
      ns <- from_key (next_state health_state) ;;
      let p2 := {| id := id p1; state := ns; days := 1 |} in
      let w3 := set_people w2 (<[i := p2]> (people w2)) in
      Ok (if health_eqb ns immune then count_recovery w3 else w3) in
    if Qltb 0 rate then
      let (u, g') := random (gen w1) in
      let w2 := set_gen w1 g' in
      if Qltb u rate then
        l <- py_remove person_eqb p1 (people w2) ;;
        Ok (count_death (set_people w2 l))
      else advance w2
    else advance w1
  else Ok w1.

(** Line 107: [for person in reversed(people)].  The reverse iterator holds
    an index, yields [people[index]] while the index is in range and then
    decrements it; [n] is the index plus one. *)
Fixpoint health_loop (n : nat) (w : sim) : result sim :=
  match n with
  | O => Ok w
  | S i =>
      match people w !! i with
      | None => Ok w
      | Some p => w' <- health_step i p w ;; health_loop i w'
      end
  end.

(** Lines 133-145: the contacts of the susceptible person at index [i];
    [k] iterations of the [for] loop remain. *)
Fixpoint susceptible_contacts (k : nat) (i : nat) (w : sim) : result sim :=
  match k with
  | O => Ok w
  | S k' =>
      r <- randint 0 (current_population w - 1) (gen w) ;;
      contact <- py_get (people w) (fst r) ;;
      let w1 := set_gen w (snd r) in
      if health_eqb (state contact) contagious then
        let (u, g') := random (gen w1) in
        let w2 := set_gen w1 g' in
        if Qltb u (transmission_probability cfg) then
          match people w2 !! i with
          | Some p =>
              Ok (count_case
                    (set_people w2
                       (<[i := {| id := id p; state := infected; days := 1 |}]>
                          (people w2))))
          | None => Raise IndexError
          end
        else susceptible_contacts k' i w2
      else susceptible_contacts k' i w1
  end.

(** Lines 149-158: the contacts of a contagious person. *)
Fixpoint contagious_contacts (k : nat) (w : sim) : result sim :=
  match k with
  | O => Ok w
  | S k' =>
      r <- randint 0 (current_population w - 1) (gen w) ;;
      j <- py_index (people w) (fst r) ;;
      contact <- py_get (people w) (fst r) ;;
      let w1 := set_gen w (snd r) in
      if can_be_infected (health_table cfg (state contact)) then
        let (u, g') := random (gen w1) in
        let w2 := set_gen w1 g' in
        if Qltb u (transmission_probability cfg) then
          contagious_contacts k'
            (count_case
               (set_people w2
                  (<[j := {| id := id contact; state := infected; days := 1 |}]>
                     (people w2))))
        else contagious_contacts k' w2
      else contagious_contacts k' w1
  end.

(** [range(int(daily_contacts / 2))]. *)
Definition half_contacts : nat := range_len (int_half (daily_contacts cfg)).

(** Lines 131-158: the body of the contact loop for the person at index [i]. *)
Definition contact_step (i : nat) (p : person) (w : sim) : result sim :=
  if can_be_infected (health_table cfg (state p)) then
    susceptible_contacts half_contacts i w
  else if health_eqb (state p) contagious then
    contagious_contacts half_contacts w
  else Ok w.

(** Line 128: [for person in people].  The iterator holds an index [i] and
    stops when it reaches the length of the list; [n] bounds the number of
    iterations (the list does not change its length in this loop). *)
Fixpoint contact_loop (n : nat) (i : nat) (w : sim) : result sim :=
  match n with
  | O => Ok w
  | S n' =>
      match people w !! i with
      | None => Ok w
      | Some p => w' <- contact_step i p w ;; contact_loop n' (S i) w'
      end
  end.

(** Lines 160-175: today's statistics are appended. *)
Definition append_stats (day : Z) (w : sim) (s : stats) : result stats :=
  cc <- py_get (cumulative_cases s) day ;;
  let cumulative_cases' := cumulative_cases s ++ [cc + new_cases w] in
  ac <- py_get (active_cases s) day ;;
  let active_cases' :=
    active_cases s ++ [ac + new_cases w - new_recoveries w - new_deaths w] in
  ac1 <- py_get active_cases' (day + 1) ;;
  let hit_a := maximum_active_cases s <? ac1 in
  cr <- py_get (cumulative_recoveries s) day ;;
  cd <- py_get (cumulative_deaths s) day ;;
  let hit_n := maximum_daily_new_cases s <? new_cases w in
  cc1 <- (if hit_n then py_get cumulative_cases' (day + 1)
          else Ok (maximum_new_cases_cumulative s)) ;;
  Ok {| cumulative_cases := cumulative_cases';
        active_cases := active_cases';
        cumulative_recoveries := cumulative_recoveries s ++ [cr + new_recoveries w];
        cumulative_deaths := cumulative_deaths s ++ [cd + new_deaths w];
        daily_new_cases := daily_new_cases s ++ [new_cases w];
        daily_new_active_cases :=
          daily_new_active_cases s
            ++ [new_cases w - new_recoveries w - new_deaths w];
        daily_new_recoveries := daily_new_recoveries s ++ [new_recoveries w];
        daily_new_deaths := daily_new_deaths s ++ [new_deaths w];
        maximum_active_cases := if hit_a then ac1 else maximum_active_cases s;
        maximum_active_cases_day :=
          if hit_a then day else maximum_active_cases_day s;
        maximum_daily_new_cases :=
          if hit_n then new_cases w else maximum_daily_new_cases s;
        maximum_new_cases_day := if hit_n then day else maximum_new_cases_day s;
        maximum_new_cases_cumulative := cc1 |}.

(** Lines 103-175: one day. *)
Definition one_day (day : Z) (ws : sim * stats) : result (sim * stats) :=
  let w0 := reset_counters (fst ws) in
  w1 <- health_loop (length (people w0)) w0 ;;
  w2 <- contact_loop (length (people w1)) 0 w1 ;;
  s' <- append_stats day w2 (snd ws) ;;
  Ok (w2, s').

(** Line 102: [for day in range(SIMULATION_DAYS)]; [n] days remain. *)
Fixpoint day_loop (n : nat) (day : Z) (ws : sim * stats) : result (sim * stats) :=
  match n with
  | O => Ok ws
  | S n' => ws' <- one_day day ws ;; day_loop n' (day + 1) ws'
  end.

(** The script from line 58 to line 175, started on the generator [g]. *)
Definition run (g : rng) : result (sim * stats) :=
  r <- infect_initial (range_len (INITIAL_INFECTION cfg)) initial_people g ;;
  let w := {| people := fst r; current_population := POPULATION cfg;
              new_cases := 0; new_recoveries := 0; new_deaths := 0;
              gen := snd r |} in
  day_loop (range_len (SIMULATION_DAYS cfg)) 0 (w, initial_stats).

End Run.

(** Line 50: [random.seed(42)], for a generator [mt]. *)
Definition main (mt : Z -> nat -> N) (cfg : config) : result (sim * stats) :=
  run cfg (seed mt 42).

End Exercise2.

(** * simulate_v2.py *)

Module SimulateV2.

(** ** The keys of the simulation state (lines 18-82)

    [Key.t] lists the module constants; [label] gives the string each one
    is bound to, which is the key used in the state dict and in the saved
    file. *)
Module Key.
Inductive t : Type :=
| SIMULATION_DAYS | POPULATION | INITIAL_INFECTION | PEOPLE
| HOSPITALIZED_PEOPLE | HEALTH_STATES | PHASES | DAILY_PHASE_EVALUATION
| SET_DEFAULT_HEALTH | SET_INFECTED | DAILY_HEALTH_EVALUATION
| DAILY_EVALUATE_CONTACTS | DAILY_UPDATE_STATE | UPDATE_TESTING_RATES
| EVENTS | DAILY_EVENT_EVALUATION
| CURRENT_PHASE | HAS_NEXT_PHASE | CURRENT_DAILY_CONTACTS
| CURRENT_CONTAGIOUS_DAYS | CURRENT_TRANSMISSION_PROBABILITY
| CURRENT_TESTING_PROBABILITY | NORMAL_DAILY_CONTACTS
| NORMAL_TRANSMISSION_PROBABILITY
| DAILY_POPULATION | DAILY_CASES | DAILY_CONFIRMED_CASES | DAILY_RECOVERIES
| DAILY_CONFIRMED_RECOVERIES | DAILY_DEATHS | DAILY_CONFIRMED_DEATHS
| DAILY_HOSPITALIZATIONS | DAILY_ICU
| MAX_NEW_DAILY_CASES | MAX_NEW_DAILY_CONFIRMED_CASES | MAX_ACTIVE_CASES
| MAX_ACTIVE_CONFIRMED_CASES | MAX_ACTIVE_HOSPITALIZATIONS | MAX_ACTIVE_ICU
| CUMULATIVE_CASES_SERIES | CUMULATIVE_CONFIRMED_CASES_SERIES
| CUMULATIVE_RECOVERIES_SERIES | CUMULATIVE_CONFIRMED_RECOVERIES_SERIES
| CUMULATIVE_DEATHS_SERIES | CUMULATIVE_CONFIRMED_DEATHS_SERIES
| ACTIVE_CASES_SERIES | ACTIVE_CONFIRMED_CASES_SERIES
| ACTIVE_HOSPITALIZED_CASES_SERIES | ACTIVE_ICU_CASES_SERIES
| NEW_CASES_SERIES | NEW_CONFIRMED_CASES_SERIES | NEW_ACTIVE_CASES_SERIES
| NEW_CONFIRMED_ACTIVE_CASES_SERIES | NEW_RECOVERIES_SERIES
| NEW_DEATHS_SERIES.

Definition all : list t :=
  [ SIMULATION_DAYS; POPULATION; INITIAL_INFECTION; PEOPLE;
    HOSPITALIZED_PEOPLE; HEALTH_STATES; PHASES; DAILY_PHASE_EVALUATION;
    SET_DEFAULT_HEALTH; SET_INFECTED; DAILY_HEALTH_EVALUATION;
    DAILY_EVALUATE_CONTACTS; DAILY_UPDATE_STATE; UPDATE_TESTING_RATES;
    EVENTS; DAILY_EVENT_EVALUATION;
    CURRENT_PHASE; HAS_NEXT_PHASE; CURRENT_DAILY_CONTACTS;
    CURRENT_CONTAGIOUS_DAYS; CURRENT_TRANSMISSION_PROBABILITY;
    CURRENT_TESTING_PROBABILITY; NORMAL_DAILY_CONTACTS;
    NORMAL_TRANSMISSION_PROBABILITY;
    DAILY_POPULATION; DAILY_CASES; DAILY_CONFIRMED_CASES; DAILY_RECOVERIES;
    DAILY_CONFIRMED_RECOVERIES; DAILY_DEATHS; DAILY_CONFIRMED_DEATHS;
    DAILY_HOSPITALIZATIONS; DAILY_ICU;
    MAX_NEW_DAILY_CASES; MAX_NEW_DAILY_CONFIRMED_CASES; MAX_ACTIVE_CASES;
    MAX_ACTIVE_CONFIRMED_CASES; MAX_ACTIVE_HOSPITALIZATIONS; MAX_ACTIVE_ICU;
    CUMULATIVE_CASES_SERIES; CUMULATIVE_CONFIRMED_CASES_SERIES;
    CUMULATIVE_RECOVERIES_SERIES; CUMULATIVE_CONFIRMED_RECOVERIES_SERIES;
    CUMULATIVE_DEATHS_SERIES; CUMULATIVE_CONFIRMED_DEATHS_SERIES;
    ACTIVE_CASES_SERIES; ACTIVE_CONFIRMED_CASES_SERIES;
    ACTIVE_HOSPITALIZED_CASES_SERIES; ACTIVE_ICU_CASES_SERIES;
    NEW_CASES_SERIES; NEW_CONFIRMED_CASES_SERIES; NEW_ACTIVE_CASES_SERIES;
    NEW_CONFIRMED_ACTIVE_CASES_SERIES; NEW_RECOVERIES_SERIES;
    NEW_DEATHS_SERIES ].
End Key.

Definition label (k : Key.t) : string :=
  match k with
  | Key.SIMULATION_DAYS => "simulation_days"
  | Key.POPULATION => "population"
  | Key.INITIAL_INFECTION => "initial_infection"
  | Key.PEOPLE => "people"
  | Key.HOSPITALIZED_PEOPLE => "hospitalized_people"
  | Key.HEALTH_STATES => "health_states"
  | Key.PHASES => "phases"
  | Key.DAILY_PHASE_EVALUATION => "daily_phase_evaluation"
  | Key.SET_DEFAULT_HEALTH => "set_initial_health"
  | Key.SET_INFECTED => "set_infected"
  | Key.DAILY_HEALTH_EVALUATION => "daily_health_evaluation"
  | Key.DAILY_EVALUATE_CONTACTS => "daily_evaluate_contacts"
  | Key.DAILY_UPDATE_STATE => "daily_update_state"
  | Key.UPDATE_TESTING_RATES => "update_testing_rates"
  | Key.EVENTS => "events"
  | Key.DAILY_EVENT_EVALUATION => "daily_event_evaluation"
  | Key.CURRENT_PHASE => "current_phase"
  | Key.HAS_NEXT_PHASE => "has_next_phase"
  | Key.CURRENT_DAILY_CONTACTS => "current_daily_contacts"
  | Key.CURRENT_CONTAGIOUS_DAYS => "current_contagious_days"
  | Key.CURRENT_TRANSMISSION_PROBABILITY => "current_transmission_probability"
  | Key.CURRENT_TESTING_PROBABILITY => "current_testing_probability"
  | Key.NORMAL_DAILY_CONTACTS => "normal_daily_contacts"
  | Key.NORMAL_TRANSMISSION_PROBABILITY => "normal_transmission_probability"
  | Key.DAILY_POPULATION => "today_population"
  | Key.DAILY_CASES => "today_cases"
  | Key.DAILY_CONFIRMED_CASES => "today_confirmed_cases"
  | Key.DAILY_RECOVERIES => "today_recoveries"
  | Key.DAILY_CONFIRMED_RECOVERIES => "today_confirmed_recoveries"
  | Key.DAILY_DEATHS => "today_deaths"
  | Key.DAILY_CONFIRMED_DEATHS => "today_confirmed_deaths"
  | Key.DAILY_HOSPITALIZATIONS => "today_hospitalizations"
  | Key.DAILY_ICU => "today_ICU"
  | Key.MAX_NEW_DAILY_CASES => "max_new_daily_cases_day"
  | Key.MAX_NEW_DAILY_CONFIRMED_CASES => "max_new_daily_confirmed_cases_day"
  | Key.MAX_ACTIVE_CASES => "max_active_cases_day"
  | Key.MAX_ACTIVE_CONFIRMED_CASES => "max_active_confirmed_cases_day"
  | Key.MAX_ACTIVE_HOSPITALIZATIONS => "max_active_hospitalizations_day"
  | Key.MAX_ACTIVE_ICU => "max_active_ICU_day"
  | Key.CUMULATIVE_CASES_SERIES => "cumulative cases"
  | Key.CUMULATIVE_CONFIRMED_CASES_SERIES => "cumulative confirmed cases"
  | Key.CUMULATIVE_RECOVERIES_SERIES => "cumulative recoveries"
  | Key.CUMULATIVE_CONFIRMED_RECOVERIES_SERIES => "cumulative confirmed recoveries"
  | Key.CUMULATIVE_DEATHS_SERIES => "cumulative confirmed deaths"
  | Key.CUMULATIVE_CONFIRMED_DEATHS_SERIES => "cumulative deaths"
  | Key.ACTIVE_CASES_SERIES => "active cases"
  | Key.ACTIVE_CONFIRMED_CASES_SERIES => "active confirmed cases"
  | Key.ACTIVE_HOSPITALIZED_CASES_SERIES => "active hospitalized cases"
  | Key.ACTIVE_ICU_CASES_SERIES => "active ICU cases"
  | Key.NEW_CASES_SERIES => "new cases"
  | Key.NEW_CONFIRMED_CASES_SERIES => "new confirmed cases"
  | Key.NEW_ACTIVE_CASES_SERIES => "new active cases"
  | Key.NEW_CONFIRMED_ACTIVE_CASES_SERIES => "new confirmed active cases"
  | Key.NEW_RECOVERIES_SERIES => "new recoveries"
  | Key.NEW_DEATHS_SERIES => "new deaths"
  end.

(** Lines 85-94. *)
Definition _SERIALIZE_KEYS : list Key.t :=
  [ Key.SIMULATION_DAYS; Key.POPULATION; Key.INITIAL_INFECTION;
    Key.MAX_NEW_DAILY_CASES; Key.MAX_ACTIVE_CASES;
    Key.MAX_ACTIVE_HOSPITALIZATIONS; Key.MAX_ACTIVE_ICU;
    Key.CUMULATIVE_CASES_SERIES;
    Key.CUMULATIVE_CONFIRMED_CASES_SERIES; Key.CUMULATIVE_RECOVERIES_SERIES;
    Key.CUMULATIVE_CONFIRMED_RECOVERIES_SERIES; Key.CUMULATIVE_DEATHS_SERIES;
    Key.CUMULATIVE_CONFIRMED_DEATHS_SERIES; Key.ACTIVE_CASES_SERIES;
    Key.ACTIVE_CONFIRMED_CASES_SERIES; Key.ACTIVE_HOSPITALIZED_CASES_SERIES;
    Key.ACTIVE_ICU_CASES_SERIES;
    Key.NEW_CASES_SERIES; Key.NEW_CONFIRMED_CASES_SERIES;
    Key.NEW_ACTIVE_CASES_SERIES;
    Key.NEW_CONFIRMED_ACTIVE_CASES_SERIES; Key.NEW_RECOVERIES_SERIES;
    Key.NEW_DEATHS_SERIES ].

(** ** Values that reach the saved file, and Python dicts with string keys *)

#[warnings="-register-all"]
Inductive json : Type :=
| JInt (z : Z)
| JFloat (q : Q)
| JInts (l : list Z)
| JFloats (l : list Q)
| JDict (d : list (string * json)).

(** [d[k] = v]: the entry of an existing key is replaced in place, a new
    key goes last. *)
Fixpoint dict_set {V : Type} (k : string) (v : V) (d : list (string * V))
  : list (string * V) :=
  match d with
  | [] => [(k, v)]
  | (k', v') :: d' =>
      if String.eqb k' k then (k', v) :: d' else (k', v') :: dict_set k v d'
  end.

Fixpoint dict_get {V : Type} (k : string) (d : list (string * V)) : option V :=
  match d with
  | [] => None
  | (k', v') :: d' => if String.eqb k' k then Some v' else dict_get k d'
  end.

(** ** The state *)

(** One phase dict, with the keys [write_data] and [test_condition] read. *)
Record phase : Type := {
  start_day : option Z;
  phase_daily_contacts : option Q;
  phase_transmission_probability : option Q;
  Ro : option Q
}.

(** The tracked series and the days of the maxima.  The true counts are
    integers, the confirmed ones are floats. *)
Record series : Type := {
  MAX_NEW_DAILY_CASES : Z;
  MAX_NEW_DAILY_CONFIRMED_CASES : Z;
  MAX_ACTIVE_CASES : Z;
  MAX_ACTIVE_CONFIRMED_CASES : Z;
  MAX_ACTIVE_HOSPITALIZATIONS : Z;
  MAX_ACTIVE_ICU : Z;
  CUMULATIVE_CASES_SERIES : list Z;
  CUMULATIVE_CONFIRMED_CASES_SERIES : list Q;
  CUMULATIVE_RECOVERIES_SERIES : list Z;
  CUMULATIVE_CONFIRMED_RECOVERIES_SERIES : list Q;
  CUMULATIVE_DEATHS_SERIES : list Z;
  CUMULATIVE_CONFIRMED_DEATHS_SERIES : list Q;
  ACTIVE_CASES_SERIES : list Z;
  ACTIVE_CONFIRMED_CASES_SERIES : list Q;
  ACTIVE_HOSPITALIZED_CASES_SERIES : list Z;
  ACTIVE_ICU_CASES_SERIES : list Z;
  NEW_CASES_SERIES : list Z;
  NEW_CONFIRMED_CASES_SERIES : list Q;
  NEW_ACTIVE_CASES_SERIES : list Z;
  NEW_CONFIRMED_ACTIVE_CASES_SERIES : list Q;
  NEW_RECOVERIES_SERIES : list Z;
  NEW_DEATHS_SERIES : list Z
}.

(** Lines 143-164: no series has an entry yet, every maximum is day 0. *)
Definition empty_series : series := {|
  MAX_NEW_DAILY_CASES := 0;
  MAX_NEW_DAILY_CONFIRMED_CASES := 0;
  MAX_ACTIVE_CASES := 0;
  MAX_ACTIVE_CONFIRMED_CASES := 0;
  MAX_ACTIVE_HOSPITALIZATIONS := 0;
  MAX_ACTIVE_ICU := 0;
  CUMULATIVE_CASES_SERIES := [];
  CUMULATIVE_CONFIRMED_CASES_SERIES := [];
  CUMULATIVE_RECOVERIES_SERIES := [];
  CUMULATIVE_CONFIRMED_RECOVERIES_SERIES := [];
  CUMULATIVE_DEATHS_SERIES := [];
  CUMULATIVE_CONFIRMED_DEATHS_SERIES := [];
  ACTIVE_CASES_SERIES := [];
  ACTIVE_CONFIRMED_CASES_SERIES := [];
  ACTIVE_HOSPITALIZED_CASES_SERIES := [];
  ACTIVE_ICU_CASES_SERIES := [];
  NEW_CASES_SERIES := [];
  NEW_CONFIRMED_CASES_SERIES := [];
  NEW_ACTIVE_CASES_SERIES := [];
  NEW_CONFIRMED_ACTIVE_CASES_SERIES := [];
  NEW_RECOVERIES_SERIES := [];
  NEW_DEATHS_SERIES := []
|}.

(** Today's counters (lines 47-55). *)
Record counters : Type := {
  DAILY_CASES : Z;
  DAILY_CONFIRMED_CASES : Q;
  DAILY_RECOVERIES : Z;
  DAILY_CONFIRMED_RECOVERIES : Q;
  DAILY_DEATHS : Z;
  DAILY_CONFIRMED_DEATHS : Q;
  DAILY_HOSPITALIZATIONS : Z;
  DAILY_ICU : Z
}.

(** Lines 193-200. *)
Definition zero_counters : counters := {|
  DAILY_CASES := 0;
  DAILY_CONFIRMED_CASES := 0;
  DAILY_RECOVERIES := 0;
  DAILY_CONFIRMED_RECOVERIES := 0;
  DAILY_DEATHS := 0;
  DAILY_CONFIRMED_DEATHS := 0;
  DAILY_HOSPITALIZATIONS := 0;
  DAILY_ICU := 0
|}.

Section Engine.

(** A person dict as the callbacks fill it, and whatever else the callbacks
    keep (further keys of the state, globals of their module). *)
Context {P E : Type}.

(** What the callbacks may rewrite: everything of the state but the series,
    the maxima and the three settings, together with the random source. *)
Record world : Type := {
  PEOPLE : list P;
  HOSPITALIZED_PEOPLE : list P;
  DAILY_POPULATION : Z;
  today : counters;
  CURRENT_PHASE : option phase;
  CURRENT_TESTING_PROBABILITY : option Q;
  PHASES : list (string * phase);
  random_state : rng;
  extern : E
}.

Definition set_today (w : world) (c : counters) : world :=
  {| PEOPLE := PEOPLE w; HOSPITALIZED_PEOPLE := HOSPITALIZED_PEOPLE w;
     DAILY_POPULATION := DAILY_POPULATION w; today := c;
     CURRENT_PHASE := CURRENT_PHASE w;
     CURRENT_TESTING_PROBABILITY := CURRENT_TESTING_PROBABILITY w;
     PHASES := PHASES w; random_state := random_state w; extern := extern w |}.

Definition set_PEOPLE (w : world) (l : list P) : world :=
  {| PEOPLE := l; HOSPITALIZED_PEOPLE := HOSPITALIZED_PEOPLE w;
     DAILY_POPULATION := DAILY_POPULATION w; today := today w;
     CURRENT_PHASE := CURRENT_PHASE w;
     CURRENT_TESTING_PROBABILITY := CURRENT_TESTING_PROBABILITY w;
     PHASES := PHASES w; random_state := random_state w; extern := extern w |}.

Definition set_DAILY_POPULATION (w : world) (n : Z) : world :=
  {| PEOPLE := PEOPLE w; HOSPITALIZED_PEOPLE := HOSPITALIZED_PEOPLE w;
     DAILY_POPULATION := n; today := today w;
     CURRENT_PHASE := CURRENT_PHASE w;
     CURRENT_TESTING_PROBABILITY := CURRENT_TESTING_PROBABILITY w;
     PHASES := PHASES w; random_state := random_state w; extern := extern w |}.

Definition set_random_state (w : world) (g : rng) : world :=
  {| PEOPLE := PEOPLE w; HOSPITALIZED_PEOPLE := HOSPITALIZED_PEOPLE w;
     DAILY_POPULATION := DAILY_POPULATION w; today := today w;
     CURRENT_PHASE := CURRENT_PHASE w;
     CURRENT_TESTING_PROBABILITY := CURRENT_TESTING_PROBABILITY w;
     PHASES := PHASES w; random_state := g; extern := extern w |}.

(** The list a person handed to a callback sits in, and its index there. *)
Inductive place : Type :=
| in_hospital (i : nat)
| in_people (i : nat).

(** The callables stored in the state (lines 131-142).  Each one receives
    the series to read and the rest of the state to rewrite.
    [update_testing_rates] and [daily_event_evaluation] may be [None]. *)
Record callbacks : Type := {
  SET_DEFAULT_HEALTH : Z -> bool -> world -> result (P * world);
  SET_INFECTED : series -> nat -> world -> result world;
  DAILY_HEALTH_EVALUATION : series -> place -> world -> result world;
  DAILY_EVALUATE_CONTACTS : series -> nat -> world -> result world;
  DAILY_UPDATE_STATE : series -> Z -> world -> result world;
  UPDATE_TESTING_RATES : option (Q -> world -> result world);
  DAILY_PHASE_EVALUATION : series -> Z -> world -> result (bool * world);
  DAILY_EVENT_EVALUATION : option (series -> Z -> world -> result world)
}.

Record sim_state : Type := {
  SIMULATION_DAYS : Z;
  POPULATION : Z;
  INITIAL_INFECTION : Z;
  calls : callbacks;
  WORLD : world;
  SERIES : series
}.

Definition set_W (ss : sim_state) (w : world) : sim_state :=
  {| SIMULATION_DAYS := SIMULATION_DAYS ss; POPULATION := POPULATION ss;
     INITIAL_INFECTION := INITIAL_INFECTION ss; calls := calls ss;
     WORLD := w; SERIES := SERIES ss |}.

Definition set_S (ss : sim_state) (s : series) : sim_state :=
  {| SIMULATION_DAYS := SIMULATION_DAYS ss; POPULATION := POPULATION ss;
     INITIAL_INFECTION := INITIAL_INFECTION ss; calls := calls ss;
     WORLD := WORLD ss; SERIES := s |}.

(** Lines 97-166.  [phases], [g] and [e] stand for the phase table, the
    random module and the state of the caller.  The dict of the code gets
    its entries for today's counters and for [DAILY_POPULATION] only when
    [run_simulation] first sets them (lines 190-200); the record holds 0
    in their place, which nothing reads before it is set. *)
Definition create_initial_state (cb : callbacks)
    (phases : list (string * phase)) (g : rng) (e : E)
    (simulation_days population initial_infection : Z) : sim_state :=
  {| SIMULATION_DAYS := simulation_days;
     POPULATION := population;
     INITIAL_INFECTION := initial_infection;
     calls := cb;
     WORLD := {| PEOPLE := []; HOSPITALIZED_PEOPLE := [];
             DAILY_POPULATION := 0; today := zero_counters;
             CURRENT_PHASE := None; CURRENT_TESTING_PROBABILITY := None;
             PHASES := phases; random_state := g; extern := e |};
     SERIES := empty_series |}.

(** Lines 181-184. *)
Fixpoint create_people (cb : callbacks) (n : nat) (person_id : Z) (w : world)
  : result world :=
  match n with
  | O => Ok w
  | S n' =>
      r <- SET_DEFAULT_HEALTH cb person_id true w ;;
      create_people cb n' (person_id + 1)
        (set_PEOPLE (snd r) (PEOPLE (snd r) ++ [fst r]))
  end.

(** Lines 207-209: the seeding loop. *)
Fixpoint seed_infection (fuel : nat) (ss : sim_state) : result sim_state :=
  if Qltb (DAILY_CONFIRMED_CASES (today (WORLD ss))) (inject_Z (INITIAL_INFECTION ss))
  then
    match fuel with
    | O => Timeout
    | S fuel' =>
        r <- randint 0 (POPULATION ss - 1) (random_state (WORLD ss)) ;;
        i <- py_index (PEOPLE (WORLD ss)) (fst r) ;;
        _ <- py_get (PEOPLE (WORLD ss)) (fst r) ;;
        w <- SET_INFECTED (calls ss) (SERIES ss) i
               (set_random_state (WORLD ss) (snd r)) ;;
        seed_infection fuel' (set_W ss w)
    end
  else Ok ss.

(** Lines 211-231: the entries of day 0. *)
Definition append_seed (c : counters) (s : series) : series := {|
  MAX_NEW_DAILY_CASES := MAX_NEW_DAILY_CASES s;
  MAX_NEW_DAILY_CONFIRMED_CASES := MAX_NEW_DAILY_CONFIRMED_CASES s;
  MAX_ACTIVE_CASES := MAX_ACTIVE_CASES s;
  MAX_ACTIVE_CONFIRMED_CASES := MAX_ACTIVE_CONFIRMED_CASES s;
  MAX_ACTIVE_HOSPITALIZATIONS := MAX_ACTIVE_HOSPITALIZATIONS s;
  MAX_ACTIVE_ICU := MAX_ACTIVE_ICU s;
  CUMULATIVE_CASES_SERIES := CUMULATIVE_CASES_SERIES s ++ [DAILY_CASES c];
  CUMULATIVE_CONFIRMED_CASES_SERIES :=
    CUMULATIVE_CONFIRMED_CASES_SERIES s ++ [DAILY_CONFIRMED_CASES c];
  CUMULATIVE_RECOVERIES_SERIES :=
    CUMULATIVE_RECOVERIES_SERIES s ++ [DAILY_RECOVERIES c];
  CUMULATIVE_CONFIRMED_RECOVERIES_SERIES :=
    CUMULATIVE_CONFIRMED_RECOVERIES_SERIES s ++ [DAILY_CONFIRMED_RECOVERIES c];
  CUMULATIVE_DEATHS_SERIES := CUMULATIVE_DEATHS_SERIES s ++ [DAILY_DEATHS c];
  CUMULATIVE_CONFIRMED_DEATHS_SERIES :=
    CUMULATIVE_CONFIRMED_DEATHS_SERIES s ++ [DAILY_CONFIRMED_DEATHS c];
  ACTIVE_CASES_SERIES :=
    ACTIVE_CASES_SERIES s
      ++ [DAILY_CASES c - DAILY_RECOVERIES c - DAILY_DEATHS c];
  ACTIVE_CONFIRMED_CASES_SERIES :=
    ACTIVE_CONFIRMED_CASES_SERIES s
      ++ [(DAILY_CONFIRMED_CASES c - DAILY_CONFIRMED_RECOVERIES c
           - DAILY_CONFIRMED_DEATHS c)%Q];
  ACTIVE_HOSPITALIZED_CASES_SERIES :=
    ACTIVE_HOSPITALIZED_CASES_SERIES s ++ [DAILY_HOSPITALIZATIONS c];
  ACTIVE_ICU_CASES_SERIES := ACTIVE_ICU_CASES_SERIES s ++ [DAILY_ICU c];
  NEW_CASES_SERIES := NEW_CASES_SERIES s ++ [DAILY_CASES c];
  NEW_CONFIRMED_CASES_SERIES :=
    NEW_CONFIRMED_CASES_SERIES s ++ [DAILY_CONFIRMED_CASES c];
  NEW_ACTIVE_CASES_SERIES :=
    NEW_ACTIVE_CASES_SERIES s
      ++ [DAILY_CASES c - DAILY_RECOVERIES c - DAILY_DEATHS c];
  NEW_CONFIRMED_ACTIVE_CASES_SERIES :=
    NEW_CONFIRMED_ACTIVE_CASES_SERIES s
      ++ [(DAILY_CONFIRMED_CASES c - DAILY_CONFIRMED_RECOVERIES c
           - inject_Z (DAILY_DEATHS c))%Q];
  NEW_RECOVERIES_SERIES := NEW_RECOVERIES_SERIES s ++ [DAILY_RECOVERIES c];
  NEW_DEATHS_SERIES := NEW_DEATHS_SERIES s ++ [DAILY_DEATHS c]
|}.

(** [if l[day + 1] > l[m]: m = day + 1], on integers and on floats. *)
Definition new_max_Z (l : list Z) (day m : Z) : result Z :=
  x <- py_get l (day + 1) ;;
  y <- py_get l m ;;
  Ok (if y <? x then day + 1 else m).

Definition new_max_Q (l : list Q) (day m : Z) : result Z :=
  x <- py_get l (day + 1) ;;
  y <- py_get l m ;;
  Ok (if Qltb y x then day + 1 else m).

(** Lines 264-313: the entries of day [day + 1].  The sums and differences
    of the confirmed counts are floats in the code and are taken exactly
    here; see [binary64]. *)
Definition append_day (day : Z) (c : counters) (s : series) : result series :=
  cc <- py_get (CUMULATIVE_CASES_SERIES s) day ;;
  ccc <- py_get (CUMULATIVE_CONFIRMED_CASES_SERIES s) day ;;
  ac <- py_get (ACTIVE_CASES_SERIES s) day ;;
  let active := ACTIVE_CASES_SERIES s
                  ++ [ac + DAILY_CASES c - DAILY_RECOVERIES c - DAILY_DEATHS c] in
  max_active <- new_max_Z active day (MAX_ACTIVE_CASES s) ;;
  acc <- py_get (ACTIVE_CONFIRMED_CASES_SERIES s) day ;;
  let active_confirmed :=
    ACTIVE_CONFIRMED_CASES_SERIES s
      ++ [(acc + DAILY_CONFIRMED_CASES c - DAILY_CONFIRMED_RECOVERIES c
           - DAILY_CONFIRMED_DEATHS c)%Q] in
  max_active_confirmed <-
    new_max_Q active_confirmed day (MAX_ACTIVE_CONFIRMED_CASES s) ;;
  ah <- py_get (ACTIVE_HOSPITALIZED_CASES_SERIES s) day ;;
  let active_hospitalized :=
    ACTIVE_HOSPITALIZED_CASES_SERIES s ++ [ah + DAILY_HOSPITALIZATIONS c] in
  max_hospitalized <-
    new_max_Z active_hospitalized day (MAX_ACTIVE_HOSPITALIZATIONS s) ;;
  ai <- py_get (ACTIVE_ICU_CASES_SERIES s) day ;;
  let active_icu := ACTIVE_ICU_CASES_SERIES s ++ [ai + DAILY_ICU c] in
  max_icu <- new_max_Z active_icu day (MAX_ACTIVE_ICU s) ;;
  cr <- py_get (CUMULATIVE_RECOVERIES_SERIES s) day ;;
  ccr <- py_get (CUMULATIVE_CONFIRMED_RECOVERIES_SERIES s) day ;;
  cd <- py_get (CUMULATIVE_DEATHS_SERIES s) day ;;
  ccd <- py_get (CUMULATIVE_CONFIRMED_DEATHS_SERIES s) day ;;
  let new_cases := NEW_CASES_SERIES s ++ [DAILY_CASES c] in
  max_new <- new_max_Z new_cases day (MAX_NEW_DAILY_CASES s) ;;
  let new_confirmed :=
    NEW_CONFIRMED_CASES_SERIES s ++ [DAILY_CONFIRMED_CASES c] in
  max_new_confirmed <-
    new_max_Q new_confirmed day (MAX_NEW_DAILY_CONFIRMED_CASES s) ;;
  Ok {|
    MAX_NEW_DAILY_CASES := max_new;
    MAX_NEW_DAILY_CONFIRMED_CASES := max_new_confirmed;
    MAX_ACTIVE_CASES := max_active;
    MAX_ACTIVE_CONFIRMED_CASES := max_active_confirmed;
    MAX_ACTIVE_HOSPITALIZATIONS := max_hospitalized;
    MAX_ACTIVE_ICU := max_icu;
    CUMULATIVE_CASES_SERIES := CUMULATIVE_CASES_SERIES s ++ [cc + DAILY_CASES c];
    CUMULATIVE_CONFIRMED_CASES_SERIES :=
      CUMULATIVE_CONFIRMED_CASES_SERIES s ++ [(ccc + DAILY_CONFIRMED_CASES c)%Q];
    CUMULATIVE_RECOVERIES_SERIES :=
      CUMULATIVE_RECOVERIES_SERIES s ++ [cr + DAILY_RECOVERIES c];
    CUMULATIVE_CONFIRMED_RECOVERIES_SERIES :=
      CUMULATIVE_CONFIRMED_RECOVERIES_SERIES s
        ++ [(ccr + DAILY_CONFIRMED_RECOVERIES c)%Q];
    CUMULATIVE_DEATHS_SERIES := CUMULATIVE_DEATHS_SERIES s ++ [cd + DAILY_DEATHS c];
    CUMULATIVE_CONFIRMED_DEATHS_SERIES :=
      CUMULATIVE_CONFIRMED_DEATHS_SERIES s ++ [(ccd + DAILY_CONFIRMED_DEATHS c)%Q];
    ACTIVE_CASES_SERIES := active;
    ACTIVE_CONFIRMED_CASES_SERIES := active_confirmed;
    ACTIVE_HOSPITALIZED_CASES_SERIES := active_hospitalized;
    ACTIVE_ICU_CASES_SERIES := active_icu;
    NEW_CASES_SERIES := new_cases;
    NEW_CONFIRMED_CASES_SERIES := new_confirmed;
    NEW_ACTIVE_CASES_SERIES :=
      NEW_ACTIVE_CASES_SERIES s
        ++ [DAILY_CASES c - DAILY_RECOVERIES c - DAILY_DEATHS c];
    NEW_CONFIRMED_ACTIVE_CASES_SERIES :=
      NEW_CONFIRMED_ACTIVE_CASES_SERIES s
        ++ [(DAILY_CONFIRMED_CASES c - DAILY_CONFIRMED_RECOVERIES c
             - inject_Z (DAILY_DEATHS c))%Q];
    NEW_RECOVERIES_SERIES := NEW_RECOVERIES_SERIES s ++ [DAILY_RECOVERIES c];
    NEW_DEATHS_SERIES := NEW_DEATHS_SERIES s ++ [DAILY_DEATHS c]
  |}.

(** Lines 248-251: [for person in reversed(l)]; [n] is the index of the
    reverse iterator plus one, [sel] reads the list, [at_] names the place. *)
Fixpoint health_pass (cb : callbacks) (s : series) (sel : world -> list P)
    (at_ : nat -> place) (n : nat) (w : world) : result world :=
  match n with
  | O => Ok w
  | S i =>
      match sel w !! i with
      | None => Ok w
      | Some _ =>
          w' <- DAILY_HEALTH_EVALUATION cb s (at_ i) w ;;
          health_pass cb s sel at_ i w'
      end
  end.

(** Lines 253-256: [for person in ss[PEOPLE]]; the iterator stops when its
    index [i] reaches the current length of the list. *)
Fixpoint contact_pass (cb : callbacks) (s : series) (fuel : nat) (i : nat)
    (w : world) : result world :=
  match PEOPLE w !! i with
  | None => Ok w
  | Some _ =>
      match fuel with
      | O => Timeout
      | S fuel' =>
          w' <- DAILY_EVALUATE_CONTACTS cb s i w ;;
          contact_pass cb s fuel' (S i) w'
      end
  end.

(** Lines 234-313: the body of the day loop for [day >= 0]. *)
Definition simulate_day (fuel : nat) (day : Z) (ss : sim_state)
  : result sim_state :=
  let cb := calls ss in
  let s := SERIES ss in
  _ <- py_get (NEW_CONFIRMED_CASES_SERIES s) day ;;
  _ <- py_get (CUMULATIVE_CONFIRMED_CASES_SERIES s) day ;;
  _ <- py_get (CUMULATIVE_CONFIRMED_DEATHS_SERIES s) day ;;
  w1 <- DAILY_UPDATE_STATE cb s day (WORLD ss) ;;
  r <- DAILY_PHASE_EVALUATION cb s day w1 ;;
  w2 <- (if fst r then
           p <- from_key (CURRENT_TESTING_PROBABILITY (snd r)) ;;
           match UPDATE_TESTING_RATES cb with
           | Some f => f p (snd r)
           | None => Raise TypeError
           end
         else Ok (snd r)) ;;
  w3 <- health_pass cb s HOSPITALIZED_PEOPLE in_hospital
          (length (HOSPITALIZED_PEOPLE w2)) w2 ;;
  w4 <- health_pass cb s PEOPLE in_people (length (PEOPLE w3)) w3 ;;
  w5 <- contact_pass cb s fuel 0 w4 ;;
  w6 <- match DAILY_EVENT_EVALUATION cb with
        | Some f => f s day w5
        | None => Ok w5
        end ;;
  s' <- append_day day (today w6) s ;;
  Ok (set_S (set_W ss w6) s').

(** Lines 191-313: [for day in range(-1, SIMULATION_DAYS)]; [n] iterations
    remain. *)
Fixpoint day_loop (fuel : nat) (n : nat) (day : Z) (ss : sim_state)
  : result sim_state :=
  match n with
  | O => Ok ss
  | S n' =>
      let ss0 := set_W ss (set_today (WORLD ss) zero_counters) in
      ss' <- (if day =? -1 then
                ss1 <- seed_infection fuel ss0 ;;
                Ok (set_S ss1 (append_seed (today (WORLD ss1)) (SERIES ss1)))
              else simulate_day fuel day ss0) ;;
      day_loop fuel n' (day + 1) ss'
  end.

(** Lines 169-313. *)
Definition run_simulation (fuel : nat) (ss : sim_state) : result sim_state :=
  w <- create_people (calls ss) (range_len (POPULATION ss)) 0 (WORLD ss) ;;
  let ss1 := set_W ss (set_DAILY_POPULATION w (POPULATION ss)) in
  day_loop fuel (range_len (SIMULATION_DAYS ss - -1)) (-1) ss1.

(** ** [write_data] (lines 316-333) *)

(** [ss[key]] for the keys whose value is a number or a list of numbers. *)
Definition state_value (ss : sim_state) (k : Key.t) : result json :=
  let s := SERIES ss in
  let c := today (WORLD ss) in
  match k with
  | Key.SIMULATION_DAYS => Ok (JInt (SIMULATION_DAYS ss))
  | Key.POPULATION => Ok (JInt (POPULATION ss))
  | Key.INITIAL_INFECTION => Ok (JInt (INITIAL_INFECTION ss))
  | Key.DAILY_POPULATION => Ok (JInt (DAILY_POPULATION (WORLD ss)))
  | Key.DAILY_CASES => Ok (JInt (DAILY_CASES c))
  | Key.DAILY_CONFIRMED_CASES => Ok (JFloat (DAILY_CONFIRMED_CASES c))
  | Key.DAILY_RECOVERIES => Ok (JInt (DAILY_RECOVERIES c))
  | Key.DAILY_CONFIRMED_RECOVERIES => Ok (JFloat (DAILY_CONFIRMED_RECOVERIES c))
  | Key.DAILY_DEATHS => Ok (JInt (DAILY_DEATHS c))
  | Key.DAILY_CONFIRMED_DEATHS => Ok (JFloat (DAILY_CONFIRMED_DEATHS c))
  | Key.DAILY_HOSPITALIZATIONS => Ok (JInt (DAILY_HOSPITALIZATIONS c))
  | Key.DAILY_ICU => Ok (JInt (DAILY_ICU c))
  | Key.MAX_NEW_DAILY_CASES => Ok (JInt (MAX_NEW_DAILY_CASES s))
  | Key.MAX_NEW_DAILY_CONFIRMED_CASES => Ok (JInt (MAX_NEW_DAILY_CONFIRMED_CASES s))
  | Key.MAX_ACTIVE_CASES => Ok (JInt (MAX_ACTIVE_CASES s))
  | Key.MAX_ACTIVE_CONFIRMED_CASES => Ok (JInt (MAX_ACTIVE_CONFIRMED_CASES s))
  | Key.MAX_ACTIVE_HOSPITALIZATIONS => Ok (JInt (MAX_ACTIVE_HOSPITALIZATIONS s))
  | Key.MAX_ACTIVE_ICU => Ok (JInt (MAX_ACTIVE_ICU s))
  | Key.CUMULATIVE_CASES_SERIES => Ok (JInts (CUMULATIVE_CASES_SERIES s))
  | Key.CUMULATIVE_CONFIRMED_CASES_SERIES =>
      Ok (JFloats (CUMULATIVE_CONFIRMED_CASES_SERIES s))
  | Key.CUMULATIVE_RECOVERIES_SERIES => Ok (JInts (CUMULATIVE_RECOVERIES_SERIES s))
  | Key.CUMULATIVE_CONFIRMED_RECOVERIES_SERIES =>
      Ok (JFloats (CUMULATIVE_CONFIRMED_RECOVERIES_SERIES s))
  | Key.CUMULATIVE_DEATHS_SERIES => Ok (JInts (CUMULATIVE_DEATHS_SERIES s))
  | Key.CUMULATIVE_CONFIRMED_DEATHS_SERIES =>
      Ok (JFloats (CUMULATIVE_CONFIRMED_DEATHS_SERIES s))
  | Key.ACTIVE_CASES_SERIES => Ok (JInts (ACTIVE_CASES_SERIES s))
  | Key.ACTIVE_CONFIRMED_CASES_SERIES =>
      Ok (JFloats (ACTIVE_CONFIRMED_CASES_SERIES s))
  | Key.ACTIVE_HOSPITALIZED_CASES_SERIES =>
      Ok (JInts (ACTIVE_HOSPITALIZED_CASES_SERIES s))
  | Key.ACTIVE_ICU_CASES_SERIES => Ok (JInts (ACTIVE_ICU_CASES_SERIES s))
  | Key.NEW_CASES_SERIES => Ok (JInts (NEW_CASES_SERIES s))
  | Key.NEW_CONFIRMED_CASES_SERIES => Ok (JFloats (NEW_CONFIRMED_CASES_SERIES s))
  | Key.NEW_ACTIVE_CASES_SERIES => Ok (JInts (NEW_ACTIVE_CASES_SERIES s))
  | Key.NEW_CONFIRMED_ACTIVE_CASES_SERIES =>
      Ok (JFloats (NEW_CONFIRMED_ACTIVE_CASES_SERIES s))
  | Key.NEW_RECOVERIES_SERIES => Ok (JInts (NEW_RECOVERIES_SERIES s))
  | Key.NEW_DEATHS_SERIES => Ok (JInts (NEW_DEATHS_SERIES s))
  | _ => Raise TypeError
  end.

(** [ss[name]] for a key given by its string. *)
Definition state_lookup (ss : sim_state) (name : string) : result json :=
  match find (fun k => String.eqb (label k) name) Key.all with
  | Some k => state_value ss k
  | None => Raise KeyError
  end.

(** Lines 318-326. *)
Fixpoint phases_data (l : list (string * phase)) (acc : list (string * json))
  : result (list (string * json)) :=
  match l with
  | [] => Ok acc
  | (key, value) :: l' =>
      match start_day value with
      | Some sd =>
          dc <- from_key (phase_daily_contacts value) ;;
          tp <- from_key (phase_transmission_probability value) ;;
          ro <- from_key (Ro value) ;;
          phases_data l'
            (dict_set key
               (JDict [("start_day"%string, JInt sd);
                       ("daily_contacts"%string, JFloat dc);
                       ("transmission_probability"%string, JFloat tp);
                       ("Ro"%string, JFloat ro)]) acc)
      | None => phases_data l' acc
      end
  end.

(** Lines 328-330. *)
Fixpoint copy_keys (ss : sim_state) (keys : list Key.t)
    (data : list (string * json)) : result (list (string * json)) :=
  match keys with
  | [] => Ok data
  | key :: keys' =>
      v <- state_value ss key ;;
      copy_keys ss keys' (dict_set (label key) v data)
  end.

(** The dict handed to [json.dump]. *)
Definition write_data (ss : sim_state) : result (list (string * json)) :=
  pd <- phases_data (PHASES (WORLD ss)) [] ;;
  copy_keys ss _SERIALIZE_KEYS [(label Key.PHASES, JDict pd)].

(** ** [test_condition] (lines 370-391) *)

(** A condition dict. *)
Record condition : Type := {
  c_type : option string;
  c_count : option Q;
  c_days : option Q;
  c_day : option Q
}.

Definition quote : string := String "034"%char EmptyString.

(** The line printed for an unknown type. *)
Definition unrecognized (type : string) : string :=
  ("Unrecognized condition: " ++ quote ++ type ++ quote)%string.

(** The result is the value returned and the lines printed. *)
Definition test_condition (ss : sim_state) (cond : condition) (day : Z)
  : result (bool * list string) :=
  let s := SERIES ss in
  type <- from_key (c_type cond) ;;
  if String.eqb type "cumulative cases exceeds" then
    v <- py_get (CUMULATIVE_CASES_SERIES s) day ;;
    n <- from_key (c_count cond) ;;
    Ok (Qle_bool n (inject_Z v), [])
  else if String.eqb type "daily new confirmed above" then
    v <- py_get (NEW_CONFIRMED_CASES_SERIES s) day ;;
    n <- from_key (c_count cond) ;;
    Ok (Qle_bool n v, [])
  else if String.eqb type "daily new confirmed below" then
    v <- py_get (NEW_CONFIRMED_CASES_SERIES s) day ;;
    n <- from_key (c_count cond) ;;
    Ok (Qle_bool v n, [])
  else if String.eqb type "cumulative confirmed cases exceeds" then
    v <- py_get (CUMULATIVE_CONFIRMED_CASES_SERIES s) day ;;
    n <- from_key (c_count cond) ;;
    Ok (Qle_bool n v, [])
  else if String.eqb type "days after max active" then
    n <- from_key (c_days cond) ;;
    Ok (Qltb n (inject_Z (day - MAX_ACTIVE_CASES s)), [])
  else if String.eqb type "days after confirmed max active" then
    n <- from_key (c_days cond) ;;
    Ok (Qltb n (inject_Z (day - MAX_ACTIVE_CONFIRMED_CASES s)), [])
  else if String.eqb type "days in phase" then
    ph <- from_key (CURRENT_PHASE (WORLD ss)) ;;
    sd <- from_key (start_day ph) ;;
    n <- from_key (c_days cond) ;;
    Ok (Qltb n (inject_Z (day - sd)), [])
  else if String.eqb type "day in simulation" then
    n <- from_key (c_day cond) ;;
    Ok (Qeq_bool (inject_Z day) n, [])
  else Ok (false, [unrecognized type]).

(** The recognised types, in the order of the [if] chain. *)
Definition condition_types : list string :=
  [ "cumulative cases exceeds"; "daily new confirmed above";
    "daily new confirmed below"; "cumulative confirmed cases exceeds";
    "days after max active"; "days after confirmed max active";
    "days in phase"; "day in simulation" ]%string.

End Engine.

Arguments world : clear implicits.
Arguments callbacks : clear implicits.
Arguments sim_state : clear implicits.
Arguments test_condition {P E} ss cond day.

End SimulateV2.

(** * exercise_3d.py *)

(** The script imports [simulate] (the first version of the engine, not among
    the sources); the keys it reads are those of [simulate_v2], so its passes
    are stated on the world of [SimulateV2].  A person handed to a function
    is given by its index in [PEOPLE]. *)
Module Exercise3d.
Import SimulateV2.

(** The two keys of the current phase that [evaluate_contacts] reads. *)
Record env : Type := {
  CURRENT_DAILY_CONTACTS : Z;
  CURRENT_TRANSMISSION_PROBABILITY : Q
}.

Definition add_today (w : world person env) (cases recoveries deaths : Z)
  : world person env :=
  let c := today w in
  set_today w
    {| DAILY_CASES := DAILY_CASES c + cases;
       DAILY_CONFIRMED_CASES := DAILY_CONFIRMED_CASES c;
       DAILY_RECOVERIES := DAILY_RECOVERIES c + recoveries;
       DAILY_CONFIRMED_RECOVERIES := DAILY_CONFIRMED_RECOVERIES c;
       DAILY_DEATHS := DAILY_DEATHS c + deaths;
       DAILY_CONFIRMED_DEATHS := DAILY_CONFIRMED_DEATHS c;
       DAILY_HOSPITALIZATIONS := DAILY_HOSPITALIZATIONS c;
       DAILY_ICU := DAILY_ICU c |}.

Section Passes.

(** The module-level table (lines 15-38 hold [HEALTH_STATES] of the
    prelude). *)
Variable table : health -> health_state.

(** Lines 41-42. *)
Definition get_mean_infectious_days : Z := days_at_state (table contagious).

(** Lines 45-48 and 51-53. *)
Definition set_default_health_state (p : person) : person :=
  {| id := id p; state := well; days := 1 |}.

Definition set_initial_infected_state (p : person) : person :=
  set_state p contagious.

(** Lines 68-85, for the person at index [i]. *)
Definition advance_health_state (i : nat) (old_health_state : health_state)
    (w : world person env) : result (world person env) :=
  match PEOPLE w !! i with
  | None => Raise IndexError
  | Some p =>
      rate <- from_key (death_rate old_health_state) ;;
      let advance (w1 : world person env) : result (world person env) :=
        ns <- from_key (next_state old_health_state) ;;
        let w2 := set_PEOPLE w1
                    (<[i := {| id := id p; state := ns; days := 1 |}]> (PEOPLE w1)) in
        Ok (if health_eqb ns immune then add_today w2 0 1 0
            else if health_eqb ns infected then add_today w2 1 0 0
            else w2) in
      if Qltb 0 rate then
        let (u, g') := random (random_state w) in
        let w1 := set_random_state w g' in
        if Qltb u rate then
          l <- py_remove person_eqb p (PEOPLE w1) ;;
          Ok (set_DAILY_POPULATION (add_today (set_PEOPLE w1 l) 0 0 1)
                (DAILY_POPULATION w1 - 1))
        else advance w1
      else advance w
  end.

(** Lines 56-65. *)
Definition evaluate_health_for_day (i : nat) (w : world person env)
  : result (world person env) :=
  match PEOPLE w !! i with
  | None => Raise IndexError
  | Some p =>
      let old_health_state := table (state p) in
      let p1 := set_days p (days p + 1) in
      let w1 := set_PEOPLE w (<[i := p1]> (PEOPLE w)) in
      if (0 <? days_at_state old_health_state)
         && (days_at_state old_health_state <? days p1)
      then advance_health_state i old_health_state w1
      else Ok w1
  end.

(** Lines 92-102: [k] iterations remain for the susceptible person at [i]. *)
Fixpoint susceptible_contacts (k : nat) (i : nat) (w : world person env)
  : result (world person env) :=
  match k with
  | O => Ok w
  | S k' =>
      r <- randint 0 (DAILY_POPULATION w - 1) (random_state w) ;;
      contact <- py_get (PEOPLE w) (fst r) ;;
      let w1 := set_random_state w (snd r) in
      if health_eqb (state contact) contagious then
        let (u, g') := random (random_state w1) in
        let w2 := set_random_state w1 g' in
        if Qltb u (CURRENT_TRANSMISSION_PROBABILITY (extern w2)) then
          match PEOPLE w2 !! i with
          | Some p => advance_health_state i (table (state p)) w2
          | None => Raise IndexError
          end
        else susceptible_contacts k' i w2
      else susceptible_contacts k' i w1
  end.

(** Lines 106-113. *)
Fixpoint contagious_contacts (k : nat) (w : world person env)
  : result (world person env) :=
  match k with
  | O => Ok w
  | S k' =>
      r <- randint 0 (DAILY_POPULATION w - 1) (random_state w) ;;
      j <- py_index (PEOPLE w) (fst r) ;;
      contact <- py_get (PEOPLE w) (fst r) ;;
      let w1 := set_random_state w (snd r) in
      if can_be_infected (table (state contact)) then
        let (u, g') := random (random_state w1) in
        let w2 := set_random_state w1 g' in
        if Qltb u (CURRENT_TRANSMISSION_PROBABILITY (extern w2)) then
          w3 <- advance_health_state j (table (state contact)) w2 ;;
          contagious_contacts k' w3
        else contagious_contacts k' w2
      else contagious_contacts k' w1
  end.

(** Lines 88-113. *)
Definition evaluate_contacts (i : nat) (w : world person env)
  : result (world person env) :=
  match PEOPLE w !! i with
  | None => Raise IndexError
  | Some p =>
      let k := range_len (int_half (CURRENT_DAILY_CONTACTS (extern w))) in
      if can_be_infected (table (state p)) then susceptible_contacts k i w
      else if health_eqb (state p) contagious then contagious_contacts k w
      else Ok w
  end.

End Passes.

(** Lines 201-237: the block of the day loop of the script that appends
    today's statistics.  The confirmed figures are computed here, from the
    testing probability; the script keeps no count of confirmed deaths.
    The series this block does not touch stay as they are.  The products
    and sums of floats are taken exactly; see [binary64]. *)
Definition append_stats (day : Z) (w : world person env) (s : series)
  : result series :=
  let c := today w in
  p <- match CURRENT_TESTING_PROBABILITY w with
       | Some p => Ok p
       | None => Raise TypeError
       end ;;
  let new_confirmed_cases := (p * inject_Z (DAILY_CASES c))%Q in
  let new_confirmed_recoveries := (p * inject_Z (DAILY_RECOVERIES c))%Q in
  cc <- py_get (CUMULATIVE_CASES_SERIES s) day ;;
  ccc <- py_get (CUMULATIVE_CONFIRMED_CASES_SERIES s) day ;;
  ac <- py_get (ACTIVE_CASES_SERIES s) day ;;
  let active := ACTIVE_CASES_SERIES s
                  ++ [ac + DAILY_CASES c - DAILY_RECOVERIES c - DAILY_DEATHS c] in
  max_active <- new_max_Z active day (MAX_ACTIVE_CASES s) ;;
  acc <- py_get (ACTIVE_CONFIRMED_CASES_SERIES s) day ;;
  let active_confirmed :=
    ACTIVE_CONFIRMED_CASES_SERIES s
      ++ [(acc + new_confirmed_cases - new_confirmed_recoveries
           - inject_Z (DAILY_DEATHS c))%Q] in
  max_active_confirmed <-
    new_max_Q active_confirmed day (MAX_ACTIVE_CONFIRMED_CASES s) ;;
  cr <- py_get (CUMULATIVE_RECOVERIES_SERIES s) day ;;
  cd <- py_get (CUMULATIVE_DEATHS_SERIES s) day ;;
  let new_cases := NEW_CASES_SERIES s ++ [DAILY_CASES c] in
  max_new <- new_max_Z new_cases day (MAX_NEW_DAILY_CASES s) ;;
  let new_confirmed := NEW_CONFIRMED_CASES_SERIES s ++ [new_confirmed_cases] in
  max_new_confirmed <-
    new_max_Q new_confirmed day (MAX_NEW_DAILY_CONFIRMED_CASES s) ;;
  Ok {|
    MAX_NEW_DAILY_CASES := max_new;
    MAX_NEW_DAILY_CONFIRMED_CASES := max_new_confirmed;
    MAX_ACTIVE_CASES := max_active;
    MAX_ACTIVE_CONFIRMED_CASES := max_active_confirmed;
    MAX_ACTIVE_HOSPITALIZATIONS := MAX_ACTIVE_HOSPITALIZATIONS s;
    MAX_ACTIVE_ICU := MAX_ACTIVE_ICU s;
    CUMULATIVE_CASES_SERIES := CUMULATIVE_CASES_SERIES s ++ [cc + DAILY_CASES c];
    CUMULATIVE_CONFIRMED_CASES_SERIES :=
      CUMULATIVE_CONFIRMED_CASES_SERIES s ++ [(ccc + new_confirmed_cases)%Q];
    CUMULATIVE_RECOVERIES_SERIES :=
      CUMULATIVE_RECOVERIES_SERIES s ++ [cr + DAILY_RECOVERIES c];
    CUMULATIVE_CONFIRMED_RECOVERIES_SERIES :=
      CUMULATIVE_CONFIRMED_RECOVERIES_SERIES s;
    CUMULATIVE_DEATHS_SERIES := CUMULATIVE_DEATHS_SERIES s ++ [cd + DAILY_DEATHS c];
    CUMULATIVE_CONFIRMED_DEATHS_SERIES := CUMULATIVE_CONFIRMED_DEATHS_SERIES s;
    ACTIVE_CASES_SERIES := active;
    ACTIVE_CONFIRMED_CASES_SERIES := active_confirmed;
    ACTIVE_HOSPITALIZED_CASES_SERIES := ACTIVE_HOSPITALIZED_CASES_SERIES s;
    ACTIVE_ICU_CASES_SERIES := ACTIVE_ICU_CASES_SERIES s;
    NEW_CASES_SERIES := new_cases;
    NEW_CONFIRMED_CASES_SERIES := new_confirmed;
    NEW_ACTIVE_CASES_SERIES :=
      NEW_ACTIVE_CASES_SERIES s
        ++ [DAILY_CASES c - DAILY_RECOVERIES c - DAILY_DEATHS c];
    NEW_CONFIRMED_ACTIVE_CASES_SERIES :=
      NEW_CONFIRMED_ACTIVE_CASES_SERIES s
        ++ [(new_confirmed_cases - new_confirmed_recoveries
             - inject_Z (DAILY_DEATHS c))%Q];
    NEW_RECOVERIES_SERIES := NEW_RECOVERIES_SERIES s ++ [DAILY_RECOVERIES c];
    NEW_DEATHS_SERIES := NEW_DEATHS_SERIES s ++ [DAILY_DEATHS c]
  |}.

End Exercise3d.

(** * A configuration of the engine of [simulate_v2.py]

    The callbacks a caller stores in the state are not among the sources.
    This configuration plugs the passes of [exercise_3d.py] into the engine
    and adds what the specification says of the confirmed counts. *)
Module Scenario.
Import SimulateV2.

(** Modelled from the spec: the confirmation model (its code is not among
    the sources).  "Compute confirmed figures as true counts multiplied by the
    current testing probability - a deterministic scaling". *)
Definition confirm (w : world person Exercise3d.env)
  : result (world person Exercise3d.env) :=
  p <- from_key (CURRENT_TESTING_PROBABILITY w) ;;
  let c := today w in
  Ok (set_today w
        {| DAILY_CASES := DAILY_CASES c;
           DAILY_CONFIRMED_CASES := (p * inject_Z (DAILY_CASES c))%Q;
           DAILY_RECOVERIES := DAILY_RECOVERIES c;
           DAILY_CONFIRMED_RECOVERIES := (p * inject_Z (DAILY_RECOVERIES c))%Q;
           DAILY_DEATHS := DAILY_DEATHS c;
           DAILY_CONFIRMED_DEATHS := (p * inject_Z (DAILY_DEATHS c))%Q;
           DAILY_HOSPITALIZATIONS := DAILY_HOSPITALIZATIONS c;
           DAILY_ICU := DAILY_ICU c |}).

(** Modelled from the spec: the callback stored under [SET_INFECTED] (its
    code is not among the sources).  The person is "forced into the contagious state"
    and "the infection setter increments the true-case counter"; the
    confirmed counter follows by the scaling above. *)
Definition set_infected (s : series) (i : nat) (w : world person Exercise3d.env)
  : result (world person Exercise3d.env) :=
  match PEOPLE w !! i with
  | None => Raise IndexError
  | Some p =>
      confirm
        (Exercise3d.add_today
           (set_PEOPLE w (<[i := Exercise3d.set_initial_infected_state p]> (PEOPLE w)))
           1 0 0)
  end.

(** Modelled from the spec: the callback stored under [SET_DEFAULT_HEALTH]
    (the wiring is not among the sources).  Every individual is created "well"; the
    person is set up by [set_default_health_state] of [exercise_3d.py]. *)
Definition set_default_health (person_id : Z) (first_time : bool)
    (w : world person Exercise3d.env)
  : result (person * world person Exercise3d.env) :=
  Ok (Exercise3d.set_default_health_state
        {| id := person_id; state := well; days := 0 |}, w).

(** Modelled from the spec: the callback stored under
    [DAILY_HEALTH_EVALUATION] (the wiring is not among the sources):
    [evaluate_health_for_day] of [exercise_3d.py] on a person of the
    population, followed by the confirmation model. *)
Definition daily_health_evaluation (table : health -> health_state)
    (s : series) (pl : place) (w : world person Exercise3d.env)
  : result (world person Exercise3d.env) :=
  match pl with
  | in_people i =>
      w' <- Exercise3d.evaluate_health_for_day table i w ;; confirm w'
  | in_hospital _ => Ok w
  end.

(** Modelled from the spec: the callback stored under
    [DAILY_EVALUATE_CONTACTS] (the wiring is not among the sources):
    [evaluate_contacts] of [exercise_3d.py], followed by the confirmation
    model. *)
Definition daily_evaluate_contacts (table : health -> health_state)
    (s : series) (i : nat) (w : world person Exercise3d.env)
  : result (world person Exercise3d.env) :=
  w' <- Exercise3d.evaluate_contacts table i w ;; confirm w'.

(** Modelled from the spec: the callbacks a caller hands to
    [create_initial_state]; no state update, no testing-rate update, no
    event, and a phase evaluation that never changes the phase. *)
Definition callbacks_of (table : health -> health_state)
  : callbacks person Exercise3d.env := {|
  SET_DEFAULT_HEALTH := set_default_health;
  SET_INFECTED := set_infected;
  DAILY_HEALTH_EVALUATION := daily_health_evaluation table;
  DAILY_EVALUATE_CONTACTS := daily_evaluate_contacts table;
  DAILY_UPDATE_STATE := fun _ _ w => Ok w;
  UPDATE_TESTING_RATES := None;
  DAILY_PHASE_EVALUATION := fun _ _ w => Ok (false, w);
  DAILY_EVENT_EVALUATION := None
|}.

(** The state before [run_simulation]: [create_initial_state], then the
    single phase is made current with its contacts, transmission
    probability and testing probability. *)
Definition initial_state (table : health -> health_state) (g : rng)
    (contacts : Z) (transmission testing : Q)
    (simulation_days population initial_infection : Z)
  : sim_state person Exercise3d.env :=
  let ss := create_initial_state (callbacks_of table) [] g
              {| Exercise3d.CURRENT_DAILY_CONTACTS := contacts;
                 Exercise3d.CURRENT_TRANSMISSION_PROBABILITY := transmission |}
              simulation_days population initial_infection in
  set_W ss
    {| PEOPLE := PEOPLE (WORLD ss);
       HOSPITALIZED_PEOPLE := HOSPITALIZED_PEOPLE (WORLD ss);
       DAILY_POPULATION := DAILY_POPULATION (WORLD ss);
       today := today (WORLD ss);
       CURRENT_PHASE := CURRENT_PHASE (WORLD ss);
       CURRENT_TESTING_PROBABILITY := Some testing;
       PHASES := PHASES (WORLD ss);
       random_state := random_state (WORLD ss);
       extern := extern (WORLD ss) |}.

(** A tape of draws and small settings used in the examples. *)
Definition sample_tape (i : nat) : N :=
  ((N.of_nat i * 7919 + 13) * 1125899906842597)%N.

Definition sample_rng : rng := {| tape := sample_tape; pos := 0 |}.

Definition quick_table : health -> health_state :=
  with_death_rate
    (fun s => match s with
              | contagious => {| days_at_state := 2; can_be_infected := false;
                                 next_state := Some recovering;
                                 death_rate := Some 0%Q |}
              | recovering => {| days_at_state := 1; can_be_infected := false;
                                 next_state := Some immune;
                                 death_rate := Some 0%Q |}
              | _ => HEALTH_STATES s
              end)
    contagious (1 # 2)%Q.

Definition small_config : Exercise2.config := {|
  Exercise2.POPULATION := 6;
  Exercise2.INITIAL_INFECTION := 2;
  Exercise2.SIMULATION_DAYS := 8;
  Exercise2.daily_contacts := 5;
  Exercise2.transmission_probability := (1 # 2)%Q;
  Exercise2.health_table := quick_table
|}.

(** Scenario C on the table of the source. *)
Definition deadly_config : Exercise2.config := {|
  Exercise2.POPULATION := 6;
  Exercise2.INITIAL_INFECTION := 2;
  Exercise2.SIMULATION_DAYS := 8;
  Exercise2.daily_contacts := 5;
  Exercise2.transmission_probability := (1 # 2)%Q;
  Exercise2.health_table := with_death_rate HEALTH_STATES contagious 1
|}.

Definition small_state (testing : Q) : sim_state person Exercise3d.env :=
  initial_state quick_table sample_rng 5 (1 # 2)%Q testing 8 6 2.

(** Three people, the second one contagious, and a generator that replays
    a written list of draws. *)
Definition trio : list person :=
  [ {| id := 0; state := well; days := 3 |};
    {| id := 1; state := contagious; days := 2 |};
    {| id := 2; state := well; days := 3 |} ].

Definition replay (draws : list N) : rng :=
  {| tape := fun i => nth i draws 0%N; pos := 0 |}.

Definition trio_sim (draws : list N) : Exercise2.sim :=
  {| Exercise2.people := trio; Exercise2.current_population := 3;
     Exercise2.new_cases := 0; Exercise2.new_recoveries := 0;
     Exercise2.new_deaths := 0; Exercise2.gen := replay draws |}.

(** The same three people as a world of the engine, with five daily
    contacts and transmission probability 1/2. *)
Definition trio_world (draws : list N) : world person Exercise3d.env :=
  {| PEOPLE := trio; HOSPITALIZED_PEOPLE := []; DAILY_POPULATION := 3;
     today := zero_counters; CURRENT_PHASE := None;
     CURRENT_TESTING_PROBABILITY := Some 1%Q; PHASES := [];
     random_state := replay draws;
     extern := {| Exercise3d.CURRENT_DAILY_CONTACTS := 5;
                  Exercise3d.CURRENT_TRANSMISSION_PROBABILITY := (1 # 2)%Q |} |}.

(** A condition dict whose type no branch of [test_condition] knows. *)
Definition odd_condition : condition :=
  {| c_type := Some "weekday is monday"%string; c_count := None;
     c_days := None; c_day := None |}.

End Scenario.

(** * Properties to be proved *)

(** ** Readings of the series of [exercise_2.py] *)

Module E2Props.
Import Exercise2.

(** Day [d] has an entry in the four cumulative and active series and the
    active count is what the cumulative counts leave. *)
Definition day_conserved (s : stats) (d : nat) : Prop :=
  exists c a r x,
    cumulative_cases s !! d = Some c /\
    active_cases s !! d = Some a /\
    cumulative_recoveries s !! d = Some r /\
    cumulative_deaths s !! d = Some x /\
    a = c - r - x.

(** The entries of day [d + 1] are those of day [d] plus the deltas
    recorded in the daily series for day [d + 1]. *)
Definition day_recurrence (s : stats) (d : nat) : Prop :=
  exists c0 c1 r0 r1 x0 x1 nc nr nd,
    cumulative_cases s !! d = Some c0 /\
    cumulative_cases s !! S d = Some c1 /\
    cumulative_recoveries s !! d = Some r0 /\
    cumulative_recoveries s !! S d = Some r1 /\
    cumulative_deaths s !! d = Some x0 /\
    cumulative_deaths s !! S d = Some x1 /\
    daily_new_cases s !! S d = Some nc /\
    daily_new_recoveries s !! S d = Some nr /\
    daily_new_deaths s !! S d = Some nd /\
    c1 = c0 + nc /\ r1 = r0 + nr /\ x1 = x0 + nd.

Definition lengths (s : stats) (n : nat) : Prop :=
  length (cumulative_cases s) = n /\
  length (active_cases s) = n /\
  length (cumulative_recoveries s) = n /\
  length (cumulative_deaths s) = n /\
  length (daily_new_cases s) = n /\
  length (daily_new_active_cases s) = n /\
  length (daily_new_recoveries s) = n /\
  length (daily_new_deaths s) = n.

Definition series_inv (s : stats) (n : nat) : Prop :=
  lengths s (S n) /\
  (forall d, (d <= n)%nat -> day_conserved s d) /\
  (forall d, (d < n)%nat -> day_recurrence s d).

(** The maxima of the script (lines 91-95 and 163-171).  The value [v]
    starts at 0 and the day [m] is the index of the day loop, whose entry
    is appended at position [m + 1] of the list: [v] bounds every appended
    entry, the entries of the days before [m] are below it, and once an
    entry has exceeded 0 the entry of day [m] is [v]. *)
Definition best_day (l : list Z) (v m : Z) : Prop :=
  0 <= m /\ 0 <= v /\
  (forall d x, l !! S d = Some x -> x <= v /\ (Z.of_nat d < m -> x < v)) /\
  (0 < v -> l !! S (Z.to_nat m) = Some v) /\
  (v = 0 -> m = 0).

Definition maxima (s : stats) : Prop :=
  best_day (active_cases s) (maximum_active_cases s)
    (maximum_active_cases_day s) /\
  best_day (daily_new_cases s) (maximum_daily_new_cases s)
    (maximum_new_cases_day s) /\
  (0 < maximum_daily_new_cases s ->
   cumulative_cases s !! S (Z.to_nat (maximum_new_cases_day s))
     = Some (maximum_new_cases_cumulative s)).

(** Every state that can elapse has the two keys the health loop reads. *)
Definition table_ok (tbl : health -> health_state) : Prop :=
  forall s, 0 < days_at_state (tbl s) ->
    is_Some (death_rate (tbl s)) /\ is_Some (next_state (tbl s)).

(** [current_population] is the length of [people]. *)
Definition pop_inv (w : sim) : Prop :=
  current_population w = Z.of_nat (length (people w)).

(** What the sampling loops read from the tape at position [t]: the index
    drawn by [random.randint(0, current_population - 1)], the person at
    that index, and the value of [random.random()]. *)
Definition draw_index (w : sim) (t : nat) : Z :=
  Z.of_N (tape (gen w) t) mod current_population w.

Definition sampled (w : sim) (t : nat) : option person :=
  people w !! Z.to_nat (draw_index w t).

Definition uniform_at (w : sim) (t : nat) : Q :=
  (Z.of_N (tape (gen w) t mod Npos two53) # two53)%Q.

(** The same variables with the generator moved to position [t]. *)
Definition at_pos (w : sim) (t : nat) : sim :=
  set_gen w {| tape := tape (gen w); pos := t |}.

(** The person at index [i] is set to infected on day 1 of that state and
    a new case is counted. *)
Definition infected_at (i : nat) (p : person) (w : sim) : sim :=
  count_case
    (set_people w (<[i := {| id := id p; state := infected; days := 1 |}]> (people w))).

(** The number of people a contact can infect. *)
Definition susceptible_count (cfg : config) (w : sim) : Z :=
  Z.of_nat
    (length (filter (fun p => can_be_infected (health_table cfg (state p)) = true)
               (people w))).

(** Scenario C: the death rate of the contagious state is 1.0 and the two
    states before it lead to it as in the table of the source. *)
Definition scenario_C (tbl : health -> health_state) : Prop :=
  (exists r, death_rate (tbl contagious) = Some r /\ (r == 1)%Q) /\
  next_state (tbl well) = Some infected /\
  next_state (tbl infected) = Some contagious.

(** The person is in none of the states that follow the contagious one. *)
Definition not_recovered (p : person) : Prop :=
  state p = well \/ state p = infected \/ state p = contagious.

(** No two people of the list share an id. *)
Definition ids_unique (l : list person) : Prop := NoDup (id <$> l).

Definition no_recovery (w : sim) : Prop :=
  Forall not_recovered (people w) /\ ids_unique (people w) /\
  new_recoveries w = 0.

(** One iteration of the loop of line 128 on an outcome so far: the person
    at index [i], if there is one, runs the body of the loop. *)
Definition visit (cfg : config) (r : result sim) (i : nat) : result sim :=
  w <- r ;;
  match people w !! i with
  | Some p => contact_step cfg i p w
  | None => Ok w
  end.

(** What a person's contacts did, from the variables before and after:
    the cells of the tape consumed and the cases counted. *)
Definition cells (w w' : sim) : Z :=
  Z.of_nat (pos (gen w')) - Z.of_nat (pos (gen w)).

Definition cases (w w' : sim) : Z := new_cases w' - new_cases w.

(** The contact model as the specification words it, in two passes over
    the people: first every person who can be infected samples contacts
    (the susceptible-initiated pass), then every contagious person does
    (the contagious-initiated pass). *)
Fixpoint susceptible_pass (cfg : config) (n i : nat) (w : sim) : result sim :=
  match n with
  | O => Ok w
  | S n' =>
      match people w !! i with
      | None => Ok w
      | Some p =>
          w' <- (if can_be_infected (health_table cfg (state p))
                 then susceptible_contacts cfg (half_contacts cfg) i w
                 else Ok w) ;;
          susceptible_pass cfg n' (S i) w'
      end
  end.

Fixpoint contagious_pass (cfg : config) (n i : nat) (w : sim) : result sim :=
  match n with
  | O => Ok w
  | S n' =>
      match people w !! i with
      | None => Ok w
      | Some p =>
          w' <- (if health_eqb (state p) contagious
                 then contagious_contacts cfg (half_contacts cfg) w
                 else Ok w) ;;
          contagious_pass cfg n' (S i) w'
      end
  end.

Definition two_passes (cfg : config) (w : sim) : result sim :=
  w1 <- susceptible_pass cfg (length (people w)) 0 w ;;
  contagious_pass cfg (length (people w1)) 0 w1.

End E2Props.

(** ** Readings of the passes of [exercise_3d.py] *)

Module E3dProps.
Import SimulateV2.

(** [DAILY_POPULATION] is the length of [PEOPLE]. *)
Definition pop_inv (w : world person Exercise3d.env) : Prop :=
  DAILY_POPULATION w = Z.of_nat (length (PEOPLE w)).

(** What [evaluate_contacts] reads from the tape at position [t]. *)
Definition draw_index (w : world person Exercise3d.env) (t : nat) : Z :=
  Z.of_N (tape (random_state w) t) mod DAILY_POPULATION w.

Definition sampled (w : world person Exercise3d.env) (t : nat) : option person :=
  PEOPLE w !! Z.to_nat (draw_index w t).

Definition uniform_at (w : world person Exercise3d.env) (t : nat) : Q :=
  (Z.of_N (tape (random_state w) t mod Npos two53) # two53)%Q.

Definition at_pos (w : world person Exercise3d.env) (t : nat)
  : world person Exercise3d.env :=
  set_random_state w {| tape := tape (random_state w); pos := t |}.

(** The person at index [i] is set to infected on day 1 of that state and
    a new case is counted. *)
Definition infected_at (i : nat) (p : person) (w : world person Exercise3d.env)
  : world person Exercise3d.env :=
  Exercise3d.add_today
    (set_PEOPLE w (<[i := {| id := id p; state := infected; days := 1 |}]> (PEOPLE w)))
    1 0 0.

(** The person at index [i] is removed and a death is counted. *)
Definition dead_at (i : nat) (w : world person Exercise3d.env)
  : world person Exercise3d.env :=
  set_DAILY_POPULATION
    (Exercise3d.add_today (set_PEOPLE w (delete i (PEOPLE w))) 0 0 1)
    (DAILY_POPULATION w - 1).

(** An entry of the table as the source has it for ['well']: no death, the
    next state is ['infected']. *)
Definition leads_to_infected (h : health_state) : Prop :=
  (exists r, death_rate h = Some r /\ (r <= 0)%Q) /\
  next_state h = Some infected.

(** Nobody is recovering or immune and no recovery is counted today. *)
Definition no_recovery (w : world person Exercise3d.env) : Prop :=
  Forall E2Props.not_recovered (PEOPLE w) /\ E2Props.ids_unique (PEOPLE w) /\
  DAILY_RECOVERIES (today w) = 0.

(** [range(int(CURRENT_DAILY_CONTACTS / 2))]. *)
Definition half_contacts (w : world person Exercise3d.env) : nat :=
  range_len (int_half (Exercise3d.CURRENT_DAILY_CONTACTS (extern w))).

(** One iteration of the loop of lines 196-199 on an outcome so far. *)
Definition visit (table : health -> health_state)
    (r : result (world person Exercise3d.env)) (i : nat)
  : result (world person Exercise3d.env) :=
  w <- r ;;
  match PEOPLE w !! i with
  | Some _ => Exercise3d.evaluate_contacts table i w
  | None => Ok w
  end.

End E3dProps.

(** ** Readings of the series of [simulate_v2.py] *)

Module V2Props.
Import SimulateV2.

Definition lengths (s : series) (n : nat) : Prop :=
  length (CUMULATIVE_CASES_SERIES s) = n /\
  length (CUMULATIVE_CONFIRMED_CASES_SERIES s) = n /\
  length (CUMULATIVE_RECOVERIES_SERIES s) = n /\
  length (CUMULATIVE_CONFIRMED_RECOVERIES_SERIES s) = n /\
  length (CUMULATIVE_DEATHS_SERIES s) = n /\
  length (CUMULATIVE_CONFIRMED_DEATHS_SERIES s) = n /\
  length (ACTIVE_CASES_SERIES s) = n /\
  length (ACTIVE_CONFIRMED_CASES_SERIES s) = n /\
  length (ACTIVE_HOSPITALIZED_CASES_SERIES s) = n /\
  length (ACTIVE_ICU_CASES_SERIES s) = n /\
  length (NEW_CASES_SERIES s) = n /\
  length (NEW_CONFIRMED_CASES_SERIES s) = n /\
  length (NEW_ACTIVE_CASES_SERIES s) = n /\
  length (NEW_CONFIRMED_ACTIVE_CASES_SERIES s) = n /\
  length (NEW_RECOVERIES_SERIES s) = n /\
  length (NEW_DEATHS_SERIES s) = n.

(** The conservation identity on day [d]. *)
Definition day_conserved (s : series) (d : nat) : Prop :=
  exists c a r x,
    CUMULATIVE_CASES_SERIES s !! d = Some c /\
    ACTIVE_CASES_SERIES s !! d = Some a /\
    CUMULATIVE_RECOVERIES_SERIES s !! d = Some r /\
    CUMULATIVE_DEATHS_SERIES s !! d = Some x /\
    a = c - r - x.

(** The cumulative entries of day [d + 1] from those of day [d] and the
    deltas of day [d + 1]. *)
Definition day_recurrence (s : series) (d : nat) : Prop :=
  exists c0 c1 r0 r1 x0 x1 nc nr nd,
    CUMULATIVE_CASES_SERIES s !! d = Some c0 /\
    CUMULATIVE_CASES_SERIES s !! S d = Some c1 /\
    CUMULATIVE_RECOVERIES_SERIES s !! d = Some r0 /\
    CUMULATIVE_RECOVERIES_SERIES s !! S d = Some r1 /\
    CUMULATIVE_DEATHS_SERIES s !! d = Some x0 /\
    CUMULATIVE_DEATHS_SERIES s !! S d = Some x1 /\
    NEW_CASES_SERIES s !! S d = Some nc /\
    NEW_RECOVERIES_SERIES s !! S d = Some nr /\
    NEW_DEATHS_SERIES s !! S d = Some nd /\
    c1 = c0 + nc /\ r1 = r0 + nr /\ x1 = x0 + nd.

Definition conservation (s : series) (n : nat) : Prop :=
  (forall d, (d <= n)%nat -> day_conserved s d) /\
  (forall d, (d < n)%nat -> day_recurrence s d).

(** Day [m] holds the largest entry of [l], and no earlier day holds an
    entry as large. *)
Definition argmax_Z (l : list Z) (m : Z) : Prop :=
  0 <= m /\
  exists v, l !! Z.to_nat m = Some v /\
    forall d x, l !! d = Some x -> x <= v /\ (Z.of_nat d < m -> x < v).

Definition argmax_Q (l : list Q) (m : Z) : Prop :=
  0 <= m /\
  exists v, l !! Z.to_nat m = Some v /\
    forall d x, l !! d = Some x -> (x <= v)%Q /\ (Z.of_nat d < m -> (x < v)%Q).

Definition maxima (s : series) : Prop :=
  argmax_Z (NEW_CASES_SERIES s) (MAX_NEW_DAILY_CASES s) /\
  argmax_Q (NEW_CONFIRMED_CASES_SERIES s) (MAX_NEW_DAILY_CONFIRMED_CASES s) /\
  argmax_Z (ACTIVE_CASES_SERIES s) (MAX_ACTIVE_CASES s) /\
  argmax_Q (ACTIVE_CONFIRMED_CASES_SERIES s) (MAX_ACTIVE_CONFIRMED_CASES s) /\
  argmax_Z (ACTIVE_HOSPITALIZED_CASES_SERIES s) (MAX_ACTIVE_HOSPITALIZATIONS s) /\
  argmax_Z (ACTIVE_ICU_CASES_SERIES s) (MAX_ACTIVE_ICU s).




(** One pass through the body of the seeding loop (lines 208-209), and
    [n] passes in a row without the test of the [while]. *)
Definition seed_body {P E : Type} (ss : sim_state P E) : result (sim_state P E) :=
  r <- randint 0 (POPULATION ss - 1) (random_state (WORLD ss)) ;;
  i <- py_index (PEOPLE (WORLD ss)) (fst r) ;;
  _ <- py_get (PEOPLE (WORLD ss)) (fst r) ;;
  w <- SET_INFECTED (calls ss) (SERIES ss) i
         (set_random_state (WORLD ss) (snd r)) ;;
  Ok (set_W ss w).

Fixpoint seed_iter {P E : Type} (n : nat) (ss : sim_state P E)
  : result (sim_state P E) :=
  match n with
  | O => Ok ss
  | S n' => ss' <- seed_body ss ;; seed_iter n' ss'
  end.

(** The confirmed-case counter has reached the configured count. *)
Definition confirmed_reached {P E : Type} (ss : sim_state P E) : Prop :=
  (inject_Z (INITIAL_INFECTION ss) <= DAILY_CONFIRMED_CASES (today (WORLD ss)))%Q.

(** The state in which the day loop enters the seeding loop: the population
    is created, today's counters are zero (lines 181-200). *)
Definition before_seeding {P E : Type} (ss : sim_state P E)
  : result (sim_state P E) :=
  w <- create_people (calls ss) (range_len (POPULATION ss)) 0 (WORLD ss) ;;
  Ok (set_W ss (set_today (set_DAILY_POPULATION w (POPULATION ss)) zero_counters)).

(** The condition is checked on each state and day of the list, in order:
    the values returned and all the lines printed. *)
Fixpoint check_condition {P E : Type} (cond : condition)
    (checks : list (sim_state P E * Z)) : result (list bool * list string) :=
  match checks with
  | [] => Ok ([], [])
  | (ss, day) :: checks' =>
      r <- test_condition ss cond day ;;
      rs <- check_condition cond checks' ;;
      Ok (fst r :: fst rs, snd r ++ snd rs)
  end.

(** A state of the configuration of [Scenario] in which the seeding loop
    can draw a person: the population list has [POPULATION] >= 1 entries,
    the testing probability is [p], and the confirmed counter is the true
    counter scaled by [p]. *)
Definition scenario_ready (table : health -> health_state) (p : Q)
    (ss : sim_state person Exercise3d.env) : Prop :=
  calls ss = Scenario.callbacks_of table /\
  CURRENT_TESTING_PROBABILITY (WORLD ss) = Some p /\
  1 <= POPULATION ss /\
  Z.of_nat (length (PEOPLE (WORLD ss))) = POPULATION ss /\
  (DAILY_CONFIRMED_CASES (today (WORLD ss))
   == p * inject_Z (DAILY_CASES (today (WORLD ss))))%Q.

End V2Props.

(** ** Further readings of [exercise_2.py] *)

Module E2Facts.
Import Exercise2.

(** The three counters of the day are not negative. *)
Definition counted (w : sim) : Prop :=
  0 <= new_cases w /\ 0 <= new_recoveries w /\ 0 <= new_deaths w.

(** The number of people of the list in state [h]. *)
Definition in_state (h : health) (l : list person) : nat :=
  length (filter (fun p => health_eqb (state p) h = true) l).

(** The ids of the list are ids of the initial population, in increasing
    order and without repetition, and every person is on day 1 or later of
    its state. *)
Definition survivors (population : Z) (l : list person) : Prop :=
  (id <$> l) `sublist_of` (Z.of_nat <$> seq 0 (range_len population)) /\
  Forall (fun p => 1 <= days p) l.

(** Entry [d + 1] of 'daily new active cases' is the step of 'active
    cases' from day [d] to day [d + 1]. *)
Definition active_step (s : stats) (d : nat) : Prop :=
  exists a0 a1 na,
    active_cases s !! d = Some a0 /\
    active_cases s !! S d = Some a1 /\
    daily_new_active_cases s !! S d = Some na /\
    na = a1 - a0.

(** A list of counts that never goes down, and one without negative
    entries. *)
Definition nondecreasing (l : list Z) : Prop :=
  forall d x y, l !! d = Some x -> l !! S d = Some y -> x <= y.

Definition nonnegative (l : list Z) : Prop := Forall (fun x => 0 <= x) l.

(** A table in which the states that can be infected never elapse, no
    state that elapses leads into one of them, and an infected person
    cannot be infected again. *)
Definition infection_is_final (tbl : health -> health_state) : Prop :=
  (forall s, can_be_infected (tbl s) = true -> days_at_state (tbl s) <= 0) /\
  (forall s ns, 0 < days_at_state (tbl s) -> next_state (tbl s) = Some ns ->
                can_be_infected (tbl ns) = false) /\
  can_be_infected (tbl infected) = false.

(** A table in which an immune person stays immune: the state never
    elapses and cannot be infected. *)
Definition recovery_is_final (tbl : health -> health_state) : Prop :=
  days_at_state (tbl immune) <= 0 /\ can_be_infected (tbl immune) = false.

(** A person in a state that elapses is within the days of that state. *)
Definition within_duration (tbl : health -> health_state) (p : person) : Prop :=
  0 < days_at_state (tbl (state p)) -> days p <= days_at_state (tbl (state p)).

(** The number of people who are neither susceptible nor immune: the
    infected, contagious and recovering of the table of the source. *)
Definition sick (cfg : config) (l : list person) : nat :=
  length (filter (fun p => negb (can_be_infected (health_table cfg (state p)))
                           && negb (health_eqb (state p) immune) = true) l).

(** No contact can transmit: the probability is not positive, or fewer
    than two daily contacts leave nothing to sample. *)
Definition no_transmission (cfg : config) : Prop :=
  (transmission_probability cfg <= 0)%Q \/ daily_contacts cfg < 2.

(** The variables of the day loop when it starts: the seeded people and
    generator. *)
Definition seeded (cfg : config) (g : rng) (w : sim) : Prop :=
  exists l g',
    infect_initial cfg (range_len (INITIAL_INFECTION cfg)) (initial_people cfg) g
      = Ok (l, g') /\
    w = {| people := l; current_population := POPULATION cfg;
           new_cases := 0; new_recoveries := 0; new_deaths := 0; gen := g' |}.

End E2Facts.

(** The people whose state satisfies [F], and a boolean as 0 or 1. *)
Abbreviation census F l :=
  (Z.of_nat (length (filter (fun q : person => F (state q) = true) l))).

Abbreviation bit b := (if b then 1 else 0).

(** ** Further readings of the series of [simulate_v2.py] *)

Module V2Facts.
Import SimulateV2.

(** On day 0 the 'new' series repeat the cumulative and active ones. *)
Definition day_zero (s : series) : Prop :=
  CUMULATIVE_CASES_SERIES s !! 0%nat = NEW_CASES_SERIES s !! 0%nat /\
  ACTIVE_CASES_SERIES s !! 0%nat = NEW_ACTIVE_CASES_SERIES s !! 0%nat /\
  CUMULATIVE_CONFIRMED_CASES_SERIES s !! 0%nat
    = NEW_CONFIRMED_CASES_SERIES s !! 0%nat.

(** Entry [d + 1] of 'new active cases' is the step of 'active cases' from
    day [d] to day [d + 1]. *)
Definition active_step (s : series) (d : nat) : Prop :=
  exists a0 a1 na,
    ACTIVE_CASES_SERIES s !! d = Some a0 /\
    ACTIVE_CASES_SERIES s !! S d = Some a1 /\
    NEW_ACTIVE_CASES_SERIES s !! S d = Some na /\
    na = a1 - a0.

(** The entry of the saved dict for a phase that has a start day. *)
Definition saved_phase (sd : Z) (dc tp ro : Q) : json :=
  JDict [("start_day"%string, JInt sd);
         ("daily_contacts"%string, JFloat dc);
         ("transmission_probability"%string, JFloat tp);
         ("Ro"%string, JFloat ro)].

(** A phase without a start day is left out; a phase with one needs its
    three other keys. *)
Definition phase_entry (key : string) (ph : phase) : option (option (string * json)) :=
  match start_day ph with
  | None => Some None
  | Some sd =>
      match phase_daily_contacts ph, phase_transmission_probability ph, Ro ph with
      | Some dc, Some tp, Some ro => Some (Some (key, saved_phase sd dc tp ro))
      | _, _, _ => None
      end
  end.

(** The phases that are saved, in the order of the dict. *)
Fixpoint saved_phases (l : list (string * phase)) : list (string * json) :=
  match l with
  | [] => []
  | (key, ph) :: l' =>
      match phase_entry key ph with
      | Some (Some e) => e :: saved_phases l'
      | _ => saved_phases l'
      end
  end.

End V2Facts.

(** ** Small inputs for the examples *)

Module Samples.
Import SimulateV2.

(** A phase table with a started phase and one that has not started. *)
Definition two_phases : list (string * phase) :=
  [ ("normal"%string,
     {| start_day := Some 0; phase_daily_contacts := Some 10%Q;
        phase_transmission_probability := Some float_0_03;
        Ro := Some (12 # 10)%Q |});
    ("lock down"%string,
     {| start_day := None; phase_daily_contacts := Some 4%Q;
        phase_transmission_probability := Some float_0_03;
        Ro := None |}) ].

(** The same table when the second phase has started without its 'Ro'. *)
Definition broken_phases : list (string * phase) :=
  [ ("normal"%string,
     {| start_day := Some 0; phase_daily_contacts := Some 10%Q;
        phase_transmission_probability := Some float_0_03;
        Ro := Some (12 # 10)%Q |});
    ("lock down"%string,
     {| start_day := Some 5; phase_daily_contacts := Some 4%Q;
        phase_transmission_probability := Some float_0_03;
        Ro := None |}) ].

Definition state_with (phases : list (string * phase))
  : sim_state person Exercise3d.env :=
  create_initial_state (Scenario.callbacks_of HEALTH_STATES) phases
    Scenario.sample_rng
    {| Exercise3d.CURRENT_DAILY_CONTACTS := 10;
       Exercise3d.CURRENT_TRANSMISSION_PROBABILITY := float_0_03 |}
    3 6 2.

(** The lists of [exercise_2.py] as series of the state, the confirmed
    series repeating the true ones. *)
Definition as_series (s : Exercise2.stats) : series :=
  {| MAX_NEW_DAILY_CASES := 0;
     MAX_NEW_DAILY_CONFIRMED_CASES := 0;
     MAX_ACTIVE_CASES := 0;
     MAX_ACTIVE_CONFIRMED_CASES := 0;
     MAX_ACTIVE_HOSPITALIZATIONS := 0;
     MAX_ACTIVE_ICU := 0;
     CUMULATIVE_CASES_SERIES := Exercise2.cumulative_cases s;
     CUMULATIVE_CONFIRMED_CASES_SERIES := inject_Z <$> Exercise2.cumulative_cases s;
     CUMULATIVE_RECOVERIES_SERIES := Exercise2.cumulative_recoveries s;
     CUMULATIVE_CONFIRMED_RECOVERIES_SERIES :=
       inject_Z <$> Exercise2.cumulative_recoveries s;
     CUMULATIVE_DEATHS_SERIES := Exercise2.cumulative_deaths s;
     CUMULATIVE_CONFIRMED_DEATHS_SERIES := inject_Z <$> Exercise2.cumulative_deaths s;
     ACTIVE_CASES_SERIES := Exercise2.active_cases s;
     ACTIVE_CONFIRMED_CASES_SERIES := inject_Z <$> Exercise2.active_cases s;
     ACTIVE_HOSPITALIZED_CASES_SERIES := [];
     ACTIVE_ICU_CASES_SERIES := [];
     NEW_CASES_SERIES := Exercise2.daily_new_cases s;
     NEW_CONFIRMED_CASES_SERIES := inject_Z <$> Exercise2.daily_new_cases s;
     NEW_ACTIVE_CASES_SERIES := Exercise2.daily_new_active_cases s;
     NEW_CONFIRMED_ACTIVE_CASES_SERIES :=
       inject_Z <$> Exercise2.daily_new_active_cases s;
     NEW_RECOVERIES_SERIES := Exercise2.daily_new_recoveries s;
     NEW_DEATHS_SERIES := Exercise2.daily_new_deaths s |}.


End Samples.

(** ** Readings of [test_condition] *)

Module ConditionFacts.

(** An evaluation that prints nothing and can only fail on a missing key
    or on an index outside a series. *)
Definition quiet (r : result (bool * list string)) : Prop :=
  match r with
  | Ok (_, out) => out = []
  | Raise e => e = KeyError \/ e = IndexError
  | Timeout => False
  end.

(** The two conditions that count the days since a maximum. *)
Definition after_max_active (n : Q) : SimulateV2.condition :=
  {| SimulateV2.c_type := Some "days after max active"%string;
     SimulateV2.c_count := None; SimulateV2.c_days := Some n;
     SimulateV2.c_day := None |}.

Definition after_confirmed_max_active (n : Q) : SimulateV2.condition :=
  {| SimulateV2.c_type := Some "days after confirmed max active"%string;
     SimulateV2.c_count := None; SimulateV2.c_days := Some n;
     SimulateV2.c_day := None |}.

End ConditionFacts.

(** ** [exercise_3d.py]: the day loop of the script (lines 185-236) *)

Module Exercise3dRun.
Import SimulateV2.

(** Lines 190-192: three of today's counters are set to 0. *)
Definition reset_counters (w : world person Exercise3d.env)
  : world person Exercise3d.env :=
  let c := today w in
  set_today w
    {| DAILY_CASES := 0;
       DAILY_CONFIRMED_CASES := DAILY_CONFIRMED_CASES c;
       DAILY_RECOVERIES := 0;
       DAILY_CONFIRMED_RECOVERIES := DAILY_CONFIRMED_RECOVERIES c;
       DAILY_DEATHS := 0;
       DAILY_CONFIRMED_DEATHS := DAILY_CONFIRMED_DEATHS c;
       DAILY_HOSPITALIZATIONS := DAILY_HOSPITALIZATIONS c;
       DAILY_ICU := DAILY_ICU c |}.

Section Day.

Variable table : health -> health_state.

(** Lines 193-194: [for person in reversed(sim_state[s.PEOPLE])]; [n] is
    the index of the reverse iterator plus one. *)
Fixpoint health_loop (n : nat) (w : world person Exercise3d.env)
  : result (world person Exercise3d.env) :=
  match n with
  | O => Ok w
  | S i =>
      match PEOPLE w !! i with
      | None => Ok w
      | Some _ =>
          w' <- Exercise3d.evaluate_health_for_day table i w ;; health_loop i w'
      end
  end.

(** Lines 196-199: [for person in sim_state[s.PEOPLE]]; [n] bounds the
    number of iterations (the list does not grow in this loop). *)
Fixpoint contact_loop (n : nat) (i : nat) (w : world person Exercise3d.env)
  : result (world person Exercise3d.env) :=
  match n with
  | O => Ok w
  | S n' =>
      match PEOPLE w !! i with
      | None => Ok w
      | Some _ =>
          w' <- Exercise3d.evaluate_contacts table i w ;; contact_loop n' (S i) w'
      end
  end.

(** Lines 186-236: one day.  [phase_evaluation] stands for the callable
    stored under [DAILY_PHASE_EVALUATION], whose result the script drops. *)
Definition one_day
    (phase_evaluation : Z -> world person Exercise3d.env
                        -> result (world person Exercise3d.env))
    (day : Z) (ws : world person Exercise3d.env * series)
  : result (world person Exercise3d.env * series) :=
  w <- phase_evaluation day (fst ws) ;;
  let w0 := reset_counters w in
  w1 <- health_loop (length (PEOPLE w0)) w0 ;;
  w2 <- contact_loop (length (PEOPLE w1)) 0 w1 ;;
  s' <- Exercise3d.append_stats day w2 (snd ws) ;;
  Ok (w2, s').

End Day.

End Exercise3dRun.

(** ** [exercise_3d.py] against [exercise_2.py] *)

Module Refinement.

(** The variables of [exercise_2.py] and the keys of the state of
    [exercise_3d.py] that stand for them hold the same values. *)
Definition same_variables (cfg : Exercise2.config) (w2 : Exercise2.sim)
    (w3 : SimulateV2.world person Exercise3d.env) : Prop :=
  SimulateV2.PEOPLE w3 = Exercise2.people w2 /\
  SimulateV2.DAILY_POPULATION w3 = Exercise2.current_population w2 /\
  SimulateV2.DAILY_CASES (SimulateV2.today w3) = Exercise2.new_cases w2 /\
  SimulateV2.DAILY_RECOVERIES (SimulateV2.today w3) = Exercise2.new_recoveries w2 /\
  SimulateV2.DAILY_DEATHS (SimulateV2.today w3) = Exercise2.new_deaths w2 /\
  SimulateV2.random_state w3 = Exercise2.gen w2 /\
  Exercise3d.CURRENT_DAILY_CONTACTS (SimulateV2.extern w3)
    = Exercise2.daily_contacts cfg /\
  Exercise3d.CURRENT_TRANSMISSION_PROBABILITY (SimulateV2.extern w3)
    = Exercise2.transmission_probability cfg.

(** Both programs end the same way: with the same values, or with the same
    exception. *)
Definition same_outcome (cfg : Exercise2.config) (r2 : result Exercise2.sim)
    (r3 : result (SimulateV2.world person Exercise3d.env)) : Prop :=
  match r2, r3 with
  | Ok w2, Ok w3 => same_variables cfg w2 w3
  | Raise e2, Raise e3 => e2 = e3
  | Timeout, Timeout => True
  | _, _ => False
  end.

(** The eight lists of [exercise_2.py] and the series of true counts of
    [exercise_3d.py] hold the same entries. *)
Definition same_series (s2 : Exercise2.stats) (s3 : SimulateV2.series) : Prop :=
  SimulateV2.CUMULATIVE_CASES_SERIES s3 = Exercise2.cumulative_cases s2 /\
  SimulateV2.ACTIVE_CASES_SERIES s3 = Exercise2.active_cases s2 /\
  SimulateV2.CUMULATIVE_RECOVERIES_SERIES s3 = Exercise2.cumulative_recoveries s2 /\
  SimulateV2.CUMULATIVE_DEATHS_SERIES s3 = Exercise2.cumulative_deaths s2 /\
  SimulateV2.NEW_CASES_SERIES s3 = Exercise2.daily_new_cases s2 /\
  SimulateV2.NEW_ACTIVE_CASES_SERIES s3 = Exercise2.daily_new_active_cases s2 /\
  SimulateV2.NEW_RECOVERIES_SERIES s3 = Exercise2.daily_new_recoveries s2 /\
  SimulateV2.NEW_DEATHS_SERIES s3 = Exercise2.daily_new_deaths s2.

(** A phase evaluation that leaves the people, the population, the random
    source, the daily contacts and the transmission probability as they
    are (a run with a single phase). *)
Definition single_phase
    (phase_evaluation : Z -> SimulateV2.world person Exercise3d.env
                        -> result (SimulateV2.world person Exercise3d.env))
  : Prop :=
  forall day w w',
    phase_evaluation day w = Ok w' ->
    SimulateV2.PEOPLE w' = SimulateV2.PEOPLE w /\
    SimulateV2.DAILY_POPULATION w' = SimulateV2.DAILY_POPULATION w /\
    SimulateV2.random_state w' = SimulateV2.random_state w /\
    SimulateV2.extern w' = SimulateV2.extern w.

(** No state that elapses leads into 'infected': a person becomes infected
    through a contact only. *)
Definition infected_by_contact_only (tbl : health -> health_state) : Prop :=
  forall s, 0 < days_at_state (tbl s) -> next_state (tbl s) <> Some infected.

(** Every state that can be infected has the entry of 'well': death rate
    0.0 and next state 'infected'. *)
Definition susceptible_like_well (tbl : health -> health_state) : Prop :=
  forall s, can_be_infected (tbl s) = true ->
    death_rate (tbl s) = Some 0%Q /\ next_state (tbl s) = Some infected.

End Refinement.

(** * Proofs *)

(** ** The outcome monad and the list primitives *)

Lemma bind_Ok {A B : Type} (m : result A) (k : A -> result B) (b : B) :
  bind m k = Ok b -> exists a, m = Ok a /\ k a = Ok b.
Proof. destruct m; simpl; intros H; try discriminate. eauto. Qed.

Ltac inv_bind H :=
  let a := fresh "a" in
  let Ha := fresh "Ha" in
  apply bind_Ok in H as (a & Ha & H).

Lemma py_index_nonneg {A : Type} (l : list A) (i : Z) (k : nat) :
  0 <= i -> py_index l i = Ok k -> k = Z.to_nat i /\ (k < length l)%nat.
Proof.
  unfold py_index. intros Hi H.
  destruct (0 <=? i) eqn:E1; [|lia].
  destruct (i <? Z.of_nat (length l)) eqn:E2; simpl in H.
  - inversion H; subst. lia.
  - destruct (- Z.of_nat (length l) <=? i) eqn:E3;
      destruct (i <? 0) eqn:E4; simpl in H; try discriminate; lia.
Qed.

Lemma py_index_in_range {A : Type} (l : list A) (i : Z) :
  0 <= i < Z.of_nat (length l) -> py_index l i = Ok (Z.to_nat i).
Proof.
  intros Hi. unfold py_index.
  destruct (0 <=? i) eqn:E1; [|lia].
  destruct (i <? Z.of_nat (length l)) eqn:E2; [reflexivity|lia].
Qed.

Lemma py_get_nonneg {A : Type} (l : list A) (i : Z) (a : A) :
  0 <= i -> py_get l i = Ok a -> l !! Z.to_nat i = Some a.
Proof.
  unfold py_get. intros Hi H. inv_bind H.
  apply py_index_nonneg in Ha as [-> _]; [|assumption].
  destruct (l !! Z.to_nat i); [congruence|discriminate].
Qed.

Lemma py_get_in_range {A : Type} (l : list A) (i : Z) :
  0 <= i < Z.of_nat (length l) -> exists a, py_get l i = Ok a /\ l !! Z.to_nat i = Some a.
Proof.
  intros Hi. unfold py_get. rewrite py_index_in_range by assumption. simpl.
  destruct (l !! Z.to_nat i) as [a|] eqn:E; [eauto|].
  apply lookup_ge_None in E. lia.
Qed.

Lemma lookup_snoc_last {A : Type} (l : list A) (x : A) (n : nat) :
  length l = n -> (l ++ [x]) !! n = Some x.
Proof. intros <-. apply list_lookup_middle. reflexivity. Qed.

Lemma lookup_snoc_old {A : Type} (l : list A) (x : A) (d n : nat) :
  length l = n -> (d < n)%nat -> (l ++ [x]) !! d = l !! d.
Proof. intros <- H. apply lookup_app_l. assumption. Qed.

Lemma lookup_of_length {A : Type} (l : list A) (d n : nat) :
  length l = n -> (d < n)%nat -> exists a, l !! d = Some a.
Proof. intros <- H. apply lookup_lt_is_Some_2 in H. destruct H; eauto. Qed.

(** ** [exercise_2.py]: the bookkeeping of the series *)

Lemma E2_append_stats_inv (n : nat) w s s' :
  E2Props.series_inv s n ->
  Exercise2.append_stats (Z.of_nat n) w s = Ok s' ->
  E2Props.series_inv s' (S n).
Proof.
  intros (HL & HC & HR) H.
  destruct HL as (L1 & L2 & L3 & L4 & L5 & L6 & L7 & L8).
  unfold Exercise2.append_stats in H.
  inv_bind H. rename a into cc, Ha into Hcc.
  inv_bind H. rename a into ac, Ha into Hac.
  inv_bind H. rename a into ac1, Ha into Hac1.
  inv_bind H. rename a into cr, Ha into Hcr.
  inv_bind H. rename a into cd, Ha into Hcd.
  inv_bind H. rename a into cc1, Ha into Hcc1.
  inversion H; subst s'; clear H.
  apply py_get_nonneg in Hcc, Hac, Hcr, Hcd; try lia.
  rewrite Nat2Z.id in Hcc, Hac, Hcr, Hcd.
  split; [|split].
  - unfold E2Props.lengths; simpl. rewrite !length_app; simpl. lia.
  - intros d Hd. destruct (decide (d = S n)) as [->|Hne].
    + unfold E2Props.day_conserved; simpl.
      destruct (HC n (Nat.le_refl _)) as (c & a & r & x & E1 & E2 & E3 & E4 & E5).
      rewrite E1 in Hcc; rewrite E2 in Hac; rewrite E3 in Hcr; rewrite E4 in Hcd.
      inversion Hcc; inversion Hac; inversion Hcr; inversion Hcd; subst.
      do 4 eexists. rewrite !lookup_snoc_last by assumption.
      repeat split; try reflexivity. lia.
    + destruct (HC d ltac:(lia)) as (c & a & r & x & E1 & E2 & E3 & E4 & E5).
      exists c, a, r, x. simpl.
      rewrite !(lookup_snoc_old _ _ d (S n)) by (assumption || lia).
      repeat split; assumption.
  - intros d Hd. destruct (decide (d = n)) as [->|Hne].
    + unfold E2Props.day_recurrence; simpl.
      rewrite !(lookup_snoc_old _ _ n (S n)) by (assumption || lia).
      rewrite !lookup_snoc_last by assumption.
      rewrite Hcc, Hcr, Hcd.
      do 9 eexists. repeat split; reflexivity.
    + destruct (HR d ltac:(lia))
        as (c0 & c1 & r0 & r1 & x0 & x1 & nc & nr & nd & E).
      exists c0, c1, r0, r1, x0, x1, nc, nr, nd. simpl.
      rewrite !(lookup_snoc_old _ _ d (S n)) by (assumption || lia).
      rewrite !(lookup_snoc_old _ _ (S d) (S n)) by (assumption || lia).
      exact E.
Qed.

Lemma E2_initial_inv cfg : E2Props.series_inv (Exercise2.initial_stats cfg) 0.
Proof.
  split; [|split].
  - repeat split.
  - intros d Hd. assert (d = 0%nat) as -> by lia.
    exists (Exercise2.INITIAL_INFECTION cfg), (Exercise2.INITIAL_INFECTION cfg), 0, 0.
    simpl. repeat split. lia.
  - intros d Hd. lia.
Qed.

Lemma E2_day_loop_inv cfg (n m : nat) ws ws' :
  E2Props.series_inv (snd ws) m ->
  Exercise2.day_loop cfg n (Z.of_nat m) ws = Ok ws' ->
  E2Props.series_inv (snd ws') (m + n).
Proof.
  revert m ws. induction n as [|n IH]; intros m ws Hinv H; simpl in H.
  - inversion H; subst. rewrite Nat.add_0_r. assumption.
  - inv_bind H. rename a into ws1, Ha into Hday.
    unfold Exercise2.one_day in Hday.
    inv_bind Hday. inv_bind Hday. inv_bind Hday.
    inversion Hday; subst ws1; clear Hday.
    replace (Z.of_nat m + 1) with (Z.of_nat (S m)) in H by lia.
    apply IH in H.
    + replace (m + S n)%nat with (S m + n)%nat by lia. exact H.
    + simpl. eapply E2_append_stats_inv; eassumption.
Qed.

Lemma E2_run_inv cfg g w s :
  Exercise2.run cfg g = Ok (w, s) ->
  E2Props.series_inv s (range_len (Exercise2.SIMULATION_DAYS cfg)).
Proof.
  unfold Exercise2.run. intros H. inv_bind H.
  change 0 with (Z.of_nat 0) in H.
  apply E2_day_loop_inv in H; [exact H|]. apply E2_initial_inv.
Qed.

(** ** [exercise_2.py]: the script runs to its end *)

Lemma randint_Ok (a b : Z) (g : rng) :
  a <= b ->
  exists j, randint a b g = Ok (j, rng_next g) /\ a <= j <= b.
Proof.
  intros Hab. unfold randint.
  destruct (b <? a) eqn:E; [lia|].
  eexists; split; [reflexivity|].
  pose proof (Z.mod_pos_bound (Z.of_N (tape g (pos g))) (b - a + 1)). lia.
Qed.

Lemma randint_inv (a b : Z) (g : rng) (r : Z * rng) :
  randint a b g = Ok r -> a <= fst r <= b /\ snd r = rng_next g.
Proof.
  unfold randint. destruct (b <? a) eqn:E; [discriminate|].
  intros H; inversion H; subst; simpl. split; [|reflexivity].
  pose proof (Z.mod_pos_bound (Z.of_N (tape g (pos g))) (b - a + 1)). lia.
Qed.

Lemma person_eqb_refl (p : person) : person_eqb p p = true.
Proof.
  unfold person_eqb. rewrite !Z.eqb_refl. destruct (state p); reflexivity.
Qed.

Lemma py_remove_found {A : Type} (eqb : A -> A -> bool) (x : A) (l : list A) (i : nat) :
  (forall y, eqb y y = true) -> l !! i = Some x ->
  exists l', py_remove eqb x l = Ok l' /\ length l = S (length l').
Proof.
  intros Hrefl. revert i. induction l as [|y l IH]; intros i Hi.
  - destruct i; discriminate.
  - simpl. destruct (eqb y x) eqn:E.
    + eauto.
    + destruct i as [|i]; simpl in Hi.
      * inversion Hi; subst. rewrite Hrefl in E. discriminate.
      * destruct (IH _ Hi) as (l' & -> & Hl). simpl. eexists; split; [reflexivity|].
        simpl. lia.
Qed.

Lemma E2_infect_initial_total cfg (n : nat) (l : list person) (g : rng) :
  (n = 0%nat \/ 1 <= Exercise2.POPULATION cfg) ->
  length l = range_len (Exercise2.POPULATION cfg) ->
  exists l' g', Exercise2.infect_initial cfg n l g = Ok (l', g') /\
                length l' = length l.
Proof.
  revert l g. induction n as [|n IH]; intros l g Hn Hl.
  - simpl. eauto.
  - destruct Hn as [Hn|Hn]; [discriminate|].
    simpl.
    destruct (randint_Ok 0 (Exercise2.POPULATION cfg - 1) g) as (j & -> & Hj); [lia|].
    simpl.
    assert (0 <= j < Z.of_nat (length l)) as Hr.
    { rewrite Hl. unfold range_len. lia. }
    rewrite (py_index_in_range l j Hr). simpl.
    destruct (py_get_in_range l j Hr) as (p & -> & _). simpl.
    destruct (IH (<[Z.to_nat j := set_state p contagious]> l) (rng_next g))
      as (l' & g' & -> & Hl').
    + right; assumption.
    + rewrite length_insert. assumption.
    + exists l', g'. split; [reflexivity|]. rewrite Hl'. apply length_insert.
Qed.

Lemma E2_health_step_total cfg (i : nat) (p : person) (w : Exercise2.sim) :
  E2Props.table_ok (Exercise2.health_table cfg) ->
  E2Props.pop_inv w ->
  Exercise2.people w !! i = Some p ->
  exists w', Exercise2.health_step cfg i p w = Ok w' /\ E2Props.pop_inv w'.
Proof.
  intros Htbl Hpop Hi. unfold Exercise2.health_step.
  assert (i < length (Exercise2.people w))%nat as Hlt
    by (apply lookup_lt_is_Some_1; eauto).
  destruct ((0 <? days_at_state (Exercise2.health_table cfg (state p)))
            && (days_at_state (Exercise2.health_table cfg (state p))
                <? days (set_days p (days p + 1)))) eqn:Hgo.
  2:{ eexists; split; [reflexivity|].
      unfold E2Props.pop_inv in *; simpl. rewrite length_insert. assumption. }
  apply andb_prop in Hgo as [Hpos _]. apply Z.ltb_lt in Hpos.
  destruct (Htbl _ Hpos) as [[rate Hrate] [ns Hns]].
  rewrite Hrate, Hns. simpl.
  assert (forall w2 : Exercise2.sim,
             E2Props.pop_inv w2 ->
             E2Props.pop_inv
               (if health_eqb ns immune
                then Exercise2.count_recovery
                       (Exercise2.set_people w2
                          (<[i := {| id := id p; state := ns; days := 1 |}]>
                             (Exercise2.people w2)))
                else Exercise2.set_people w2
                       (<[i := {| id := id p; state := ns; days := 1 |}]>
                          (Exercise2.people w2)))) as Hadv.
  { intros w2 H2. unfold E2Props.pop_inv in *.
    destruct (health_eqb ns immune); simpl; rewrite length_insert; assumption. }
  destruct (Qltb 0 rate).
  - destruct (Qltb _ rate).
    + destruct (py_remove_found person_eqb (set_days p (days p + 1))
                  (<[i := set_days p (days p + 1)]> (Exercise2.people w)) i)
        as (l' & Hrem & Hlen).
      * apply person_eqb_refl.
      * apply list_lookup_insert_eq. assumption.
      * simpl. rewrite Hrem. simpl. eexists; split; [reflexivity|].
        unfold E2Props.pop_inv in *; simpl.
        rewrite length_insert in Hlen. lia.
    + eexists; split; [reflexivity|]. apply Hadv.
      unfold E2Props.pop_inv in *; simpl. rewrite length_insert. assumption.
  - eexists; split; [reflexivity|]. apply Hadv.
    unfold E2Props.pop_inv in *; simpl. rewrite length_insert. assumption.
Qed.

Lemma E2_health_loop_total cfg (n : nat) (w : Exercise2.sim) :
  E2Props.table_ok (Exercise2.health_table cfg) ->
  E2Props.pop_inv w ->
  exists w', Exercise2.health_loop cfg n w = Ok w' /\ E2Props.pop_inv w'.
Proof.
  intros Htbl. revert w. induction n as [|n IH]; intros w Hpop; simpl.
  - eauto.
  - destruct (Exercise2.people w !! n) as [p|] eqn:Hp; [|eauto].
    destruct (E2_health_step_total cfg n p w Htbl Hpop Hp) as (w1 & -> & H1).
    simpl. apply IH. assumption.
Qed.

Lemma E2_sample_Ok (w : Exercise2.sim) :
  E2Props.pop_inv w -> (0 < length (Exercise2.people w))%nat ->
  exists j c,
    randint 0 (Exercise2.current_population w - 1) (Exercise2.gen w)
      = Ok (j, rng_next (Exercise2.gen w)) /\
    0 <= j < Z.of_nat (length (Exercise2.people w)) /\
    py_index (Exercise2.people w) j = Ok (Z.to_nat j) /\
    py_get (Exercise2.people w) j = Ok c /\
    Exercise2.people w !! Z.to_nat j = Some c.
Proof.
  intros Hpop Hlen. unfold E2Props.pop_inv in Hpop.
  destruct (randint_Ok 0 (Exercise2.current_population w - 1) (Exercise2.gen w))
    as (j & Hj & Hr); [lia|].
  assert (0 <= j < Z.of_nat (length (Exercise2.people w))) as Hin by lia.
  destruct (py_get_in_range (Exercise2.people w) j Hin) as (c & Hc & Hc').
  exists j, c. repeat split; try assumption; try lia.
  apply py_index_in_range; assumption.
Qed.

Lemma E2_susceptible_contacts_total cfg (k i : nat) (w : Exercise2.sim) :
  E2Props.pop_inv w -> (i < length (Exercise2.people w))%nat ->
  exists w', Exercise2.susceptible_contacts cfg k i w = Ok w' /\
             E2Props.pop_inv w' /\
             length (Exercise2.people w') = length (Exercise2.people w).
Proof.
  revert w. induction k as [|k IH]; intros w Hpop Hi; simpl.
  - eauto.
  - destruct (E2_sample_Ok w Hpop ltac:(lia)) as (j & c & Hr & _ & _ & Hc & _).
    rewrite Hr; simpl. rewrite Hc; simpl.
    destruct (health_eqb (state c) contagious).
    + destruct (Qltb _ _).
      * destruct (lookup_lt_is_Some_2 (Exercise2.people w) i Hi) as [p Hp].
        simpl. rewrite Hp. eexists; split; [reflexivity|].
        unfold E2Props.pop_inv in *; simpl. rewrite length_insert. auto.
      * apply (IH (Exercise2.set_gen (Exercise2.set_gen w _) _)); assumption.
    + apply (IH (Exercise2.set_gen w _)); assumption.
Qed.

Lemma E2_contagious_contacts_total cfg (k : nat) (w : Exercise2.sim) :
  E2Props.pop_inv w -> (0 < length (Exercise2.people w))%nat ->
  exists w', Exercise2.contagious_contacts cfg k w = Ok w' /\
             E2Props.pop_inv w' /\
             length (Exercise2.people w') = length (Exercise2.people w).
Proof.
  revert w. induction k as [|k IH]; intros w Hpop Hlen; simpl.
  - eauto.
  - destruct (E2_sample_Ok w Hpop Hlen) as (j & c & Hr & _ & Hj & Hc & _).
    rewrite Hr; simpl. rewrite Hj; simpl. rewrite Hc; simpl.
    destruct (can_be_infected _).
    + destruct (Qltb _ _).
      * match goal with
        | |- exists w', Exercise2.contagious_contacts cfg k ?w1 = _ /\ _ =>
            destruct (IH w1) as (w' & Hw' & Hp' & Hl')
        end.
        -- unfold E2Props.pop_inv in *; simpl. rewrite length_insert. assumption.
        -- simpl. rewrite length_insert. assumption.
        -- exists w'. repeat split; try assumption.
           rewrite Hl'. simpl. apply length_insert.
      * apply (IH (Exercise2.set_gen (Exercise2.set_gen w _) _)); assumption.
    + apply (IH (Exercise2.set_gen w _)); assumption.
Qed.

Lemma E2_contact_step_total cfg (i : nat) (p : person) (w : Exercise2.sim) :
  E2Props.pop_inv w -> (i < length (Exercise2.people w))%nat ->
  exists w', Exercise2.contact_step cfg i p w = Ok w' /\
             E2Props.pop_inv w' /\
             length (Exercise2.people w') = length (Exercise2.people w).
Proof.
  intros Hpop Hi. unfold Exercise2.contact_step.
  destruct (can_be_infected _).
  - apply E2_susceptible_contacts_total; assumption.
  - destruct (health_eqb _ _).
    + apply E2_contagious_contacts_total; [assumption|lia].
    + eauto.
Qed.

Lemma E2_contact_loop_total cfg (n i : nat) (w : Exercise2.sim) :
  E2Props.pop_inv w ->
  exists w', Exercise2.contact_loop cfg n i w = Ok w' /\
             E2Props.pop_inv w' /\
             length (Exercise2.people w') = length (Exercise2.people w).
Proof.
  revert i w. induction n as [|n IH]; intros i w Hpop; simpl.
  - eauto.
  - destruct (Exercise2.people w !! i) as [p|] eqn:Hp; [|eauto].
    assert (i < length (Exercise2.people w))%nat as Hi
      by (apply lookup_lt_is_Some_1; eauto).
    destruct (E2_contact_step_total cfg i p w Hpop Hi) as (w1 & -> & H1 & L1).
    simpl. destruct (IH (S i) w1 H1) as (w' & -> & H' & L').
    exists w'. repeat split; try assumption. congruence.
Qed.

Lemma E2_append_stats_total (n : nat) w s :
  E2Props.lengths s (S n) ->
  exists s', Exercise2.append_stats (Z.of_nat n) w s = Ok s'.
Proof.
  intros (L1 & L2 & L3 & L4 & L5 & L6 & L7 & L8).
  unfold Exercise2.append_stats.
  destruct (py_get_in_range (Exercise2.cumulative_cases s) (Z.of_nat n))
    as (cc & -> & _); [lia|]. simpl.
  destruct (py_get_in_range (Exercise2.active_cases s) (Z.of_nat n))
    as (ac & -> & _); [lia|]. simpl.
  match goal with
  | |- context [py_get (?l ++ [?x]) (Z.of_nat n + 1)] =>
      destruct (py_get_in_range (l ++ [x]) (Z.of_nat n + 1)) as (ac1 & -> & _);
        [rewrite length_app; simpl; lia|]
  end. simpl.
  destruct (py_get_in_range (Exercise2.cumulative_recoveries s) (Z.of_nat n))
    as (cr & -> & _); [lia|]. simpl.
  destruct (py_get_in_range (Exercise2.cumulative_deaths s) (Z.of_nat n))
    as (cd & -> & _); [lia|]. simpl.
  destruct (Exercise2.maximum_daily_new_cases s <? Exercise2.new_cases w).
  - match goal with
    | |- context [py_get (?l ++ [?x]) (Z.of_nat n + 1)] =>
        destruct (py_get_in_range (l ++ [x]) (Z.of_nat n + 1)) as (cc1 & -> & _);
          [rewrite length_app; simpl; lia|]
    end. simpl. eauto.
  - simpl. eauto.
Qed.

Lemma E2_day_loop_total cfg (n m : nat) w s :
  E2Props.table_ok (Exercise2.health_table cfg) ->
  E2Props.pop_inv w -> E2Props.series_inv s m ->
  exists ws', Exercise2.day_loop cfg n (Z.of_nat m) (w, s) = Ok ws'.
Proof.
  intros Htbl. revert m w s. induction n as [|n IH]; intros m w s Hpop Hinv; simpl.
  - eauto.
  - unfold Exercise2.one_day. simpl.
    destruct (E2_health_loop_total cfg (length (Exercise2.people w))
                (Exercise2.reset_counters w) Htbl Hpop) as (w1 & -> & H1).
    simpl.
    destruct (E2_contact_loop_total cfg (length (Exercise2.people w1)) 0 w1 H1)
      as (w2 & -> & H2 & _).
    simpl.
    destruct (E2_append_stats_total m w2 s (proj1 Hinv)) as (s' & Hs').
    rewrite Hs'. simpl.
    replace (Z.of_nat m + 1) with (Z.of_nat (S m)) by lia.
    apply IH; [assumption|].
    eapply E2_append_stats_inv; eassumption.
Qed.

Lemma E2_run_total cfg (g : rng) :
  E2Props.table_ok (Exercise2.health_table cfg) ->
  1 <= Exercise2.POPULATION cfg ->
  exists w s, Exercise2.run cfg g = Ok (w, s).
Proof.
  intros Htbl Hcfg. unfold Exercise2.run.
  destruct (E2_infect_initial_total cfg
              (range_len (Exercise2.INITIAL_INFECTION cfg))
              (Exercise2.initial_people cfg) g) as (l & g' & -> & Hl).
  - right; assumption.
  - unfold Exercise2.initial_people. rewrite length_map, length_seq. reflexivity.
  - simpl. change 0 with (Z.of_nat 0).
    match goal with
    | |- exists w s, Exercise2.day_loop cfg ?n _ (?w0, ?s0) = _ =>
        destruct (E2_day_loop_total cfg n 0 w0 s0) as ([w s] & H)
    end.
    + assumption.
    + unfold E2Props.pop_inv; simpl. rewrite Hl.
      unfold Exercise2.initial_people. rewrite length_map, length_seq.
      unfold range_len. lia.
    + apply E2_initial_inv.
    + eauto.
Qed.

(** ** [simulate_v2.py]: what a run does to the series *)

Section V2Rule.
Import SimulateV2.
Context {P E : Type}.
Implicit Types ss : sim_state P E.

Lemma V2_seed_infection_frame (fuel : nat) ss ss' :
  seed_infection fuel ss = Ok ss' ->
  SERIES ss' = SERIES ss /\ SIMULATION_DAYS ss' = SIMULATION_DAYS ss /\
  POPULATION ss' = POPULATION ss /\ INITIAL_INFECTION ss' = INITIAL_INFECTION ss /\
  calls ss' = calls ss.
Proof.
  revert ss. induction fuel as [|fuel IH]; intros ss H; simpl in H.
  - destruct (Qltb _ _); [discriminate|]. inversion H; subst. repeat split.
  - destruct (Qltb _ _).
    + do 4 inv_bind H. apply IH in H. simpl in H. exact H.
    + inversion H; subst. repeat split.
Qed.

Lemma V2_append_seed_lengths (c : counters) :
  V2Props.lengths (append_seed c empty_series) 1.
Proof. repeat split. Qed.

Lemma V2_append_day_lengths (n : nat) (c : counters) (s s' : series) :
  V2Props.lengths s (S n) -> append_day (Z.of_nat n) c s = Ok s' ->
  V2Props.lengths s' (S (S n)).
Proof.
  intros HL H. unfold append_day in H. repeat inv_bind H.
  inversion H; subst s'; clear H.
  unfold V2Props.lengths in *; simpl. rewrite !length_app; simpl.
  intuition lia.
Qed.

Variable Inv : nat -> series -> Prop.
Hypothesis Inv_seed : forall c, Inv 0 (append_seed c empty_series).
Hypothesis Inv_day :
  forall n c s s', V2Props.lengths s (S n) -> Inv n s ->
    append_day (Z.of_nat n) c s = Ok s' -> Inv (S n) s'.

Lemma V2_day_loop_rule (fuel n k : nat) ss ss' :
  V2Props.lengths (SERIES ss) (S k) -> Inv k (SERIES ss) ->
  day_loop fuel n (Z.of_nat k) ss = Ok ss' ->
  Inv (k + n) (SERIES ss') /\ V2Props.lengths (SERIES ss') (S (k + n)) /\
  SIMULATION_DAYS ss' = SIMULATION_DAYS ss.
Proof.
  revert k ss. induction n as [|n IH]; intros k ss HL HI H; simpl in H.
  - inversion H; subst. rewrite Nat.add_0_r. auto.
  - inv_bind H. rename a into ss1, Ha into Hday.
    destruct (Z.of_nat k =? -1) eqn:Hk; [apply Z.eqb_eq in Hk; lia|].
    unfold simulate_day in Hday. repeat inv_bind Hday.
    inversion Hday; subst ss1; clear Hday.
    replace (Z.of_nat k + 1) with (Z.of_nat (S k)) in H by lia.
    simpl in *.
    apply IH in H.
    + replace (k + S n)%nat with (S k + n)%nat by lia. exact H.
    + simpl. eapply V2_append_day_lengths; eassumption.
    + simpl. eapply Inv_day; eassumption.
Qed.

Lemma V2_run_rule (fuel : nat) ss0 ss :
  SERIES ss0 = empty_series -> 0 <= SIMULATION_DAYS ss0 ->
  run_simulation fuel ss0 = Ok ss ->
  Inv (Z.to_nat (SIMULATION_DAYS ss0)) (SERIES ss) /\
  V2Props.lengths (SERIES ss) (S (Z.to_nat (SIMULATION_DAYS ss0))) /\
  SIMULATION_DAYS ss = SIMULATION_DAYS ss0.
Proof.
  intros Hs Hd H. unfold run_simulation in H. inv_bind H.
  replace (range_len (SIMULATION_DAYS ss0 - -1))
    with (S (Z.to_nat (SIMULATION_DAYS ss0))) in H by (unfold range_len; lia).
  simpl in H. inv_bind H. rename a0 into ss1, Ha0 into Hseed.
  inv_bind Hseed. rename a0 into ss2, Ha0 into Hseed'.
  inversion Hseed; subst ss1; clear Hseed.
  apply V2_seed_infection_frame in Hseed' as (E1 & E2 & _). simpl in E1, E2.
  change (-1 + 1) with (Z.of_nat 0) in H.
  apply V2_day_loop_rule in H; simpl in *.
  - rewrite E2 in H. exact H.
  - rewrite E1, Hs. apply V2_append_seed_lengths.
  - rewrite E1, Hs. apply Inv_seed.
Qed.

End V2Rule.

Ltac lookup_facts :=
  repeat match goal with
         | H : py_get _ (Z.of_nat _) = Ok _ |- _ =>
             apply py_get_nonneg in H; [rewrite Nat2Z.id in H | lia]
         end.

Lemma V2_conservation_seed (c : SimulateV2.counters) :
  V2Props.conservation (SimulateV2.append_seed c SimulateV2.empty_series) 0.
Proof.
  split.
  - intros d Hd. assert (d = 0%nat) as -> by lia.
    unfold V2Props.day_conserved; simpl.
    do 4 eexists. repeat split; reflexivity.
  - intros d Hd. lia.
Qed.

Lemma V2_conservation_day (n : nat) (c : SimulateV2.counters)
    (s s' : SimulateV2.series) :
  V2Props.lengths s (S n) -> V2Props.conservation s n ->
  SimulateV2.append_day (Z.of_nat n) c s = Ok s' ->
  V2Props.conservation s' (S n).
Proof.
  intros HL [HC HR] H.
  destruct HL as (L1 & L2 & L3 & L4 & L5 & L6 & L7 & L8 & L9 & L10 & L11
                  & L12 & L13 & L14 & L15 & L16).
  unfold SimulateV2.append_day in H. repeat inv_bind H.
  inversion H; subst s'; clear H. lookup_facts.
  split.
  - intros d Hd. destruct (decide (d = S n)) as [->|Hne].
    + unfold V2Props.day_conserved; simpl.
      destruct (HC n (Nat.le_refl _)) as (c0 & a' & r & x & E1 & E2 & E3 & E4 & E5).
      rewrite !lookup_snoc_last by assumption.
      do 4 eexists. repeat split; try reflexivity.
      repeat match goal with
             | H1 : ?l !! n = Some _, H2 : ?l !! n = Some _ |- _ =>
                 rewrite H1 in H2; inversion H2; clear H2
             end.
      subst. lia.
    + destruct (HC d ltac:(lia)) as (c0 & a' & r & x & E1 & E2 & E3 & E4 & E5).
      exists c0, a', r, x. simpl.
      rewrite !(lookup_snoc_old _ _ d (S n)) by (assumption || lia).
      repeat split; assumption.
  - intros d Hd. destruct (decide (d = n)) as [->|Hne].
    + unfold V2Props.day_recurrence; simpl.
      rewrite !(lookup_snoc_old _ _ n (S n)) by (assumption || lia).
      rewrite !lookup_snoc_last by assumption.
      do 9 eexists. repeat split; try eassumption; reflexivity.
    + destruct (HR d ltac:(lia))
        as (c0 & c1 & r0 & r1 & x0 & x1 & nc & nr & nd & HE).
      exists c0, c1, r0, r1, x0, x1, nc, nr, nd. simpl.
      rewrite !(lookup_snoc_old _ _ d (S n)) by (assumption || lia).
      rewrite !(lookup_snoc_old _ _ (S d) (S n)) by (assumption || lia).
      exact HE.
Qed.

(** ** C1: conservation *)

(** C1.  On every day [d] from 0 through [SIMULATION_DAYS] the series have
    an entry and [active_cases[d] = cumulative_cases[d] -
    cumulative_recoveries[d] - cumulative_deaths[d]]; each cumulative entry
    of day [d + 1] is the entry of day [d] plus the delta recorded for day
    [d + 1].  First conjunct: every completed run of [exercise_2.py];
    second conjunct: every completed run of [run_simulation] of
    [simulate_v2.py] started on empty series, whatever the callbacks. *)
Theorem conservation_identity :
  (forall cfg g w s,
      Exercise2.run cfg g = Ok (w, s) ->
      (forall d, 0 <= d <= Exercise2.SIMULATION_DAYS cfg ->
                 E2Props.day_conserved s (Z.to_nat d)) /\
      (forall d, 0 <= d < Exercise2.SIMULATION_DAYS cfg ->
                 E2Props.day_recurrence s (Z.to_nat d)))
  /\
  (forall (P E : Type) (fuel : nat) (ss0 ss : SimulateV2.sim_state P E),
      SimulateV2.SERIES ss0 = SimulateV2.empty_series ->
      SimulateV2.run_simulation fuel ss0 = Ok ss ->
      (forall d, 0 <= d <= SimulateV2.SIMULATION_DAYS ss0 ->
                 V2Props.day_conserved (SimulateV2.SERIES ss) (Z.to_nat d)) /\
      (forall d, 0 <= d < SimulateV2.SIMULATION_DAYS ss0 ->
                 V2Props.day_recurrence (SimulateV2.SERIES ss) (Z.to_nat d))).
Proof.
  split.
  - intros cfg g w s H. apply E2_run_inv in H as (_ & HC & HR).
    unfold range_len in *. split; intros d Hd; [apply HC|apply HR]; lia.
  - intros P E fuel ss0 ss Hs H.
    destruct (Z_lt_le_dec (SimulateV2.SIMULATION_DAYS ss0) 0) as [Hneg|Hpos].
    + split; intros d Hd; lia.
    + destruct (V2_run_rule (fun n s => V2Props.conservation s n)
                  V2_conservation_seed V2_conservation_day fuel ss0 ss Hs Hpos H)
        as ((HC & HR) & _).
      split; intros d Hd; [apply HC|apply HR]; lia.
Qed.

Lemma conservation_identity_witness :
  (exists w s,
      Exercise2.run Scenario.small_config Scenario.sample_rng = Ok (w, s) /\
      E2Props.day_conserved s 8 /\ E2Props.day_recurrence s 7) /\
  (exists ss,
      SimulateV2.run_simulation 100 (Scenario.small_state (1 # 2)) = Ok ss /\
      V2Props.day_conserved (SimulateV2.SERIES ss) 8 /\
      V2Props.day_recurrence (SimulateV2.SERIES ss) 7).
Proof.
  split.
  - destruct (Exercise2.run Scenario.small_config Scenario.sample_rng)
      as [[w s]| |] eqn:Hrun; [|vm_compute in Hrun; discriminate ..].
    exists w, s. split; [reflexivity|].
    destruct (proj1 conservation_identity _ _ _ _ Hrun) as [HC HR].
    split; [apply (HC 8)|apply (HR 7)]; vm_compute; split; congruence.
  - destruct (SimulateV2.run_simulation 100 (Scenario.small_state (1 # 2)))
      as [ss| |] eqn:Hrun; [|vm_compute in Hrun; discriminate ..].
    exists ss. split; [reflexivity|].
    destruct (proj2 conservation_identity _ _ 100%nat
                (Scenario.small_state (1 # 2)) ss eq_refl Hrun) as [HC HR].
    split; [apply (HC 8)|apply (HR 7)]; vm_compute; split; congruence.
Defined.

(** ** C6: the days of the maxima *)

Lemma Qltb_lt (x y : Q) : Qltb x y = true <-> (x < y)%Q.
Proof.
  unfold Qltb. rewrite negb_true_iff. split.
  - intros H. apply Qnot_le_lt. intros Hle.
    apply Qle_bool_iff in Hle. congruence.
  - intros H. destruct (Qle_bool y x) eqn:E; [|reflexivity].
    apply Qle_bool_iff in E. exfalso. exact (Qlt_not_le _ _ H E).
Qed.

Lemma Qltb_ge (x y : Q) : Qltb x y = false <-> (y <= x)%Q.
Proof.
  unfold Qltb. rewrite negb_false_iff. apply Qle_bool_iff.
Qed.

Lemma V2_argmax_Z_first (x : Z) : V2Props.argmax_Z [x] 0.
Proof.
  split; [lia|]. exists x. split; [reflexivity|].
  intros [|d] y Hy; simpl in Hy; [|destruct d; discriminate].
  inversion Hy; subst. lia.
Qed.

Lemma V2_argmax_Q_first (x : Q) : V2Props.argmax_Q [x] 0.
Proof.
  split; [lia|]. exists x. split; [reflexivity|].
  intros [|d] y Hy; simpl in Hy; [|destruct d; discriminate].
  inversion Hy; subst. split; [apply Qle_refl|lia].
Qed.

Lemma V2_argmax_Z_step (l : list Z) (n : nat) (x : Z) (m m' : Z) :
  V2Props.argmax_Z l m -> length l = S n ->
  SimulateV2.new_max_Z (l ++ [x]) (Z.of_nat n) m = Ok m' ->
  V2Props.argmax_Z (l ++ [x]) m'.
Proof.
  intros (Hm & v & Hv & Hall) Hlen H.
  unfold SimulateV2.new_max_Z in H. inv_bind H. inv_bind H.
  rename a into x', Ha into Hx, a0 into y, Ha0 into Hy.
  apply py_get_nonneg in Hx, Hy; try lia.
  replace (Z.to_nat (Z.of_nat n + 1)) with (S n) in Hx by lia.
  rewrite (lookup_snoc_last l x (S n) Hlen) in Hx. inversion Hx; subst x'; clear Hx.
  assert (Z.to_nat m < length l)%nat as Hml by (apply lookup_lt_is_Some_1; eauto).
  rewrite lookup_app_l in Hy by assumption.
  rewrite Hv in Hy. inversion Hy; subst y; clear Hy.
  inversion H; subst m'; clear H.
  destruct (v <? x) eqn:Hlt.
  - apply Z.ltb_lt in Hlt. split; [lia|]. exists x. split.
    + replace (Z.to_nat (Z.of_nat n + 1)) with (S n) by lia.
      apply lookup_snoc_last. assumption.
    + intros d z Hz. destruct (decide (d < S n)%nat) as [Hd|Hd].
      * rewrite (lookup_snoc_old l x d (S n) Hlen Hd) in Hz.
        destruct (Hall d z Hz) as [Hle _]. lia.
      * assert (d = S n) as ->.
        { apply lookup_lt_Some in Hz. rewrite length_app in Hz. simpl in Hz. lia. }
        rewrite (lookup_snoc_last l x (S n) Hlen) in Hz. inversion Hz; subst. lia.
  - apply Z.ltb_ge in Hlt. split; [lia|]. exists v. split.
    + rewrite lookup_app_l by assumption. assumption.
    + intros d z Hz. destruct (decide (d < S n)%nat) as [Hd|Hd].
      * rewrite (lookup_snoc_old l x d (S n) Hlen Hd) in Hz. apply Hall. assumption.
      * assert (d = S n) as ->.
        { apply lookup_lt_Some in Hz. rewrite length_app in Hz. simpl in Hz. lia. }
        rewrite (lookup_snoc_last l x (S n) Hlen) in Hz. inversion Hz; subst. lia.
Qed.

Lemma V2_argmax_Q_step (l : list Q) (n : nat) (x : Q) (m m' : Z) :
  V2Props.argmax_Q l m -> length l = S n ->
  SimulateV2.new_max_Q (l ++ [x]) (Z.of_nat n) m = Ok m' ->
  V2Props.argmax_Q (l ++ [x]) m'.
Proof.
  intros (Hm & v & Hv & Hall) Hlen H.
  unfold SimulateV2.new_max_Q in H. inv_bind H. inv_bind H.
  rename a into x', Ha into Hx, a0 into y, Ha0 into Hy.
  apply py_get_nonneg in Hx, Hy; try lia.
  replace (Z.to_nat (Z.of_nat n + 1)) with (S n) in Hx by lia.
  rewrite (lookup_snoc_last l x (S n) Hlen) in Hx. inversion Hx; subst x'; clear Hx.
  assert (Z.to_nat m < length l)%nat as Hml by (apply lookup_lt_is_Some_1; eauto).
  rewrite lookup_app_l in Hy by assumption.
  rewrite Hv in Hy. inversion Hy; subst y; clear Hy.
  inversion H; subst m'; clear H.
  destruct (Qltb v x) eqn:Hlt.
  - apply Qltb_lt in Hlt. split; [lia|]. exists x. split.
    + replace (Z.to_nat (Z.of_nat n + 1)) with (S n) by lia.
      apply lookup_snoc_last. assumption.
    + intros d z Hz. destruct (decide (d < S n)%nat) as [Hd|Hd].
      * rewrite (lookup_snoc_old l x d (S n) Hlen Hd) in Hz.
        destruct (Hall d z Hz) as [Hle _].
        split; [apply Qlt_le_weak|intros _]; eapply Qle_lt_trans; eassumption.
      * assert (d = S n) as ->.
        { apply lookup_lt_Some in Hz. rewrite length_app in Hz. simpl in Hz. lia. }
        rewrite (lookup_snoc_last l x (S n) Hlen) in Hz. inversion Hz; subst.
        split; [apply Qle_refl|lia].
  - apply Qltb_ge in Hlt. split; [lia|]. exists v. split.
    + rewrite lookup_app_l by assumption. assumption.
    + intros d z Hz. destruct (decide (d < S n)%nat) as [Hd|Hd].
      * rewrite (lookup_snoc_old l x d (S n) Hlen Hd) in Hz. apply Hall. assumption.
      * assert (d = S n) as ->.
        { apply lookup_lt_Some in Hz. rewrite length_app in Hz. simpl in Hz. lia. }
        rewrite (lookup_snoc_last l x (S n) Hlen) in Hz. inversion Hz; subst.
        split; [assumption|lia].
Qed.

Lemma V2_maxima_seed (c : SimulateV2.counters) :
  V2Props.maxima (SimulateV2.append_seed c SimulateV2.empty_series).
Proof.
  unfold V2Props.maxima; simpl.
  split_and!; (apply V2_argmax_Z_first || apply V2_argmax_Q_first).
Qed.

Lemma V2_maxima_day (n : nat) (c : SimulateV2.counters)
    (s s' : SimulateV2.series) :
  V2Props.lengths s (S n) -> V2Props.maxima s ->
  SimulateV2.append_day (Z.of_nat n) c s = Ok s' ->
  V2Props.maxima s'.
Proof.
  intros HL (M1 & M2 & M3 & M4 & M5 & M6) H.
  destruct HL as (L1 & L2 & L3 & L4 & L5 & L6 & L7 & L8 & L9 & L10 & L11
                  & L12 & L13 & L14 & L15 & L16).
  unfold SimulateV2.append_day in H. repeat inv_bind H.
  inversion H; subst s'; clear H.
  unfold V2Props.maxima; simpl.
  split_and!;
    (eapply V2_argmax_Z_step || eapply V2_argmax_Q_step); eassumption.
Qed.

Lemma E2_best_day_step (l : list Z) (n : nat) (x v m : Z) :
  E2Props.best_day l v m -> length l = S n ->
  E2Props.best_day (l ++ [x])
    (if v <? x then x else v) (if v <? x then Z.of_nat n else m).
Proof.
  intros (Hm & Hv & Hall & Hat & Hzero) Hlen.
  assert (0 < v -> (Z.to_nat m < n)%nat) as Hmn.
  { intros Hpos. apply Hat in Hpos. apply lookup_lt_Some in Hpos. lia. }
  destruct (v <? x) eqn:Hlt.
  - apply Z.ltb_lt in Hlt. split_and!; try lia.
    + intros d y Hy. destruct (decide (S d < S n)%nat) as [Hd|Hd].
      * rewrite (lookup_snoc_old l x (S d) (S n) Hlen Hd) in Hy.
        destruct (Hall d y Hy) as [Hle _]. lia.
      * assert (S d = S n) as Hsd.
        { apply lookup_lt_Some in Hy. rewrite length_app in Hy. simpl in Hy. lia. }
        rewrite Hsd in Hy.
        rewrite (lookup_snoc_last l x (S n) Hlen) in Hy. inversion Hy; subst. lia.
    + intros _. rewrite Nat2Z.id. apply lookup_snoc_last. assumption.
  - apply Z.ltb_ge in Hlt. split_and!; try assumption.
    + intros d y Hy. destruct (decide (S d < S n)%nat) as [Hd|Hd].
      * rewrite (lookup_snoc_old l x (S d) (S n) Hlen Hd) in Hy.
        apply Hall. assumption.
      * assert (S d = S n) as Hsd.
        { apply lookup_lt_Some in Hy. rewrite length_app in Hy. simpl in Hy. lia. }
        rewrite Hsd in Hy.
        rewrite (lookup_snoc_last l x (S n) Hlen) in Hy. inversion Hy; subst y.
        split; [assumption|]. intros Hdm.
        destruct (decide (v = 0)) as [Hv0|Hv0]; [specialize (Hzero Hv0); lia|].
        specialize (Hmn ltac:(lia)). lia.
    + intros Hpos. specialize (Hmn Hpos).
      rewrite (lookup_snoc_old l x _ (S n) Hlen) by lia. auto.
Qed.

Lemma E2_append_stats_maxima (n : nat) w s s' :
  E2Props.lengths s (S n) -> E2Props.maxima s ->
  Exercise2.append_stats (Z.of_nat n) w s = Ok s' ->
  E2Props.maxima s'.
Proof.
  intros HL (MA & MN & MC) H.
  destruct HL as (L1 & L2 & L3 & L4 & L5 & L6 & L7 & L8).
  unfold Exercise2.append_stats in H.
  inv_bind H. rename a into cc, Ha into Hcc.
  inv_bind H. rename a into ac, Ha into Hac.
  inv_bind H. rename a into ac1, Ha into Hac1.
  inv_bind H. rename a into cr, Ha into Hcr.
  inv_bind H. rename a into cd, Ha into Hcd.
  inv_bind H. rename a into cc1, Ha into Hcc1.
  inversion H; subst s'; clear H.
  apply py_get_nonneg in Hac1; [|lia].
  replace (Z.to_nat (Z.of_nat n + 1)) with (S n) in Hac1 by lia.
  rewrite (lookup_snoc_last _ _ (S n) L2) in Hac1.
  inversion Hac1; subst ac1; clear Hac1.
  unfold E2Props.maxima; simpl. split_and!.
  - apply E2_best_day_step; assumption.
  - apply E2_best_day_step; assumption.
  - destruct (Exercise2.maximum_daily_new_cases s <? Exercise2.new_cases w)
      eqn:Hlt.
    + intros _. apply py_get_nonneg in Hcc1; [|lia].
      replace (Z.to_nat (Z.of_nat n + 1)) with (S n) in Hcc1 by lia.
      rewrite Nat2Z.id. exact Hcc1.
    + inversion Hcc1; subst cc1. intros Hpos.
      destruct MN as (_ & _ & _ & Hat & _).
      pose proof (Hat Hpos) as Hm. apply lookup_lt_Some in Hm.
      rewrite (lookup_snoc_old _ _ _ (S n) L1) by lia. auto.
Qed.

Lemma E2_initial_maxima cfg : E2Props.maxima (Exercise2.initial_stats cfg).
Proof.
  unfold E2Props.maxima, E2Props.best_day; simpl.
  split_and!; try lia; try (intros d x Hx; discriminate).
Qed.

Lemma E2_day_loop_maxima cfg (n m : nat) ws ws' :
  E2Props.series_inv (snd ws) m -> E2Props.maxima (snd ws) ->
  Exercise2.day_loop cfg n (Z.of_nat m) ws = Ok ws' ->
  E2Props.maxima (snd ws').
Proof.
  revert m ws. induction n as [|n IH]; intros m ws Hinv Hmax H; simpl in H.
  - inversion H; subst. assumption.
  - inv_bind H. rename a into ws1, Ha into Hday.
    unfold Exercise2.one_day in Hday.
    inv_bind Hday. inv_bind Hday. inv_bind Hday.
    inversion Hday; subst ws1; clear Hday.
    replace (Z.of_nat m + 1) with (Z.of_nat (S m)) in H by lia.
    apply IH in H; [exact H| |].
    + simpl. eapply E2_append_stats_inv; eassumption.
    + simpl. eapply E2_append_stats_maxima; [exact (proj1 Hinv)| |]; eassumption.
Qed.

(** C6, as the code has it.  After a completed run of [run_simulation] over
    at least day 0, each of the six recorded days [m] (new daily cases, new
    daily confirmed cases, active cases, active confirmed cases, active
    hospitalizations, active ICU) indexes an entry [series[m]] with
    [series[d] <= series[m]] for every day [d] of the series and
    [series[d] < series[m]] for every day [d < m]: the comparison is
    strict, the earliest day wins a tie.  [exercise_2.py] keeps, for active
    cases and daily new cases, a value that starts at 0 and the index of the
    day loop at which an appended entry last exceeded it, with the same
    strict comparison: the value bounds every appended entry (positions 1
    and up; the initial entry at position 0 takes no part), the entries
    appended before that day are below it, and once it is positive it is the
    entry at position [m + 1] of the list, not at position [m]. *)
Theorem running_maxima :
  (forall (P E : Type) (fuel : nat) (ss0 ss : SimulateV2.sim_state P E),
      SimulateV2.SERIES ss0 = SimulateV2.empty_series ->
      0 <= SimulateV2.SIMULATION_DAYS ss0 ->
      SimulateV2.run_simulation fuel ss0 = Ok ss ->
      V2Props.maxima (SimulateV2.SERIES ss))
  /\
  (forall cfg g w s,
      Exercise2.run cfg g = Ok (w, s) -> E2Props.maxima s).
Proof.
  split.
  - intros P E fuel ss0 ss Hs Hd H.
    destruct (V2_run_rule (fun _ s => V2Props.maxima s)
                V2_maxima_seed V2_maxima_day fuel ss0 ss Hs Hd H) as (HM & _).
    exact HM.
  - intros cfg g w s H. unfold Exercise2.run in H. inv_bind H.
    change 0 with (Z.of_nat 0) in H.
    apply E2_day_loop_maxima in H; [exact H| |].
    + apply E2_initial_inv.
    + apply E2_initial_maxima.
Qed.

Lemma running_maxima_witness :
  (exists ss,
      SimulateV2.run_simulation 100 (Scenario.small_state (1 # 2)) = Ok ss /\
      V2Props.maxima (SimulateV2.SERIES ss)) /\
  (exists w s,
      Exercise2.run Scenario.small_config Scenario.sample_rng = Ok (w, s) /\
      E2Props.maxima s).
Proof.
  split.
  - destruct (SimulateV2.run_simulation 100 (Scenario.small_state (1 # 2)))
      as [ss| |] eqn:Hrun; [|vm_compute in Hrun; discriminate ..].
    exists ss. split; [reflexivity|].
    apply (proj1 running_maxima _ _ 100%nat (Scenario.small_state (1 # 2)) ss
             eq_refl).
    + vm_compute. discriminate.
    + exact Hrun.
  - destruct (Exercise2.run Scenario.small_config Scenario.sample_rng)
      as [[w s]| |] eqn:Hrun; [|vm_compute in Hrun; discriminate ..].
    exists w, s. split; [reflexivity|].
    apply (proj2 running_maxima Scenario.small_config Scenario.sample_rng w s).
    exact Hrun.
Defined.

(** C6 as stated fails on [exercise_2.py].  In this run 'active cases' is
    [2; 3; 3; 2; ...] and the recorded day is 0: the entry at position 0 is
    2, below the entry 3 at position 1.  'daily new cases' is
    [0; 1; 0; 1; ...] with recorded day 0 as well. *)
Lemma running_maxima_counterexample :
  exists w s,
    Exercise2.run Scenario.small_config Scenario.sample_rng = Ok (w, s) /\
    Exercise2.maximum_active_cases_day s = 0 /\
    Exercise2.active_cases s !! 0%nat = Some 2 /\
    Exercise2.active_cases s !! 1%nat = Some 3 /\
    ~ V2Props.argmax_Z (Exercise2.active_cases s)
        (Exercise2.maximum_active_cases_day s) /\
    ~ V2Props.argmax_Z (Exercise2.daily_new_cases s)
        (Exercise2.maximum_new_cases_day s).
Proof.
  destruct (Exercise2.run Scenario.small_config Scenario.sample_rng)
    as [[w s]| |] eqn:Hrun; [|vm_compute in Hrun; discriminate ..].
  vm_compute in Hrun. inversion Hrun; subst w s; clear Hrun.
  do 2 eexists. split; [reflexivity|]. simpl.
  split_and!; try reflexivity.
  - intros (_ & v & Hv & H). simpl in Hv. inversion Hv; subst v.
    destruct (H 1%nat 3 eq_refl) as [Hle _]. lia.
  - intros (_ & v & Hv & H). simpl in Hv. inversion Hv; subst v.
    destruct (H 1%nat 1 eq_refl) as [Hle _]. lia.
Qed.

(** ** C10: the entries of 'new confirmed active cases' *)








(** In that run two people die on day 2 and one death is confirmed: the
    entry of 'new confirmed active cases' is -2, the first difference of
    'active confirmed cases' is -1. *)
Lemma new_confirmed_active_differs_example :
  exists ss nca ac1 ac2,
    SimulateV2.run_simulation 100 (Scenario.small_state (1 # 2)) = Ok ss /\
    SimulateV2.NEW_CONFIRMED_ACTIVE_CASES_SERIES (SimulateV2.SERIES ss) !! 2%nat
      = Some nca /\
    SimulateV2.ACTIVE_CONFIRMED_CASES_SERIES (SimulateV2.SERIES ss) !! 1%nat
      = Some ac1 /\
    SimulateV2.ACTIVE_CONFIRMED_CASES_SERIES (SimulateV2.SERIES ss) !! 2%nat
      = Some ac2 /\
    (nca == -2)%Q /\ (ac2 - ac1 == -1)%Q.
Proof.
  destruct (SimulateV2.run_simulation 100 (Scenario.small_state (1 # 2)))
    as [ss| |] eqn:Hrun; [|vm_compute in Hrun; discriminate ..].
  vm_compute in Hrun. inversion Hrun; subst ss; clear Hrun.
  do 4 eexists. split; [reflexivity|]. simpl.
  split_and!; try reflexivity.
Qed.

(** ** C2: the seeding loop *)

Section V2Seeding.
Import SimulateV2.
Context {P E : Type}.
Implicit Types ss : sim_state P E.

Lemma V2_seed_infection_unfold (fuel : nat) ss :
  seed_infection fuel ss =
    if Qltb (DAILY_CONFIRMED_CASES (today (WORLD ss))) (inject_Z (INITIAL_INFECTION ss))
    then match fuel with
         | O => Timeout
         | S fuel' => ss' <- V2Props.seed_body ss ;; seed_infection fuel' ss'
         end
    else Ok ss.
Proof.
  destruct fuel; simpl; [reflexivity|].
  destruct (Qltb _ _); [|reflexivity].
  unfold V2Props.seed_body.
  destruct (randint _ _ _) as [r| |]; simpl; try reflexivity.
  destruct (py_index _ _) as [i| |]; simpl; try reflexivity.
  destruct (py_get _ _) as [x| |]; simpl; try reflexivity.
  destruct (SET_INFECTED _ _ _ _) as [w| |]; reflexivity.
Qed.

Lemma V2_seed_body_frame ss ss' :
  V2Props.seed_body ss = Ok ss' ->
  INITIAL_INFECTION ss' = INITIAL_INFECTION ss.
Proof.
  unfold V2Props.seed_body. intros H. repeat inv_bind H.
  inversion H; subst. reflexivity.
Qed.

Lemma V2_guard_reached ss :
  Qltb (DAILY_CONFIRMED_CASES (today (WORLD ss))) (inject_Z (INITIAL_INFECTION ss))
    = false <-> V2Props.confirmed_reached ss.
Proof. apply Qltb_ge. Qed.

Lemma V2_seed_infection_stops (fuel : nat) ss ss' :
  seed_infection fuel ss = Ok ss' ->
  exists n, (n <= fuel)%nat /\ V2Props.seed_iter n ss = Ok ss' /\
            V2Props.confirmed_reached ss' /\
            forall m, (m < n)%nat ->
              exists ssm, V2Props.seed_iter m ss = Ok ssm /\
                          ~ V2Props.confirmed_reached ssm.
Proof.
  revert ss. induction fuel as [|fuel IH]; intros ss H;
    rewrite V2_seed_infection_unfold in H;
    destruct (Qltb _ _) eqn:Hg; try discriminate.
  - inversion H; subst ss'. exists 0%nat. split_and!; try reflexivity; [|lia].
    apply V2_guard_reached. assumption.
  - inv_bind H. rename a into ss1, Ha into Hbody.
    destruct (IH _ H) as (n & Hn & Hiter & Hreach & Hbefore).
    exists (S n). split_and!; try assumption; [lia|simpl; rewrite Hbody; exact Hiter|].
    intros [|m] Hm.
    + exists ss. split; [reflexivity|].
      intros Hr. apply V2_guard_reached in Hr. congruence.
    + destruct (Hbefore m ltac:(lia)) as (ssm & Hssm & Hnot).
      exists ssm. split; [simpl; rewrite Hbody; exact Hssm|exact Hnot].
  - inversion H; subst ss'. exists 0%nat. split_and!; try reflexivity; [lia| |lia].
    apply V2_guard_reached. assumption.
Qed.

Lemma V2_seed_infection_reaches (n fuel : nat) ss ss' :
  (n <= fuel)%nat -> V2Props.seed_iter n ss = Ok ss' ->
  V2Props.confirmed_reached ss' ->
  (forall m, (m < n)%nat ->
     exists ssm, V2Props.seed_iter m ss = Ok ssm /\ ~ V2Props.confirmed_reached ssm) ->
  seed_infection fuel ss = Ok ss'.
Proof.
  revert fuel ss. induction n as [|n IH]; intros fuel ss Hn Hiter Hreach Hbefore;
    rewrite V2_seed_infection_unfold.
  - simpl in Hiter. inversion Hiter; subst ss'.
    apply V2_guard_reached in Hreach. rewrite Hreach. reflexivity.
  - destruct (Hbefore 0%nat ltac:(lia)) as (ss0 & H0 & Hnot).
    simpl in H0. inversion H0; subst ss0.
    destruct (Qltb _ _) eqn:Hg; [|apply V2_guard_reached in Hg; contradiction].
    destruct fuel as [|fuel]; [lia|].
    simpl in Hiter. inv_bind Hiter. rename a into ss1, Ha into Hbody.
    rewrite Hbody. simpl. apply IH; try assumption; [lia|].
    intros m Hm. destruct (Hbefore (S m) ltac:(lia)) as (ssm & Hssm & Hnotm).
    simpl in Hssm. rewrite Hbody in Hssm. eauto.
Qed.

End V2Seeding.

Lemma scenario_seed_body table (p : Q) (ss : SimulateV2.sim_state person Exercise3d.env) :
  V2Props.scenario_ready table p ss ->
  exists ss',
    V2Props.seed_body ss = Ok ss' /\ V2Props.scenario_ready table p ss' /\
    SimulateV2.INITIAL_INFECTION ss' = SimulateV2.INITIAL_INFECTION ss /\
    SimulateV2.DAILY_CASES (SimulateV2.today (SimulateV2.WORLD ss'))
      = SimulateV2.DAILY_CASES (SimulateV2.today (SimulateV2.WORLD ss)) + 1.
Proof.
  intros (Hc & Hp & Hpop & Hlen & Hconf). unfold V2Props.seed_body.
  destruct (randint_Ok 0 (SimulateV2.POPULATION ss - 1)
              (SimulateV2.random_state (SimulateV2.WORLD ss)))
    as (j & Hj & Hr); [lia|].
  rewrite Hj; simpl.
  assert (0 <= j < Z.of_nat (length (SimulateV2.PEOPLE (SimulateV2.WORLD ss))))
    as Hin by lia.
  rewrite (py_index_in_range _ j Hin); simpl.
  destruct (py_get_in_range _ j Hin) as (x & Hx & Hx'). rewrite Hx; simpl.
  rewrite Hc; simpl. unfold Scenario.set_infected; simpl.
  rewrite Hx'. unfold Scenario.confirm; simpl. rewrite Hp; simpl.
  eexists; split; [reflexivity|].
  unfold V2Props.scenario_ready; simpl. rewrite length_insert.
  split_and!; try assumption; reflexivity.
Qed.

Lemma scenario_seed_iter table (p : Q) (n : nat)
    (ss : SimulateV2.sim_state person Exercise3d.env) :
  V2Props.scenario_ready table p ss ->
  exists ss',
    V2Props.seed_iter n ss = Ok ss' /\ V2Props.scenario_ready table p ss' /\
    SimulateV2.INITIAL_INFECTION ss' = SimulateV2.INITIAL_INFECTION ss /\
    SimulateV2.DAILY_CASES (SimulateV2.today (SimulateV2.WORLD ss'))
      = SimulateV2.DAILY_CASES (SimulateV2.today (SimulateV2.WORLD ss))
        + Z.of_nat n.
Proof.
  revert ss. induction n as [|n IH]; intros ss Hready.
  - exists ss. simpl. split_and!; try assumption; try reflexivity. lia.
  - destruct (scenario_seed_body table p ss Hready) as (ss1 & Hb & Hr1 & Hi1 & Hc1).
    destruct (IH ss1 Hr1) as (ss' & Hit & Hr' & Hi' & Hc').
    exists ss'. simpl. rewrite Hb. simpl.
    split_and!; try assumption; [congruence|lia].
Qed.

Lemma scenario_seeding_stops_at table (p : Q) (n fuel : nat)
    (ss : SimulateV2.sim_state person Exercise3d.env) :
  V2Props.scenario_ready table p ss ->
  SimulateV2.DAILY_CASES (SimulateV2.today (SimulateV2.WORLD ss)) = 0 ->
  (inject_Z (SimulateV2.INITIAL_INFECTION ss) <= p * inject_Z (Z.of_nat n))%Q ->
  (forall m, (m < n)%nat ->
     (p * inject_Z (Z.of_nat m) < inject_Z (SimulateV2.INITIAL_INFECTION ss))%Q) ->
  (n <= fuel)%nat ->
  exists ss',
    SimulateV2.seed_infection fuel ss = Ok ss' /\
    V2Props.seed_iter n ss = Ok ss' /\
    SimulateV2.DAILY_CASES (SimulateV2.today (SimulateV2.WORLD ss')) = Z.of_nat n.
Proof.
  intros Hready Hzero Hn Hbefore Hfuel.
  destruct (scenario_seed_iter table p n ss Hready) as (ss' & Hit & Hr & Hi & Hc).
  rewrite Hzero in Hc. exists ss'. split; [|split; [exact Hit|lia]].
  apply (V2_seed_infection_reaches n); try assumption.
  - destruct Hr as (_ & _ & _ & _ & Hconf).
    unfold V2Props.confirmed_reached. rewrite Hconf, Hc, Hi. exact Hn.
  - intros m Hm.
    destruct (scenario_seed_iter table p m ss Hready) as (ssm & Hitm & Hrm & Him & Hcm).
    exists ssm. split; [assumption|].
    destruct Hrm as (_ & _ & _ & _ & Hconf).
    unfold V2Props.confirmed_reached. rewrite Hconf, Hcm, Him, Hzero.
    apply Qlt_not_le. apply Hbefore. assumption.
Qed.

Lemma scenario_seeding_exact table (fuel : nat)
    (ss : SimulateV2.sim_state person Exercise3d.env) :
  V2Props.scenario_ready table 1 ss ->
  SimulateV2.DAILY_CASES (SimulateV2.today (SimulateV2.WORLD ss)) = 0 ->
  0 <= SimulateV2.INITIAL_INFECTION ss ->
  (Z.to_nat (SimulateV2.INITIAL_INFECTION ss) <= fuel)%nat ->
  exists ss',
    SimulateV2.seed_infection fuel ss = Ok ss' /\
    V2Props.seed_iter (Z.to_nat (SimulateV2.INITIAL_INFECTION ss)) ss = Ok ss' /\
    SimulateV2.DAILY_CASES (SimulateV2.today (SimulateV2.WORLD ss'))
      = SimulateV2.INITIAL_INFECTION ss.
Proof.
  intros Hready Hzero Hinit Hfuel.
  destruct (scenario_seeding_stops_at table 1
              (Z.to_nat (SimulateV2.INITIAL_INFECTION ss)) fuel ss Hready Hzero)
    as (ss' & Hs & Hit & Hc); try assumption.
  - rewrite Qmult_1_l. rewrite <- Zle_Qle. lia.
  - intros m Hm. rewrite Qmult_1_l. rewrite <- Zlt_Qlt. lia.
  - exists ss'. split_and!; [assumption|assumption|lia].
Qed.

Lemma scenario_create_people table (n : nat) (k : Z)
    (w : SimulateV2.world person Exercise3d.env) :
  exists w',
    SimulateV2.create_people (Scenario.callbacks_of table) n k w = Ok w' /\
    length (SimulateV2.PEOPLE w') = (length (SimulateV2.PEOPLE w) + n)%nat /\
    SimulateV2.CURRENT_TESTING_PROBABILITY w'
      = SimulateV2.CURRENT_TESTING_PROBABILITY w.
Proof.
  revert k w. induction n as [|n IH]; intros k w; simpl.
  - exists w. split_and!; try reflexivity. lia.
  - match goal with
    | |- context [SimulateV2.create_people _ n ?k1 ?w1] =>
        destruct (IH k1 w1) as (w' & Hw' & Hl & Ht)
    end.
    exists w'. split_and!; try assumption.
    rewrite Hl. simpl. rewrite length_app. simpl. lia.
Qed.

Lemma scenario_before_seeding table (g : rng) (contacts : Z)
    (transmission testing : Q) (days population initial : Z) :
  1 <= population ->
  exists ss1,
    V2Props.before_seeding
      (Scenario.initial_state table g contacts transmission testing
         days population initial) = Ok ss1 /\
    V2Props.scenario_ready table testing ss1 /\
    SimulateV2.INITIAL_INFECTION ss1 = initial /\
    SimulateV2.DAILY_CASES (SimulateV2.today (SimulateV2.WORLD ss1)) = 0.
Proof.
  intros Hpop. unfold V2Props.before_seeding. simpl.
  match goal with
  | |- context [SimulateV2.create_people _ ?n ?k ?w] =>
      destruct (scenario_create_people table n k w) as (w' & Hw' & Hl & Ht)
  end.
  rewrite Hw'. simpl. eexists; split; [reflexivity|].
  unfold V2Props.scenario_ready; simpl.
  split_and!; try reflexivity; try assumption.
  - rewrite Hl. simpl. unfold range_len. lia.
  - rewrite Qmult_0_r. reflexivity.
Qed.

Lemma scenario_seeding_diverges table (fuel : nat)
    (ss : SimulateV2.sim_state person Exercise3d.env) :
  V2Props.scenario_ready table 0 ss ->
  0 < SimulateV2.INITIAL_INFECTION ss ->
  SimulateV2.seed_infection fuel ss = Timeout.
Proof.
  revert ss. induction fuel as [|fuel IH]; intros ss Hready Hinit;
    rewrite V2_seed_infection_unfold.
  - destruct (Qltb _ _) eqn:Hg; [reflexivity|].
    apply Qltb_ge in Hg. destruct Hready as (_ & _ & _ & _ & Hconf).
    rewrite Hconf, Qmult_0_l in Hg. change 0%Q with (inject_Z 0) in Hg.
    rewrite <- Zle_Qle in Hg. lia.
  - destruct (Qltb _ _) eqn:Hg.
    + destruct (scenario_seed_body table 0 ss Hready) as (ss1 & Hb & Hr1 & Hi1 & _).
      rewrite Hb. simpl. apply IH; [assumption|lia].
    + apply Qltb_ge in Hg. destruct Hready as (_ & _ & _ & _ & Hconf).
      rewrite Hconf, Qmult_0_l in Hg. change 0%Q with (inject_Z 0) in Hg.
      rewrite <- Zle_Qle in Hg. lia.
Qed.

Lemma V2_run_seeds_first {P E : Type} (fuel : nat) (ss0 : SimulateV2.sim_state P E) :
  0 <= SimulateV2.SIMULATION_DAYS ss0 ->
  SimulateV2.run_simulation fuel ss0 =
    (ss1 <- V2Props.before_seeding ss0 ;;
     ss2 <- SimulateV2.seed_infection fuel ss1 ;;
     SimulateV2.day_loop fuel (Z.to_nat (SimulateV2.SIMULATION_DAYS ss0)) 0
       (SimulateV2.set_S ss2
          (SimulateV2.append_seed (SimulateV2.today (SimulateV2.WORLD ss2))
             (SimulateV2.SERIES ss2)))).
Proof.
  intros Hd. unfold SimulateV2.run_simulation, V2Props.before_seeding.
  destruct (SimulateV2.create_people _ _ _ _) as [w| |]; simpl; try reflexivity.
  replace (range_len (SimulateV2.SIMULATION_DAYS ss0 - -1))
    with (S (Z.to_nat (SimulateV2.SIMULATION_DAYS ss0))) by (unfold range_len; lia).
  simpl.
  match goal with
  | |- context [SimulateV2.set_W (SimulateV2.set_W ?s ?a) ?b] =>
      change (SimulateV2.set_W (SimulateV2.set_W s a) b)
        with (SimulateV2.set_W s b)
  end.
  match goal with
  | |- context [SimulateV2.seed_infection fuel ?a] =>
      destruct (SimulateV2.seed_infection fuel a) as [ss2| |]; reflexivity
  end.
Qed.

Lemma E2_infect_initial_draws cfg (n : nat) (l l' : list person) (g g' : rng) :
  Exercise2.infect_initial cfg n l g = Ok (l', g') ->
  pos g' = (pos g + n)%nat /\ length l' = length l.
Proof.
  revert l g. induction n as [|n IH]; intros l g H; simpl in H.
  - inversion H; subst. split; [lia|reflexivity].
  - inv_bind H. inv_bind H. inv_bind H.
    apply randint_inv in Ha as [_ Hg].
    apply IH in H as [Hp Hl]. rewrite Hg in Hp. simpl in Hp.
    rewrite length_insert in Hl. split; [lia|assumption].
Qed.

(** C2, as the code has it.  (1) For every configuration and every
    infection setter the seeding loop of [run_simulation] ends after [n]
    selections (each a random index of the population, drawn with
    replacement and handed to the setter) exactly when [n] is the first
    count at which the confirmed-case counter [DAILY_CONFIRMED_CASES] has
    reached [INITIAL_INFECTION].  (2) The loop runs before the first day of
    the day loop.  (3) With a setter that counts one true case per call and
    confirms at the testing probability, and testing probability 1, the
    loop makes exactly [INITIAL_INFECTION] selections and the true-case
    counter then equals [INITIAL_INFECTION] (for a count from 0 to 2^53,
    where the counter is an exact float).  (4) The seeding of
    [exercise_2.py] makes exactly [range(INITIAL_INFECTION)] selections,
    one draw each. *)
Theorem seeding_stops_on_confirmed_count :
  (forall (P E : Type) (fuel : nat) (ss ss' : SimulateV2.sim_state P E),
      SimulateV2.seed_infection fuel ss = Ok ss' <->
      exists n, (n <= fuel)%nat /\ V2Props.seed_iter n ss = Ok ss' /\
                V2Props.confirmed_reached ss' /\
                forall m, (m < n)%nat ->
                  exists ssm, V2Props.seed_iter m ss = Ok ssm /\
                              ~ V2Props.confirmed_reached ssm)
  /\
  (forall (P E : Type) (fuel : nat) (ss0 : SimulateV2.sim_state P E),
      0 <= SimulateV2.SIMULATION_DAYS ss0 ->
      SimulateV2.run_simulation fuel ss0 =
        (ss1 <- V2Props.before_seeding ss0 ;;
         ss2 <- SimulateV2.seed_infection fuel ss1 ;;
         SimulateV2.day_loop fuel (Z.to_nat (SimulateV2.SIMULATION_DAYS ss0)) 0
           (SimulateV2.set_S ss2
              (SimulateV2.append_seed (SimulateV2.today (SimulateV2.WORLD ss2))
                 (SimulateV2.SERIES ss2)))))
  /\
  (forall table (fuel : nat) (ss : SimulateV2.sim_state person Exercise3d.env),
      V2Props.scenario_ready table 1 ss ->
      SimulateV2.DAILY_CASES (SimulateV2.today (SimulateV2.WORLD ss)) = 0 ->
      0 <= SimulateV2.INITIAL_INFECTION ss <= 2 ^ 53 ->
      (Z.to_nat (SimulateV2.INITIAL_INFECTION ss) <= fuel)%nat ->
      exists ss',
        SimulateV2.seed_infection fuel ss = Ok ss' /\
        V2Props.seed_iter (Z.to_nat (SimulateV2.INITIAL_INFECTION ss)) ss = Ok ss' /\
        SimulateV2.DAILY_CASES (SimulateV2.today (SimulateV2.WORLD ss'))
          = SimulateV2.INITIAL_INFECTION ss)
  /\
  (forall cfg g l g',
      Exercise2.infect_initial cfg (range_len (Exercise2.INITIAL_INFECTION cfg))
        (Exercise2.initial_people cfg) g = Ok (l, g') ->
      pos g' = (pos g + range_len (Exercise2.INITIAL_INFECTION cfg))%nat).
Proof.
  split_and!.
  - intros P E fuel ss ss'. split.
    + apply V2_seed_infection_stops.
    + intros (n & Hn & Hit & Hr & Hb).
      eapply V2_seed_infection_reaches; eassumption.
  - intros P E fuel ss0. apply V2_run_seeds_first.
  - intros table fuel ss Hready Hzero Hinit Hfuel.
    apply (scenario_seeding_exact table); try assumption; lia.
  - intros cfg g l g' H. apply E2_infect_initial_draws in H as [Hp _].
    exact Hp.
Qed.


Lemma seeding_stops_on_confirmed_count_witness :
  (exists ss1 ss',
      V2Props.before_seeding (Scenario.small_state 1) = Ok ss1 /\
      SimulateV2.seed_infection 100 ss1 = Ok ss' /\
      V2Props.seed_iter 2 ss1 = Ok ss' /\
      SimulateV2.DAILY_CASES (SimulateV2.today (SimulateV2.WORLD ss')) = 2 /\
      V2Props.confirmed_reached ss') /\
  (exists l g',
      Exercise2.infect_initial Scenario.small_config 2
        (Exercise2.initial_people Scenario.small_config) Scenario.sample_rng
        = Ok (l, g') /\ pos g' = 2%nat).
Proof.
  destruct seeding_stops_on_confirmed_count as (T1 & T2 & T3 & T4).
  split.
  - destruct (scenario_before_seeding Scenario.quick_table Scenario.sample_rng
                5 (1 # 2) 1 8 6 2) as (ss1 & Hb & Hready & Hinit & Hzero); [lia|].
    destruct (T3 Scenario.quick_table 100%nat ss1 Hready Hzero)
      as (ss' & Hs & Hit & Hn).
    + rewrite Hinit. lia.
    + rewrite Hinit. simpl. lia.
    + exists ss1, ss'. split_and!; try assumption.
      * rewrite Hinit in Hit. exact Hit.
      * rewrite Hn. exact Hinit.
      * apply (proj1 (T1 _ _ _ _ _)) in Hs as (n & _ & _ & Hr & _). exact Hr.
  - destruct (Exercise2.infect_initial Scenario.small_config 2
                (Exercise2.initial_people Scenario.small_config) Scenario.sample_rng)
      as [[l g']| |] eqn:Hi; [|vm_compute in Hi; discriminate ..].
    exists l, g'. split; [reflexivity|].
    apply (T4 Scenario.small_config Scenario.sample_rng l g') in Hi.
    exact Hi.
Defined.

(** C2 as stated fails.  Initial-infection count 2, testing probability
    1/2: after two selections two infections are recorded, the confirmed
    counter is 1 and the loop goes on; it ends after four selections, with
    four infections recorded. *)
Lemma seeding_counterexample :
  exists ss1 ss2 ss',
    V2Props.before_seeding (Scenario.small_state (1 # 2)) = Ok ss1 /\
    SimulateV2.INITIAL_INFECTION ss1 = 2 /\
    V2Props.seed_iter 2 ss1 = Ok ss2 /\
    SimulateV2.DAILY_CASES (SimulateV2.today (SimulateV2.WORLD ss2)) = 2 /\
    ~ V2Props.confirmed_reached ss2 /\
    SimulateV2.seed_infection 100 ss1 = Ok ss' /\
    SimulateV2.DAILY_CASES (SimulateV2.today (SimulateV2.WORLD ss')) = 4.
Proof.
  destruct (scenario_before_seeding Scenario.quick_table Scenario.sample_rng
              5 (1 # 2) (1 # 2) 8 6 2) as (ss1 & Hb & Hready & Hinit & Hzero); [lia|].
  destruct (scenario_seed_iter Scenario.quick_table (1 # 2) 2 ss1 Hready)
    as (ss2 & Hit & Hr2 & Hi2 & Hc2).
  destruct (scenario_seeding_stops_at Scenario.quick_table (1 # 2) 4 100 ss1
              Hready Hzero) as (ss' & Hs & _ & Hc').
  - rewrite Hinit. vm_compute. discriminate.
  - intros m Hm. rewrite Hinit.
    assert (m = 0 \/ m = 1 \/ m = 2 \/ m = 3)%nat as [->|[->|[->| ->]]] by lia;
      vm_compute; reflexivity.
  - lia.
  - exists ss1, ss2, ss'. split_and!; try assumption.
    + lia.
    + destruct Hr2 as (_ & _ & _ & _ & Hconf).
      unfold V2Props.confirmed_reached. rewrite Hconf, Hc2, Hi2, Hinit, Hzero.
      vm_compute. intros H. apply H. reflexivity.
Qed.

(** The same run carried to its end: day 0 of 'cumulative cases' records
    four seeded people for a configured count of two. *)
Lemma seeding_recorded_example :
  exists ss,
    SimulateV2.run_simulation 100 (Scenario.small_state (1 # 2)) = Ok ss /\
    SimulateV2.INITIAL_INFECTION ss = 2 /\
    SimulateV2.CUMULATIVE_CASES_SERIES (SimulateV2.SERIES ss) !! 0%nat = Some 4.
Proof.
  destruct (SimulateV2.run_simulation 100 (Scenario.small_state (1 # 2)))
    as [ss| |] eqn:Hrun; [|vm_compute in Hrun; discriminate ..].
  vm_compute in Hrun. inversion Hrun; subst ss; clear Hrun.
  eexists. split; [reflexivity|]. split; reflexivity.
Qed.

(** ** C8: a condition of an unknown type *)

Lemma V2_test_condition_unrecognized {P E : Type}
    (ss : SimulateV2.sim_state P E) (cond : SimulateV2.condition)
    (day : Z) (type : string) :
  SimulateV2.c_type cond = Some type ->
  ~ In type SimulateV2.condition_types ->
  SimulateV2.test_condition ss cond day
    = Ok (false, [SimulateV2.unrecognized type]).
Proof.
  intros Ht Hnot. unfold SimulateV2.test_condition. rewrite Ht. simpl.
  unfold SimulateV2.condition_types in Hnot. simpl in Hnot.
  repeat match goal with
         | |- context [String.eqb type ?s] =>
             destruct (String.eqb_spec type s) as [Heq|_];
               [exfalso; apply Hnot; rewrite Heq; tauto|]
         end.
  reflexivity.
Qed.

(** C8, as the code has it.  A condition whose type is none of the eight
    known ones is reported at every evaluation: [test_condition] returns
    [False] and prints one line, without raising; checked on [n] days it
    yields [n] times [False] and [n] lines. *)
Theorem unrecognized_condition_reported_each_time :
  forall (P E : Type) (cond : SimulateV2.condition) (type : string)
         (checks : list (SimulateV2.sim_state P E * Z)),
    SimulateV2.c_type cond = Some type ->
    ~ In type SimulateV2.condition_types ->
    (forall (ss : SimulateV2.sim_state P E) day,
        SimulateV2.test_condition ss cond day
          = Ok (false, [SimulateV2.unrecognized type])) /\
    V2Props.check_condition cond checks
      = Ok (repeat false (length checks),
            repeat (SimulateV2.unrecognized type) (length checks)).
Proof.
  intros P E cond type checks Ht Hnot. split.
  - intros ss day. apply V2_test_condition_unrecognized; assumption.
  - induction checks as [|[ss day] checks IH]; simpl; [reflexivity|].
    rewrite (V2_test_condition_unrecognized ss cond day type Ht Hnot). simpl.
    rewrite IH. reflexivity.
Qed.

Lemma unrecognized_condition_reported_each_time_witness :
  V2Props.check_condition Scenario.odd_condition
    [(Scenario.small_state 1, 0); (Scenario.small_state 1, 1);
     (Scenario.small_state 1, 2)]
  = Ok ([false; false; false],
        [SimulateV2.unrecognized "weekday is monday";
         SimulateV2.unrecognized "weekday is monday";
         SimulateV2.unrecognized "weekday is monday"]).
Proof.
  apply (proj2 (unrecognized_condition_reported_each_time _ _
                  Scenario.odd_condition "weekday is monday"
                  [(Scenario.small_state 1, 0); (Scenario.small_state 1, 1);
                   (Scenario.small_state 1, 2)] eq_refl
                  ltac:(simpl; intros H; repeat destruct H as [H|H];
                        try discriminate; exact H))).
Defined.

(** C8 as stated fails: the condition is not reported once.  Checked on
    day 0 and on day 1, it is reported twice. *)
Lemma unrecognized_condition_counterexample :
  exists values printed,
    V2Props.check_condition Scenario.odd_condition
      [(Scenario.small_state 1, 0); (Scenario.small_state 1, 1)]
      = Ok (values, printed) /\
    values = [false; false] /\
    length printed = 2%nat /\
    printed = [SimulateV2.unrecognized "weekday is monday";
               SimulateV2.unrecognized "weekday is monday"].
Proof.
  eexists _, _. split; [reflexivity|]. split_and!; reflexivity.
Qed.

(** ** C9: the labels of the two death series *)

(** The constants are bound to pairwise different strings: each one names
    a slot of its own in the state dict. *)
Lemma V2_labels_distinct : NoDup (map SimulateV2.label SimulateV2.Key.all).
Proof. apply (bool_decide_unpack _). vm_compute. reflexivity. Qed.

Lemma V2_write_data_deaths {P E : Type} (ss : SimulateV2.sim_state P E)
    (data : list (string * SimulateV2.json)) :
  SimulateV2.write_data ss = Ok data ->
  SimulateV2.dict_get "cumulative deaths" data
    = Some (SimulateV2.JFloats
              (SimulateV2.CUMULATIVE_CONFIRMED_DEATHS_SERIES (SimulateV2.SERIES ss))) /\
  SimulateV2.dict_get "cumulative confirmed deaths" data
    = Some (SimulateV2.JInts
              (SimulateV2.CUMULATIVE_DEATHS_SERIES (SimulateV2.SERIES ss))).
Proof.
  unfold SimulateV2.write_data. intros H. inv_bind H.
  simpl in H. inversion H; subst data; clear H.
  split; reflexivity.
Qed.

Lemma V2_append_day_deaths (day : Z) (c : SimulateV2.counters)
    (s s' : SimulateV2.series) :
  SimulateV2.append_day day c s = Ok s' ->
  exists cd ccd,
    py_get (SimulateV2.CUMULATIVE_DEATHS_SERIES s) day = Ok cd /\
    py_get (SimulateV2.CUMULATIVE_CONFIRMED_DEATHS_SERIES s) day = Ok ccd /\
    SimulateV2.CUMULATIVE_DEATHS_SERIES s'
      = SimulateV2.CUMULATIVE_DEATHS_SERIES s ++ [cd + SimulateV2.DAILY_DEATHS c] /\
    SimulateV2.CUMULATIVE_CONFIRMED_DEATHS_SERIES s'
      = SimulateV2.CUMULATIVE_CONFIRMED_DEATHS_SERIES s
          ++ [(ccd + SimulateV2.DAILY_CONFIRMED_DEATHS c)%Q].
Proof.
  intros H. unfold SimulateV2.append_day in H. repeat inv_bind H.
  inversion H; subst s'; clear H. simpl.
  do 2 eexists. split_and!; try eassumption; reflexivity.
Qed.

(** C9.  Under the key 'cumulative deaths' the state and the saved file
    hold the series that accumulates today's confirmed deaths; under the
    key 'cumulative confirmed deaths' they hold the series that accumulates
    today's true deaths. *)
Theorem death_series_labels_interchanged :
  forall (P E : Type) (ss : SimulateV2.sim_state P E),
    (SimulateV2.label SimulateV2.Key.CUMULATIVE_CONFIRMED_DEATHS_SERIES
       = "cumulative deaths"%string /\
     SimulateV2.label SimulateV2.Key.CUMULATIVE_DEATHS_SERIES
       = "cumulative confirmed deaths"%string) /\
    (SimulateV2.state_lookup ss "cumulative deaths"
       = Ok (SimulateV2.JFloats
               (SimulateV2.CUMULATIVE_CONFIRMED_DEATHS_SERIES (SimulateV2.SERIES ss))) /\
     SimulateV2.state_lookup ss "cumulative confirmed deaths"
       = Ok (SimulateV2.JInts
               (SimulateV2.CUMULATIVE_DEATHS_SERIES (SimulateV2.SERIES ss)))) /\
    (forall data,
        SimulateV2.write_data ss = Ok data ->
        SimulateV2.dict_get "cumulative deaths" data
          = Some (SimulateV2.JFloats
                    (SimulateV2.CUMULATIVE_CONFIRMED_DEATHS_SERIES
                       (SimulateV2.SERIES ss))) /\
        SimulateV2.dict_get "cumulative confirmed deaths" data
          = Some (SimulateV2.JInts
                    (SimulateV2.CUMULATIVE_DEATHS_SERIES (SimulateV2.SERIES ss)))) /\
    (forall c,
        SimulateV2.CUMULATIVE_CONFIRMED_DEATHS_SERIES
          (SimulateV2.append_seed c SimulateV2.empty_series)
          = [SimulateV2.DAILY_CONFIRMED_DEATHS c] /\
        SimulateV2.CUMULATIVE_DEATHS_SERIES
          (SimulateV2.append_seed c SimulateV2.empty_series)
          = [SimulateV2.DAILY_DEATHS c]) /\
    (forall day c s s',
        SimulateV2.append_day day c s = Ok s' ->
        exists cd ccd,
          py_get (SimulateV2.CUMULATIVE_DEATHS_SERIES s) day = Ok cd /\
          py_get (SimulateV2.CUMULATIVE_CONFIRMED_DEATHS_SERIES s) day = Ok ccd /\
          SimulateV2.CUMULATIVE_DEATHS_SERIES s'
            = SimulateV2.CUMULATIVE_DEATHS_SERIES s
                ++ [cd + SimulateV2.DAILY_DEATHS c] /\
          SimulateV2.CUMULATIVE_CONFIRMED_DEATHS_SERIES s'
            = SimulateV2.CUMULATIVE_CONFIRMED_DEATHS_SERIES s
                ++ [(ccd + SimulateV2.DAILY_CONFIRMED_DEATHS c)%Q]).
Proof.
  intros P E ss.
  split; [split; reflexivity|].
  split; [split; reflexivity|].
  split; [apply V2_write_data_deaths|].
  split; [intros c; split; reflexivity|apply V2_append_day_deaths].
Qed.

Lemma death_series_labels_interchanged_witness :
  exists ss data,
    SimulateV2.run_simulation 100 (Scenario.small_state (1 # 2)) = Ok ss /\
    SimulateV2.write_data ss = Ok data /\
    SimulateV2.dict_get "cumulative deaths" data
      = Some (SimulateV2.JFloats
                (SimulateV2.CUMULATIVE_CONFIRMED_DEATHS_SERIES (SimulateV2.SERIES ss))) /\
    SimulateV2.dict_get "cumulative confirmed deaths" data
      = Some (SimulateV2.JInts [0; 0; 2; 2; 2; 2; 2; 2; 2]).
Proof.
  destruct (SimulateV2.run_simulation 100 (Scenario.small_state (1 # 2)))
    as [ss| |] eqn:Hrun; [|vm_compute in Hrun; discriminate ..].
  vm_compute in Hrun. inversion Hrun; subst ss; clear Hrun.
  eexists. eexists. split; [reflexivity|].
  match goal with
  | |- SimulateV2.write_data ?ss = Ok ?d /\ _ =>
      destruct (SimulateV2.write_data ss) as [data| |] eqn:Hw;
        [|vm_compute in Hw; discriminate ..];
      pose proof (proj1 (proj2 (proj2 (death_series_labels_interchanged _ _ ss)))
                    data Hw) as [H1 H2]
  end.
  vm_compute in Hw. inversion Hw; subst data; clear Hw.
  split; [reflexivity|]. split; [exact H1|exact H2].
Defined.

(** ** [exercise_2.py]: the contact loops *)

Lemma E2_randint_draw (w : Exercise2.sim) :
  1 <= Exercise2.current_population w ->
  randint 0 (Exercise2.current_population w - 1) (Exercise2.gen w)
    = Ok (E2Props.draw_index w (pos (Exercise2.gen w)), rng_next (Exercise2.gen w)).
Proof.
  intros H. unfold randint, E2Props.draw_index.
  destruct (Exercise2.current_population w - 1 <? 0) eqn:Hlt; [lia|].
  replace (Exercise2.current_population w - 1 - 0 + 1)
    with (Exercise2.current_population w) by lia.
  reflexivity.
Qed.

Lemma E2_draw_get (w : Exercise2.sim) (t : nat) (c : person) :
  E2Props.pop_inv w -> 1 <= Exercise2.current_population w ->
  E2Props.sampled w t = Some c ->
  py_index (Exercise2.people w) (E2Props.draw_index w t)
    = Ok (Z.to_nat (E2Props.draw_index w t)) /\
  py_get (Exercise2.people w) (E2Props.draw_index w t) = Ok c.
Proof.
  intros Hpop Hcp Hs. unfold E2Props.pop_inv in Hpop.
  assert (0 <= E2Props.draw_index w t < Z.of_nat (length (Exercise2.people w))) as Hr.
  { unfold E2Props.draw_index. rewrite <- Hpop. apply Z.mod_pos_bound. lia. }
  split; [apply py_index_in_range; assumption|].
  destruct (py_get_in_range _ _ Hr) as (c' & Hg & Hl).
  unfold E2Props.sampled in Hs. congruence.
Qed.

Lemma E2_draw_in_range (w : Exercise2.sim) (t : nat) :
  E2Props.pop_inv w -> 1 <= Exercise2.current_population w ->
  0 <= E2Props.draw_index w t < Z.of_nat (length (Exercise2.people w)) /\
  exists c, E2Props.sampled w t = Some c.
Proof.
  intros Hpop Hcp. unfold E2Props.pop_inv in Hpop.
  assert (0 <= E2Props.draw_index w t < Z.of_nat (length (Exercise2.people w))) as Hr.
  { unfold E2Props.draw_index. rewrite <- Hpop. apply Z.mod_pos_bound. lia. }
  split; [assumption|]. unfold E2Props.sampled.
  apply lookup_lt_is_Some_2. lia.
Qed.

Lemma E2_susceptible_miss cfg (k i : nat) (w : Exercise2.sim) (c : person) :
  E2Props.pop_inv w -> 1 <= Exercise2.current_population w ->
  E2Props.sampled w (pos (Exercise2.gen w)) = Some c ->
  state c <> contagious ->
  Exercise2.susceptible_contacts cfg (S k) i w
    = Exercise2.susceptible_contacts cfg k i
        (E2Props.at_pos w (S (pos (Exercise2.gen w)))).
Proof.
  intros Hpop Hcp Hs Hc. simpl.
  rewrite (E2_randint_draw w Hcp). simpl.
  destruct (E2_draw_get w _ c Hpop Hcp Hs) as [_ ->]. simpl.
  destruct (health_eqb (state c) contagious) eqn:He.
  - destruct (state c); discriminate || congruence.
  - reflexivity.
Qed.

Lemma E2_susceptible_hit cfg (k i : nat) (w : Exercise2.sim) (c p : person) :
  E2Props.pop_inv w -> 1 <= Exercise2.current_population w ->
  E2Props.sampled w (pos (Exercise2.gen w)) = Some c ->
  state c = contagious ->
  Exercise2.people w !! i = Some p ->
  Exercise2.susceptible_contacts cfg (S k) i w
    = if Qltb (E2Props.uniform_at w (S (pos (Exercise2.gen w))))
              (Exercise2.transmission_probability cfg)
      then Ok (E2Props.infected_at i p
                 (E2Props.at_pos w (S (S (pos (Exercise2.gen w))))))
      else Exercise2.susceptible_contacts cfg k i
             (E2Props.at_pos w (S (S (pos (Exercise2.gen w))))).
Proof.
  intros Hpop Hcp Hs Hc Hp. simpl.
  rewrite (E2_randint_draw w Hcp). simpl.
  destruct (E2_draw_get w _ c Hpop Hcp Hs) as [_ ->]. simpl.
  rewrite Hc. simpl.
  unfold E2Props.uniform_at.
  destruct (Qltb _ _); [|reflexivity].
  rewrite Hp. reflexivity.
Qed.

(** The loop of a susceptible person whose first [n] sampled contacts are
    not contagious and whose next one is: the draw is taken right after
    that sample, and a draw below the transmission probability ends the
    loop with the person infected. *)
Lemma E2_susceptible_first_contagious cfg (n k i : nat) (w : Exercise2.sim)
    (c p : person) :
  E2Props.pop_inv w -> 1 <= Exercise2.current_population w ->
  Exercise2.people w !! i = Some p ->
  (n < k)%nat ->
  (forall m, (m < n)%nat ->
     exists c', E2Props.sampled w (pos (Exercise2.gen w) + m) = Some c' /\
                state c' <> contagious) ->
  E2Props.sampled w (pos (Exercise2.gen w) + n) = Some c ->
  state c = contagious ->
  (E2Props.uniform_at w (pos (Exercise2.gen w) + n + 1)
   < Exercise2.transmission_probability cfg)%Q ->
  Exercise2.susceptible_contacts cfg k i w
    = Ok (E2Props.infected_at i p
            (E2Props.at_pos w (pos (Exercise2.gen w) + n + 2))).
Proof.
  revert k w. induction n as [|n IH]; intros k w Hpop Hcp Hp Hk Hmiss Hs Hc Hu.
  - destruct k as [|k]; [lia|].
    rewrite Nat.add_0_r in Hs, Hu.
    rewrite (E2_susceptible_hit cfg k i w c p Hpop Hcp Hs Hc Hp).
    replace (pos (Exercise2.gen w) + 1)%nat with (S (pos (Exercise2.gen w)))
      in Hu by lia.
    apply Qltb_lt in Hu. rewrite Hu.
    replace (pos (Exercise2.gen w) + 0 + 2)%nat
      with (S (S (pos (Exercise2.gen w)))) by lia.
    reflexivity.
  - destruct k as [|k]; [lia|].
    destruct (Hmiss 0%nat ltac:(lia)) as (c0 & Hs0 & Hc0).
    rewrite Nat.add_0_r in Hs0.
    rewrite (E2_susceptible_miss cfg k i w c0 Hpop Hcp Hs0 Hc0).
    rewrite (IH k (E2Props.at_pos w (S (pos (Exercise2.gen w)))) Hpop Hcp Hp).
    + unfold E2Props.at_pos, E2Props.infected_at. simpl.
      replace (S (pos (Exercise2.gen w) + n + 2))
        with (pos (Exercise2.gen w) + S n + 2)%nat by lia.
      reflexivity.
    + lia.
    + intros m Hm. destruct (Hmiss (S m) ltac:(lia)) as (c' & Hs' & Hc').
      exists c'. split; [|assumption].
      replace (pos (Exercise2.gen w) + S m)%nat
        with (S (pos (Exercise2.gen w)) + m)%nat in Hs' by lia. exact Hs'.
    + replace (pos (Exercise2.gen w) + S n)%nat
        with (S (pos (Exercise2.gen w)) + n)%nat in Hs by lia. exact Hs.
    + assumption.
    + replace (pos (Exercise2.gen w) + S n + 1)%nat
        with (S (pos (Exercise2.gen w)) + n + 1)%nat in Hu by lia. exact Hu.
Qed.

Lemma E2_susceptible_at_most_one cfg (k i : nat) (w w' : Exercise2.sim) :
  Exercise2.susceptible_contacts cfg k i w = Ok w' ->
  Exercise2.current_population w' = Exercise2.current_population w /\
  Exercise2.new_recoveries w' = Exercise2.new_recoveries w /\
  Exercise2.new_deaths w' = Exercise2.new_deaths w /\
  ((Exercise2.people w' = Exercise2.people w /\
    Exercise2.new_cases w' = Exercise2.new_cases w) \/
   (exists p, Exercise2.people w !! i = Some p /\
              Exercise2.people w'
                = <[i := {| id := id p; state := infected; days := 1 |}]>
                    (Exercise2.people w) /\
              Exercise2.new_cases w' = Exercise2.new_cases w + 1)).
Proof.
  revert w. induction k as [|k IH]; intros w H; simpl in H.
  - inversion H; subst. split_and!; try reflexivity. left. split; reflexivity.
  - inv_bind H. inv_bind H.
    destruct (health_eqb (state a0) contagious).
    + simpl in H. destruct (Qltb _ _).
      * destruct (Exercise2.people w !! i) as [p|] eqn:Hp; [|discriminate].
        inversion H; subst w'; clear H. simpl.
        split_and!; try reflexivity. right. exists p.
        split_and!; reflexivity.
      * apply IH in H. exact H.
    + apply IH in H. exact H.
Qed.

Lemma filter_length_insert {A : Type} (f : A -> bool) (l : list A) (i : nat)
    (x y : A) :
  l !! i = Some y ->
  Z.of_nat (length (filter (fun a => f a = true) (<[i := x]> l)))
    + (if f y then 1 else 0)
  = Z.of_nat (length (filter (fun a => f a = true) l)) + (if f x then 1 else 0).
Proof.
  revert i. induction l as [|a l IH]; intros i Hi.
  - destruct i; discriminate.
  - destruct i as [|i]; simpl in *.
    + inversion Hi; subst a. rewrite !filter_cons.
      destruct (f x), (f y); repeat case_decide; simpl; congruence || lia.
    + rewrite !filter_cons. specialize (IH i Hi).
      case_decide; simpl; lia.
Qed.

(** Inside the contact loop every new case is one person who stops being
    susceptible: the number of new cases plus the number of susceptible
    people does not change. *)
Lemma E2_susceptible_contacts_count cfg (k i : nat) (w w' : Exercise2.sim) (p : person) :
  can_be_infected (Exercise2.health_table cfg infected) = false ->
  Exercise2.people w !! i = Some p ->
  can_be_infected (Exercise2.health_table cfg (state p)) = true ->
  Exercise2.susceptible_contacts cfg k i w = Ok w' ->
  Exercise2.new_cases w' + E2Props.susceptible_count cfg w'
    = Exercise2.new_cases w + E2Props.susceptible_count cfg w.
Proof.
  intros Hinf Hp Hsus H.
  apply E2_susceptible_at_most_one in H as (_ & _ & _ & [[Hl Hn]|(p' & Hp' & Hl & Hn)]).
  - unfold E2Props.susceptible_count. rewrite Hl, Hn. reflexivity.
  - unfold E2Props.susceptible_count. rewrite Hl, Hn.
    rewrite Hp in Hp'. inversion Hp'; subst p'.
    pose proof (filter_length_insert
                  (fun q => can_be_infected (Exercise2.health_table cfg (state q)))
                  (Exercise2.people w) i
                  {| id := id p; state := infected; days := 1 |} p Hp) as Hf.
    simpl in Hf. rewrite Hinf, Hsus in Hf. lia.
Qed.

Lemma E2_contagious_contacts_count cfg (k : nat) (w w' : Exercise2.sim) :
  can_be_infected (Exercise2.health_table cfg infected) = false ->
  Exercise2.contagious_contacts cfg k w = Ok w' ->
  Exercise2.new_cases w' + E2Props.susceptible_count cfg w'
    = Exercise2.new_cases w + E2Props.susceptible_count cfg w.
Proof.
  intros Hinf. revert w. induction k as [|k IH]; intros w H; simpl in H.
  - inversion H; subst. reflexivity.
  - inv_bind H. inv_bind H. inv_bind H.
    rename a into r, a0 into j, a1 into c, Ha into Hr, Ha0 into Hj, Ha1 into Hc.
    destruct (can_be_infected (Exercise2.health_table cfg (state c))) eqn:Hsus.
    + simpl in H. destruct (Qltb _ _).
      * apply IH in H. rewrite H. clear H.
        unfold E2Props.susceptible_count. simpl.
        assert (Exercise2.people w !! j = Some c) as Hjc.
        { unfold py_get in Hc. rewrite Hj in Hc. simpl in Hc.
          destruct (Exercise2.people w !! j); [congruence|discriminate]. }
        pose proof (filter_length_insert
                      (fun q => can_be_infected (Exercise2.health_table cfg (state q)))
                      (Exercise2.people w) j
                      {| id := id c; state := infected; days := 1 |} c Hjc) as Hf.
        simpl in Hf. rewrite Hinf, Hsus in Hf. lia.
      * apply IH in H. exact H.
    + apply IH in H. exact H.
Qed.

Lemma E2_contact_loop_count cfg (n i : nat) (w w' : Exercise2.sim) :
  can_be_infected (Exercise2.health_table cfg infected) = false ->
  Exercise2.contact_loop cfg n i w = Ok w' ->
  Exercise2.new_cases w' + E2Props.susceptible_count cfg w'
    = Exercise2.new_cases w + E2Props.susceptible_count cfg w.
Proof.
  intros Hinf. revert i w. induction n as [|n IH]; intros i w H; simpl in H.
  - inversion H; subst. reflexivity.
  - destruct (Exercise2.people w !! i) as [p|] eqn:Hp.
    2:{ inversion H; subst. reflexivity. }
    inv_bind H. rename a into w1, Ha into Hstep.
    apply IH in H. rewrite H. clear H.
    unfold Exercise2.contact_step in Hstep.
    destruct (can_be_infected (Exercise2.health_table cfg (state p))) eqn:Hsus.
    + eapply E2_susceptible_contacts_count; eassumption.
    + destruct (health_eqb (state p) contagious).
      * eapply E2_contagious_contacts_count; eassumption.
      * inversion Hstep; subst. reflexivity.
Qed.

(** ** [exercise_2.py]: the number of contacts and the health loop *)

Lemma E2_half_contacts_floor cfg :
  0 <= Exercise2.daily_contacts cfg ->
  Z.of_nat (Exercise2.half_contacts cfg) = Exercise2.daily_contacts cfg / 2.
Proof.
  intros H. unfold Exercise2.half_contacts, range_len, int_half.
  rewrite Z.quot_div_nonneg by lia.
  rewrite Z2Nat.id; [reflexivity|]. apply Z.div_pos; lia.
Qed.

Lemma E2_half_contacts_odd cfg (m : Z) :
  0 <= m -> Exercise2.daily_contacts cfg = 2 * m + 1 ->
  Exercise2.half_contacts cfg = Z.to_nat m.
Proof.
  intros Hm Hd. apply Nat2Z.inj. rewrite E2_half_contacts_floor by lia.
  rewrite Hd. rewrite Z2Nat.id by lia.
  symmetry. apply (Z.div_unique_pos (2 * m + 1) 2 m 1); lia.
Qed.

Lemma E2_health_step_pop_inv cfg (i : nat) (p : person) (w w' : Exercise2.sim) :
  E2Props.pop_inv w -> Exercise2.people w !! i = Some p ->
  Exercise2.health_step cfg i p w = Ok w' -> E2Props.pop_inv w'.
Proof.
  intros Hpop Hp H. unfold Exercise2.health_step in H.
  assert (forall (w2 : Exercise2.sim) ns,
             E2Props.pop_inv w2 ->
             E2Props.pop_inv
               (if health_eqb ns immune
                then Exercise2.count_recovery
                       (Exercise2.set_people w2
                          (<[i := {| id := id (set_days p (days p + 1));
                                     state := ns; days := 1 |}]>
                             (Exercise2.people w2)))
                else Exercise2.set_people w2
                       (<[i := {| id := id (set_days p (days p + 1));
                                  state := ns; days := 1 |}]>
                          (Exercise2.people w2)))) as Hadv.
  { intros w2 ns H2. unfold E2Props.pop_inv in *.
    destruct (health_eqb ns immune); simpl; rewrite length_insert; assumption. }
  assert (E2Props.pop_inv
            (Exercise2.set_people w
               (<[i := set_days p (days p + 1)]> (Exercise2.people w)))) as H1.
  { unfold E2Props.pop_inv in *; simpl. rewrite length_insert. assumption. }
  destruct (_ && _).
  - inv_bind H. destruct (Qltb 0 a).
    + simpl in H. destruct (Qltb _ a).
      * inv_bind H. inversion H; subst w'; clear H.
        destruct (py_remove_found person_eqb (set_days p (days p + 1))
                    (<[i := set_days p (days p + 1)]> (Exercise2.people w)) i)
          as (l' & Hrem & Hlen).
        -- apply person_eqb_refl.
        -- apply list_lookup_insert_eq. apply lookup_lt_Some in Hp. assumption.
        -- simpl in Ha0. rewrite Hrem in Ha0. inversion Ha0; subst a0.
           unfold E2Props.pop_inv in *; simpl.
           rewrite length_insert in Hlen. lia.
      * inv_bind H. inversion H; subst w'. apply Hadv.
        unfold E2Props.pop_inv in *; simpl. rewrite length_insert. assumption.
    + inv_bind H. inversion H; subst w'. apply Hadv. assumption.
  - inversion H; subst w'. assumption.
Qed.

Lemma E2_health_loop_pop_inv cfg (n : nat) (w w' : Exercise2.sim) :
  E2Props.pop_inv w -> Exercise2.health_loop cfg n w = Ok w' ->
  E2Props.pop_inv w'.
Proof.
  revert w. induction n as [|n IH]; intros w Hpop H; simpl in H.
  - inversion H; subst. assumption.
  - destruct (Exercise2.people w !! n) as [p|] eqn:Hp.
    + inv_bind H. eapply IH; [|eassumption].
      eapply E2_health_step_pop_inv; eassumption.
    + inversion H; subst. assumption.
Qed.

Lemma E2_contagious_unfold cfg (k : nat) (w : Exercise2.sim) (c : person) :
  E2Props.pop_inv w -> 1 <= Exercise2.current_population w ->
  E2Props.sampled w (pos (Exercise2.gen w)) = Some c ->
  Exercise2.contagious_contacts cfg (S k) w
    = if can_be_infected (Exercise2.health_table cfg (state c)) then
        if Qltb (E2Props.uniform_at w (S (pos (Exercise2.gen w))))
                (Exercise2.transmission_probability cfg)
        then Exercise2.contagious_contacts cfg k
               (E2Props.infected_at
                  (Z.to_nat (E2Props.draw_index w (pos (Exercise2.gen w)))) c
                  (E2Props.at_pos w (S (S (pos (Exercise2.gen w))))))
        else Exercise2.contagious_contacts cfg k
               (E2Props.at_pos w (S (S (pos (Exercise2.gen w)))))
      else Exercise2.contagious_contacts cfg k
             (E2Props.at_pos w (S (pos (Exercise2.gen w)))).
Proof.
  intros Hpop Hcp Hs. simpl.
  rewrite (E2_randint_draw w Hcp). simpl.
  destruct (E2_draw_get w _ c Hpop Hcp Hs) as [Hi Hg].
  rewrite Hi. simpl. rewrite Hg. simpl.
  destruct (can_be_infected _); [|reflexivity].
  unfold E2Props.uniform_at. destruct (Qltb _ _); reflexivity.
Qed.

(** ** [exercise_2.py]: a contagious state that always kills *)

Lemma random_below_one (g : rng) : (fst (random g) < 1)%Q.
Proof.
  unfold random, Qlt. simpl.
  pose proof (N.mod_upper_bound (tape g (pos g)) (Npos two53) ltac:(discriminate)).
  rewrite Z.mul_1_r. lia.
Qed.

Lemma py_remove_delete {A : Type} (eqb : A -> A -> bool) (x : A) (l l' : list A) :
  py_remove eqb x l = Ok l' ->
  exists j y, l !! j = Some y /\ eqb y x = true /\ l' = delete j l /\
              forall j' y', (j' < j)%nat -> l !! j' = Some y' -> eqb y' x = false.
Proof.
  revert l'. induction l as [|a l IH]; intros l' H; simpl in H; [discriminate|].
  destruct (eqb a x) eqn:Ha.
  - inversion H; subst l'. exists 0%nat, a. split_and!; try reflexivity; try assumption.
    intros j' y' Hj'. lia.
  - inv_bind H. inversion H; subst l'; clear H.
    destruct (IH _ Ha0) as (j & y & Hj & Hy & Hl & Hfirst).
    exists (S j), y. split_and!; try assumption.
    + simpl. rewrite Hl. reflexivity.
    + intros [|j'] y' Hlt Hy'; simpl in Hy'.
      * inversion Hy'; subst. assumption.
      * apply (Hfirst j'); [lia|assumption].
Qed.

Lemma person_eqb_id (a b : person) : person_eqb a b = true -> id a = id b.
Proof.
  unfold person_eqb. intros H.
  apply andb_prop in H as [H _]. apply andb_prop in H as [H _].
  apply Z.eqb_eq. assumption.
Qed.

(** With ids that are all different, [people.remove(person)] removes the
    person at the index at hand. *)
Lemma py_remove_at (l : list person) (i : nat) (x : person) :
  E2Props.ids_unique l -> l !! i = Some x ->
  py_remove person_eqb x l = Ok (delete i l).
Proof.
  intros Hnd Hi.
  destruct (py_remove_found person_eqb x l i person_eqb_refl Hi) as (l' & Hrem & _).
  rewrite Hrem. f_equal.
  destruct (py_remove_delete person_eqb x l l' Hrem) as (j & y & Hj & Hy & -> & _).
  apply person_eqb_id in Hy.
  assert (j = i) as ->; [|reflexivity].
  unfold E2Props.ids_unique in Hnd.
  apply (NoDup_lookup (id <$> l) j i (id x) Hnd).
  - rewrite list_lookup_fmap, Hj. simpl. congruence.
  - rewrite list_lookup_fmap, Hi. reflexivity.
Qed.

Lemma ids_unique_insert (l : list person) (i : nat) (p q : person) :
  E2Props.ids_unique l -> l !! i = Some p -> id q = id p ->
  E2Props.ids_unique (<[i := q]> l).
Proof.
  unfold E2Props.ids_unique. intros Hnd Hi Hid.
  rewrite list_fmap_insert, Hid.
  rewrite list_insert_id; [assumption|].
  rewrite list_lookup_fmap, Hi. reflexivity.
Qed.

Lemma ids_unique_delete (l : list person) (i : nat) :
  E2Props.ids_unique l -> E2Props.ids_unique (delete i l).
Proof.
  unfold E2Props.ids_unique. intros Hnd. rewrite list_fmap_delete.
  eapply sublist_NoDup; [eassumption|]. apply sublist_delete.
Qed.

Lemma E2_contagious_elapsed_dies cfg (i : nat) (p : person) (w : Exercise2.sim) :
  E2Props.scenario_C (Exercise2.health_table cfg) ->
  E2Props.ids_unique (Exercise2.people w) ->
  Exercise2.people w !! i = Some p ->
  state p = contagious ->
  0 < days_at_state (Exercise2.health_table cfg contagious) ->
  days_at_state (Exercise2.health_table cfg contagious) < days p + 1 ->
  Exercise2.health_step cfg i p w
    = Ok (Exercise2.count_death
            (Exercise2.set_people
               (E2Props.at_pos w (S (pos (Exercise2.gen w))))
               (delete i (Exercise2.people w)))).
Proof.
  intros ((r & Hr & Hr1) & _ & _) Hnd Hp Hc Hpos Hel.
  unfold Exercise2.health_step. rewrite Hc. simpl.
  apply Z.ltb_lt in Hpos, Hel. rewrite Hpos, Hel. simpl.
  rewrite Hr. simpl.
  assert (Qltb 0 r = true) as -> by (apply Qltb_lt; rewrite Hr1; reflexivity).
  assert (Qltb (fst (random (Exercise2.gen w))) r = true) as Hu.
  { apply Qltb_lt. rewrite Hr1. apply random_below_one. }
  simpl in Hu. simpl. rewrite Hu.
  rewrite (py_remove_at _ i).
  - simpl. f_equal. unfold Exercise2.count_death, E2Props.at_pos. simpl.
    f_equal. clear. revert i.
    induction (Exercise2.people w) as [|a l IH]; intros [|i]; simpl;
      try reflexivity. f_equal. apply IH.
  - eapply ids_unique_insert; [eassumption|eassumption|reflexivity].
  - apply list_lookup_insert_eq. apply lookup_lt_Some in Hp. assumption.
Qed.

Lemma E2_health_step_no_recovery cfg (i : nat) (p : person) (w w' : Exercise2.sim) :
  E2Props.scenario_C (Exercise2.health_table cfg) ->
  E2Props.no_recovery w -> Exercise2.people w !! i = Some p ->
  Exercise2.health_step cfg i p w = Ok w' -> E2Props.no_recovery w'.
Proof.
  intros ((r & Hr & Hr1) & Hw & Hi) (Hall & Hnd & Hrec) Hp H.
  pose proof (Forall_lookup_1 _ _ _ _ Hall Hp) as Hsafe.
  unfold Exercise2.health_step in H.
  set (p1 := set_days p (days p + 1)) in *.
  assert (E2Props.no_recovery
            (Exercise2.set_people w (<[i := p1]> (Exercise2.people w)))) as H1.
  { split_and!; simpl; [|eapply ids_unique_insert; eauto|assumption].
    apply Forall_insert; [assumption|exact Hsafe]. }
  destruct (_ && _) eqn:Hgo; [|inversion H; subst w'; exact H1].
  inv_bind H. rename a into rate, Ha into Hrate.
  assert (forall w2 : Exercise2.sim,
             E2Props.no_recovery w2 -> Exercise2.people w2 !! i = Some p1 ->
             Qltb (fst (random (Exercise2.gen w))) rate = false \/ Qltb 0 rate = false ->
             (ns <- from_key (next_state (Exercise2.health_table cfg (state p))) ;;
              Ok (if health_eqb ns immune
                  then Exercise2.count_recovery
                         (Exercise2.set_people w2
                            (<[i := {| id := id p1; state := ns; days := 1 |}]>
                               (Exercise2.people w2)))
                  else Exercise2.set_people w2
                         (<[i := {| id := id p1; state := ns; days := 1 |}]>
                            (Exercise2.people w2)))) = Ok w' ->
             E2Props.no_recovery w') as Hadv.
  { intros w2 (Hall2 & Hnd2 & Hrec2) Hp2 Hno Hres.
    inv_bind Hres. rename a into ns, Ha into Hns.
    assert (ns = infected \/ ns = contagious) as Hns'.
    { destruct Hsafe as [Hs|[Hs|Hs]]; rewrite Hs in Hns, Hrate.
      - rewrite Hw in Hns. inversion Hns; auto.
      - rewrite Hi in Hns. inversion Hns; auto.
      - exfalso. rewrite Hr in Hrate. inversion Hrate; subst rate.
        destruct Hno as [Hno|Hno]; apply Qltb_ge in Hno.
        + pose proof (random_below_one (Exercise2.gen w)) as Hb.
          rewrite Hr1 in Hno. exact (Qlt_not_le _ _ Hb Hno).
        + rewrite Hr1 in Hno. apply (Qlt_not_le 0 1); [reflexivity|assumption]. }
    assert (health_eqb ns immune = false) as Him
      by (destruct Hns' as [-> | ->]; reflexivity).
    rewrite Him in Hres. inversion Hres; subst w'; clear Hres.
    split_and!; simpl; [|eapply ids_unique_insert; eauto|assumption].
    apply Forall_insert; [assumption|].
    unfold E2Props.not_recovered; simpl. tauto. }
  assert (Exercise2.people
            (Exercise2.set_people w (<[i := p1]> (Exercise2.people w))) !! i
          = Some p1) as Hp1.
  { simpl. apply list_lookup_insert_eq. apply lookup_lt_Some in Hp. assumption. }
  destruct (Qltb 0 rate) eqn:Hpos.
  - unfold random in H, Hadv. simpl in H, Hadv.
    match type of H with
    | (if ?b then _ else _) = _ => destruct b eqn:Hu
    end.
    + inv_bind H. inversion H; subst w'; clear H. rename a into l, Ha into Hrem.
      simpl in Hrem.
      destruct (py_remove_delete _ _ _ _ Hrem) as (j & y & _ & _ & -> & _).
      destruct H1 as (Ha1 & Hn1 & Hr1').
      split_and!; simpl; [apply Forall_delete|apply ids_unique_delete|]; assumption.
    + refine (Hadv _ _ _ _ H); [exact H1|exact Hp1|auto].
  - refine (Hadv _ _ _ _ H); [exact H1|exact Hp1|auto].
Qed.

Lemma E2_health_loop_no_recovery cfg (n : nat) (w w' : Exercise2.sim) :
  E2Props.scenario_C (Exercise2.health_table cfg) ->
  E2Props.no_recovery w ->
  Exercise2.health_loop cfg n w = Ok w' -> E2Props.no_recovery w'.
Proof.
  intros HC. revert w. induction n as [|n IH]; intros w Hsafe H; simpl in H.
  - inversion H; subst. assumption.
  - destruct (Exercise2.people w !! n) as [p|] eqn:Hp.
    + inv_bind H. eapply IH; [|eassumption].
      eapply E2_health_step_no_recovery; eassumption.
    + inversion H; subst. assumption.
Qed.

Lemma E2_infected_no_recovery (i : nat) (p : person) (w : Exercise2.sim) :
  E2Props.no_recovery w -> Exercise2.people w !! i = Some p ->
  E2Props.no_recovery (E2Props.infected_at i p w).
Proof.
  intros (Hall & Hnd & Hrec) Hp.
  split_and!; simpl; [|eapply ids_unique_insert; eauto|assumption].
  apply Forall_insert; [assumption|]. unfold E2Props.not_recovered; simpl. tauto.
Qed.

Lemma E2_contagious_contacts_no_recovery cfg (k : nat) (w w' : Exercise2.sim) :
  E2Props.no_recovery w ->
  Exercise2.contagious_contacts cfg k w = Ok w' -> E2Props.no_recovery w'.
Proof.
  revert w. induction k as [|k IH]; intros w Hsafe H; simpl in H.
  - inversion H; subst. assumption.
  - inv_bind H. inv_bind H. inv_bind H.
    rename a0 into j, a1 into c, Ha0 into Hj, Ha1 into Hc.
    assert (Exercise2.people w !! j = Some c) as Hjc.
    { unfold py_get in Hc. rewrite Hj in Hc. simpl in Hc.
      destruct (Exercise2.people w !! j); [congruence|discriminate]. }
    destruct (can_be_infected _).
    + simpl in H. destruct (Qltb _ _).
      * eapply IH; [|exact H].
        apply (E2_infected_no_recovery j c (Exercise2.set_gen (Exercise2.set_gen w _) _));
          assumption.
      * eapply IH; [|exact H]. exact Hsafe.
    + eapply IH; [|exact H]. exact Hsafe.
Qed.

Lemma E2_contact_loop_no_recovery cfg (n i : nat) (w w' : Exercise2.sim) :
  E2Props.no_recovery w ->
  Exercise2.contact_loop cfg n i w = Ok w' -> E2Props.no_recovery w'.
Proof.
  revert i w. induction n as [|n IH]; intros i w Hsafe H; simpl in H.
  - inversion H; subst. assumption.
  - destruct (Exercise2.people w !! i) as [p|] eqn:Hp.
    2:{ inversion H; subst. assumption. }
    inv_bind H. rename a into w1, Ha into Hstep.
    eapply IH; [|exact H]. clear H.
    unfold Exercise2.contact_step in Hstep.
    destruct (can_be_infected _).
    + apply E2_susceptible_at_most_one in Hstep
        as (_ & Hr & _ & [[Hl Hn]|(p' & Hp' & Hl & Hn)]);
        destruct Hsafe as (Hall & Hnd & Hrec).
      * split_and!; [rewrite Hl; assumption|rewrite Hl; assumption|lia].
      * split_and!; [rewrite Hl|rewrite Hl|lia].
        -- apply Forall_insert; [assumption|].
           unfold E2Props.not_recovered; simpl. tauto.
        -- eapply ids_unique_insert; eauto.
    + destruct (health_eqb _ _).
      * eapply E2_contagious_contacts_no_recovery; eassumption.
      * inversion Hstep; subst. assumption.
Qed.

Lemma py_get_elem {A : Type} (l : list A) (i : Z) (a : A) :
  py_get l i = Ok a -> a ∈ l.
Proof.
  unfold py_get. intros H. inv_bind H.
  destruct (l !! a0) eqn:E; [|discriminate]. inversion H; subst.
  eapply list_elem_of_lookup_2. eassumption.
Qed.

Lemma py_get_lookup {A : Type} (l : list A) (i : Z) (a : A) :
  py_get l i = Ok a -> exists k, py_index l i = Ok k /\ l !! k = Some a.
Proof.
  unfold py_get. intros H. inv_bind H.
  destruct (l !! a0) eqn:E; [|discriminate]. inversion H; subst. eauto.
Qed.

Lemma E2_initial_people_no_recovery cfg :
  Forall E2Props.not_recovered (Exercise2.initial_people cfg) /\
  E2Props.ids_unique (Exercise2.initial_people cfg).
Proof.
  unfold Exercise2.initial_people. split.
  - apply Forall_forall. intros p Hp. apply list_elem_of_In in Hp.
    apply in_map_iff in Hp as (i & <- & _). left. reflexivity.
  - unfold E2Props.ids_unique.
    change (map ?f ?l) with (f <$> l). rewrite <- list_fmap_compose.
    apply (NoDup_fmap_2 (Z.of_nat)). apply NoDup_seq.
Qed.

Lemma E2_infect_initial_no_recovery cfg (n : nat) (l l' : list person) (g g' : rng) :
  Forall E2Props.not_recovered l -> E2Props.ids_unique l ->
  Exercise2.infect_initial cfg n l g = Ok (l', g') ->
  Forall E2Props.not_recovered l' /\ E2Props.ids_unique l'.
Proof.
  revert l g. induction n as [|n IH]; intros l g Hall Hnd H; simpl in H.
  - inversion H; subst. split; assumption.
  - inv_bind H. inv_bind H. inv_bind H.
    rename a0 into k, a1 into p, Ha0 into Hk, Ha1 into Hp.
    apply py_get_lookup in Hp as (k' & Hk' & Hp). rewrite Hk in Hk'.
    inversion Hk'; subst k'.
    apply IH in H; [assumption| |].
    + apply Forall_insert; [assumption|]. right; right. reflexivity.
    + eapply ids_unique_insert; [eassumption|eassumption|reflexivity].
Qed.

Lemma E2_append_stats_recoveries (day : Z) (w : Exercise2.sim)
    (s s' : Exercise2.stats) :
  Exercise2.new_recoveries w = 0 ->
  Forall (fun x => x = 0) (Exercise2.cumulative_recoveries s) ->
  Exercise2.append_stats day w s = Ok s' ->
  Forall (fun x => x = 0) (Exercise2.cumulative_recoveries s').
Proof.
  intros Hrec Hall H. unfold Exercise2.append_stats in H. repeat inv_bind H.
  inversion H; subst s'; clear H. simpl.
  apply Forall_app. split; [assumption|].
  constructor; [|constructor].
  match goal with
  | Hg : py_get (Exercise2.cumulative_recoveries s) day = Ok ?x |- _ =>
      apply py_get_elem in Hg;
      pose proof (proj1 (Forall_forall _ _) Hall _ Hg) as Hx
  end.
  simpl in Hx. lia.
Qed.

Lemma E2_day_loop_no_recovery cfg (n : nat) (day : Z) ws ws' :
  E2Props.scenario_C (Exercise2.health_table cfg) ->
  Forall E2Props.not_recovered (Exercise2.people (fst ws)) ->
  E2Props.ids_unique (Exercise2.people (fst ws)) ->
  Forall (fun x => x = 0) (Exercise2.cumulative_recoveries (snd ws)) ->
  Exercise2.day_loop cfg n day ws = Ok ws' ->
  Forall E2Props.not_recovered (Exercise2.people (fst ws')) /\
  E2Props.ids_unique (Exercise2.people (fst ws')) /\
  Forall (fun x => x = 0) (Exercise2.cumulative_recoveries (snd ws')).
Proof.
  intros HC. revert day ws. induction n as [|n IH];
    intros day ws Hall Hnd Hzero H; simpl in H.
  - inversion H; subst. auto.
  - inv_bind H. rename a into ws1, Ha into Hday.
    unfold Exercise2.one_day in Hday.
    inv_bind Hday. rename a into w1, Ha into Hhealth.
    inv_bind Hday. rename a into w2, Ha into Hcontact.
    inv_bind Hday. rename a into s', Ha into Happ.
    inversion Hday; subst ws1; clear Hday.
    assert (E2Props.no_recovery (Exercise2.reset_counters (fst ws))) as H0
      by (split_and!; simpl; auto).
    pose proof (E2_health_loop_no_recovery cfg _ _ _ HC H0 Hhealth) as H1.
    pose proof (E2_contact_loop_no_recovery cfg _ _ _ _ H1 Hcontact)
      as (Hall2 & Hnd2 & Hrec2).
    apply IH in H; [exact H|assumption|assumption|].
    simpl. eapply E2_append_stats_recoveries; eassumption.
Qed.



(** In that run people do die, and nobody recovers. *)
Lemma contagious_death_rate_one_example :
  exists w s,
    Exercise2.run Scenario.deadly_config Scenario.sample_rng = Ok (w, s) /\
    Exercise2.people w = [ {| id := 3; state := contagious; days := 4 |} ] /\
    Exercise2.cumulative_deaths s = [0; 0; 0; 0; 2; 2; 2; 3; 5] /\
    Exercise2.cumulative_recoveries s = [0; 0; 0; 0; 0; 0; 0; 0; 0].
Proof.
  destruct (Exercise2.run Scenario.deadly_config Scenario.sample_rng)
    as [[w s]| |] eqn:Hrun; [|vm_compute in Hrun; discriminate ..].
  vm_compute in Hrun. inversion Hrun; subst; clear Hrun.
  do 2 eexists. split; [reflexivity|]. split_and!; reflexivity.
Qed.

(** ** [exercise_3d.py]: the same facts on its functions *)

Section E3dFacts.
Import SimulateV2.
Variable table : health -> health_state.
Implicit Types w : world person Exercise3d.env.

Lemma E3d_randint_draw w :
  1 <= DAILY_POPULATION w ->
  randint 0 (DAILY_POPULATION w - 1) (random_state w)
    = Ok (E3dProps.draw_index w (pos (random_state w)), rng_next (random_state w)).
Proof.
  intros H. unfold randint, E3dProps.draw_index.
  destruct (DAILY_POPULATION w - 1 <? 0) eqn:Hlt; [lia|].
  replace (DAILY_POPULATION w - 1 - 0 + 1) with (DAILY_POPULATION w) by lia.
  reflexivity.
Qed.

Lemma E3d_draw_get w (t : nat) (c : person) :
  E3dProps.pop_inv w -> 1 <= DAILY_POPULATION w ->
  E3dProps.sampled w t = Some c ->
  py_index (PEOPLE w) (E3dProps.draw_index w t)
    = Ok (Z.to_nat (E3dProps.draw_index w t)) /\
  py_get (PEOPLE w) (E3dProps.draw_index w t) = Ok c.
Proof.
  intros Hpop Hcp Hs. unfold E3dProps.pop_inv in Hpop.
  assert (0 <= E3dProps.draw_index w t < Z.of_nat (length (PEOPLE w))) as Hr.
  { unfold E3dProps.draw_index. rewrite <- Hpop. apply Z.mod_pos_bound. lia. }
  split; [apply py_index_in_range; assumption|].
  destruct (py_get_in_range _ _ Hr) as (c' & Hg & Hl).
  unfold E3dProps.sampled in Hs. congruence.
Qed.

Lemma E3d_advance_infects (i : nat) (p : person) (h : health_state) w :
  E3dProps.leads_to_infected h -> PEOPLE w !! i = Some p ->
  Exercise3d.advance_health_state i h w = Ok (E3dProps.infected_at i p w).
Proof.
  intros ((r & Hr & Hr0) & Hn) Hp. unfold Exercise3d.advance_health_state.
  rewrite Hp, Hr. simpl.
  assert (Qltb 0 r = false) as -> by (apply Qltb_ge; assumption).
  rewrite Hn. reflexivity.
Qed.

Lemma E3d_advance_dies (i : nat) (p : person) (h : health_state) w :
  (exists r, death_rate h = Some r /\ (r == 1)%Q) ->
  E2Props.ids_unique (PEOPLE w) -> PEOPLE w !! i = Some p ->
  Exercise3d.advance_health_state i h w
    = Ok (E3dProps.dead_at i (E3dProps.at_pos w (S (pos (random_state w))))).
Proof.
  intros (r & Hr & Hr1) Hnd Hp. unfold Exercise3d.advance_health_state.
  rewrite Hp, Hr. simpl.
  assert (Qltb 0 r = true) as -> by (apply Qltb_lt; rewrite Hr1; reflexivity).
  assert (Qltb (fst (random (random_state w))) r = true) as Hu.
  { apply Qltb_lt. rewrite Hr1. apply random_below_one. }
  simpl in Hu. simpl. rewrite Hu.
  rewrite (py_remove_at _ i p Hnd Hp). reflexivity.
Qed.

Lemma E3d_susceptible_miss (k i : nat) w (c : person) :
  E3dProps.pop_inv w -> 1 <= DAILY_POPULATION w ->
  E3dProps.sampled w (pos (random_state w)) = Some c ->
  state c <> contagious ->
  Exercise3d.susceptible_contacts table (S k) i w
    = Exercise3d.susceptible_contacts table k i
        (E3dProps.at_pos w (S (pos (random_state w)))).
Proof.
  intros Hpop Hcp Hs Hc. simpl.
  rewrite (E3d_randint_draw w Hcp). simpl.
  destruct (E3d_draw_get w _ c Hpop Hcp Hs) as [_ ->]. simpl.
  destruct (health_eqb (state c) contagious) eqn:He.
  - destruct (state c); discriminate || congruence.
  - reflexivity.
Qed.

Lemma E3d_susceptible_hit (k i : nat) w (c p : person) :
  E3dProps.pop_inv w -> 1 <= DAILY_POPULATION w ->
  E3dProps.sampled w (pos (random_state w)) = Some c ->
  state c = contagious ->
  PEOPLE w !! i = Some p ->
  Exercise3d.susceptible_contacts table (S k) i w
    = if Qltb (E3dProps.uniform_at w (S (pos (random_state w))))
              (Exercise3d.CURRENT_TRANSMISSION_PROBABILITY (extern w))
      then Exercise3d.advance_health_state i (table (state p))
             (E3dProps.at_pos w (S (S (pos (random_state w)))))
      else Exercise3d.susceptible_contacts table k i
             (E3dProps.at_pos w (S (S (pos (random_state w))))).
Proof.
  intros Hpop Hcp Hs Hc Hp. simpl.
  rewrite (E3d_randint_draw w Hcp). simpl.
  destruct (E3d_draw_get w _ c Hpop Hcp Hs) as [_ ->]. simpl.
  rewrite Hc. simpl.
  unfold E3dProps.uniform_at.
  destruct (Qltb _ _); [|reflexivity].
  rewrite Hp. reflexivity.
Qed.

Lemma E3d_susceptible_first_contagious (n k i : nat) w (c p : person) :
  E3dProps.pop_inv w -> 1 <= DAILY_POPULATION w ->
  PEOPLE w !! i = Some p ->
  (n < k)%nat ->
  (forall m, (m < n)%nat ->
     exists c', E3dProps.sampled w (pos (random_state w) + m) = Some c' /\
                state c' <> contagious) ->
  E3dProps.sampled w (pos (random_state w) + n) = Some c ->
  state c = contagious ->
  (E3dProps.uniform_at w (pos (random_state w) + n + 1)
   < Exercise3d.CURRENT_TRANSMISSION_PROBABILITY (extern w))%Q ->
  Exercise3d.susceptible_contacts table k i w
    = Exercise3d.advance_health_state i (table (state p))
        (E3dProps.at_pos w (pos (random_state w) + n + 2)).
Proof.
  revert k w. induction n as [|n IH]; intros k w Hpop Hcp Hp Hk Hmiss Hs Hc Hu.
  - destruct k as [|k]; [lia|].
    rewrite Nat.add_0_r in Hs, Hu.
    rewrite (E3d_susceptible_hit k i w c p Hpop Hcp Hs Hc Hp).
    replace (pos (random_state w) + 1)%nat with (S (pos (random_state w)))
      in Hu by lia.
    apply Qltb_lt in Hu. rewrite Hu.
    replace (pos (random_state w) + 0 + 2)%nat
      with (S (S (pos (random_state w)))) by lia.
    reflexivity.
  - destruct k as [|k]; [lia|].
    destruct (Hmiss 0%nat ltac:(lia)) as (c0 & Hs0 & Hc0).
    rewrite Nat.add_0_r in Hs0.
    rewrite (E3d_susceptible_miss k i w c0 Hpop Hcp Hs0 Hc0).
    rewrite (IH k (E3dProps.at_pos w (S (pos (random_state w)))) Hpop Hcp Hp).
    + unfold E3dProps.at_pos. simpl.
      replace (S (pos (random_state w) + n + 2))
        with (pos (random_state w) + S n + 2)%nat by lia.
      reflexivity.
    + lia.
    + intros m Hm. destruct (Hmiss (S m) ltac:(lia)) as (c' & Hs' & Hc').
      exists c'. split; [|assumption].
      replace (pos (random_state w) + S m)%nat
        with (S (pos (random_state w)) + m)%nat in Hs' by lia. exact Hs'.
    + replace (pos (random_state w) + S n)%nat
        with (S (pos (random_state w)) + n)%nat in Hs by lia. exact Hs.
    + assumption.
    + replace (pos (random_state w) + S n + 1)%nat
        with (S (pos (random_state w)) + n + 1)%nat in Hu by lia. exact Hu.
Qed.

(** The susceptible-initiated loop calls [advance_health_state] at most
    once, and then returns; before that it only moves the generator. *)
Lemma E3d_susceptible_at_most_one (k i : nat) w w' :
  Exercise3d.susceptible_contacts table k i w = Ok w' ->
  (exists t, w' = E3dProps.at_pos w t) \/
  (exists t p, PEOPLE w !! i = Some p /\
               Exercise3d.advance_health_state i (table (state p))
                 (E3dProps.at_pos w t) = Ok w').
Proof.
  revert w. induction k as [|k IH]; intros w H; simpl in H.
  - injection H as <-. left. exists (pos (random_state w)).
    destruct w as [? ? ? ? ? ? ? [? ?] ?]. reflexivity.
  - inv_bind H. inv_bind H.
    pose proof (randint_inv _ _ _ _ Ha) as [_ Hg].
    destruct a as [j g]. simpl in *. subst g.
    destruct (health_eqb (state a0) contagious).
    + simpl in H. destruct (Qltb _ _).
      * destruct (PEOPLE w !! i) as [p|] eqn:Hp; [|discriminate].
        right. exists (S (S (pos (random_state w)))), p.
        split; [reflexivity|]. exact H.
      * apply IH in H as [(t & ->)|(t & p & Hp & Hadv)].
        -- left. exists t. reflexivity.
        -- right. exists t, p. split; [exact Hp|exact Hadv].
    + apply IH in H as [(t & ->)|(t & p & Hp & Hadv)].
      * left. exists t. reflexivity.
      * right. exists t, p. split; [exact Hp|exact Hadv].
Qed.

Lemma E3d_contagious_unfold (k : nat) w (c : person) :
  E3dProps.pop_inv w -> 1 <= DAILY_POPULATION w ->
  E3dProps.sampled w (pos (random_state w)) = Some c ->
  Exercise3d.contagious_contacts table (S k) w
    = if can_be_infected (table (state c)) then
        if Qltb (E3dProps.uniform_at w (S (pos (random_state w))))
                (Exercise3d.CURRENT_TRANSMISSION_PROBABILITY (extern w))
        then w3 <- Exercise3d.advance_health_state
                     (Z.to_nat (E3dProps.draw_index w (pos (random_state w))))
                     (table (state c))
                     (E3dProps.at_pos w (S (S (pos (random_state w))))) ;;
             Exercise3d.contagious_contacts table k w3
        else Exercise3d.contagious_contacts table k
               (E3dProps.at_pos w (S (S (pos (random_state w)))))
      else Exercise3d.contagious_contacts table k
             (E3dProps.at_pos w (S (pos (random_state w)))).
Proof.
  intros Hpop Hcp Hs. simpl.
  rewrite (E3d_randint_draw w Hcp). simpl.
  destruct (E3d_draw_get w _ c Hpop Hcp Hs) as [Hi Hg].
  rewrite Hi. simpl. rewrite Hg. simpl.
  destruct (can_be_infected _); [|reflexivity].
  unfold E3dProps.uniform_at. destruct (Qltb _ _); reflexivity.
Qed.

Lemma E3d_elapsed_contagious_dies (i : nat) (p : person) w :
  E2Props.scenario_C table ->
  E2Props.ids_unique (PEOPLE w) -> PEOPLE w !! i = Some p ->
  state p = contagious ->
  0 < days_at_state (table contagious) ->
  days_at_state (table contagious) < days p + 1 ->
  Exercise3d.evaluate_health_for_day table i w
    = Ok (E3dProps.dead_at i (E3dProps.at_pos w (S (pos (random_state w))))).
Proof.
  intros (Hr & _ & _) Hnd Hp Hc Hpos Hel.
  unfold Exercise3d.evaluate_health_for_day. rewrite Hp, Hc. simpl.
  apply Z.ltb_lt in Hpos, Hel. rewrite Hpos, Hel. simpl.
  rewrite (E3d_advance_dies i (set_days p (days p + 1)) _ _ Hr).
  - unfold E3dProps.dead_at, E3dProps.at_pos. simpl.
    f_equal. f_equal. f_equal. f_equal.
    clear. revert i. induction (PEOPLE w) as [|a l IH]; intros [|i]; simpl;
      try reflexivity. f_equal. apply IH.
  - simpl. eapply ids_unique_insert; [eassumption|eassumption|reflexivity].
  - simpl. apply list_lookup_insert_eq. apply lookup_lt_Some in Hp. assumption.
Qed.

End E3dFacts.

Section E3dScenarioC.
Import SimulateV2.
Variable table : health -> health_state.
Hypothesis table_C : E2Props.scenario_C table.
Implicit Types w : world person Exercise3d.env.

Lemma E3d_advance_no_recovery (i : nat) (p : person) w w' :
  E3dProps.no_recovery w -> PEOPLE w !! i = Some p ->
  Exercise3d.advance_health_state i (table (state p)) w = Ok w' ->
  E3dProps.no_recovery w'.
Proof.
  destruct table_C as ((r & Hr & Hr1) & Hw & Hi).
  intros (Hall & Hnd & Hrec) Hp H.
  pose proof (Forall_lookup_1 _ _ _ _ Hall Hp) as Hsafe.
  unfold Exercise3d.advance_health_state in H. rewrite Hp in H.
  inv_bind H. rename a into rate, Ha into Hrate.
  assert (forall w2 : world person Exercise3d.env,
             E3dProps.no_recovery w2 -> PEOPLE w2 !! i = Some p ->
             Qltb (fst (random (random_state w))) rate = false \/ Qltb 0 rate = false ->
             (ns <- from_key (next_state (table (state p))) ;;
              Ok (if health_eqb ns immune
                  then Exercise3d.add_today
                         (set_PEOPLE w2
                            (<[i := {| id := id p; state := ns; days := 1 |}]>
                               (PEOPLE w2))) 0 1 0
                  else if health_eqb ns infected
                       then Exercise3d.add_today
                              (set_PEOPLE w2
                                 (<[i := {| id := id p; state := ns; days := 1 |}]>
                                    (PEOPLE w2))) 1 0 0
                       else set_PEOPLE w2
                              (<[i := {| id := id p; state := ns; days := 1 |}]>
                                 (PEOPLE w2)))) = Ok w' ->
             E3dProps.no_recovery w') as Hadv.
  { intros w2 (Hall2 & Hnd2 & Hrec2) Hp2 Hno Hres.
    inv_bind Hres. rename a into ns, Ha into Hns.
    assert (ns = infected \/ ns = contagious) as Hns'.
    { destruct Hsafe as [Hs|[Hs|Hs]]; rewrite Hs in Hns, Hrate.
      - rewrite Hw in Hns. inversion Hns; auto.
      - rewrite Hi in Hns. inversion Hns; auto.
      - exfalso. rewrite Hr in Hrate. inversion Hrate; subst rate.
        destruct Hno as [Hno|Hno]; apply Qltb_ge in Hno.
        + pose proof (random_below_one (random_state w)) as Hb.
          rewrite Hr1 in Hno. exact (Qlt_not_le _ _ Hb Hno).
        + rewrite Hr1 in Hno. apply (Qlt_not_le 0 1); [reflexivity|assumption]. }
    assert (E2Props.not_recovered {| id := id p; state := ns; days := 1 |}) as Hnew
      by (unfold E2Props.not_recovered; simpl; tauto).
    destruct Hns' as [-> | ->]; simpl in Hres; inversion Hres; subst w'; clear Hres;
      (split_and!; simpl;
       [apply Forall_insert; assumption
       |eapply ids_unique_insert; eauto
       |assumption || lia]). }
  destruct (Qltb 0 rate) eqn:Hpos.
  - unfold random in H, Hadv. simpl in H, Hadv.
    match type of H with
    | (if ?b then _ else _) = _ => destruct b eqn:Hu
    end.
    + inv_bind H. inversion H; subst w'; clear H. rename a into l, Ha into Hrem.
      simpl in Hrem.
      destruct (py_remove_delete _ _ _ _ Hrem) as (j & y & _ & _ & -> & _).
      split_and!; simpl;
        [apply Forall_delete; assumption
        |apply ids_unique_delete; assumption|lia].
    + refine (Hadv _ _ _ _ H); [split_and!; assumption|exact Hp|auto].
  - refine (Hadv _ _ _ _ H); [split_and!; assumption|exact Hp|auto].
Qed.

Lemma E3d_health_no_recovery (i : nat) w w' :
  E3dProps.no_recovery w ->
  Exercise3d.evaluate_health_for_day table i w = Ok w' ->
  E3dProps.no_recovery w'.
Proof.
  intros (Hall & Hnd & Hrec) H. unfold Exercise3d.evaluate_health_for_day in H.
  destruct (PEOPLE w !! i) as [p|] eqn:Hp; [|discriminate].
  pose proof (Forall_lookup_1 _ _ _ _ Hall Hp) as Hsafe.
  assert (E3dProps.no_recovery
            (set_PEOPLE w (<[i := set_days p (days p + 1)]> (PEOPLE w)))) as H1.
  { split_and!; simpl; [|eapply ids_unique_insert; eauto|assumption].
    apply Forall_insert; [assumption|exact Hsafe]. }
  destruct (_ && _).
  - apply (E3d_advance_no_recovery i (set_days p (days p + 1)) _ _ H1); [|exact H].
    simpl. apply list_lookup_insert_eq. apply lookup_lt_Some in Hp. assumption.
  - inversion H; subst. exact H1.
Qed.

Lemma E3d_contagious_contacts_no_recovery (k : nat) w w' :
  E3dProps.no_recovery w ->
  Exercise3d.contagious_contacts table k w = Ok w' -> E3dProps.no_recovery w'.
Proof.
  revert w. induction k as [|k IH]; intros w Hsafe H; simpl in H.
  - inversion H; subst. assumption.
  - inv_bind H. inv_bind H. inv_bind H.
    rename a0 into j, a1 into c, Ha0 into Hj, Ha1 into Hc.
    apply py_get_lookup in Hc as (j' & Hj' & Hjc). rewrite Hj in Hj'.
    inversion Hj'; subst j'.
    destruct (can_be_infected _).
    + simpl in H. destruct (Qltb _ _).
      * inv_bind H. eapply IH; [|exact H].
        refine (E3d_advance_no_recovery j c _ _ _ _ Ha0); [exact Hsafe|exact Hjc].
      * eapply IH; [|exact H]. exact Hsafe.
    + eapply IH; [|exact H]. exact Hsafe.
Qed.

Lemma E3d_contacts_no_recovery (i : nat) w w' :
  E3dProps.no_recovery w ->
  Exercise3d.evaluate_contacts table i w = Ok w' -> E3dProps.no_recovery w'.
Proof.
  intros Hsafe H. unfold Exercise3d.evaluate_contacts in H.
  destruct (PEOPLE w !! i) as [p|] eqn:Hp; [|discriminate].
  destruct (can_be_infected _).
  - apply E3d_susceptible_at_most_one in H as [(t & ->)|(t & p' & Hp' & Hadv)].
    + exact Hsafe.
    + refine (E3d_advance_no_recovery i p' _ _ _ _ Hadv); [exact Hsafe|exact Hp'].
  - destruct (health_eqb _ _).
    + eapply E3d_contagious_contacts_no_recovery; eassumption.
    + inversion H; subst. assumption.
Qed.

End E3dScenarioC.

(** ** C3: the contacts of a susceptible person *)

(** C3.  For a susceptible person at index [i] the contact loop is the
    susceptible-initiated one.  If its first [n] sampled contacts are not
    contagious and the next one is, the uniform draw is taken on that
    contact; when the draw is below the transmission probability the
    person becomes infected with [days = 1], one new case is counted and
    no further contact is sampled (the generator stands right after the
    draw).  Whatever the draws, the loop infects at most this one person,
    at most once; and over the whole contact loop of a day every new case
    is one person who stops being susceptible.  First and second conjunct:
    [exercise_2.py]; third conjunct: [evaluate_contacts] of
    [exercise_3d.py], where the infection is the call of
    [advance_health_state] on the entry of the person's state. *)
Theorem susceptible_contact_infects_once :
  (forall cfg (i : nat) (p : person) (w : Exercise2.sim),
      E2Props.pop_inv w ->
      Exercise2.people w !! i = Some p ->
      can_be_infected (Exercise2.health_table cfg (state p)) = true ->
      Exercise2.contact_step cfg i p w
        = Exercise2.susceptible_contacts cfg (Exercise2.half_contacts cfg) i w /\
      (forall (n : nat) (c : person),
          (n < Exercise2.half_contacts cfg)%nat ->
          (forall m, (m < n)%nat ->
             exists c', E2Props.sampled w (pos (Exercise2.gen w) + m) = Some c' /\
                        state c' <> contagious) ->
          E2Props.sampled w (pos (Exercise2.gen w) + n) = Some c ->
          state c = contagious ->
          (E2Props.uniform_at w (pos (Exercise2.gen w) + n + 1)
           < Exercise2.transmission_probability cfg)%Q ->
          Exercise2.contact_step cfg i p w
            = Ok (E2Props.infected_at i p
                    (E2Props.at_pos w (pos (Exercise2.gen w) + n + 2)))) /\
      (forall w',
          Exercise2.contact_step cfg i p w = Ok w' ->
          (Exercise2.people w' = Exercise2.people w /\
           Exercise2.new_cases w' = Exercise2.new_cases w) \/
          (Exercise2.people w'
             = <[i := {| id := id p; state := infected; days := 1 |}]>
                 (Exercise2.people w) /\
           Exercise2.new_cases w' = Exercise2.new_cases w + 1)))
  /\
  (forall cfg (n i : nat) (w w' : Exercise2.sim),
      can_be_infected (Exercise2.health_table cfg infected) = false ->
      Exercise2.contact_loop cfg n i w = Ok w' ->
      Exercise2.new_cases w' + E2Props.susceptible_count cfg w'
        = Exercise2.new_cases w + E2Props.susceptible_count cfg w)
  /\
  (forall table (i : nat) (p : person)
          (w : SimulateV2.world person Exercise3d.env),
      E3dProps.pop_inv w ->
      SimulateV2.PEOPLE w !! i = Some p ->
      can_be_infected (table (state p)) = true ->
      Exercise3d.evaluate_contacts table i w
        = Exercise3d.susceptible_contacts table (E3dProps.half_contacts w) i w /\
      (forall (n : nat) (c : person),
          (n < E3dProps.half_contacts w)%nat ->
          (forall m, (m < n)%nat ->
             exists c',
               E3dProps.sampled w (pos (SimulateV2.random_state w) + m) = Some c' /\
               state c' <> contagious) ->
          E3dProps.sampled w (pos (SimulateV2.random_state w) + n) = Some c ->
          state c = contagious ->
          (E3dProps.uniform_at w (pos (SimulateV2.random_state w) + n + 1)
           < Exercise3d.CURRENT_TRANSMISSION_PROBABILITY (SimulateV2.extern w))%Q ->
          Exercise3d.evaluate_contacts table i w
            = Exercise3d.advance_health_state i (table (state p))
                (E3dProps.at_pos w (pos (SimulateV2.random_state w) + n + 2))) /\
      (E3dProps.leads_to_infected (table (state p)) ->
       forall t,
         Exercise3d.advance_health_state i (table (state p)) (E3dProps.at_pos w t)
           = Ok (E3dProps.infected_at i p (E3dProps.at_pos w t))) /\
      (forall w',
          Exercise3d.evaluate_contacts table i w = Ok w' ->
          (exists t, w' = E3dProps.at_pos w t) \/
          (exists t,
              Exercise3d.advance_health_state i (table (state p))
                (E3dProps.at_pos w t) = Ok w'))).
Proof.
  split; [|split].
  - intros cfg i p w Hpop Hp Hsus.
    assert (Exercise2.contact_step cfg i p w
            = Exercise2.susceptible_contacts cfg (Exercise2.half_contacts cfg) i w)
      as Hstep by (unfold Exercise2.contact_step; rewrite Hsus; reflexivity).
    assert (1 <= Exercise2.current_population w) as Hcp.
    { unfold E2Props.pop_inv in Hpop. apply lookup_lt_Some in Hp. lia. }
    split; [exact Hstep|]. split.
    + intros n c Hn Hmiss Hs Hc Hu. rewrite Hstep.
      eapply E2_susceptible_first_contagious; eassumption.
    + intros w' H. rewrite Hstep in H.
      apply E2_susceptible_at_most_one in H
        as (_ & _ & _ & [[Hl Hn]|(p' & Hp' & Hl & Hn)]).
      * left. split; assumption.
      * right. rewrite Hp in Hp'. inversion Hp'; subst p'. split; assumption.
  - intros cfg n i w w' Hinf H. eapply E2_contact_loop_count; eassumption.
  - intros table i p w Hpop Hp Hsus.
    assert (Exercise3d.evaluate_contacts table i w
            = Exercise3d.susceptible_contacts table (E3dProps.half_contacts w) i w)
      as Hstep.
    { unfold Exercise3d.evaluate_contacts. rewrite Hp, Hsus. reflexivity. }
    assert (1 <= SimulateV2.DAILY_POPULATION w) as Hcp.
    { unfold E3dProps.pop_inv in Hpop. apply lookup_lt_Some in Hp. lia. }
    split; [exact Hstep|]. split; [|split].
    + intros n c Hn Hmiss Hs Hc Hu. rewrite Hstep.
      eapply E3d_susceptible_first_contagious; eassumption.
    + intros Hlead t. apply E3d_advance_infects; assumption.
    + intros w' H. rewrite Hstep in H.
      apply E3d_susceptible_at_most_one in H as [(t & Ht)|(t & p' & Hp' & Hadv)].
      * left. eauto.
      * right. rewrite Hp in Hp'. inversion Hp'; subst p'. eauto.
Qed.

Lemma susceptible_contact_infects_once_witness :
  Exercise2.contact_step Scenario.small_config 0
    {| id := 0; state := well; days := 3 |} (Scenario.trio_sim [2; 1; 0]%N)
  = Ok {| Exercise2.people :=
            [ {| id := 0; state := infected; days := 1 |};
              {| id := 1; state := contagious; days := 2 |};
              {| id := 2; state := well; days := 3 |} ];
          Exercise2.current_population := 3;
          Exercise2.new_cases := 1; Exercise2.new_recoveries := 0;
          Exercise2.new_deaths := 0;
          Exercise2.gen :=
            {| tape := tape (Scenario.replay [2; 1; 0]%N); pos := 3 |} |} /\
  Exercise3d.evaluate_contacts HEALTH_STATES 0 (Scenario.trio_world [2; 1; 0]%N)
  = Ok (E3dProps.infected_at 0 {| id := 0; state := well; days := 3 |}
          (E3dProps.at_pos (Scenario.trio_world [2; 1; 0]%N) 3)).
Proof.
  destruct susceptible_contact_infects_once as (T1 & _ & T3).
  split.
  - destruct (T1 Scenario.small_config 0%nat
                {| id := 0; state := well; days := 3 |}
                (Scenario.trio_sim [2; 1; 0]%N) eq_refl eq_refl eq_refl)
      as (_ & Hfirst & _).
    apply (Hfirst 1%nat {| id := 1; state := contagious; days := 2 |}).
    + vm_compute. lia.
    + intros m Hm. assert (m = 0%nat) as -> by lia.
      exists {| id := 2; state := well; days := 3 |}. split; [reflexivity|discriminate].
    + reflexivity.
    + reflexivity.
    + vm_compute. reflexivity.
  - destruct (T3 HEALTH_STATES 0%nat
                {| id := 0; state := well; days := 3 |}
                (Scenario.trio_world [2; 1; 0]%N) eq_refl eq_refl eq_refl)
      as (_ & Hfirst & Hinf & _).
    rewrite (Hfirst 1%nat {| id := 1; state := contagious; days := 2 |}).
    + apply Hinf. split; [|reflexivity]. exists 0%Q. split; [reflexivity|].
      apply Qle_refl.
    + vm_compute. lia.
    + intros m Hm. assert (m = 0%nat) as -> by lia.
      exists {| id := 2; state := well; days := 3 |}. split; [reflexivity|discriminate].
    + reflexivity.
    + reflexivity.
    + vm_compute. reflexivity.
Defined.

(** ** C4: half the contacts for each kind of person *)

Lemma foldl_Raise {A B : Type} (f : result A -> B -> result A) (e : exn)
    (l : list B) :
  (forall b, f (Raise e) b = Raise e) -> foldl f (Raise e) l = Raise e.
Proof.
  intros Hf. induction l as [|b l IH]; simpl; [reflexivity|].
  rewrite Hf. exact IH.
Qed.

Lemma foldl_Timeout {A B : Type} (f : result A -> B -> result A) (l : list B) :
  (forall b, f Timeout b = Timeout) -> foldl f Timeout l = Timeout.
Proof.
  intros Hf. induction l as [|b l IH]; simpl; [reflexivity|].
  rewrite Hf. exact IH.
Qed.

Lemma E2_visit_past_end cfg (w : Exercise2.sim) (i n : nat) :
  (length (Exercise2.people w) <= i)%nat ->
  foldl (E2Props.visit cfg) (Ok w) (seq i n) = Ok w.
Proof.
  revert i. induction n as [|n IH]; intros i Hi; simpl; [reflexivity|].
  rewrite (lookup_ge_None_2 _ _ Hi). apply IH. lia.
Qed.

Lemma E2_contact_loop_one_pass cfg (n i : nat) (w : Exercise2.sim) :
  Exercise2.contact_loop cfg n i w = foldl (E2Props.visit cfg) (Ok w) (seq i n).
Proof.
  revert i w. induction n as [|n IH]; intros i w; simpl; [reflexivity|].
  destruct (Exercise2.people w !! i) as [p|] eqn:Hp.
  - destruct (Exercise2.contact_step cfg i p w) as [w'| |]; simpl.
    + apply IH.
    + symmetry. apply foldl_Raise. reflexivity.
    + symmetry. apply foldl_Timeout. reflexivity.
  - symmetry. apply E2_visit_past_end.
    apply lookup_ge_None in Hp. lia.
Qed.

Lemma E3d_visit_past_end table (w : SimulateV2.world person Exercise3d.env) (i n : nat) :
  (length (SimulateV2.PEOPLE w) <= i)%nat ->
  foldl (E3dProps.visit table) (Ok w) (seq i n) = Ok w.
Proof.
  revert i. induction n as [|n IH]; intros i Hi; simpl; [reflexivity|].
  rewrite (lookup_ge_None_2 _ _ Hi). apply IH. lia.
Qed.

Lemma E3d_contact_loop_one_pass table (n i : nat)
    (w : SimulateV2.world person Exercise3d.env) :
  Exercise3dRun.contact_loop table n i w = foldl (E3dProps.visit table) (Ok w) (seq i n).
Proof.
  revert i w. induction n as [|n IH]; intros i w; simpl; [reflexivity|].
  destruct (SimulateV2.PEOPLE w !! i) as [p|] eqn:Hp.
  - destruct (Exercise3d.evaluate_contacts table i w) as [w'| |]; simpl.
    + apply IH.
    + symmetry. apply foldl_Raise. reflexivity.
    + symmetry. apply foldl_Timeout. reflexivity.
  - symmetry. apply E3d_visit_past_end.
    apply lookup_ge_None in Hp. lia.
Qed.

(** The contagious-initiated loop takes all its [k] samples, one cell
    each, and one more cell for the draw on each sample that can be
    infected; every case it counts had such a draw. *)
Lemma E2_contagious_contacts_cells cfg (k : nat) (w w' : Exercise2.sim) :
  Exercise2.contagious_contacts cfg k w = Ok w' ->
  Z.of_nat k <= E2Props.cells w w' <= 2 * Z.of_nat k /\
  0 <= E2Props.cases w w' <= E2Props.cells w w' - Z.of_nat k.
Proof.
  unfold E2Props.cells, E2Props.cases.
  revert w. induction k as [|k IH]; intros w H; simpl in H.
  - inversion H; subst. lia.
  - inv_bind H. inv_bind H. inv_bind H.
    apply randint_inv in Ha as [_ Hg].
    destruct (can_be_infected _).
    + simpl in H. destruct (Qltb _ _); apply IH in H; simpl in H;
        rewrite Hg in H; simpl in H; lia.
    + apply IH in H. simpl in H. rewrite Hg in H. simpl in H. lia.
Qed.

(** The susceptible-initiated loop counts at most one case, and when it
    counts none it has taken all its [k] samples. *)
Lemma E2_susceptible_contacts_cells cfg (k i : nat) (w w' : Exercise2.sim) :
  Exercise2.susceptible_contacts cfg k i w = Ok w' ->
  0 <= E2Props.cells w w' <= 2 * Z.of_nat k /\
  0 <= E2Props.cases w w' <= 1 /\
  (E2Props.cases w w' = 0 -> Z.of_nat k <= E2Props.cells w w').
Proof.
  unfold E2Props.cells, E2Props.cases.
  revert w. induction k as [|k IH]; intros w H; simpl in H.
  - inversion H; subst. lia.
  - inv_bind H. inv_bind H.
    apply randint_inv in Ha as [_ Hg].
    destruct (health_eqb _ _).
    + simpl in H. destruct (Qltb _ _).
      * destruct (_ !! i); [|discriminate].
        inversion H; subst w'; clear H. simpl. rewrite Hg. simpl. lia.
      * apply IH in H. simpl in H. rewrite Hg in H. simpl in H. lia.
    + apply IH in H. simpl in H. rewrite Hg in H. simpl in H. lia.
Qed.

Lemma E2_contact_step_cells cfg (i : nat) (p : person) (w w' : Exercise2.sim) :
  Exercise2.contact_step cfg i p w = Ok w' ->
  let h := Z.of_nat (Exercise2.half_contacts cfg) in
  (can_be_infected (Exercise2.health_table cfg (state p)) = true ->
   0 <= E2Props.cells w w' <= 2 * h /\ 0 <= E2Props.cases w w' <= 1 /\
   (E2Props.cases w w' = 0 -> h <= E2Props.cells w w')) /\
  (can_be_infected (Exercise2.health_table cfg (state p)) = false ->
   state p = contagious ->
   h <= E2Props.cells w w' <= 2 * h /\ 0 <= E2Props.cases w w' <= E2Props.cells w w' - h) /\
  (can_be_infected (Exercise2.health_table cfg (state p)) = false ->
   state p <> contagious -> w' = w).
Proof.
  intros H. cbv zeta. unfold Exercise2.contact_step in H.
  destruct (can_be_infected _) eqn:Hs.
  - split_and!; try discriminate. intros _.
    apply E2_susceptible_contacts_cells in H. exact H.
  - split_and!; try discriminate.
    + intros _ Hc. rewrite Hc in H. simpl in H.
      apply E2_contagious_contacts_cells in H. exact H.
    + intros _ Hc. destruct (state p); try congruence; inversion H; reflexivity.
Qed.



(** C4, as the code has it.  (1) Each sampling loop runs
    [int(daily_contacts / 2)] times: half the count, rounded down, [m] for
    the odd count [2 m + 1] (counts below 2^53, where the float division of
    the code is exact).  (2) The contact model of a day is one pass over
    the people: the loop of line 128 visits the indices in order, once
    each, and the person visited runs the sampling of the state it has
    then.  (3) On its visit a person who can be infected counts at most one
    case and, when it counts none, has taken all of the half-count samples;
    a contagious person takes all of them whatever the outcome, with one
    more cell of the tape for each transmission draw, and may count a case
    for each such draw; anybody else changes nothing.  (4) The index
    sampled lies in the list of people as the health loop left it, the dead
    of the day removed.  (5) After a successful transmission with [k]
    samples left the contagious-initiated loop goes on with those [k]
    samples, where the susceptible-initiated loop returns at once.  (6) A
    contagious person can infect two different contacts in one day.
    (7) and (8): [exercise_3d.py] makes one pass with [evaluate_contacts]
    in the same way, and its contagious-initiated loop goes on after a
    success where the susceptible-initiated one returns. *)
Theorem contact_passes_half_and_no_stop :
  (forall cfg,
      (0 <= Exercise2.daily_contacts cfg < 2 ^ 53 ->
       Z.of_nat (Exercise2.half_contacts cfg) = Exercise2.daily_contacts cfg / 2) /\
      (forall m, 0 <= m -> Exercise2.daily_contacts cfg = 2 * m + 1 ->
                 Exercise2.daily_contacts cfg < 2 ^ 53 ->
                 Exercise2.half_contacts cfg = Z.to_nat m))
  /\
  (forall cfg n i w,
      Exercise2.contact_loop cfg n i w
        = foldl (E2Props.visit cfg) (Ok w) (seq i n))
  /\
  (forall cfg i p w w',
      Exercise2.contact_step cfg i p w = Ok w' ->
      let h := Z.of_nat (Exercise2.half_contacts cfg) in
      (can_be_infected (Exercise2.health_table cfg (state p)) = true ->
       0 <= E2Props.cells w w' <= 2 * h /\ 0 <= E2Props.cases w w' <= 1 /\
       (E2Props.cases w w' = 0 -> h <= E2Props.cells w w')) /\
      (can_be_infected (Exercise2.health_table cfg (state p)) = false ->
       state p = contagious ->
       h <= E2Props.cells w w' <= 2 * h /\
       0 <= E2Props.cases w w' <= E2Props.cells w w' - h) /\
      (can_be_infected (Exercise2.health_table cfg (state p)) = false ->
       state p <> contagious -> w' = w))
  /\
  (forall cfg n w w1,
      E2Props.pop_inv w ->
      Exercise2.health_loop cfg n w = Ok w1 ->
      E2Props.pop_inv w1 /\
      forall t, 1 <= Exercise2.current_population w1 ->
        0 <= E2Props.draw_index w1 t < Z.of_nat (length (Exercise2.people w1)))
  /\
  (forall cfg k i w c p,
      E2Props.pop_inv w -> 1 <= Exercise2.current_population w ->
      E2Props.sampled w (pos (Exercise2.gen w)) = Some c ->
      (E2Props.uniform_at w (S (pos (Exercise2.gen w)))
       < Exercise2.transmission_probability cfg)%Q ->
      (can_be_infected (Exercise2.health_table cfg (state c)) = true ->
       Exercise2.contagious_contacts cfg (S k) w
         = Exercise2.contagious_contacts cfg k
             (E2Props.infected_at
                (Z.to_nat (E2Props.draw_index w (pos (Exercise2.gen w)))) c
                (E2Props.at_pos w (S (S (pos (Exercise2.gen w))))))) /\
      (state c = contagious -> Exercise2.people w !! i = Some p ->
       Exercise2.susceptible_contacts cfg (S k) i w
         = Ok (E2Props.infected_at i p
                 (E2Props.at_pos w (S (S (pos (Exercise2.gen w))))))))
  /\
  Exercise2.contact_step Scenario.small_config 1
    {| id := 1; state := contagious; days := 2 |}
    (Scenario.trio_sim [0; 0; 2; 0]%N)
  = Ok {| Exercise2.people :=
            [ {| id := 0; state := infected; days := 1 |};
              {| id := 1; state := contagious; days := 2 |};
              {| id := 2; state := infected; days := 1 |} ];
          Exercise2.current_population := 3;
          Exercise2.new_cases := 2; Exercise2.new_recoveries := 0;
          Exercise2.new_deaths := 0;
          Exercise2.gen :=
            {| tape := tape (Scenario.replay [0; 0; 2; 0]%N); pos := 4 |} |}
  /\
  (forall table (n i : nat) (w : SimulateV2.world person Exercise3d.env),
      Exercise3dRun.contact_loop table n i w
        = foldl (E3dProps.visit table) (Ok w) (seq i n))
  /\
  (forall table (k i : nat) (w : SimulateV2.world person Exercise3d.env)
          (c p : person),
      E3dProps.pop_inv w -> 1 <= SimulateV2.DAILY_POPULATION w ->
      E3dProps.sampled w (pos (SimulateV2.random_state w)) = Some c ->
      (E3dProps.uniform_at w (S (pos (SimulateV2.random_state w)))
       < Exercise3d.CURRENT_TRANSMISSION_PROBABILITY (SimulateV2.extern w))%Q ->
      (can_be_infected (table (state c)) = true ->
       Exercise3d.contagious_contacts table (S k) w
         = (w3 <- Exercise3d.advance_health_state
                    (Z.to_nat (E3dProps.draw_index w
                                 (pos (SimulateV2.random_state w))))
                    (table (state c))
                    (E3dProps.at_pos w (S (S (pos (SimulateV2.random_state w))))) ;;
            Exercise3d.contagious_contacts table k w3)) /\
      (state c = contagious -> SimulateV2.PEOPLE w !! i = Some p ->
       Exercise3d.susceptible_contacts table (S k) i w
         = Exercise3d.advance_health_state i (table (state p))
             (E3dProps.at_pos w (S (S (pos (SimulateV2.random_state w))))))).
Proof.
  split_and!.
  - intros cfg. split.
    + intros [H0 _]. apply E2_half_contacts_floor. exact H0.
    + intros m Hm Hodd _. apply E2_half_contacts_odd; assumption.
  - apply E2_contact_loop_one_pass.
  - apply E2_contact_step_cells.
  - intros cfg n w w1 Hpop H.
    pose proof (E2_health_loop_pop_inv cfg n w w1 Hpop H) as H1.
    split; [assumption|]. intros t Hcp.
    apply (E2_draw_in_range w1 t H1 Hcp).
  - intros cfg k i w c p Hpop Hcp Hs Hu. apply Qltb_lt in Hu. split.
    + intros Hsus. rewrite (E2_contagious_unfold cfg k w c Hpop Hcp Hs).
      rewrite Hsus, Hu. reflexivity.
    + intros Hc Hp. rewrite (E2_susceptible_hit cfg k i w c p Hpop Hcp Hs Hc Hp).
      rewrite Hu. reflexivity.
  - reflexivity.
  - apply E3d_contact_loop_one_pass.
  - intros table k i w c p Hpop Hcp Hs Hu. apply Qltb_lt in Hu. split.
    + intros Hsus. rewrite (E3d_contagious_unfold table k w c Hpop Hcp Hs).
      rewrite Hsus, Hu. reflexivity.
    + intros Hc Hp. rewrite (E3d_susceptible_hit table k i w c p Hpop Hcp Hs Hc Hp).
      rewrite Hu. reflexivity.
Qed.

Lemma contact_passes_half_and_no_stop_witness :
  Exercise2.half_contacts Scenario.small_config = 2%nat /\
  (exists w',
      Exercise2.contact_step Scenario.small_config 1
        {| id := 1; state := contagious; days := 2 |}
        (Scenario.trio_sim [0; 0; 2; 0]%N) = Ok w' /\
      2 <= E2Props.cells (Scenario.trio_sim [0; 0; 2; 0]%N) w' <= 4 /\
      0 <= E2Props.cases (Scenario.trio_sim [0; 0; 2; 0]%N) w'
        <= E2Props.cells (Scenario.trio_sim [0; 0; 2; 0]%N) w' - 2) /\
  Exercise2.contagious_contacts Scenario.small_config 2
    (Scenario.trio_sim [0; 0; 2; 0]%N)
  = Exercise2.contagious_contacts Scenario.small_config 1
      (E2Props.infected_at 0 {| id := 0; state := well; days := 3 |}
         (E2Props.at_pos (Scenario.trio_sim [0; 0; 2; 0]%N) 2)) /\
  Exercise3d.contagious_contacts HEALTH_STATES 2 (Scenario.trio_world [0; 0; 2; 0]%N)
  = (w3 <- Exercise3d.advance_health_state 0 (HEALTH_STATES well)
             (E3dProps.at_pos (Scenario.trio_world [0; 0; 2; 0]%N) 2) ;;
     Exercise3d.contagious_contacts HEALTH_STATES 1 w3).
Proof.
  destruct contact_passes_half_and_no_stop
    as (T1 & _ & T3 & _ & T5 & _ & _ & T8).
  split_and!.
  - apply (proj2 (T1 Scenario.small_config) 2); [lia|reflexivity|reflexivity].
  - destruct (Exercise2.contact_step Scenario.small_config 1
                {| id := 1; state := contagious; days := 2 |}
                (Scenario.trio_sim [0; 0; 2; 0]%N)) as [w'| |] eqn:Hstep;
      [|vm_compute in Hstep; discriminate ..].
    exists w'. split; [reflexivity|].
    apply (proj1 (proj2 (T3 _ _ _ _ _ Hstep))); reflexivity.
  - apply (proj1 (T5 Scenario.small_config 1%nat 1%nat
                    (Scenario.trio_sim [0; 0; 2; 0]%N)
                    {| id := 0; state := well; days := 3 |}
                    {| id := 1; state := contagious; days := 2 |}
                    eq_refl ltac:(simpl; lia) eq_refl eq_refl)).
    reflexivity.
  - apply (proj1 (T8 HEALTH_STATES 1%nat 1%nat
                    (Scenario.trio_world [0; 0; 2; 0]%N)
                    {| id := 0; state := well; days := 3 |}
                    {| id := 1; state := contagious; days := 2 |}
                    eq_refl ltac:(simpl; lia) eq_refl eq_refl)).
    reflexivity.
Defined.

(** C4 as stated fails: the code does not run two passes.  Three people,
    the second one contagious, two samples each.  In the loop of the code
    the contagious person infects the third person, who then samples
    nothing; in two passes the third person samples first (two more cells
    of the tape are consumed before the contagious person's turn) and
    nobody is infected. *)
Lemma contact_model_two_passes_counterexample :
  exists w1 w2,
    Exercise2.contact_loop Scenario.small_config 3 0
      (Scenario.trio_sim [0; 2; 2; 0; 1; 1]%N) = Ok w1 /\
    E2Props.two_passes Scenario.small_config
      (Scenario.trio_sim [0; 2; 2; 0; 1; 1]%N) = Ok w2 /\
    Exercise2.new_cases w1 = 1 /\
    Exercise2.people w1 !! 2%nat = Some {| id := 2; state := infected; days := 1 |} /\
    Exercise2.new_cases w2 = 0 /\
    Exercise2.people w2 = Scenario.trio /\
    Exercise2.contact_loop Scenario.small_config 3 0
      (Scenario.trio_sim [0; 2; 2; 0; 1; 1]%N)
    <> E2Props.two_passes Scenario.small_config
         (Scenario.trio_sim [0; 2; 2; 0; 1; 1]%N).
Proof.
  destruct (Exercise2.contact_loop Scenario.small_config 3 0
              (Scenario.trio_sim [0; 2; 2; 0; 1; 1]%N))
    as [w1| |] eqn:H1; [|vm_compute in H1; discriminate ..].
  destruct (E2Props.two_passes Scenario.small_config
              (Scenario.trio_sim [0; 2; 2; 0; 1; 1]%N))
    as [w2| |] eqn:H2; [|vm_compute in H2; discriminate ..].
  vm_compute in H1. inversion H1; subst w1; clear H1.
  vm_compute in H2. inversion H2; subst w2; clear H2.
  do 2 eexists. split_and!; try reflexivity.
  intros Heq. inversion Heq.
Qed.

(** ** C7: a death rate of 1.0 for the contagious state *)

(** C7.  Let the death rate of the contagious state be 1.0, the states
    before it leading to it as in the source.  (1) A contagious person
    whose duration has elapsed dies: the health loop removes that person
    from [people], counts one death and lowers the population by one.
    (2) At the end of every completed run of [exercise_2.py] no person is
    recovering or immune (all are well, infected or contagious), every
    entry of 'cumulative recoveries' is 0, and so is the final one.
    (3) and (4): in [exercise_3d.py], [evaluate_health_for_day] kills the
    contagious person whose duration has elapsed, and neither it nor
    [evaluate_contacts] makes a person recovering or immune or counts a
    recovery. *)
Theorem contagious_death_rate_one :
  (forall cfg,
      E2Props.scenario_C (Exercise2.health_table cfg) ->
      (forall (i : nat) (p : person) (w : Exercise2.sim),
          E2Props.ids_unique (Exercise2.people w) ->
          Exercise2.people w !! i = Some p ->
          state p = contagious ->
          0 < days_at_state (Exercise2.health_table cfg contagious) ->
          days_at_state (Exercise2.health_table cfg contagious) < days p + 1 ->
          Exercise2.health_step cfg i p w
            = Ok (Exercise2.count_death
                    (Exercise2.set_people
                       (E2Props.at_pos w (S (pos (Exercise2.gen w))))
                       (delete i (Exercise2.people w))))) /\
      (forall g w s,
          Exercise2.run cfg g = Ok (w, s) ->
          E2Props.ids_unique (Exercise2.people w) /\
          Forall E2Props.not_recovered (Exercise2.people w) /\
          Forall (fun x => x = 0) (Exercise2.cumulative_recoveries s) /\
          Exercise2.cumulative_recoveries s
            !! range_len (Exercise2.SIMULATION_DAYS cfg) = Some 0))
  /\
  (forall table,
      E2Props.scenario_C table ->
      (forall (i : nat) (p : person) (w : SimulateV2.world person Exercise3d.env),
          E2Props.ids_unique (SimulateV2.PEOPLE w) ->
          SimulateV2.PEOPLE w !! i = Some p ->
          state p = contagious ->
          0 < days_at_state (table contagious) ->
          days_at_state (table contagious) < days p + 1 ->
          Exercise3d.evaluate_health_for_day table i w
            = Ok (E3dProps.dead_at i
                    (E3dProps.at_pos w (S (pos (SimulateV2.random_state w)))))) /\
      (forall (i : nat) (w w' : SimulateV2.world person Exercise3d.env),
          E3dProps.no_recovery w ->
          Exercise3d.evaluate_health_for_day table i w = Ok w' \/
          Exercise3d.evaluate_contacts table i w = Ok w' ->
          E3dProps.no_recovery w')).
Proof.
  split.
  - intros cfg HC. split.
    + intros i p w. apply E2_contagious_elapsed_dies. assumption.
    + intros g w s H.
      pose proof (E2_run_inv cfg g w s H) as ((_ & _ & L3 & _) & _ & _).
      unfold Exercise2.run in H. inv_bind H. destruct a as [l g'].
      destruct (E2_initial_people_no_recovery cfg) as [Hall0 Hnd0].
      destruct (E2_infect_initial_no_recovery cfg _ _ _ _ _ Hall0 Hnd0 Ha)
        as [Hall1 Hnd1].
      apply E2_day_loop_no_recovery in H as (Hall & Hnd & Hzero); simpl; auto.
      split_and!; try assumption.
      destruct (lookup_of_length (Exercise2.cumulative_recoveries s)
                  (range_len (Exercise2.SIMULATION_DAYS cfg))
                  (S (range_len (Exercise2.SIMULATION_DAYS cfg))) L3 ltac:(lia))
        as (x & Hx).
      rewrite Hx. f_equal.
      apply (proj1 (Forall_lookup _ _) Hzero _ _ Hx).
  - intros table HC. split.
    + intros i p w. apply E3d_elapsed_contagious_dies. assumption.
    + intros i w w' Hsafe [H|H].
      * eapply E3d_health_no_recovery; eassumption.
      * eapply E3d_contacts_no_recovery; eassumption.
Qed.

Lemma contagious_death_rate_one_witness :
  (exists w s,
      Exercise2.run Scenario.deadly_config Scenario.sample_rng = Ok (w, s) /\
      Forall E2Props.not_recovered (Exercise2.people w) /\
      Exercise2.cumulative_recoveries s !! 8%nat = Some 0) /\
  Exercise3d.evaluate_health_for_day
    (with_death_rate HEALTH_STATES contagious 1) 1
    (SimulateV2.set_PEOPLE (Scenario.trio_world [5]%N)
       [ {| id := 0; state := well; days := 3 |};
         {| id := 1; state := contagious; days := 4 |};
         {| id := 2; state := well; days := 3 |} ])
  = Ok (E3dProps.dead_at 1
          (E3dProps.at_pos
             (SimulateV2.set_PEOPLE (Scenario.trio_world [5]%N)
                [ {| id := 0; state := well; days := 3 |};
                  {| id := 1; state := contagious; days := 4 |};
                  {| id := 2; state := well; days := 3 |} ]) 1)).
Proof.
  assert (E2Props.scenario_C (with_death_rate HEALTH_STATES contagious 1)) as HC.
  { split; [|split; reflexivity]. exists 1%Q. split; reflexivity. }
  split.
  - destruct (Exercise2.run Scenario.deadly_config Scenario.sample_rng)
      as [[w s]| |] eqn:Hrun; [|vm_compute in Hrun; discriminate ..].
    exists w, s. split; [reflexivity|].
    destruct (proj2 (proj1 contagious_death_rate_one Scenario.deadly_config HC)
                _ _ _ Hrun) as (_ & Hall & _ & Hlast).
    split; assumption.
  - apply (proj1 (proj2 contagious_death_rate_one _ HC) 1%nat
             {| id := 1; state := contagious; days := 4 |}).
    + apply (bool_decide_unpack _). vm_compute. reflexivity.
    + reflexivity.
    + reflexivity.
    + vm_compute. reflexivity.
    + vm_compute. reflexivity.
Defined.

(** ** [exercise_2.py]: what one day does to the variables *)

Lemma from_key_Ok {A : Type} (o : option A) (a : A) :
  from_key o = Ok a -> o = Some a.
Proof. destruct o; simpl; intros H; [congruence|discriminate]. Qed.

(** The three ways the body of the health loop can end for the person at
    index [i]: the person stays in its state, is removed, or moves on. *)
Lemma E2_health_step_cases cfg (i : nat) (p : person) (w w' : Exercise2.sim) :
  Exercise2.health_step cfg i p w = Ok w' ->
  let p1 := set_days p (days p + 1) in
  let l1 := <[i := p1]> (Exercise2.people w) in
  (w' = Exercise2.set_people w l1 /\
   (days_at_state (Exercise2.health_table cfg (state p)) <= 0 \/
    days p + 1 <= days_at_state (Exercise2.health_table cfg (state p)))) \/
  (0 < days_at_state (Exercise2.health_table cfg (state p)) /\
   exists g, (g = Exercise2.gen w \/ g = rng_next (Exercise2.gen w)) /\
     ((exists j q, l1 !! j = Some q /\ person_eqb q p1 = true /\
         w' = Exercise2.count_death
                (Exercise2.set_people (Exercise2.set_gen w g) (delete j l1))) \/
      (exists ns, next_state (Exercise2.health_table cfg (state p)) = Some ns /\
         w' = (if health_eqb ns immune then Exercise2.count_recovery else fun x => x)
                (Exercise2.set_people (Exercise2.set_gen w g)
                   (<[i := {| id := id p; state := ns; days := 1 |}]> l1))))).
Proof.
  intros H p1 l1. unfold Exercise2.health_step in H.
  fold p1 in H. fold l1 in H.
  destruct ((0 <? days_at_state (Exercise2.health_table cfg (state p)))
            && (days_at_state (Exercise2.health_table cfg (state p)) <? days p1))
    eqn:Hc.
  2:{ left. split; [inversion H; reflexivity|].
      apply andb_false_iff in Hc as [Hc|Hc].
      - apply Z.ltb_ge in Hc. left. exact Hc.
      - apply Z.ltb_ge in Hc. right. exact Hc. }
  apply andb_prop in Hc as [Hpos _].
  apply Z.ltb_lt in Hpos. right. split; [assumption|].
  inv_bind H. rename a into rate.
  destruct (Qltb 0 rate).
  - simpl in H. exists (rng_next (Exercise2.gen w)). split; [right; reflexivity|].
    destruct (Qltb _ rate).
    + inv_bind H. rename a into l, Ha0 into Hrem. inversion H; subst w'; clear H.
      simpl in Hrem.
      destruct (py_remove_delete person_eqb p1 l1 l Hrem)
        as (j & q & Hj & Hq & -> & _).
      left. exists j, q. split; [exact Hj|]. split; [exact Hq|]. reflexivity.
    + inv_bind H. rename a into ns. inversion H; subst w'; clear H.
      right. exists ns. split; [apply from_key_Ok; assumption|].
      destruct (health_eqb ns immune); reflexivity.
  - exists (Exercise2.gen w). split; [left; reflexivity|].
    inv_bind H. rename a into ns. inversion H; subst w'; clear H.
    right. exists ns. split; [apply from_key_Ok; assumption|].
    destruct w; destruct (health_eqb ns immune); reflexivity.
Qed.

(** The health loop counts no case, only adds to the two other counters,
    and every death takes one off [current_population]. *)
Lemma E2_health_step_counters cfg (i : nat) (p : person) (w w' : Exercise2.sim) :
  Exercise2.health_step cfg i p w = Ok w' ->
  Exercise2.new_cases w' = Exercise2.new_cases w /\
  Exercise2.new_recoveries w <= Exercise2.new_recoveries w' /\
  Exercise2.new_deaths w <= Exercise2.new_deaths w' /\
  Exercise2.current_population w' + Exercise2.new_deaths w'
    = Exercise2.current_population w + Exercise2.new_deaths w.
Proof.
  intros H. apply E2_health_step_cases in H.
  destruct H as [[-> _]|(_ & g & _ & [(j & q & _ & _ & ->)|(ns & _ & ->)])]; simpl.
  - lia.
  - lia.
  - destruct (health_eqb ns immune); simpl; lia.
Qed.

Lemma E2_health_loop_counters cfg (n : nat) (w w' : Exercise2.sim) :
  Exercise2.health_loop cfg n w = Ok w' ->
  Exercise2.new_cases w' = Exercise2.new_cases w /\
  Exercise2.new_recoveries w <= Exercise2.new_recoveries w' /\
  Exercise2.new_deaths w <= Exercise2.new_deaths w' /\
  Exercise2.current_population w' + Exercise2.new_deaths w'
    = Exercise2.current_population w + Exercise2.new_deaths w.
Proof.
  revert w. induction n as [|n IH]; intros w H; simpl in H.
  - inversion H; subst. lia.
  - destruct (Exercise2.people w !! n) as [p|] eqn:Hp.
    + inv_bind H. apply E2_health_step_counters in Ha. apply IH in H. lia.
    + inversion H; subst. lia.
Qed.

(** The contact loops change neither the length of [people] nor the ids,
    count no recovery and no death, and only add to [new_cases]. *)
Lemma E2_susceptible_contacts_frame cfg (k i : nat) (w w' : Exercise2.sim) :
  Exercise2.susceptible_contacts cfg k i w = Ok w' ->
  Exercise2.current_population w' = Exercise2.current_population w /\
  Exercise2.new_recoveries w' = Exercise2.new_recoveries w /\
  Exercise2.new_deaths w' = Exercise2.new_deaths w /\
  Exercise2.new_cases w <= Exercise2.new_cases w' /\
  id <$> Exercise2.people w' = id <$> Exercise2.people w /\
  (Forall (fun p => 1 <= days p) (Exercise2.people w) ->
   Forall (fun p => 1 <= days p) (Exercise2.people w')).
Proof.
  intros H.
  apply E2_susceptible_at_most_one in H
    as (H1 & H2 & H3 & [[Hl Hn]|(p & Hp & Hl & Hn)]).
  - rewrite Hl, Hn. split_and!; try assumption; try reflexivity; try lia. auto.
  - rewrite Hl, Hn. split_and!; try assumption; try lia.
    + rewrite list_fmap_insert. simpl. apply list_insert_id.
      rewrite list_lookup_fmap, Hp. reflexivity.
    + intros Hall. apply Forall_insert; [assumption|simpl; lia].
Qed.

Lemma E2_contagious_contacts_frame cfg (k : nat) (w w' : Exercise2.sim) :
  Exercise2.contagious_contacts cfg k w = Ok w' ->
  Exercise2.current_population w' = Exercise2.current_population w /\
  Exercise2.new_recoveries w' = Exercise2.new_recoveries w /\
  Exercise2.new_deaths w' = Exercise2.new_deaths w /\
  Exercise2.new_cases w <= Exercise2.new_cases w' /\
  id <$> Exercise2.people w' = id <$> Exercise2.people w /\
  (Forall (fun p => 1 <= days p) (Exercise2.people w) ->
   Forall (fun p => 1 <= days p) (Exercise2.people w')).
Proof.
  revert w. induction k as [|k IH]; intros w H; simpl in H.
  - inversion H; subst. split_and!; try reflexivity; try lia. auto.
  - inv_bind H. inv_bind H. inv_bind H.
    rename a into r, a0 into j, a1 into c, Ha into Hr, Ha0 into Hj, Ha1 into Hc.
    assert (Exercise2.people w !! j = Some c) as Hjc.
    { unfold py_get in Hc. rewrite Hj in Hc. simpl in Hc.
      destruct (Exercise2.people w !! j); [congruence|discriminate]. }
    destruct (can_be_infected (Exercise2.health_table cfg (state c))).
    + simpl in H. destruct (Qltb _ _).
      * apply IH in H as (H1 & H2 & H3 & H4 & H5 & H6). simpl in *.
        split_and!; try assumption; try lia.
        -- rewrite H5, list_fmap_insert. simpl. apply list_insert_id.
           rewrite list_lookup_fmap, Hjc. reflexivity.
        -- intros Hall. apply H6. apply Forall_insert; [assumption|simpl; lia].
      * apply IH in H. exact H.
    + apply IH in H. exact H.
Qed.

Lemma E2_contact_loop_frame cfg (n i : nat) (w w' : Exercise2.sim) :
  Exercise2.contact_loop cfg n i w = Ok w' ->
  Exercise2.current_population w' = Exercise2.current_population w /\
  Exercise2.new_recoveries w' = Exercise2.new_recoveries w /\
  Exercise2.new_deaths w' = Exercise2.new_deaths w /\
  Exercise2.new_cases w <= Exercise2.new_cases w' /\
  id <$> Exercise2.people w' = id <$> Exercise2.people w /\
  (Forall (fun p => 1 <= days p) (Exercise2.people w) ->
   Forall (fun p => 1 <= days p) (Exercise2.people w')).
Proof.
  revert i w. induction n as [|n IH]; intros i w H; simpl in H.
  - inversion H; subst. split_and!; try reflexivity; try lia. auto.
  - destruct (Exercise2.people w !! i) as [p|] eqn:Hp.
    2:{ inversion H; subst. split_and!; try reflexivity; try lia. auto. }
    inv_bind H. rename a into w1, Ha into Hstep.
    apply IH in H as (H1 & H2 & H3 & H4 & H5 & H6).
    assert (Exercise2.current_population w1 = Exercise2.current_population w /\
            Exercise2.new_recoveries w1 = Exercise2.new_recoveries w /\
            Exercise2.new_deaths w1 = Exercise2.new_deaths w /\
            Exercise2.new_cases w <= Exercise2.new_cases w1 /\
            id <$> Exercise2.people w1 = id <$> Exercise2.people w /\
            (Forall (fun p => 1 <= days p) (Exercise2.people w) ->
             Forall (fun p => 1 <= days p) (Exercise2.people w1)))
      as (G1 & G2 & G3 & G4 & G5 & G6).
    { unfold Exercise2.contact_step in Hstep.
      destruct (can_be_infected _).
      - eapply E2_susceptible_contacts_frame; eassumption.
      - destruct (health_eqb _ _).
        + eapply E2_contagious_contacts_frame; eassumption.
        + inversion Hstep; subst. split_and!; try reflexivity; try lia. auto. }
    split_and!; try congruence; try lia. auto.
Qed.

Lemma E2_contact_loop_pop_inv cfg (n i : nat) (w w' : Exercise2.sim) :
  E2Props.pop_inv w -> Exercise2.contact_loop cfg n i w = Ok w' ->
  E2Props.pop_inv w'.
Proof.
  intros Hpop H. apply E2_contact_loop_frame in H as (H1 & _ & _ & _ & H5 & _).
  unfold E2Props.pop_inv in *. rewrite H1, Hpop.
  rewrite <- (length_fmap id (Exercise2.people w')), H5, length_fmap. reflexivity.
Qed.

(** The entries [append_stats] writes on day [n]. *)
Lemma E2_append_stats_entries (n : nat) w s s' :
  E2Props.lengths s (S n) ->
  Exercise2.append_stats (Z.of_nat n) w s = Ok s' ->
  exists cc ac cr cd,
    Exercise2.cumulative_cases s !! n = Some cc /\
    Exercise2.active_cases s !! n = Some ac /\
    Exercise2.cumulative_recoveries s !! n = Some cr /\
    Exercise2.cumulative_deaths s !! n = Some cd /\
    Exercise2.cumulative_cases s'
      = Exercise2.cumulative_cases s ++ [cc + Exercise2.new_cases w] /\
    Exercise2.active_cases s'
      = Exercise2.active_cases s
          ++ [ac + Exercise2.new_cases w - Exercise2.new_recoveries w
              - Exercise2.new_deaths w] /\
    Exercise2.cumulative_recoveries s'
      = Exercise2.cumulative_recoveries s ++ [cr + Exercise2.new_recoveries w] /\
    Exercise2.cumulative_deaths s'
      = Exercise2.cumulative_deaths s ++ [cd + Exercise2.new_deaths w] /\
    Exercise2.daily_new_cases s'
      = Exercise2.daily_new_cases s ++ [Exercise2.new_cases w] /\
    Exercise2.daily_new_active_cases s'
      = Exercise2.daily_new_active_cases s
          ++ [Exercise2.new_cases w - Exercise2.new_recoveries w
              - Exercise2.new_deaths w] /\
    Exercise2.daily_new_recoveries s'
      = Exercise2.daily_new_recoveries s ++ [Exercise2.new_recoveries w] /\
    Exercise2.daily_new_deaths s'
      = Exercise2.daily_new_deaths s ++ [Exercise2.new_deaths w].
Proof.
  intros HL H. unfold Exercise2.append_stats in H.
  inv_bind H. rename a into cc, Ha into Hcc.
  inv_bind H. rename a into ac, Ha into Hac.
  inv_bind H. rename a into ac1, Ha into Hac1.
  inv_bind H. rename a into cr, Ha into Hcr.
  inv_bind H. rename a into cd, Ha into Hcd.
  inv_bind H. rename a into cc1, Ha into Hcc1.
  inversion H; subst s'; clear H. simpl.
  apply py_get_nonneg in Hcc, Hac, Hcr, Hcd; try lia.
  rewrite Nat2Z.id in Hcc, Hac, Hcr, Hcd.
  exists cc, ac, cr, cd. split_and!; try assumption; reflexivity.
Qed.

(** An invariant of the day loop: it holds for the seeded variables and
    the initial lists, and one day keeps it. *)
Section E2DayRule.

Variable cfg : Exercise2.config.
Variable Inv : nat -> Exercise2.sim -> Exercise2.stats -> Prop.

Hypothesis Inv_day :
  forall (m : nat) w s w1 w2 s',
    Inv m w s -> E2Props.series_inv s m ->
    Exercise2.health_loop cfg (length (Exercise2.people w))
      (Exercise2.reset_counters w) = Ok w1 ->
    Exercise2.contact_loop cfg (length (Exercise2.people w1)) 0 w1 = Ok w2 ->
    Exercise2.append_stats (Z.of_nat m) w2 s = Ok s' ->
    Inv (S m) w2 s'.

Lemma E2_day_loop_rule (n m : nat) w s w' s' :
  E2Props.series_inv s m -> Inv m w s ->
  Exercise2.day_loop cfg n (Z.of_nat m) (w, s) = Ok (w', s') ->
  Inv (m + n) w' s'.
Proof.
  revert m w s. induction n as [|n IH]; intros m w s Hs HI H; simpl in H.
  - inversion H; subst. rewrite Nat.add_0_r. assumption.
  - inv_bind H. rename a into ws1, Ha into Hday.
    unfold Exercise2.one_day in Hday. simpl in Hday.
    inv_bind Hday. rename a into w1, Ha into Hh.
    inv_bind Hday. rename a into w2, Ha into Hc.
    inv_bind Hday. rename a into s1, Ha into Ha1.
    inversion Hday; subst ws1; clear Hday.
    replace (Z.of_nat m + 1) with (Z.of_nat (S m)) in H by lia.
    apply IH in H.
    + replace (m + S n)%nat with (S m + n)%nat by lia. exact H.
    + eapply E2_append_stats_inv; eassumption.
    + eapply Inv_day; eassumption.
Qed.

Variable g : rng.

Hypothesis Inv_seeded :
  forall w, E2Facts.seeded cfg g w -> Inv 0 w (Exercise2.initial_stats cfg).

Lemma E2_run_rule w s :
  Exercise2.run cfg g = Ok (w, s) ->
  Inv (range_len (Exercise2.SIMULATION_DAYS cfg)) w s.
Proof.
  unfold Exercise2.run. intros H. inv_bind H. destruct a as [l g'].
  change 0 with (Z.of_nat 0) in H.
  apply E2_day_loop_rule in H; [exact H| |].
  - apply E2_initial_inv.
  - apply Inv_seeded. exists l, g'. split; [assumption|reflexivity].
Qed.

End E2DayRule.

Lemma E2_seeded_pop_inv cfg (g : rng) w :
  0 <= Exercise2.POPULATION cfg ->
  E2Facts.seeded cfg g w ->
  E2Props.pop_inv w /\ Exercise2.current_population w = Exercise2.POPULATION cfg.
Proof.
  intros Hpop (l & g' & Hseed & ->).
  apply E2_infect_initial_draws in Hseed as [_ Hlen].
  unfold E2Props.pop_inv. simpl. split; [|reflexivity].
  rewrite Hlen. unfold Exercise2.initial_people.
  rewrite length_map, length_seq. unfold range_len. lia.
Qed.

(** What one day does to the counters: they start at 0, so they are not
    negative at the end of the day, and the deaths of the day are what
    [current_population] lost. *)
Lemma E2_day_counters cfg w w1 w2 :
  E2Props.pop_inv w ->
  Exercise2.health_loop cfg (length (Exercise2.people w))
    (Exercise2.reset_counters w) = Ok w1 ->
  Exercise2.contact_loop cfg (length (Exercise2.people w1)) 0 w1 = Ok w2 ->
  E2Props.pop_inv w2 /\ E2Facts.counted w2 /\
  Exercise2.current_population w2 + Exercise2.new_deaths w2
    = Exercise2.current_population w.
Proof.
  intros Hpop Hh Hc.
  assert (E2Props.pop_inv (Exercise2.reset_counters w)) as Hpop0 by exact Hpop.
  pose proof (E2_health_loop_pop_inv cfg _ _ _ Hpop0 Hh) as Hpop1.
  pose proof (E2_contact_loop_pop_inv cfg _ _ _ _ Hpop1 Hc) as Hpop2.
  apply E2_health_loop_counters in Hh as (A1 & A2 & A3 & A4).
  apply E2_contact_loop_frame in Hc as (B1 & B2 & B3 & B4 & _).
  simpl in *. split; [assumption|]. unfold E2Facts.counted. split; lia.
Qed.

(** ** [exercise_2.py]: the population and the deaths *)

(** X1.  At the end of a run of [exercise_2.py] on a population that is not
    negative, [current_population] is the length of [people], and the
    people left together with the deaths recorded on the last day are the
    initial population: nobody is lost or counted twice. *)
Theorem population_is_survivors_plus_deaths :
  forall cfg g w s,
    0 <= Exercise2.POPULATION cfg ->
    Exercise2.run cfg g = Ok (w, s) ->
    Exercise2.current_population w = Z.of_nat (length (Exercise2.people w)) /\
    exists x,
      Exercise2.cumulative_deaths s !! range_len (Exercise2.SIMULATION_DAYS cfg)
        = Some x /\
      0 <= x /\
      Z.of_nat (length (Exercise2.people w)) + x = Exercise2.POPULATION cfg.
Proof.
  intros cfg g w s Hpop H.
  pose proof (E2_run_rule cfg
    (fun m w s =>
       E2Props.pop_inv w /\
       exists x, Exercise2.cumulative_deaths s !! m = Some x /\ 0 <= x /\
                 Exercise2.current_population w + x = Exercise2.POPULATION cfg))
    as Hrule.
  destruct (Hrule) with (g := g) (w := w) (s := s) as (Hp & x & Hx & Hx0 & Hsum);
    try assumption.
  - clear. intros m w s w1 w2 s' (Hp & x & Hx & Hx0 & Hsum) Hs Hh Hc Ha.
    destruct (E2_day_counters cfg w w1 w2 Hp Hh Hc) as (Hp2 & (_ & _ & Hd) & Hcp).
    split; [assumption|].
    destruct (E2_append_stats_entries m w2 s s' (proj1 Hs) Ha)
      as (cc & ac & cr & cd & _ & _ & _ & Hcd & _ & _ & _ & E & _).
    rewrite Hx in Hcd. inversion Hcd; subst cd.
    exists (x + Exercise2.new_deaths w2). rewrite E. split_and!; try lia.
    apply lookup_snoc_last. destruct Hs as ((_ & _ & _ & L & _) & _). exact L.
  - intros w0 Hseed.
    destruct (E2_seeded_pop_inv cfg g w0 Hpop Hseed) as [Hp Hcp].
    split; [assumption|]. exists 0. simpl. split_and!; try reflexivity; lia.
  - split; [exact Hp|]. exists x. unfold E2Props.pop_inv in Hp.
    split_and!; try assumption. lia.
Qed.

Lemma population_is_survivors_plus_deaths_witness :
  exists w s x,
    Exercise2.run Scenario.small_config Scenario.sample_rng = Ok (w, s) /\
    Exercise2.cumulative_deaths s !! 8%nat = Some x /\
    Z.of_nat (length (Exercise2.people w)) + x = 6.
Proof.
  destruct (Exercise2.run Scenario.small_config Scenario.sample_rng)
    as [[w s]| |] eqn:Hrun; [|vm_compute in Hrun; discriminate ..].
  destruct (population_is_survivors_plus_deaths Scenario.small_config
              Scenario.sample_rng w s ltac:(simpl; lia) Hrun)
    as (_ & x & Hx & _ & Hsum).
  exists w, s, x. split; [reflexivity|]. split; assumption.
Defined.

(** ** [exercise_2.py]: the daily lists against the cumulative ones *)

(** X2.  In a completed run of [exercise_2.py] every entry of
    'daily new active cases' is the step of 'active cases' from the day
    before: [daily_new_active_cases[d + 1] = active_cases[d + 1] -
    active_cases[d]] for every day [d] of the run. *)
Theorem daily_new_active_is_the_step_of_active :
  forall cfg g w s,
    Exercise2.run cfg g = Ok (w, s) ->
    forall d, (d < range_len (Exercise2.SIMULATION_DAYS cfg))%nat ->
      E2Facts.active_step s d.
Proof.
  intros cfg g w s H.
  apply (E2_run_rule cfg
           (fun m _ s => forall d, (d < m)%nat -> E2Facts.active_step s d))
    with (g := g) (w := w); try assumption.
  - clear. intros m w s w1 w2 s' HI Hs _ _ Ha d Hd.
    destruct (E2_append_stats_entries m w2 s s' (proj1 Hs) Ha)
      as (cc & ac & cr & cd & _ & Hac & _ & _ & _ & E1 & _ & _ & _ & E2 & _).
    destruct Hs as ((_ & L2 & _ & _ & _ & L6 & _) & _).
    unfold E2Facts.active_step. rewrite E1, E2.
    destruct (decide (d = m)) as [->|Hne].
    + rewrite (lookup_snoc_old _ _ m (S m)) by (assumption || lia).
      rewrite !lookup_snoc_last by assumption.
      do 3 eexists. split_and!; try reflexivity; try eassumption. lia.
    + destruct (HI d ltac:(lia)) as (a0 & a1 & na & F1 & F2 & F3 & F4).
      exists a0, a1, na.
      rewrite !(lookup_snoc_old _ _ d (S m)) by (assumption || lia).
      rewrite !(lookup_snoc_old _ _ (S d) (S m)) by (assumption || lia).
      split_and!; assumption.
  - intros w0 _ d Hd. lia.
Qed.

Lemma daily_new_active_is_the_step_of_active_witness :
  exists w s,
    Exercise2.run Scenario.small_config Scenario.sample_rng = Ok (w, s) /\
    E2Facts.active_step s 4.
Proof.
  destruct (Exercise2.run Scenario.small_config Scenario.sample_rng)
    as [[w s]| |] eqn:Hrun; [|vm_compute in Hrun; discriminate ..].
  exists w, s. split; [reflexivity|].
  apply (daily_new_active_is_the_step_of_active Scenario.small_config
           Scenario.sample_rng w s Hrun 4%nat).
  vm_compute. lia.
Defined.

Lemma nondecreasing_snoc (l : list Z) (n : nat) (x y : Z) :
  E2Facts.nondecreasing l -> length l = S n -> l !! n = Some x -> x <= y ->
  E2Facts.nondecreasing (l ++ [y]).
Proof.
  intros Hl Hlen Hx Hxy d a b Ha Hb.
  destruct (decide (S d < S n)%nat) as [Hd|Hd].
  - rewrite (lookup_snoc_old _ _ d (S n)) in Ha by (assumption || lia).
    rewrite (lookup_snoc_old _ _ (S d) (S n)) in Hb by (assumption || lia).
    eapply Hl; eassumption.
  - assert (d = n) as ->.
    { apply lookup_lt_Some in Hb. rewrite length_app in Hb. simpl in Hb. lia. }
    rewrite (lookup_snoc_old _ _ n (S n)) in Ha by (assumption || lia).
    rewrite (lookup_snoc_last _ _ (S n) Hlen) in Hb.
    congruence || (rewrite Hx in Ha; inversion Ha; inversion Hb; subst; lia).
Qed.

Lemma nonnegative_snoc (l : list Z) (y : Z) :
  E2Facts.nonnegative l -> 0 <= y -> E2Facts.nonnegative (l ++ [y]).
Proof.
  intros Hl Hy. unfold E2Facts.nonnegative in *. apply Forall_app.
  split; [assumption|]. constructor; [assumption|constructor].
Qed.

(** X3.  In a completed run of [exercise_2.py] no daily count of cases,
    recoveries or deaths is negative, and the three cumulative lists never
    go down from one day to the next. *)
Theorem cumulative_counts_never_decrease :
  forall cfg g w s,
    Exercise2.run cfg g = Ok (w, s) ->
    E2Facts.nonnegative (Exercise2.daily_new_cases s) /\
    E2Facts.nonnegative (Exercise2.daily_new_recoveries s) /\
    E2Facts.nonnegative (Exercise2.daily_new_deaths s) /\
    E2Facts.nondecreasing (Exercise2.cumulative_cases s) /\
    E2Facts.nondecreasing (Exercise2.cumulative_recoveries s) /\
    E2Facts.nondecreasing (Exercise2.cumulative_deaths s).
Proof.
  intros cfg g w s H.
  apply (E2_run_rule cfg
    (fun (m : nat) (_ : Exercise2.sim) s =>
       E2Facts.nonnegative (Exercise2.daily_new_cases s) /\
       E2Facts.nonnegative (Exercise2.daily_new_recoveries s) /\
       E2Facts.nonnegative (Exercise2.daily_new_deaths s) /\
       E2Facts.nondecreasing (Exercise2.cumulative_cases s) /\
       E2Facts.nondecreasing (Exercise2.cumulative_recoveries s) /\
       E2Facts.nondecreasing (Exercise2.cumulative_deaths s)))
    with (g := g) (w := w); try assumption.
  - clear. intros m w s w1 w2 s' (N1 & N2 & N3 & M1 & M2 & M3) Hs Hh Hc Ha.
    apply E2_health_loop_counters in Hh as (A1 & A2 & A3 & _).
    apply E2_contact_loop_frame in Hc as (_ & B2 & B3 & B4 & _).
    simpl in A1, A2, A3.
    destruct (E2_append_stats_entries m w2 s s' (proj1 Hs) Ha)
      as (cc & ac & cr & cd & Hcc & _ & Hcr & Hcd
          & E1 & _ & E3 & E4 & E5 & _ & E7 & E8).
    destruct Hs as ((L1 & _ & L3 & L4 & _) & _).
    rewrite E1, E3, E4, E5, E7, E8.
    split_and!; try (apply nonnegative_snoc; [assumption|lia]).
    + eapply nondecreasing_snoc; try eassumption. lia.
    + eapply nondecreasing_snoc; try eassumption. lia.
    + eapply nondecreasing_snoc; try eassumption. lia.
  - intros w0 _. simpl.
    split_and!;
      try (repeat constructor; lia);
      intros [|d] x y Hx Hy; simpl in Hy; discriminate.
Qed.

Lemma cumulative_counts_never_decrease_witness :
  exists w s,
    Exercise2.run Scenario.small_config Scenario.sample_rng = Ok (w, s) /\
    E2Facts.nonnegative (Exercise2.daily_new_cases s) /\
    E2Facts.nondecreasing (Exercise2.cumulative_deaths s).
Proof.
  destruct (Exercise2.run Scenario.small_config Scenario.sample_rng)
    as [[w s]| |] eqn:Hrun; [|vm_compute in Hrun; discriminate ..].
  destruct (cumulative_counts_never_decrease Scenario.small_config
              Scenario.sample_rng w s Hrun)
    as (N1 & _ & _ & _ & _ & M3).
  exists w, s. split; [reflexivity|]. split; assumption.
Defined.

(** ** [exercise_2.py]: runs in which no contact can transmit *)

Lemma random_nonneg (g : rng) : (0 <= fst (random g))%Q.
Proof.
  unfold random, Qle. simpl. rewrite Z.mul_1_r. apply N2Z.is_nonneg.
Qed.

Lemma Qltb_random_nonpos (g : rng) (q : Q) :
  (q <= 0)%Q -> Qltb (fst (random g)) q = false.
Proof.
  intros Hq. apply Qltb_ge. eapply Qle_trans; [exact Hq|apply random_nonneg].
Qed.

Lemma E2_half_contacts_none cfg :
  Exercise2.daily_contacts cfg < 2 -> Exercise2.half_contacts cfg = 0%nat.
Proof.
  intros H. unfold Exercise2.half_contacts, range_len, int_half.
  destruct (Z_le_gt_dec 0 (Exercise2.daily_contacts cfg)) as [Hle|Hgt].
  - assert (Exercise2.daily_contacts cfg = 0 \/ Exercise2.daily_contacts cfg = 1)
      as [->| ->] by lia; reflexivity.
  - pose proof (Z.quot_le_upper_bound (Exercise2.daily_contacts cfg) 2 0) as Hq.
    assert (Exercise2.daily_contacts cfg ÷ 2 <= 0) by (apply Hq; lia). lia.
Qed.

Lemma E2_susceptible_contacts_idle cfg (k i : nat) (w w' : Exercise2.sim) :
  (Exercise2.transmission_probability cfg <= 0)%Q ->
  Exercise2.susceptible_contacts cfg k i w = Ok w' ->
  Exercise2.people w' = Exercise2.people w /\
  Exercise2.new_cases w' = Exercise2.new_cases w.
Proof.
  intros Htp. revert w. induction k as [|k IH]; intros w H; simpl in H.
  - inversion H; subst. split; reflexivity.
  - inv_bind H. inv_bind H.
    destruct (health_eqb (state a0) contagious).
    + pose proof (Qltb_random_nonpos (snd a) _ Htp) as Hu.
      unfold random in Hu. simpl in Hu. simpl in H. rewrite Hu in H.
      apply IH in H. exact H.
    + apply IH in H. exact H.
Qed.

Lemma E2_contagious_contacts_idle cfg (k : nat) (w w' : Exercise2.sim) :
  (Exercise2.transmission_probability cfg <= 0)%Q ->
  Exercise2.contagious_contacts cfg k w = Ok w' ->
  Exercise2.people w' = Exercise2.people w /\
  Exercise2.new_cases w' = Exercise2.new_cases w.
Proof.
  intros Htp. revert w. induction k as [|k IH]; intros w H; simpl in H.
  - inversion H; subst. split; reflexivity.
  - inv_bind H. inv_bind H. inv_bind H.
    destruct (can_be_infected _).
    + pose proof (Qltb_random_nonpos (snd a) _ Htp) as Hu.
      unfold random in Hu. simpl in Hu. simpl in H. rewrite Hu in H.
      apply IH in H. exact H.
    + apply IH in H. exact H.
Qed.

Lemma E2_contact_loop_idle cfg (n i : nat) (w w' : Exercise2.sim) :
  E2Facts.no_transmission cfg ->
  Exercise2.contact_loop cfg n i w = Ok w' ->
  Exercise2.people w' = Exercise2.people w /\
  Exercise2.new_cases w' = Exercise2.new_cases w.
Proof.
  intros Hno. revert i w. induction n as [|n IH]; intros i w H; simpl in H.
  - inversion H; subst. split; reflexivity.
  - destruct (Exercise2.people w !! i) as [p|] eqn:Hp.
    2:{ inversion H; subst. split; reflexivity. }
    inv_bind H. rename a into w1, Ha into Hstep.
    apply IH in H as [H1 H2].
    assert (Exercise2.people w1 = Exercise2.people w /\
            Exercise2.new_cases w1 = Exercise2.new_cases w) as [G1 G2].
    { unfold Exercise2.contact_step in Hstep. destruct Hno as [Htp|Hdc].
      - destruct (can_be_infected _).
        + eapply E2_susceptible_contacts_idle; eassumption.
        + destruct (health_eqb _ _).
          * eapply E2_contagious_contacts_idle; eassumption.
          * inversion Hstep; subst. split; reflexivity.
      - rewrite (E2_half_contacts_none cfg Hdc) in Hstep. simpl in Hstep.
        destruct (can_be_infected _).
        + inversion Hstep; subst. split; reflexivity.
        + destruct (health_eqb _ _); inversion Hstep; subst; split; reflexivity. }
    split; congruence.
Qed.

(** X4.  When the transmission probability is not positive, or the number
    of daily contacts is below two (so that [int(daily_contacts / 2)]
    samples nothing), a completed run of [exercise_2.py] records no new
    case on any day: every entry of 'daily new cases' is 0 and
    'cumulative cases' stays at [INITIAL_INFECTION]. *)
Theorem no_transmission_no_new_case :
  forall cfg g w s,
    E2Facts.no_transmission cfg ->
    Exercise2.run cfg g = Ok (w, s) ->
    Forall (fun x => x = 0) (Exercise2.daily_new_cases s) /\
    Forall (fun x => x = Exercise2.INITIAL_INFECTION cfg)
      (Exercise2.cumulative_cases s) /\
    length (Exercise2.cumulative_cases s)
      = S (range_len (Exercise2.SIMULATION_DAYS cfg)).
Proof.
  intros cfg g w s Hno H.
  apply (E2_run_rule cfg
    (fun (m : nat) (_ : Exercise2.sim) s =>
       Forall (fun x => x = 0) (Exercise2.daily_new_cases s) /\
       Forall (fun x => x = Exercise2.INITIAL_INFECTION cfg)
         (Exercise2.cumulative_cases s) /\
       length (Exercise2.cumulative_cases s) = S m))
    with (g := g) (w := w); try assumption.
  - intros m w0 s0 w1 w2 s' (Z1 & Z2 & _) Hs Hh Hc Ha.
    apply E2_health_loop_counters in Hh as (A1 & _). simpl in A1.
    apply (E2_contact_loop_idle cfg _ _ _ _ Hno) in Hc as [_ B2].
    destruct (E2_append_stats_entries m w2 s0 s' (proj1 Hs) Ha)
      as (cc & ac & cr & cd & Hcc & _ & _ & _ & E1 & _ & _ & _ & E5 & _).
    rewrite E1, E5. rewrite B2, A1.
    assert (cc = Exercise2.INITIAL_INFECTION cfg) as ->.
    { apply (proj1 (Forall_lookup _ _) Z2 _ _ Hcc). }
    split_and!.
    + apply Forall_app. split; [assumption|]. repeat constructor.
    + apply Forall_app. split; [assumption|]. repeat constructor. lia.
    + rewrite length_app. simpl. destruct Hs as ((L1 & _) & _). lia.
  - intros w0 _. simpl. split_and!; repeat constructor.
Qed.

Lemma no_transmission_no_new_case_witness :
  exists w s,
    Exercise2.run
      {| Exercise2.POPULATION := 6; Exercise2.INITIAL_INFECTION := 2;
         Exercise2.SIMULATION_DAYS := 8; Exercise2.daily_contacts := 1;
         Exercise2.transmission_probability := (1 # 2)%Q;
         Exercise2.health_table := HEALTH_STATES |} Scenario.sample_rng
      = Ok (w, s) /\
    Forall (fun x => x = 2) (Exercise2.cumulative_cases s).
Proof.
  destruct (Exercise2.run
      {| Exercise2.POPULATION := 6; Exercise2.INITIAL_INFECTION := 2;
         Exercise2.SIMULATION_DAYS := 8; Exercise2.daily_contacts := 1;
         Exercise2.transmission_probability := (1 # 2)%Q;
         Exercise2.health_table := HEALTH_STATES |} Scenario.sample_rng)
    as [[w s]| |] eqn:Hrun; [|vm_compute in Hrun; discriminate ..].
  exists w, s. split; [reflexivity|].
  refine (proj1 (proj2 (no_transmission_no_new_case _ _ w s _ Hrun))).
  right. simpl. lia.
Defined.

(** ** [exercise_2.py]: the seeding *)

Lemma in_state_lookup (h : health) (l : list person) (k : nat) (p : person) :
  l !! k = Some p -> health_eqb (state p) h = true ->
  (1 <= E2Facts.in_state h l)%nat.
Proof.
  unfold E2Facts.in_state. revert k. induction l as [|a l IH]; intros k Hk Hp.
  - destruct k; discriminate.
  - rewrite filter_cons. destruct k as [|k]; simpl in Hk.
    + inversion Hk; subst a. case_decide; [simpl; lia|congruence].
    + specialize (IH k Hk Hp). case_decide; simpl; lia.
Qed.

Lemma E2_infect_initial_outcome cfg (n : nat) (l l' : list person) (g g' : rng) :
  Exercise2.infect_initial cfg n l g = Ok (l', g') ->
  id <$> l' = id <$> l /\ days <$> l' = days <$> l /\
  Forall2 (fun p p' => state p' = state p \/ state p' = contagious) l l' /\
  (E2Facts.in_state contagious l <= E2Facts.in_state contagious l'
   <= E2Facts.in_state contagious l + n)%nat /\
  (1 <= n -> 1 <= E2Facts.in_state contagious l')%nat.
Proof.
  revert l g. induction n as [|n IH]; intros l g H; simpl in H.
  - inversion H; subst. split_and!; try reflexivity; try lia.
    apply Forall2_same_length_lookup. split; [reflexivity|].
    intros i x y Hx Hy. left. congruence.
  - inv_bind H. inv_bind H. inv_bind H.
    rename a into r, a0 into k, a1 into p, Ha0 into Hk, Ha1 into Hp.
    assert (l !! k = Some p) as Hkp.
    { unfold py_get in Hp. rewrite Hk in Hp. simpl in Hp.
      destruct (l !! k); [congruence|discriminate]. }
    apply IH in H as (H1 & H2 & H3 & H4 & H5).
    pose proof (filter_length_insert (fun q => health_eqb (state q) contagious)
                  l k (set_state p contagious) p Hkp) as Hf.
    simpl in Hf. fold (E2Facts.in_state contagious l) in Hf.
    fold (E2Facts.in_state contagious (<[k := set_state p contagious]> l)) in Hf.
    split_and!.
    + rewrite H1, list_fmap_insert. simpl. apply list_insert_id.
      rewrite list_lookup_fmap, Hkp. reflexivity.
    + rewrite H2, list_fmap_insert. simpl. apply list_insert_id.
      rewrite list_lookup_fmap, Hkp. reflexivity.
    + apply Forall2_same_length_lookup.
      apply Forall2_same_length_lookup in H3 as [Hlen H3].
      rewrite length_insert in Hlen. split; [assumption|].
      intros i x y Hx Hy.
      destruct (decide (i = k)) as [->|Hne].
      * specialize (H3 k (set_state p contagious) y).
        rewrite list_lookup_insert_eq in H3 by (apply lookup_lt_Some in Hkp; lia).
        specialize (H3 eq_refl Hy). simpl in H3. right. tauto.
      * apply (H3 i x y); [|assumption].
        rewrite list_lookup_insert_ne by congruence. assumption.
    + destruct (health_eqb (state p) contagious); lia.
    + destruct (health_eqb (state p) contagious); lia.
    + intros _.
      assert (1 <= E2Facts.in_state contagious (<[k := set_state p contagious]> l))%nat.
      { apply (in_state_lookup contagious _ k (set_state p contagious));
          [|reflexivity].
        apply list_lookup_insert_eq. apply lookup_lt_Some in Hkp. assumption. }
      lia.
Qed.

Lemma E2_initial_people_facts cfg :
  id <$> Exercise2.initial_people cfg
    = Z.of_nat <$> seq 0 (range_len (Exercise2.POPULATION cfg)) /\
  Forall (fun p => state p = well /\ days p = 1) (Exercise2.initial_people cfg) /\
  E2Facts.in_state contagious (Exercise2.initial_people cfg) = 0%nat.
Proof.
  unfold Exercise2.initial_people.
  generalize (seq 0 (range_len (Exercise2.POPULATION cfg))). intros l.
  split_and!.
  - rewrite <- list_fmap_compose. reflexivity.
  - apply Forall_fmap. apply Forall_forall. intros x _. split; reflexivity.
  - unfold E2Facts.in_state. induction l as [|a l IH]; [reflexivity|].
    simpl. rewrite filter_cons. simpl. first [exact IH|case_decide; [discriminate|exact IH]].
Qed.

(** X5.  The seeding of [exercise_2.py] draws [INITIAL_INFECTION] indices
    with replacement: afterwards everybody is still on day 1, is well or
    contagious, and the number of contagious people is at least one (when
    a person was drawn at all) and at most [INITIAL_INFECTION] - it is
    smaller when an index was drawn twice - while the lists start at
    [INITIAL_INFECTION] whatever was drawn. *)
Theorem seeding_infects_at_most_the_configured_count :
  forall cfg g w,
    E2Facts.seeded cfg g w ->
    Forall (fun p => days p = 1 /\ (state p = well \/ state p = contagious))
      (Exercise2.people w) /\
    (E2Facts.in_state contagious (Exercise2.people w)
     <= range_len (Exercise2.INITIAL_INFECTION cfg))%nat /\
    (1 <= Exercise2.INITIAL_INFECTION cfg ->
     (1 <= E2Facts.in_state contagious (Exercise2.people w))%nat) /\
    Exercise2.active_cases (Exercise2.initial_stats cfg)
      = [Exercise2.INITIAL_INFECTION cfg].
Proof.
  intros cfg g w (l & g' & Hseed & ->). simpl.
  destruct (E2_initial_people_facts cfg) as (_ & Hall & Hzero).
  apply E2_infect_initial_outcome in Hseed as (_ & Hd & H3 & H4 & H5).
  split_and!; try reflexivity.
  - apply Forall_lookup. intros i p' Hp'.
    apply Forall2_same_length_lookup in H3 as [Hlen H3].
    destruct (lookup_lt_is_Some_2 (Exercise2.initial_people cfg) i) as [p Hp].
    { rewrite Hlen. eapply lookup_lt_Some; eassumption. }
    destruct (proj1 (Forall_lookup _ _) Hall i p Hp) as [Hw Hd1].
    split.
    + assert ((days <$> l) !! i = (days <$> Exercise2.initial_people cfg) !! i)
        as Hdi by (rewrite Hd; reflexivity).
      rewrite !list_lookup_fmap, Hp, Hp' in Hdi. simpl in Hdi. congruence.
    + destruct (H3 i p p' Hp Hp') as [Hs|Hs]; [left; congruence|right; assumption].
  - lia.
  - intros Hn. apply H5. unfold range_len. lia.
Qed.

Lemma seeding_infects_at_most_the_configured_count_witness :
  exists w,
    E2Facts.seeded Scenario.small_config Scenario.sample_rng w /\
    (1 <= E2Facts.in_state contagious (Exercise2.people w) <= 2)%nat.
Proof.
  destruct (Exercise2.infect_initial Scenario.small_config 2
              (Exercise2.initial_people Scenario.small_config) Scenario.sample_rng)
    as [[l g']| |] eqn:Hi; [|vm_compute in Hi; discriminate ..].
  eexists. 
  assert (E2Facts.seeded Scenario.small_config Scenario.sample_rng
            {| Exercise2.people := l; Exercise2.current_population := 6;
               Exercise2.new_cases := 0; Exercise2.new_recoveries := 0;
               Exercise2.new_deaths := 0; Exercise2.gen := g' |}) as Hs.
  { exists l, g'. split; [exact Hi|reflexivity]. }
  split; [exact Hs|].
  destruct (seeding_infects_at_most_the_configured_count _ _ _ Hs)
    as (_ & Hle & Hge & _).
  split; [apply Hge; simpl; lia|exact Hle].
Defined.

(** X6.  With an empty (or negative) population and at least one person to
    seed, [exercise_2.py] stops in the seeding loop:
    [random.randint(0, POPULATION - 1)] is called on an empty range and
    raises [ValueError]. *)
Theorem seeding_an_empty_population_raises :
  forall cfg g,
    Exercise2.POPULATION cfg <= 0 ->
    1 <= Exercise2.INITIAL_INFECTION cfg ->
    Exercise2.run cfg g = Raise ValueError.
Proof.
  intros cfg g Hpop Hinit. unfold Exercise2.run.
  destruct (range_len (Exercise2.INITIAL_INFECTION cfg)) as [|n] eqn:Hn.
  - unfold range_len in Hn. lia.
  - simpl. unfold randint.
    destruct (Exercise2.POPULATION cfg - 1 <? 0) eqn:Hlt; [reflexivity|].
    apply Z.ltb_ge in Hlt. lia.
Qed.

Lemma seeding_an_empty_population_raises_witness :
  Exercise2.run
    {| Exercise2.POPULATION := 0; Exercise2.INITIAL_INFECTION := 1;
       Exercise2.SIMULATION_DAYS := 3; Exercise2.daily_contacts := 10;
       Exercise2.transmission_probability := float_0_03;
       Exercise2.health_table := HEALTH_STATES |} Scenario.sample_rng
  = Raise ValueError.
Proof.
  apply seeding_an_empty_population_raises; simpl; lia.
Defined.

(** ** [exercise_2.py]: who can still be infected *)

Lemma person_eqb_state (a b : person) : person_eqb a b = true -> state a = state b.
Proof.
  unfold person_eqb. intros H.
  apply andb_prop in H as [H _]. apply andb_prop in H as [_ H].
  destruct (state a), (state b); simpl in H; congruence.
Qed.

Lemma filter_length_delete {A : Type} (f : A -> bool) (l : list A) (j : nat) (q : A) :
  l !! j = Some q -> f q = false ->
  length (filter (fun a => f a = true) (delete j l))
  = length (filter (fun a => f a = true) l).
Proof.
  revert j. induction l as [|a l IH]; intros j Hj Hq.
  - destruct j; discriminate.
  - destruct j as [|j]; simpl in *.
    + inversion Hj; subst a. rewrite filter_cons.
      case_decide; [congruence|reflexivity].
    + rewrite !filter_cons. specialize (IH j Hj Hq).
      case_decide; simpl; lia.
Qed.

Lemma E2_health_step_susceptible cfg (i : nat) (p : person) (w w' : Exercise2.sim) :
  E2Facts.infection_is_final (Exercise2.health_table cfg) ->
  Exercise2.people w !! i = Some p ->
  Exercise2.health_step cfg i p w = Ok w' ->
  E2Props.susceptible_count cfg w' = E2Props.susceptible_count cfg w.
Proof.
  intros (F1 & F2 & _) Hp H.
  set (f := fun q : person => can_be_infected (Exercise2.health_table cfg (state q))).
  set (p1 := set_days p (days p + 1)).
  set (l1 := <[i := p1]> (Exercise2.people w)).
  assert (length (filter (fun a => f a = true) l1)
          = length (filter (fun a => f a = true) (Exercise2.people w))) as Hstay.
  { pose proof (filter_length_insert f (Exercise2.people w) i p1 p Hp) as Hf.
    fold l1 in Hf. assert (f p1 = f p) as E by reflexivity.
    rewrite E in Hf. destruct (f p); lia. }
  assert (l1 !! i = Some p1) as Hl1.
  { apply list_lookup_insert_eq. apply lookup_lt_Some in Hp. assumption. }
  apply E2_health_step_cases in H. cbv zeta in H. fold p1 in H. fold l1 in H.
  unfold E2Props.susceptible_count. fold f.
  destruct H as [[-> _]|(Hpos & g & _ & [(j & q & Hj & Hq & ->)|(ns & Hns & ->)])].
  - f_equal. exact Hstay.
  - assert (f p = false) as Hfp.
    { unfold f. destruct (can_be_infected _) eqn:Hc; [|reflexivity].
      apply F1 in Hc. lia. }
    f_equal. etransitivity; [|exact Hstay].
    apply (filter_length_delete f l1 j q Hj).
    apply person_eqb_state in Hq. unfold f. rewrite Hq. exact Hfp.
  - assert (f p = false) as Hfp.
    { unfold f. destruct (can_be_infected _) eqn:Hc; [|reflexivity].
      apply F1 in Hc. lia. }
    pose proof (filter_length_insert f l1 i
                  {| id := id p; state := ns; days := 1 |} p1 Hl1) as Hf.
    assert (f p1 = false) as E1 by exact Hfp.
    assert (f {| id := id p; state := ns; days := 1 |} = false) as E2.
    { unfold f. simpl. eapply F2; eassumption. }
    rewrite E1, E2 in Hf.
    assert (length (filter (fun a => f a = true)
                      (<[i := {| id := id p; state := ns; days := 1 |}]> l1))
            = length (filter (fun a => f a = true) (Exercise2.people w))) as Hadv
      by lia.
    destruct (health_eqb ns immune); f_equal; exact Hadv.
Qed.

Lemma E2_health_loop_susceptible cfg (n : nat) (w w' : Exercise2.sim) :
  E2Facts.infection_is_final (Exercise2.health_table cfg) ->
  Exercise2.health_loop cfg n w = Ok w' ->
  E2Props.susceptible_count cfg w' = E2Props.susceptible_count cfg w.
Proof.
  intros Hfin. revert w. induction n as [|n IH]; intros w H; simpl in H.
  - inversion H; subst. reflexivity.
  - destruct (Exercise2.people w !! n) as [p|] eqn:Hp.
    + inv_bind H. apply IH in H. rewrite H.
      eapply E2_health_step_susceptible; eassumption.
    + inversion H; subst. reflexivity.
Qed.

Lemma susceptible_count_bounds cfg (w : Exercise2.sim) :
  0 <= E2Props.susceptible_count cfg w <= Z.of_nat (length (Exercise2.people w)).
Proof.
  unfold E2Props.susceptible_count. split; [lia|].
  apply inj_le. apply length_filter.
Qed.

(** X7.  Let the table be one in which the states that can be infected
    never elapse, no elapsing state leads back into one of them, and an
    infected person cannot be infected again (the table of the source is
    one).  Then in a completed run of [exercise_2.py] every new case is a
    person who stops being susceptible for good: the cases recorded since
    the seeding are exactly the susceptible people lost since the seeding,
    and no entry of 'cumulative cases' exceeds [INITIAL_INFECTION] plus the
    size of the population. *)
Theorem cases_are_lost_susceptibles :
  forall cfg g w0 w s,
    E2Facts.infection_is_final (Exercise2.health_table cfg) ->
    E2Facts.seeded cfg g w0 ->
    Exercise2.run cfg g = Ok (w, s) ->
    (exists c,
        Exercise2.cumulative_cases s !! range_len (Exercise2.SIMULATION_DAYS cfg)
          = Some c /\
        c - Exercise2.INITIAL_INFECTION cfg
          = E2Props.susceptible_count cfg w0 - E2Props.susceptible_count cfg w) /\
    Forall (fun c => c <= Exercise2.INITIAL_INFECTION cfg
                          + Z.of_nat (range_len (Exercise2.POPULATION cfg)))
      (Exercise2.cumulative_cases s).
Proof.
  intros cfg g w0 w s Hfin Hseed0 H.
  assert (E2Props.susceptible_count cfg w0
          <= Z.of_nat (range_len (Exercise2.POPULATION cfg))) as Hb0.
  { destruct Hseed0 as (l & g' & Hi & ->).
    apply E2_infect_initial_draws in Hi as [_ Hlen].
    pose proof (susceptible_count_bounds cfg
      {| Exercise2.people := l;
         Exercise2.current_population := Exercise2.POPULATION cfg;
         Exercise2.new_cases := 0; Exercise2.new_recoveries := 0;
         Exercise2.new_deaths := 0; Exercise2.gen := g' |}) as Hb.
    simpl in Hb. rewrite Hlen in Hb. unfold Exercise2.initial_people in Hb.
    rewrite length_map, length_seq in Hb. lia. }
  apply (E2_run_rule cfg
    (fun (m : nat) w s =>
       (exists c,
           Exercise2.cumulative_cases s !! m = Some c /\
           c - Exercise2.INITIAL_INFECTION cfg
             = E2Props.susceptible_count cfg w0 - E2Props.susceptible_count cfg w) /\
       Forall (fun c => c <= Exercise2.INITIAL_INFECTION cfg
                             + Z.of_nat (range_len (Exercise2.POPULATION cfg)))
         (Exercise2.cumulative_cases s)))
    with (g := g); try assumption.
  - intros m w1 s1 w2 w3 s' ((c & Hc & Heq) & Hall) Hs Hh Hcl Ha.
    pose proof (E2_health_loop_susceptible cfg _ _ _ Hfin Hh) as S1.
    apply E2_health_loop_counters in Hh as (A1 & _). simpl in A1.
    pose proof (E2_contact_loop_count cfg _ _ _ _ (proj2 (proj2 Hfin)) Hcl) as S2.
    destruct (E2_append_stats_entries m w3 s1 s' (proj1 Hs) Ha)
      as (cc & ac & cr & cd & Hcc & _ & _ & _ & E1 & _).
    rewrite Hc in Hcc. inversion Hcc; subst cc.
    assert (E2Props.susceptible_count cfg (Exercise2.reset_counters w1)
            = E2Props.susceptible_count cfg w1) as S0 by reflexivity.
    pose proof (susceptible_count_bounds cfg w3) as [Hb3 _].
    rewrite E1. split.
    + exists (c + Exercise2.new_cases w3). split.
      * apply lookup_snoc_last. destruct Hs as ((L1 & _) & _). exact L1.
      * lia.
    + apply Forall_app. split; [assumption|]. repeat constructor. lia.
  - intros w1 Hseed1.
    assert (w1 = w0) as ->.
    { destruct Hseed0 as (l & g' & Hi & ->). destruct Hseed1 as (l1 & g1 & Hi1 & ->).
      rewrite Hi in Hi1. inversion Hi1; subst. reflexivity. }
    simpl. split.
    + eexists. split; [reflexivity|]. lia.
    + repeat constructor. lia.
Qed.

Lemma E2_HEALTH_STATES_final : E2Facts.infection_is_final HEALTH_STATES.
Proof.
  split_and!.
  - intros []; simpl; intros H; try discriminate; lia.
  - intros [] ns; simpl; intros Hpos Hns; try lia;
      inversion Hns; subst; reflexivity.
  - reflexivity.
Qed.

Lemma cases_are_lost_susceptibles_witness :
  exists w s c,
    Exercise2.run Scenario.deadly_config Scenario.sample_rng = Ok (w, s) /\
    Exercise2.cumulative_cases s !! 8%nat = Some c /\ c <= 2 + 6.
Proof.
  destruct (Exercise2.infect_initial Scenario.deadly_config 2
              (Exercise2.initial_people Scenario.deadly_config) Scenario.sample_rng)
    as [[l g']| |] eqn:Hi; [|vm_compute in Hi; discriminate ..].
  destruct (Exercise2.run Scenario.deadly_config Scenario.sample_rng)
    as [[w s]| |] eqn:Hrun; [|vm_compute in Hrun; discriminate ..].
  assert (E2Facts.infection_is_final
            (Exercise2.health_table Scenario.deadly_config)) as Hfin.
  { split_and!.
    - intros []; simpl; intros H; try discriminate; lia.
    - intros [] ns; simpl; intros Hpos Hns; try lia;
        inversion Hns; subst; reflexivity.
    - reflexivity. }
  destruct (cases_are_lost_susceptibles Scenario.deadly_config Scenario.sample_rng
              _ w s Hfin
              (ex_intro _ l (ex_intro _ g' (conj Hi eq_refl))) Hrun)
    as ((c & Hc & _) & Hall).
  exists w, s, c. split; [reflexivity|]. split; [exact Hc|].
  apply (proj1 (Forall_lookup _ _) Hall _ _ Hc).
Defined.

(** ** [exercise_2.py]: the list of people *)

Lemma E2_health_step_survivors cfg (i : nat) (p : person) (w w' : Exercise2.sim) :
  Exercise2.people w !! i = Some p ->
  Exercise2.health_step cfg i p w = Ok w' ->
  (id <$> Exercise2.people w') `sublist_of` (id <$> Exercise2.people w) /\
  (Forall (fun q => 1 <= days q) (Exercise2.people w) ->
   Forall (fun q => 1 <= days q) (Exercise2.people w')).
Proof.
  intros Hp H.
  set (p1 := set_days p (days p + 1)).
  set (l1 := <[i := p1]> (Exercise2.people w)).
  assert (id <$> l1 = id <$> Exercise2.people w) as Hid1.
  { unfold l1. rewrite list_fmap_insert. simpl. apply list_insert_id.
    rewrite list_lookup_fmap, Hp. reflexivity. }
  assert (Forall (fun q => 1 <= days q) (Exercise2.people w) ->
          Forall (fun q => 1 <= days q) l1) as Hd1.
  { intros Hall. apply Forall_insert; [assumption|].
    pose proof (proj1 (Forall_lookup _ _) Hall _ _ Hp) as Hdp. simpl in *. lia. }
  apply E2_health_step_cases in H. cbv zeta in H. fold p1 in H. fold l1 in H.
  destruct H as [[-> _]|(Hpos & g & _ & [(j & q & Hj & Hq & ->)|(ns & Hns & ->)])].
  - simpl. rewrite Hid1. split; [reflexivity|assumption].
  - simpl. split.
    + rewrite list_fmap_delete, Hid1. apply sublist_delete.
    + intros Hall. apply Forall_delete. auto.
  - assert (id <$> <[i := {| id := id p; state := ns; days := 1 |}]> l1
            = id <$> Exercise2.people w) as Hid2.
    { rewrite list_fmap_insert. simpl. rewrite Hid1. apply list_insert_id.
      rewrite list_lookup_fmap, Hp. reflexivity. }
    destruct (health_eqb ns immune); simpl; rewrite Hid2;
      (split; [reflexivity|]); intros Hall;
      (apply Forall_insert; [auto|simpl; lia]).
Qed.

Lemma E2_health_loop_survivors cfg (n : nat) (w w' : Exercise2.sim) :
  Exercise2.health_loop cfg n w = Ok w' ->
  (id <$> Exercise2.people w') `sublist_of` (id <$> Exercise2.people w) /\
  (Forall (fun q => 1 <= days q) (Exercise2.people w) ->
   Forall (fun q => 1 <= days q) (Exercise2.people w')).
Proof.
  revert w. induction n as [|n IH]; intros w H; simpl in H.
  - inversion H; subst. split; [reflexivity|auto].
  - destruct (Exercise2.people w !! n) as [p|] eqn:Hp.
    + inv_bind H. apply IH in H as [H1 H2].
      destruct (E2_health_step_survivors cfg n p w a Hp Ha) as [G1 G2].
      split; [etransitivity; eassumption|auto].
    + inversion H; subst. split; [reflexivity|auto].
Qed.

(** X8.  At the end of a run of [exercise_2.py] the people left are people
    of the initial population, each present once and in their initial
    order (their ids are an increasing selection of [0 .. POPULATION - 1]),
    and every one of them is on day 1 or later of its state. *)
Theorem people_left_are_an_ordered_selection :
  forall cfg g w s,
    Exercise2.run cfg g = Ok (w, s) ->
    E2Facts.survivors (Exercise2.POPULATION cfg) (Exercise2.people w) /\
    NoDup (id <$> Exercise2.people w).
Proof.
  intros cfg g w s H.
  assert (E2Facts.survivors (Exercise2.POPULATION cfg) (Exercise2.people w)) as Hsur.
  { apply (E2_run_rule cfg
      (fun (_ : nat) w (_ : Exercise2.stats) =>
         E2Facts.survivors (Exercise2.POPULATION cfg) (Exercise2.people w)))
      with (g := g) (s := s); try assumption.
    - intros m w1 s1 w2 w3 s' [Hsub Hdays] _ Hh Hc _.
      apply E2_health_loop_survivors in Hh as [A1 A2]. simpl in A1, A2.
      apply E2_contact_loop_frame in Hc as (_ & _ & _ & _ & B5 & B6).
      split.
      + rewrite B5. etransitivity; eassumption.
      + auto.
    - intros w1 (l & g' & Hi & ->). simpl.
      destruct (E2_initial_people_facts cfg) as (Hids & Hall & _).
      apply E2_infect_initial_outcome in Hi as (H1 & H2 & _).
      split.
      + rewrite H1, Hids. reflexivity.
      + apply Forall_lookup. intros i p Hp.
        assert ((days <$> l) !! i = Some (days p)) as Hd
          by (rewrite list_lookup_fmap, Hp; reflexivity).
        rewrite H2, list_lookup_fmap in Hd.
        destruct (Exercise2.initial_people cfg !! i) as [q|] eqn:Hq;
          [|discriminate].
        simpl in Hd. inversion Hd.
        destruct (proj1 (Forall_lookup _ _) Hall i q Hq) as [_ Hq1]. lia. }
  split; [exact Hsur|].
  destruct Hsur as [Hsub _].
  eapply sublist_NoDup; [|exact Hsub].
  apply NoDup_fmap_2; [intros a b; apply Nat2Z.inj|apply NoDup_seq].
Qed.

Lemma people_left_are_an_ordered_selection_witness :
  exists w s,
    Exercise2.run Scenario.deadly_config Scenario.sample_rng = Ok (w, s) /\
    NoDup (id <$> Exercise2.people w).
Proof.
  destruct (Exercise2.run Scenario.deadly_config Scenario.sample_rng)
    as [[w s]| |] eqn:Hrun; [|vm_compute in Hrun; discriminate ..].
  exists w, s. split; [reflexivity|].
  apply (proj2 (people_left_are_an_ordered_selection Scenario.deadly_config
                  Scenario.sample_rng w s Hrun)).
Defined.

(** ** [simulate_v2.py]: one entry per day *)

(** X10.  A completed run of [run_simulation] started on empty series
    leaves every one of the sixteen series with one entry for day 0 and one
    for each simulated day, [SIMULATION_DAYS + 1] in all; for a negative
    [SIMULATION_DAYS] the day loop ([range(-1, SIMULATION_DAYS)]) is empty,
    nobody is seeded and the series stay empty. *)
Theorem every_series_gets_one_entry_per_day :
  forall (P E : Type) (fuel : nat) (ss0 ss : SimulateV2.sim_state P E),
    SimulateV2.SERIES ss0 = SimulateV2.empty_series ->
    SimulateV2.run_simulation fuel ss0 = Ok ss ->
    V2Props.lengths (SimulateV2.SERIES ss)
      (range_len (SimulateV2.SIMULATION_DAYS ss0 + 1)) /\
    (SimulateV2.SIMULATION_DAYS ss0 < 0 ->
     SimulateV2.SERIES ss = SimulateV2.empty_series).
Proof.
  intros P E fuel ss0 ss Hs H.
  destruct (Z_lt_ge_dec (SimulateV2.SIMULATION_DAYS ss0) 0) as [Hneg|Hpos].
  - unfold SimulateV2.run_simulation in H. inv_bind H.
    replace (range_len (SimulateV2.SIMULATION_DAYS ss0 - -1)) with 0%nat in H
      by (unfold range_len; lia).
    simpl in H. inversion H; subst ss; clear H. simpl.
    replace (range_len (SimulateV2.SIMULATION_DAYS ss0 + 1)) with 0%nat
      by (unfold range_len; lia).
    rewrite Hs. split; [repeat split|]. intros _. reflexivity.
  - destruct (V2_run_rule (fun _ _ => True) (fun _ => I)
                (fun _ _ _ _ _ _ _ => I) fuel ss0 ss Hs ltac:(lia) H)
      as (_ & HL & _).
    replace (range_len (SimulateV2.SIMULATION_DAYS ss0 + 1))
      with (S (Z.to_nat (SimulateV2.SIMULATION_DAYS ss0)))
      by (unfold range_len; lia).
    split; [exact HL|]. intros Hlt. lia.
Qed.

Lemma every_series_gets_one_entry_per_day_witness :
  exists ss,
    SimulateV2.run_simulation 100 (Scenario.small_state (1 # 2)) = Ok ss /\
    length (SimulateV2.NEW_DEATHS_SERIES (SimulateV2.SERIES ss)) = 9%nat.
Proof.
  destruct (SimulateV2.run_simulation 100 (Scenario.small_state (1 # 2)))
    as [ss| |] eqn:Hrun; [|vm_compute in Hrun; discriminate ..].
  exists ss. split; [reflexivity|].
  destruct (every_series_gets_one_entry_per_day _ _ 100%nat
              (Scenario.small_state (1 # 2)) ss eq_refl Hrun) as [HL _].
  unfold V2Props.lengths in HL. simpl in HL. tauto.
Defined.

(** ** [simulate_v2.py]: 'new active cases' *)

Lemma V2_active_step_day (n : nat) (c : SimulateV2.counters)
    (s s' : SimulateV2.series) :
  V2Props.lengths s (S n) ->
  V2Facts.day_zero s /\ (forall d, (d < n)%nat -> V2Facts.active_step s d) ->
  SimulateV2.append_day (Z.of_nat n) c s = Ok s' ->
  V2Facts.day_zero s' /\ (forall d, (d < S n)%nat -> V2Facts.active_step s' d).
Proof.
  intros HL [HZ HA] H.
  destruct HL as (L1 & L2 & L3 & L4 & L5 & L6 & L7 & L8 & L9 & L10 & L11
                  & L12 & L13 & L14 & L15 & L16).
  unfold SimulateV2.append_day in H. repeat inv_bind H.
  inversion H; subst s'; clear H. lookup_facts.
  split.
  - destruct HZ as (Z1 & Z2 & Z3). unfold V2Facts.day_zero; simpl.
    rewrite !(lookup_snoc_old _ _ 0 (S n)) by (assumption || lia).
    split_and!; assumption.
  - intros d Hd. destruct (decide (d = n)) as [->|Hne].
    + unfold V2Facts.active_step; simpl.
      rewrite !(lookup_snoc_old _ _ n (S n)) by (assumption || lia).
      rewrite !lookup_snoc_last by assumption.
      do 3 eexists. split_and!; try eassumption; try reflexivity. lia.
    + destruct (HA d ltac:(lia)) as (b0 & b1 & nb & F1 & F2 & F3 & F4).
      exists b0, b1, nb. simpl.
      rewrite !(lookup_snoc_old _ _ d (S n)) by (assumption || lia).
      rewrite !(lookup_snoc_old _ _ (S d) (S n)) by (assumption || lia).
      split_and!; assumption.
Qed.

(** X12.  In a completed run of [run_simulation] the series of true counts
    'new active cases' is the day-to-day step of 'active cases':
    [new_active[d + 1] = active[d + 1] - active[d]] on every simulated
    day, and on day 0 the 'new' series repeat the cumulative and active
    ones.  (The confirmed pair of series does not have this property, see
    C10.) *)
Theorem engine_new_active_steps_with_active :
  forall (P E : Type) (fuel : nat) (ss0 ss : SimulateV2.sim_state P E),
    SimulateV2.SERIES ss0 = SimulateV2.empty_series ->
    0 <= SimulateV2.SIMULATION_DAYS ss0 ->
    SimulateV2.run_simulation fuel ss0 = Ok ss ->
    V2Facts.day_zero (SimulateV2.SERIES ss) /\
    forall d, 0 <= d < SimulateV2.SIMULATION_DAYS ss0 ->
      V2Facts.active_step (SimulateV2.SERIES ss) (Z.to_nat d).
Proof.
  intros P E fuel ss0 ss Hs Hpos H.
  destruct (V2_run_rule (P := P) (E := E)
              (fun n s => V2Facts.day_zero s /\
                          forall d, (d < n)%nat -> V2Facts.active_step s d))
    with (fuel := fuel) (ss0 := ss0) (ss := ss) as ((HZ & HA) & _);
    try assumption.
  - intros c. split; [repeat split|]. intros d Hd. lia.
  - intros n c s s' HL HI Hday. eapply V2_active_step_day; eassumption.
  - split; [exact HZ|]. intros d Hd. apply HA. lia.
Qed.

Lemma engine_new_active_steps_with_active_witness :
  exists ss,
    SimulateV2.run_simulation 100 (Scenario.small_state (1 # 2)) = Ok ss /\
    V2Facts.active_step (SimulateV2.SERIES ss) 2.
Proof.
  destruct (SimulateV2.run_simulation 100 (Scenario.small_state (1 # 2)))
    as [ss| |] eqn:Hrun; [|vm_compute in Hrun; discriminate ..].
  exists ss. split; [reflexivity|].
  apply (proj2 (engine_new_active_steps_with_active _ _ 100%nat
                  (Scenario.small_state (1 # 2)) ss eq_refl
                  ltac:(vm_compute; discriminate) Hrun) 2).
  vm_compute. split; [discriminate|reflexivity].
Defined.

(** ** [simulate_v2.py]: the seeding loop at its edges *)

Lemma V2_day_zero_kept (n : nat) (c : SimulateV2.counters)
    (s s' : SimulateV2.series) (x : Z) :
  V2Props.lengths s (S n) ->
  SimulateV2.CUMULATIVE_CASES_SERIES s !! 0%nat = Some x /\
  SimulateV2.ACTIVE_CASES_SERIES s !! 0%nat = Some x /\
  SimulateV2.NEW_CASES_SERIES s !! 0%nat = Some x ->
  SimulateV2.append_day (Z.of_nat n) c s = Ok s' ->
  SimulateV2.CUMULATIVE_CASES_SERIES s' !! 0%nat = Some x /\
  SimulateV2.ACTIVE_CASES_SERIES s' !! 0%nat = Some x /\
  SimulateV2.NEW_CASES_SERIES s' !! 0%nat = Some x.
Proof.
  intros HL (Z1 & Z2 & Z3) H.
  destruct HL as (L1 & L2 & L3 & L4 & L5 & L6 & L7 & L8 & L9 & L10 & L11
                  & L12 & L13 & L14 & L15 & L16).
  unfold SimulateV2.append_day in H. repeat inv_bind H.
  inversion H; subst s'; clear H. simpl.
  rewrite !(lookup_snoc_old _ _ 0 (S n)) by (assumption || lia).
  split_and!; assumption.
Qed.

(** X13.  The seeding loop of [run_simulation] at its two edges.  With a
    population that is empty (or negative) and at least one case to seed,
    [random.randint(0, POPULATION - 1)] is called on an empty range and the
    run stops with [ValueError], whatever the callbacks.  With an
    initial-infection count of 0 or less, the loop body never runs: no
    index is drawn, the infection setter is not called, and day 0 records
    0 cases. *)
Theorem seeding_loop_edge_cases :
  (forall (P E : Type) (fuel : nat) (ss0 : SimulateV2.sim_state P E),
      SimulateV2.POPULATION ss0 <= 0 ->
      1 <= SimulateV2.INITIAL_INFECTION ss0 ->
      0 <= SimulateV2.SIMULATION_DAYS ss0 ->
      SimulateV2.run_simulation (S fuel) ss0 = Raise ValueError)
  /\
  (forall (P E : Type) (fuel : nat) (ss0 ss : SimulateV2.sim_state P E),
      SimulateV2.INITIAL_INFECTION ss0 <= 0 ->
      0 <= SimulateV2.SIMULATION_DAYS ss0 ->
      SimulateV2.SERIES ss0 = SimulateV2.empty_series ->
      SimulateV2.run_simulation fuel ss0 = Ok ss ->
      (forall ss1, V2Props.before_seeding ss0 = Ok ss1 ->
                   SimulateV2.seed_infection fuel ss1 = Ok ss1) /\
      SimulateV2.CUMULATIVE_CASES_SERIES (SimulateV2.SERIES ss) !! 0%nat = Some 0 /\
      SimulateV2.ACTIVE_CASES_SERIES (SimulateV2.SERIES ss) !! 0%nat = Some 0 /\
      SimulateV2.NEW_CASES_SERIES (SimulateV2.SERIES ss) !! 0%nat = Some 0).
Proof.
  split.
  - intros P E fuel ss0 Hpop Hinit Hd.
    rewrite (V2_run_seeds_first (S fuel) ss0 Hd).
    unfold V2Props.before_seeding.
    replace (range_len (SimulateV2.POPULATION ss0)) with 0%nat
      by (unfold range_len; lia).
    simpl.
    assert (Qltb 0 (inject_Z (SimulateV2.INITIAL_INFECTION ss0)) = true) as ->.
    { apply Qltb_lt. unfold Qlt. simpl. lia. }
    unfold randint.
    destruct (SimulateV2.POPULATION ss0 - 1 <? 0) eqn:Hlt; [reflexivity|].
    apply Z.ltb_ge in Hlt. lia.
  - intros P E fuel ss0 ss Hinit Hd Hs H.
    assert (forall ss1, V2Props.before_seeding ss0 = Ok ss1 ->
                        SimulateV2.seed_infection fuel ss1 = Ok ss1) as Hseed.
    { intros ss1 Hb. unfold V2Props.before_seeding in Hb. inv_bind Hb.
      inversion Hb; subst ss1; clear Hb.
      rewrite V2_seed_infection_unfold. simpl.
      assert (Qltb 0 (inject_Z (SimulateV2.INITIAL_INFECTION ss0)) = false) as ->.
      { apply Qltb_ge. unfold Qle. simpl. lia. }
      reflexivity. }
    split; [exact Hseed|].
    rewrite (V2_run_seeds_first fuel ss0 Hd) in H.
    inv_bind H. rename a into ss1, Ha into Hb.
    rewrite (Hseed ss1 Hb) in H. simpl in H.
    assert (SimulateV2.SERIES ss1 = SimulateV2.empty_series /\
            SimulateV2.today (SimulateV2.WORLD ss1) = SimulateV2.zero_counters)
      as [Es Et].
    { unfold V2Props.before_seeding in Hb. inv_bind Hb.
      inversion Hb; subst ss1. simpl. split; [assumption|reflexivity]. }
    rewrite Es, Et in H. change 0 with (Z.of_nat 0) in H.
    apply (V2_day_loop_rule
             (fun _ s =>
                SimulateV2.CUMULATIVE_CASES_SERIES s !! 0%nat = Some 0 /\
                SimulateV2.ACTIVE_CASES_SERIES s !! 0%nat = Some 0 /\
                SimulateV2.NEW_CASES_SERIES s !! 0%nat = Some 0)) in H.
    + exact (proj1 H).
    + intros n c s s' HL HI Ha. eapply V2_day_zero_kept; eassumption.
    + simpl. apply V2_append_seed_lengths.
    + simpl. split_and!; reflexivity.
Qed.

Lemma seeding_loop_edge_cases_witness :
  SimulateV2.run_simulation 5
    (Scenario.initial_state HEALTH_STATES Scenario.sample_rng 5 (1 # 2) 1 3 0 2)
  = Raise ValueError.
Proof.
  apply (proj1 seeding_loop_edge_cases); simpl; lia.
Defined.

(** ** [write_data]: the phases that are saved *)

Lemma dict_set_new {V : Type} (k : string) (v : V) (d : list (string * V)) :
  SimulateV2.dict_get k d = None -> SimulateV2.dict_set k v d = d ++ [(k, v)].
Proof.
  induction d as [|[k' v'] d IH]; simpl; intros H; [reflexivity|].
  destruct (String.eqb k' k); [discriminate|]. rewrite IH by assumption.
  reflexivity.
Qed.

Lemma dict_get_snoc_other {V : Type} (k k' : string) (v : V) (d : list (string * V)) :
  k' <> k -> SimulateV2.dict_get k (d ++ [(k', v)]) = SimulateV2.dict_get k d.
Proof.
  intros Hne. induction d as [|[k0 v0] d IH]; simpl.
  - destruct (String.eqb_spec k' k); [contradiction|reflexivity].
  - destruct (String.eqb k0 k); [reflexivity|exact IH].
Qed.

Lemma V2_phases_data_saved (l : list (string * SimulateV2.phase))
    (acc : list (string * SimulateV2.json)) :
  NoDup (map fst l) ->
  (forall k, In k (map fst l) -> SimulateV2.dict_get k acc = None) ->
  Forall (fun kp => V2Facts.phase_entry (fst kp) (snd kp) <> None) l ->
  SimulateV2.phases_data l acc = Ok (acc ++ V2Facts.saved_phases l).
Proof.
  revert acc. induction l as [|[key ph] l IH]; intros acc Hnd Hacc Hall; simpl.
  - rewrite app_nil_r. reflexivity.
  - simpl in Hnd. apply NoDup_cons in Hnd as [Hnin Hnd].
    apply Forall_cons in Hall as [Hhd Hall]. simpl in Hhd.
    unfold V2Facts.phase_entry in *.
    destruct (SimulateV2.start_day ph) as [sd|].
    + destruct (SimulateV2.phase_daily_contacts ph) as [dc|]; [|congruence].
      destruct (SimulateV2.phase_transmission_probability ph) as [tp|];
        [|congruence].
      destruct (SimulateV2.Ro ph) as [ro|]; [|congruence].
      simpl. rewrite dict_set_new by (apply Hacc; left; reflexivity).
      rewrite IH; try assumption.
      * rewrite <- app_assoc. reflexivity.
      * intros k Hk. rewrite dict_get_snoc_other.
        -- apply Hacc. right. assumption.
        -- intros ->. apply Hnin. apply list_elem_of_In. assumption.
    + apply IH; try assumption. intros k Hk. apply Hacc. right. assumption.
Qed.

Lemma V2_phases_data_incomplete (l : list (string * SimulateV2.phase))
    (acc : list (string * SimulateV2.json)) :
  Exists (fun kp => V2Facts.phase_entry (fst kp) (snd kp) = None) l ->
  SimulateV2.phases_data l acc = Raise KeyError.
Proof.
  revert acc. induction l as [|[key ph] l IH]; intros acc Hex.
  - apply Exists_nil in Hex. contradiction.
  - simpl. unfold V2Facts.phase_entry in *.
    destruct (SimulateV2.start_day ph) as [sd|] eqn:Hsd.
    + destruct (SimulateV2.phase_daily_contacts ph) as [dc|] eqn:Hdc;
        [|reflexivity].
      destruct (SimulateV2.phase_transmission_probability ph) as [tp|] eqn:Htp;
        [|reflexivity].
      destruct (SimulateV2.Ro ph) as [ro|] eqn:Hro; [|reflexivity].
      simpl. apply IH. apply Exists_cons in Hex as [Hex|Hex]; [|assumption].
      simpl in Hex. rewrite Hsd, Hdc, Htp, Hro in Hex. discriminate.
    + apply IH. apply Exists_cons in Hex as [Hex|Hex]; [|assumption].
      simpl in Hex. rewrite Hsd in Hex. discriminate.
Qed.

(** X14.  What [write_data] saves of the phases (a dict, so its keys are
    distinct): the phases that have a 'start day', in the order of the
    dict, each with its four fields under the names 'start_day',
    'daily_contacts', 'transmission_probability' and 'Ro'; a phase that has
    not started is left out.  If a phase has a 'start day' but lacks one of
    the three other keys, [write_data] raises [KeyError] and nothing is
    written. *)
Theorem write_data_saves_the_started_phases :
  forall (P E : Type) (ss : SimulateV2.sim_state P E),
    NoDup (map fst (SimulateV2.PHASES (SimulateV2.WORLD ss))) ->
    (Forall (fun kp => V2Facts.phase_entry (fst kp) (snd kp) <> None)
       (SimulateV2.PHASES (SimulateV2.WORLD ss)) ->
     exists data,
       SimulateV2.write_data ss = Ok data /\
       SimulateV2.dict_get "phases" data
         = Some (SimulateV2.JDict
                   (V2Facts.saved_phases (SimulateV2.PHASES (SimulateV2.WORLD ss))))) /\
    (Exists (fun kp => V2Facts.phase_entry (fst kp) (snd kp) = None)
       (SimulateV2.PHASES (SimulateV2.WORLD ss)) ->
     SimulateV2.write_data ss = Raise KeyError).
Proof.
  intros P E ss Hnd. split.
  - intros Hall. unfold SimulateV2.write_data.
    rewrite (V2_phases_data_saved _ [] Hnd); [|intros k _; reflexivity|assumption].
    simpl. eexists. split; reflexivity.
  - intros Hex. unfold SimulateV2.write_data.
    rewrite (V2_phases_data_incomplete _ [] Hex). reflexivity.
Qed.

Lemma write_data_saves_the_started_phases_witness :
  (exists data,
      SimulateV2.write_data (Samples.state_with Samples.two_phases) = Ok data /\
      SimulateV2.dict_get "phases" data
        = Some (SimulateV2.JDict
                  [("normal"%string,
                    V2Facts.saved_phase 0 10 float_0_03 (12 # 10))])) /\
  SimulateV2.write_data (Samples.state_with Samples.broken_phases)
    = Raise KeyError.
Proof.
  split.
  - apply (proj1 (write_data_saves_the_started_phases _ _
                    (Samples.state_with Samples.two_phases)
                    ltac:(apply (bool_decide_unpack _); vm_compute; reflexivity))).
    repeat constructor; simpl; discriminate.
  - apply (proj2 (write_data_saves_the_started_phases _ _
                    (Samples.state_with Samples.broken_phases)
                    ltac:(apply (bool_decide_unpack _); vm_compute; reflexivity))).
    apply Exists_cons. right. apply Exists_cons. left. reflexivity.
Defined.

(** ** [write_data]: the keys that are saved *)

(** X15.  When [write_data] succeeds the saved dict has exactly the key
    'phases' followed by the 23 keys of [_SERIALIZE_KEYS], in that order
    and each once; every one of those keys holds the value the state has
    for it.  The days of the two confirmed maxima
    ('max_new_daily_confirmed_cases_day' and
    'max_active_confirmed_cases_day') are not among them: they are tracked
    in the state but never saved. *)
Theorem write_data_saves_the_listed_keys :
  forall (P E : Type) (ss : SimulateV2.sim_state P E)
         (data : list (string * SimulateV2.json)),
    SimulateV2.write_data ss = Ok data ->
    map fst data
      = SimulateV2.label SimulateV2.Key.PHASES
          :: map SimulateV2.label SimulateV2._SERIALIZE_KEYS /\
    NoDup (map fst data) /\
    Forall (fun k => exists v,
                SimulateV2.state_value ss k = Ok v /\
                SimulateV2.dict_get (SimulateV2.label k) data = Some v)
      SimulateV2._SERIALIZE_KEYS /\
    SimulateV2.dict_get
      (SimulateV2.label SimulateV2.Key.MAX_NEW_DAILY_CONFIRMED_CASES) data = None /\
    SimulateV2.dict_get
      (SimulateV2.label SimulateV2.Key.MAX_ACTIVE_CONFIRMED_CASES) data = None.
Proof.
  intros P E ss data H. unfold SimulateV2.write_data in H. inv_bind H.
  simpl in H. inversion H; subst data; clear H.
  split; [reflexivity|]. split.
  - simpl. apply (bool_decide_unpack _). vm_compute. reflexivity.
  - split; [|split; reflexivity].
    unfold SimulateV2._SERIALIZE_KEYS.
    repeat (apply Forall_cons; split; [eexists; split; reflexivity|]).
    apply Forall_nil. exact I.
Qed.

Lemma write_data_saves_the_listed_keys_witness :
  exists data,
    SimulateV2.write_data (Samples.state_with Samples.two_phases) = Ok data /\
    length data = 24%nat /\
    SimulateV2.dict_get "max_active_confirmed_cases_day" data = None.
Proof.
  destruct (SimulateV2.write_data (Samples.state_with Samples.two_phases))
    as [data| |] eqn:Hw; [|vm_compute in Hw; discriminate ..].
  exists data. split; [reflexivity|].
  destruct (write_data_saves_the_listed_keys _ _ _ data Hw)
    as (Hk & _ & _ & _ & Hnone).
  split; [|exact Hnone].
  rewrite <- (length_map fst data), Hk. reflexivity.
Defined.

(** ** [test_condition]: the recognised types *)

Lemma py_get_quiet {A : Type} (l : list A) (i : Z) :
  match py_get l i with
  | Ok _ => True
  | Raise e => e = IndexError
  | Timeout => False
  end.
Proof.
  unfold py_get, py_index.
  destruct ((0 <=? i) && (i <? Z.of_nat (length l))); simpl.
  - destruct (l !! Z.to_nat i); simpl; auto.
  - destruct ((- Z.of_nat (length l) <=? i) && (i <? 0)); simpl; auto.
    destruct (l !! _); simpl; auto.
Qed.

Ltac quiet_step :=
  match goal with
  | |- context [py_get ?l ?i] =>
      let H := fresh "H" in
      pose proof (py_get_quiet l i) as H;
      destruct (py_get l i); simpl in *;
      [|subst; right; reflexivity|contradiction]
  | |- context [from_key ?o] =>
      destruct o; simpl; [|left; reflexivity]
  end.

(** X16.  For each of the eight condition types it recognises,
    [test_condition] prints nothing, on any state and any day; it can fail
    only with [KeyError] (the condition, or the current phase, lacks the
    key its type reads) or with [IndexError] (the day lies outside the
    series).  Together with C8: a line is printed exactly for the
    unrecognised types. *)
Theorem recognised_conditions_print_nothing :
  forall (P E : Type) (ss : SimulateV2.sim_state P E)
         (cond : SimulateV2.condition) (day : Z) (type : string),
    SimulateV2.c_type cond = Some type ->
    In type SimulateV2.condition_types ->
    ConditionFacts.quiet (SimulateV2.test_condition ss cond day).
Proof.
  intros P E ss cond day type Ht Hin.
  unfold SimulateV2.test_condition. rewrite Ht. simpl.
  unfold SimulateV2.condition_types in Hin. simpl in Hin.
  destruct Hin as [<-|[<-|[<-|[<-|[<-|[<-|[<-|[<-|[]]]]]]]]]; simpl;
    repeat quiet_step; reflexivity.
Qed.

Lemma recognised_conditions_print_nothing_witness :
  ConditionFacts.quiet
    (SimulateV2.test_condition (Scenario.small_state (1 # 2))
       (ConditionFacts.after_max_active 3) 7).
Proof.
  apply (recognised_conditions_print_nothing _ _
           (Scenario.small_state (1 # 2)) (ConditionFacts.after_max_active 3) 7
           "days after max active"%string eq_refl).
  simpl. tauto.
Defined.

(** ** [test_condition] after a run: the days since the peak *)

(** X17.  After a completed run of [run_simulation], the condition
    'days after max active' with [n] days holds on day [day] exactly when
    more than [n] days separate [day] from the first day on which
    'active cases' reached its largest value (a later day with the same
    value does not restart the count); 'days after confirmed max active'
    does the same on 'active confirmed cases'. *)
Theorem peak_conditions_count_from_the_first_peak :
  forall (P E : Type) (fuel : nat) (ss0 ss : SimulateV2.sim_state P E)
         (n : Q) (day : Z),
    SimulateV2.SERIES ss0 = SimulateV2.empty_series ->
    0 <= SimulateV2.SIMULATION_DAYS ss0 ->
    SimulateV2.run_simulation fuel ss0 = Ok ss ->
    (exists m b,
        V2Props.argmax_Z
          (SimulateV2.ACTIVE_CASES_SERIES (SimulateV2.SERIES ss)) m /\
        SimulateV2.test_condition ss (ConditionFacts.after_max_active n) day
          = Ok (b, []) /\
        (b = true <-> (n < inject_Z (day - m))%Q)) /\
    (exists m b,
        V2Props.argmax_Q
          (SimulateV2.ACTIVE_CONFIRMED_CASES_SERIES (SimulateV2.SERIES ss)) m /\
        SimulateV2.test_condition ss
          (ConditionFacts.after_confirmed_max_active n) day = Ok (b, []) /\
        (b = true <-> (n < inject_Z (day - m))%Q)).
Proof.
  intros P E fuel ss0 ss n day Hs Hd H.
  destruct (V2_run_rule (fun _ s => V2Props.maxima s)
              V2_maxima_seed V2_maxima_day fuel ss0 ss Hs Hd H)
    as ((_ & _ & M3 & M4 & _) & _).
  split.
  - exists (SimulateV2.MAX_ACTIVE_CASES (SimulateV2.SERIES ss)).
    eexists. split; [exact M3|]. split; [reflexivity|]. apply Qltb_lt.
  - exists (SimulateV2.MAX_ACTIVE_CONFIRMED_CASES (SimulateV2.SERIES ss)).
    eexists. split; [exact M4|]. split; [reflexivity|]. apply Qltb_lt.
Qed.

Lemma peak_conditions_count_from_the_first_peak_witness :
  exists ss m b,
    SimulateV2.run_simulation 100 (Scenario.small_state (1 # 2)) = Ok ss /\
    V2Props.argmax_Z (SimulateV2.ACTIVE_CASES_SERIES (SimulateV2.SERIES ss)) m /\
    SimulateV2.test_condition ss (ConditionFacts.after_max_active 3) 8
      = Ok (b, []).
Proof.
  destruct (SimulateV2.run_simulation 100 (Scenario.small_state (1 # 2)))
    as [ss| |] eqn:Hrun; [|vm_compute in Hrun; discriminate ..].
  destruct (proj1 (peak_conditions_count_from_the_first_peak _ _ 100%nat
                     (Scenario.small_state (1 # 2)) ss 3 8 eq_refl
                     ltac:(vm_compute; discriminate) Hrun))
    as (m & b & Hm & Ht & _).
  exists ss, m, b. split; [reflexivity|]. split; assumption.
Defined.

(** ** [exercise_3d.py] computes what [exercise_2.py] computes *)

Ltac same_variables_done :=
  unfold Refinement.same_outcome, Refinement.same_variables; simpl;
  first [reflexivity | exact I | repeat split; auto; lia].

(** The health update of [exercise_3d.py] against the body of the health
    loop of [exercise_2.py], for the person at index [i]. *)
Lemma E3d_health_step_matches cfg (i : nat) (p : person) (w2 : Exercise2.sim)
    (w3 : SimulateV2.world person Exercise3d.env) :
  Refinement.infected_by_contact_only (Exercise2.health_table cfg) ->
  Refinement.same_variables cfg w2 w3 ->
  Exercise2.people w2 !! i = Some p ->
  Refinement.same_outcome cfg
    (Exercise2.health_step cfg i p w2)
    (Exercise3d.evaluate_health_for_day (Exercise2.health_table cfg) i w3).
Proof.
  intros Htbl (R1 & R2 & R3 & R4 & R5 & R6 & R7 & R8) Hp.
  destruct w3 as [ppl hosp dp td ph tpb phs rs ext].
  destruct td as [dc dcc dr dcr dd dcd dh di]. simpl in *. subst.
  unfold Exercise2.health_step, Exercise3d.evaluate_health_for_day. simpl.
  rewrite Hp.
  destruct ((0 <? days_at_state (Exercise2.health_table cfg (state p)))
            && (days_at_state (Exercise2.health_table cfg (state p))
                <? days p + 1)) eqn:Hc;
    [|same_variables_done].
  apply andb_prop in Hc as [Hpos _]. apply Z.ltb_lt in Hpos.
  unfold Exercise3d.advance_health_state. simpl.
  rewrite list_lookup_insert_eq by (apply lookup_lt_Some in Hp; assumption).
  destruct (death_rate (Exercise2.health_table cfg (state p))) as [rate|];
    simpl; [|same_variables_done].
  assert (forall ns, next_state (Exercise2.health_table cfg (state p)) = Some ns ->
                     health_eqb ns infected = false) as Hns.
  { intros ns Hn. destruct ns; try reflexivity.
    exfalso. exact (Htbl _ Hpos Hn). }
  destruct (Qltb 0 rate).
  - destruct (Qltb _ rate).
    + destruct (py_remove person_eqb _ _) as [l|e|]; simpl; same_variables_done.
    + destruct (next_state (Exercise2.health_table cfg (state p))) as [ns|] eqn:Hn;
        simpl; [|same_variables_done].
      rewrite (Hns ns eq_refl).
      destruct (health_eqb ns immune); same_variables_done.
  - destruct (next_state (Exercise2.health_table cfg (state p))) as [ns|] eqn:Hn;
      simpl; [|same_variables_done].
    rewrite (Hns ns eq_refl).
    destruct (health_eqb ns immune); same_variables_done.
Qed.

Lemma E3d_susceptible_matches cfg (k i : nat) (p : person) (w2 : Exercise2.sim)
    (w3 : SimulateV2.world person Exercise3d.env) :
  Refinement.susceptible_like_well (Exercise2.health_table cfg) ->
  Refinement.same_variables cfg w2 w3 ->
  Exercise2.people w2 !! i = Some p ->
  can_be_infected (Exercise2.health_table cfg (state p)) = true ->
  Refinement.same_outcome cfg
    (Exercise2.susceptible_contacts cfg k i w2)
    (Exercise3d.susceptible_contacts (Exercise2.health_table cfg) k i w3).
Proof.
  intros Htbl. revert w2 w3. induction k as [|k IH]; intros w2 w3 R Hp Hsus.
  - exact R.
  - destruct R as (R1 & R2 & R3 & R4 & R5 & R6 & R7 & R8).
    destruct w3 as [ppl hosp dp td ph tpb phs rs ext].
    destruct td as [dc dcc dr dcr dd dcd dh di]. simpl in *. subst.
    destruct (randint 0 (Exercise2.current_population w2 - 1) (Exercise2.gen w2))
      as [[r g]|e|]; simpl; [|same_variables_done ..].
    destruct (py_get (Exercise2.people w2) r) as [c|e|]; simpl;
      [|same_variables_done ..].
    destruct (health_eqb (state c) contagious).
    + rewrite R8. destruct (Qltb _ (Exercise2.transmission_probability cfg)).
      * rewrite Hp.
        destruct (Htbl _ Hsus) as [Hr Hn].
        rewrite (E3d_advance_infects i p); [same_variables_done| |exact Hp].
        split; [|exact Hn]. exists 0%Q. split; [exact Hr|apply Qle_refl].
      * apply IH; [same_variables_done|exact Hp|exact Hsus].
    + apply IH; [same_variables_done|exact Hp|exact Hsus].
Qed.

Lemma E3d_contagious_matches cfg (k : nat) (w2 : Exercise2.sim)
    (w3 : SimulateV2.world person Exercise3d.env) :
  Refinement.susceptible_like_well (Exercise2.health_table cfg) ->
  Refinement.same_variables cfg w2 w3 ->
  Refinement.same_outcome cfg
    (Exercise2.contagious_contacts cfg k w2)
    (Exercise3d.contagious_contacts (Exercise2.health_table cfg) k w3).
Proof.
  intros Htbl. revert w2 w3. induction k as [|k IH]; intros w2 w3 R.
  - exact R.
  - destruct R as (R1 & R2 & R3 & R4 & R5 & R6 & R7 & R8).
    destruct w3 as [ppl hosp dp td ph tpb phs rs ext].
    destruct td as [dc dcc dr dcr dd dcd dh di]. simpl in *. subst.
    destruct (randint 0 (Exercise2.current_population w2 - 1) (Exercise2.gen w2))
      as [[r g]|e|]; simpl; [|same_variables_done ..].
    destruct (py_index (Exercise2.people w2) r) as [j|e|] eqn:Hj; simpl;
      [|same_variables_done ..].
    destruct (py_get (Exercise2.people w2) r) as [c|e|] eqn:Hc; simpl;
      [|same_variables_done ..].
    assert (Exercise2.people w2 !! j = Some c) as Hjc.
    { unfold py_get in Hc. rewrite Hj in Hc. simpl in Hc.
      destruct (Exercise2.people w2 !! j); [congruence|discriminate]. }
    destruct (can_be_infected (Exercise2.health_table cfg (state c))) eqn:Hsus.
    + rewrite R8. destruct (Qltb _ (Exercise2.transmission_probability cfg)).
      * destruct (Htbl _ Hsus) as [Hr Hn].
        rewrite (E3d_advance_infects j c); [| |exact Hjc].
        -- simpl. apply IH. same_variables_done.
        -- split; [|exact Hn]. exists 0%Q. split; [exact Hr|apply Qle_refl].
      * apply IH. same_variables_done.
    + apply IH. same_variables_done.
Qed.

(** [evaluate_contacts] of [exercise_3d.py] against the body of the
    contact loop of [exercise_2.py], for the person at index [i]. *)
Lemma E3d_contact_step_matches cfg (i : nat) (p : person) (w2 : Exercise2.sim)
    (w3 : SimulateV2.world person Exercise3d.env) :
  Refinement.susceptible_like_well (Exercise2.health_table cfg) ->
  Refinement.same_variables cfg w2 w3 ->
  Exercise2.people w2 !! i = Some p ->
  Refinement.same_outcome cfg
    (Exercise2.contact_step cfg i p w2)
    (Exercise3d.evaluate_contacts (Exercise2.health_table cfg) i w3).
Proof.
  intros Htbl R Hp.
  unfold Exercise2.contact_step, Exercise3d.evaluate_contacts.
  pose proof R as (R1 & _ & _ & _ & _ & _ & R7 & _).
  rewrite R1, Hp, R7. fold (Exercise2.half_contacts cfg).
  destruct (can_be_infected (Exercise2.health_table cfg (state p))) eqn:Hsus.
  - apply (E3d_susceptible_matches cfg _ i p); assumption.
  - destruct (health_eqb (state p) contagious).
    + apply E3d_contagious_matches; assumption.
    + exact R.
Qed.

Lemma E3d_health_loop_matches cfg (n : nat) (w2 : Exercise2.sim)
    (w3 : SimulateV2.world person Exercise3d.env) :
  Refinement.infected_by_contact_only (Exercise2.health_table cfg) ->
  Refinement.same_variables cfg w2 w3 ->
  Refinement.same_outcome cfg
    (Exercise2.health_loop cfg n w2)
    (Exercise3dRun.health_loop (Exercise2.health_table cfg) n w3).
Proof.
  intros Htbl. revert w2 w3. induction n as [|n IH]; intros w2 w3 R.
  - exact R.
  - simpl. rewrite (proj1 R).
    destruct (Exercise2.people w2 !! n) as [p|] eqn:Hp; [|exact R].
    pose proof (E3d_health_step_matches cfg n p w2 w3 Htbl R Hp) as Hstep.
    destruct (Exercise2.health_step cfg n p w2) as [a|e|];
      destruct (Exercise3d.evaluate_health_for_day _ n w3) as [b|e'|];
      simpl in *; try contradiction; try assumption.
    apply IH. exact Hstep.
Qed.

Lemma E3d_contact_loop_matches cfg (n i : nat) (w2 : Exercise2.sim)
    (w3 : SimulateV2.world person Exercise3d.env) :
  Refinement.susceptible_like_well (Exercise2.health_table cfg) ->
  Refinement.same_variables cfg w2 w3 ->
  Refinement.same_outcome cfg
    (Exercise2.contact_loop cfg n i w2)
    (Exercise3dRun.contact_loop (Exercise2.health_table cfg) n i w3).
Proof.
  intros Htbl. revert i w2 w3. induction n as [|n IH]; intros i w2 w3 R.
  - exact R.
  - simpl. rewrite (proj1 R).
    destruct (Exercise2.people w2 !! i) as [p|] eqn:Hp; [|exact R].
    pose proof (E3d_contact_step_matches cfg i p w2 w3 Htbl R Hp) as Hstep.
    destruct (Exercise2.contact_step cfg i p w2) as [a|e|];
      destruct (Exercise3d.evaluate_contacts _ i w3) as [b|e'|];
      simpl in *; try contradiction; try assumption.
    apply IH. exact Hstep.
Qed.

(** X18.  The two passes of [exercise_3d.py] over the people - the health
    pass in reverse order with [evaluate_health_for_day], the contact pass
    with [evaluate_contacts] - do to the state what the two loops of
    [exercise_2.py] do to its variables: the same people, population,
    counters and random draws, or the same exception.  This holds for
    every table in which no elapsing state leads into 'infected' (where
    [exercise_3d.py] would count a case that [exercise_2.py] does not) and
    whose susceptible states have the entry of 'well' (death rate 0.0,
    next state 'infected'). *)
Theorem passes_of_3d_match_2 :
  forall cfg (n : nat) (w2 : Exercise2.sim)
         (w3 : SimulateV2.world person Exercise3d.env),
    Refinement.infected_by_contact_only (Exercise2.health_table cfg) ->
    Refinement.susceptible_like_well (Exercise2.health_table cfg) ->
    Refinement.same_variables cfg w2 w3 ->
    Refinement.same_outcome cfg
      (Exercise2.health_loop cfg n w2)
      (Exercise3dRun.health_loop (Exercise2.health_table cfg) n w3) /\
    Refinement.same_outcome cfg
      (Exercise2.contact_loop cfg n 0 w2)
      (Exercise3dRun.contact_loop (Exercise2.health_table cfg) n 0 w3).
Proof.
  intros cfg n w2 w3 H1 H2 R. split.
  - apply E3d_health_loop_matches; assumption.
  - apply E3d_contact_loop_matches; assumption.
Qed.

Lemma E3d_quick_table_by_contact :
  Refinement.infected_by_contact_only Scenario.quick_table.
Proof. intros []; simpl; intros Hpos; try lia; discriminate. Qed.

Lemma E3d_quick_table_like_well :
  Refinement.susceptible_like_well Scenario.quick_table.
Proof. intros []; simpl; intros Hs; try discriminate. split; reflexivity. Qed.

Lemma passes_of_3d_match_2_witness :
  Refinement.same_outcome Scenario.small_config
    (Exercise2.contact_loop Scenario.small_config 3 0
       (Scenario.trio_sim [0; 0; 2; 0; 1; 1; 2; 2]%N))
    (Exercise3dRun.contact_loop Scenario.quick_table 3 0
       (Scenario.trio_world [0; 0; 2; 0; 1; 1; 2; 2]%N)).
Proof.
  apply (proj2 (passes_of_3d_match_2 Scenario.small_config 3%nat
                  (Scenario.trio_sim [0; 0; 2; 0; 1; 1; 2; 2]%N)
                  (Scenario.trio_world [0; 0; 2; 0; 1; 1; 2; 2]%N)
                  E3d_quick_table_by_contact E3d_quick_table_like_well
                  ltac:(repeat split))).
Defined.

(** ** [exercise_3d.py]: a day of the script against a day of [exercise_2.py] *)

Lemma same_outcome_Ok cfg (r2 : result Exercise2.sim)
    (w3 : SimulateV2.world person Exercise3d.env) :
  Refinement.same_outcome cfg r2 (Ok w3) ->
  exists w2, r2 = Ok w2 /\ Refinement.same_variables cfg w2 w3.
Proof.
  destruct r2 as [w2|e|]; simpl; intros H; try contradiction. eauto.
Qed.

(** X19.  With a single phase, a day of the day loop of [exercise_3d.py]
    that completes is a day of [exercise_2.py]: started on the same
    people, population, random source and settings and on the same lists,
    both end the day with the same people, counters and random source, and
    the eight series of true counts of [exercise_3d.py] (cumulative, active
    and daily cases, recoveries and deaths) receive the entries that
    [exercise_2.py] appends to its eight lists.  (Same conditions on the
    table as for the passes.) *)
Theorem day_of_3d_matches_2 :
  forall cfg phase_evaluation (n : nat) (w2 : Exercise2.sim) (s2 : Exercise2.stats)
         (w3 w3' : SimulateV2.world person Exercise3d.env)
         (s3 s3' : SimulateV2.series),
    Refinement.infected_by_contact_only (Exercise2.health_table cfg) ->
    Refinement.susceptible_like_well (Exercise2.health_table cfg) ->
    Refinement.single_phase phase_evaluation ->
    Refinement.same_variables cfg w2 w3 ->
    Refinement.same_series s2 s3 ->
    E2Props.lengths s2 (S n) ->
    Exercise3dRun.one_day (Exercise2.health_table cfg) phase_evaluation
      (Z.of_nat n) (w3, s3) = Ok (w3', s3') ->
    exists w2' s2',
      Exercise2.one_day cfg (Z.of_nat n) (w2, s2) = Ok (w2', s2') /\
      Refinement.same_variables cfg w2' w3' /\
      Refinement.same_series s2' s3'.
Proof.
  intros cfg phase_evaluation n w2 s2 w3 w3' s3 s3' T1 T2 Hph R RS HL H.
  unfold Exercise3dRun.one_day in H. cbv zeta in H. cbn [fst snd] in H.
  inv_bind H. rename a into w, Ha into Hw.
  inv_bind H. rename a into wh, Ha into Hh.
  inv_bind H. rename a into wc, Ha into Hc.
  inv_bind H. rename a into sa, Ha into Ha3.
  inversion H; subst w3' s3'; clear H.
  destruct (Hph _ _ _ Hw) as (F1 & F2 & F3 & F4).
  destruct R as (R1 & R2 & R3 & R4 & R5 & R6 & R7 & R8).
  assert (Refinement.same_variables cfg (Exercise2.reset_counters w2)
            (Exercise3dRun.reset_counters w)) as R0.
  { unfold Refinement.same_variables. simpl.
    rewrite F1, F2, F3, F4. split_and!; auto. }
  assert (length (SimulateV2.PEOPLE (Exercise3dRun.reset_counters w))
          = length (Exercise2.people (Exercise2.reset_counters w2))) as Hlen0.
  { simpl. rewrite F1, R1. reflexivity. }
  rewrite Hlen0 in Hh.
  pose proof (E3d_health_loop_matches cfg
                (length (Exercise2.people (Exercise2.reset_counters w2)))
                _ _ T1 R0) as Mh.
  rewrite Hh in Mh. apply same_outcome_Ok in Mh as (wh2 & Hh2 & Rh).
  rewrite (proj1 Rh) in Hc.
  pose proof (E3d_contact_loop_matches cfg (length (Exercise2.people wh2)) 0
                _ _ T2 Rh) as Mc.
  rewrite Hc in Mc. apply same_outcome_Ok in Mc as (wc2 & Hc2 & Rc).
  destruct (E2_append_stats_total n wc2 s2 HL) as (s2' & HaE).
  exists wc2, s2'. split; [|split; [exact Rc|]].
  - unfold Exercise2.one_day. simpl. simpl in Hh2. rewrite Hh2. simpl.
    rewrite Hc2. simpl. rewrite HaE. reflexivity.
  - destruct (E2_append_stats_entries n wc2 s2 s2' HL HaE)
      as (cc & ac & cr & cd & Hcc & Hac & Hcr & Hcd
          & E1 & E2 & E3 & E4 & E5 & E6 & E7 & E8).
    destruct RS as (S1 & S2 & S3 & S4 & S5 & S6 & S7 & S8).
    destruct Rc as (_ & _ & C3 & C4 & C5 & _).
    unfold Exercise3d.append_stats in Ha3. cbv zeta in Ha3.
    destruct (SimulateV2.CURRENT_TESTING_PROBABILITY wc) as [tp|];
      [|discriminate].
    simpl in Ha3.
    repeat inv_bind Ha3.
    inversion Ha3; subst sa; clear Ha3. lookup_facts.
    rewrite S1 in *. rewrite S2 in *. rewrite S3 in *. rewrite S4 in *.
    repeat match goal with
           | H1 : ?l !! n = Some _, H2 : ?l !! n = Some _ |- _ =>
               rewrite H1 in H2; inversion H2; clear H2
           end.
    subst.
    unfold Refinement.same_series. simpl.
    rewrite E1, E2, E3, E4, E5, E6, E7, E8, S5, S6, S7, S8, C3, C4, C5.
    split_and!; reflexivity.
Qed.

Lemma day_of_3d_matches_2_witness :
  exists w2' s2' w3' s3',
    Exercise3dRun.one_day Scenario.quick_table (fun _ w => Ok w) 0
      (Scenario.trio_world [0; 0; 2; 0; 1; 1; 2; 2]%N,
       Samples.as_series (Exercise2.initial_stats Scenario.small_config))
      = Ok (w3', s3') /\
    Exercise2.one_day Scenario.small_config 0
      (Scenario.trio_sim [0; 0; 2; 0; 1; 1; 2; 2]%N,
       Exercise2.initial_stats Scenario.small_config) = Ok (w2', s2') /\
    Refinement.same_series s2' s3'.
Proof.
  destruct (Exercise3dRun.one_day Scenario.quick_table (fun _ w => Ok w) 0
      (Scenario.trio_world [0; 0; 2; 0; 1; 1; 2; 2]%N,
       Samples.as_series (Exercise2.initial_stats Scenario.small_config)))
    as [[w3' s3']| |] eqn:H3; [|vm_compute in H3; discriminate ..].
  destruct (day_of_3d_matches_2 Scenario.small_config (fun _ w => Ok w) 0%nat
              (Scenario.trio_sim [0; 0; 2; 0; 1; 1; 2; 2]%N)
              (Exercise2.initial_stats Scenario.small_config)
              (Scenario.trio_world [0; 0; 2; 0; 1; 1; 2; 2]%N) w3'
              (Samples.as_series (Exercise2.initial_stats Scenario.small_config))
              s3' E3d_quick_table_by_contact E3d_quick_table_like_well)
    as (w2' & s2' & H2 & _ & HS).
  - intros day w w' Hw. inversion Hw; subst. repeat split.
  - repeat split.
  - repeat split.
  - repeat split.
  - exact H3.
  - exists w2', s2', w3', s3'. split; [reflexivity|]. split; assumption.
Defined.

(** ** [exercise_2.py]: nobody overstays a state *)

Lemma E2_susceptible_contacts_Forall cfg (Q : person -> Prop) (k i : nat)
    (w w' : Exercise2.sim) :
  (forall n, Q {| id := n; state := infected; days := 1 |}) ->
  Exercise2.susceptible_contacts cfg k i w = Ok w' ->
  Forall Q (Exercise2.people w) -> Forall Q (Exercise2.people w').
Proof.
  intros HQ H Hall.
  apply E2_susceptible_at_most_one in H
    as (_ & _ & _ & [[Hl _]|(p & _ & Hl & _)]); rewrite Hl.
  - assumption.
  - apply Forall_insert; [assumption|apply HQ].
Qed.

Lemma E2_contagious_contacts_Forall cfg (Q : person -> Prop) (k : nat)
    (w w' : Exercise2.sim) :
  (forall n, Q {| id := n; state := infected; days := 1 |}) ->
  Exercise2.contagious_contacts cfg k w = Ok w' ->
  Forall Q (Exercise2.people w) -> Forall Q (Exercise2.people w').
Proof.
  intros HQ. revert w. induction k as [|k IH]; intros w H Hall; simpl in H.
  - inversion H; subst. assumption.
  - inv_bind H. inv_bind H. inv_bind H.
    destruct (can_be_infected _).
    + simpl in H. destruct (Qltb _ _).
      * apply IH in H; [assumption|]. simpl.
        apply Forall_insert; [assumption|apply HQ].
      * apply IH in H; assumption.
    + apply IH in H; assumption.
Qed.

Lemma E2_contact_loop_Forall cfg (Q : person -> Prop) (n i : nat)
    (w w' : Exercise2.sim) :
  (forall n, Q {| id := n; state := infected; days := 1 |}) ->
  Exercise2.contact_loop cfg n i w = Ok w' ->
  Forall Q (Exercise2.people w) -> Forall Q (Exercise2.people w').
Proof.
  intros HQ. revert i w. induction n as [|n IH]; intros i w H Hall; simpl in H.
  - inversion H; subst. assumption.
  - destruct (Exercise2.people w !! i) as [p|] eqn:Hp.
    2:{ inversion H; subst. assumption. }
    inv_bind H. rename a into w1, Ha into Hstep.
    apply IH in H; [assumption|].
    unfold Exercise2.contact_step in Hstep.
    destruct (can_be_infected _).
    + eapply E2_susceptible_contacts_Forall; eassumption.
    + destruct (health_eqb _ _).
      * eapply E2_contagious_contacts_Forall; eassumption.
      * inversion Hstep; subst. assumption.
Qed.

Lemma delete_insert_same {A : Type} (l : list A) (i : nat) (x : A) :
  delete i (<[i := x]> l) = delete i l.
Proof.
  revert i. induction l as [|a l IH]; intros [|i]; simpl; try reflexivity.
  f_equal. apply IH.
Qed.

Lemma within_first_day (tbl : health -> health_state) (n : Z) (h : health) :
  E2Facts.within_duration tbl {| id := n; state := h; days := 1 |}.
Proof. unfold E2Facts.within_duration. simpl. lia. Qed.

Lemma E2_health_step_within cfg (i : nat) (p : person) (w w' : Exercise2.sim) :
  E2Props.ids_unique (Exercise2.people w) ->
  Forall (E2Facts.within_duration (Exercise2.health_table cfg)) (Exercise2.people w) ->
  Exercise2.people w !! i = Some p ->
  Exercise2.health_step cfg i p w = Ok w' ->
  E2Props.ids_unique (Exercise2.people w') /\
  Forall (E2Facts.within_duration (Exercise2.health_table cfg)) (Exercise2.people w').
Proof.
  intros Hnd Hall Hp H.
  set (p1 := set_days p (days p + 1)).
  set (l1 := <[i := p1]> (Exercise2.people w)).
  assert (E2Props.ids_unique l1) as Hnd1.
  { apply (ids_unique_insert _ i p p1 Hnd Hp). reflexivity. }
  assert (l1 !! i = Some p1) as Hl1.
  { apply list_lookup_insert_eq. apply lookup_lt_Some in Hp. assumption. }
  apply E2_health_step_cases in H. cbv zeta in H. fold p1 in H. fold l1 in H.
  destruct H as [[-> Hno]|(Hpos & g & _ & [(j & q & Hj & Hq & ->)|(ns & Hns & ->)])].
  - split; [exact Hnd1|]. simpl. apply Forall_insert; [assumption|].
    unfold E2Facts.within_duration. simpl. intros Hd. lia.
  - assert (j = i) as ->.
    { apply person_eqb_id in Hq. unfold E2Props.ids_unique in Hnd1.
      apply (NoDup_lookup (id <$> l1) j i (id p1) Hnd1).
      - rewrite list_lookup_fmap, Hj. simpl. f_equal. exact Hq.
      - rewrite list_lookup_fmap, Hl1. reflexivity. }
    simpl. unfold l1. rewrite delete_insert_same. split.
    + apply ids_unique_delete. assumption.
    + apply Forall_delete. assumption.
  - assert (E2Props.ids_unique
              (<[i := {| id := id p; state := ns; days := 1 |}]> l1)
            /\ Forall (E2Facts.within_duration (Exercise2.health_table cfg))
                 (<[i := {| id := id p; state := ns; days := 1 |}]> l1)) as Hadv.
    { split.
      - apply (ids_unique_insert _ i p1 _ Hnd1 Hl1). reflexivity.
      - unfold l1. rewrite list_insert_insert_eq.
        apply Forall_insert; [assumption|apply within_first_day]. }
    destruct (health_eqb ns immune); exact Hadv.
Qed.

Lemma E2_health_loop_within cfg (n : nat) (w w' : Exercise2.sim) :
  E2Props.ids_unique (Exercise2.people w) ->
  Forall (E2Facts.within_duration (Exercise2.health_table cfg)) (Exercise2.people w) ->
  Exercise2.health_loop cfg n w = Ok w' ->
  E2Props.ids_unique (Exercise2.people w') /\
  Forall (E2Facts.within_duration (Exercise2.health_table cfg)) (Exercise2.people w').
Proof.
  revert w. induction n as [|n IH]; intros w Hnd Hall H; simpl in H.
  - inversion H; subst. split; assumption.
  - destruct (Exercise2.people w !! n) as [p|] eqn:Hp.
    + inv_bind H.
      destruct (E2_health_step_within cfg n p w a Hnd Hall Hp Ha) as [G1 G2].
      eapply IH; eassumption.
    + inversion H; subst. split; assumption.
Qed.

(** X20.  At the end of a run of [exercise_2.py] nobody has overstayed a
    state: every person whose state lasts a number of days (a positive
    'days at state') is on a day of that state that does not exceed this
    number.  The health loop moves a person on (or removes it) on the
    first day past the duration, and a person enters a state on day 1. *)
Theorem nobody_overstays_a_state :
  forall cfg g w s,
    Exercise2.run cfg g = Ok (w, s) ->
    Forall (E2Facts.within_duration (Exercise2.health_table cfg))
      (Exercise2.people w).
Proof.
  intros cfg g w s H.
  apply (E2_run_rule cfg
    (fun (_ : nat) w (_ : Exercise2.stats) =>
       E2Props.ids_unique (Exercise2.people w) /\
       Forall (E2Facts.within_duration (Exercise2.health_table cfg))
         (Exercise2.people w)))
    with (g := g) (s := s); try assumption.
  - intros m w1 s1 w2 w3 s' [Hnd Hall] _ Hh Hc _.
    apply E2_health_loop_within in Hh as [A1 A2]; [|assumption ..].
    split.
    + pose proof (E2_contact_loop_frame cfg _ _ _ _ Hc) as (_ & _ & _ & _ & B5 & _).
      unfold E2Props.ids_unique. rewrite B5. exact A1.
    + eapply E2_contact_loop_Forall; [|eassumption|assumption].
      intros n. apply within_first_day.
  - intros w1 (l & g' & Hi & ->). simpl.
    destruct (E2_initial_people_facts cfg) as (Hids & Hall & _).
    apply E2_infect_initial_outcome in Hi as (H1 & H2 & _).
    split.
    + unfold E2Props.ids_unique. rewrite H1, Hids.
      apply NoDup_fmap_2; [intros a b; apply Nat2Z.inj|apply NoDup_seq].
    + apply Forall_lookup. intros i p Hp.
      assert ((days <$> l) !! i = Some (days p)) as Hd
        by (rewrite list_lookup_fmap, Hp; reflexivity).
      rewrite H2, list_lookup_fmap in Hd.
      destruct (Exercise2.initial_people cfg !! i) as [q|] eqn:Hq;
        [|discriminate].
      simpl in Hd. inversion Hd.
      destruct (proj1 (Forall_lookup _ _) Hall i q Hq) as [_ Hq1].
      unfold E2Facts.within_duration. lia.
Qed.

Lemma nobody_overstays_a_state_witness :
  exists w s,
    Exercise2.run Scenario.small_config Scenario.sample_rng = Ok (w, s) /\
    Forall (E2Facts.within_duration Scenario.quick_table) (Exercise2.people w).
Proof.
  destruct (Exercise2.run Scenario.small_config Scenario.sample_rng)
    as [[w s]| |] eqn:Hrun; [|vm_compute in Hrun; discriminate ..].
  exists w, s. split; [reflexivity|].
  apply (nobody_overstays_a_state Scenario.small_config Scenario.sample_rng w s Hrun).
Defined.

(** ** [exercise_2.py]: counting the people of a kind *)


Lemma census_insert (F : health -> bool) (l : list person) (i : nat)
    (x y : person) :
  l !! i = Some y ->
  census F (<[i := x]> l) + bit (F (state y)) = census F l + bit (F (state x)).
Proof.
  intros Hy. apply (filter_length_insert (fun q => F (state q)) l i x y Hy).
Qed.

Lemma census_delete (F : health -> bool) (l : list person) (j : nat) (q : person) :
  l !! j = Some q ->
  census F (delete j l) + bit (F (state q)) = census F l.
Proof.
  revert j. induction l as [|a l IH]; intros j Hj.
  - destruct j; discriminate.
  - destruct j as [|j]; simpl in *.
    + inversion Hj; subst a. rewrite filter_cons.
      destruct (F (state q)); case_decide; simpl; try congruence; lia.
    + rewrite !filter_cons. specialize (IH j Hj).
      case_decide; simpl in *; lia.
Qed.

(** What the body of the health loop does to a census and to the two
    counters it writes. *)
Lemma E2_health_step_census cfg (F : health -> bool) (i : nat) (p : person)
    (w w' : Exercise2.sim) :
  Exercise2.people w !! i = Some p ->
  Exercise2.health_step cfg i p w = Ok w' ->
  (census F (Exercise2.people w') = census F (Exercise2.people w) /\
   Exercise2.new_recoveries w' = Exercise2.new_recoveries w /\
   Exercise2.new_deaths w' = Exercise2.new_deaths w) \/
  (0 < days_at_state (Exercise2.health_table cfg (state p)) /\
   census F (Exercise2.people w') + bit (F (state p))
     = census F (Exercise2.people w) /\
   Exercise2.new_recoveries w' = Exercise2.new_recoveries w /\
   Exercise2.new_deaths w' = Exercise2.new_deaths w + 1) \/
  (0 < days_at_state (Exercise2.health_table cfg (state p)) /\
   exists ns,
     next_state (Exercise2.health_table cfg (state p)) = Some ns /\
     census F (Exercise2.people w') + bit (F (state p))
       = census F (Exercise2.people w) + bit (F ns) /\
     Exercise2.new_recoveries w'
       = Exercise2.new_recoveries w + bit (health_eqb ns immune) /\
     Exercise2.new_deaths w' = Exercise2.new_deaths w).
Proof.
  intros Hp H.
  set (p1 := set_days p (days p + 1)).
  set (l1 := <[i := p1]> (Exercise2.people w)).
  assert (census F l1 = census F (Exercise2.people w)) as Hstay.
  { pose proof (census_insert F (Exercise2.people w) i p1 p Hp) as Hf.
    fold l1 in Hf. simpl in Hf. lia. }
  assert (l1 !! i = Some p1) as Hl1.
  { apply list_lookup_insert_eq. apply lookup_lt_Some in Hp. assumption. }
  apply E2_health_step_cases in H. cbv zeta in H. fold p1 in H. fold l1 in H.
  destruct H as [[-> _]|(Hpos & g & _ & [(j & q & Hj & Hq & ->)|(ns & Hns & ->)])].
  - left. split_and!; [exact Hstay|reflexivity|reflexivity].
  - right. left. split; [exact Hpos|].
    pose proof (census_delete F l1 j q Hj) as Hd.
    apply person_eqb_state in Hq. rewrite Hq in Hd. simpl in Hd.
    split_and!; [|reflexivity|reflexivity].
    change (Exercise2.people
              (Exercise2.count_death
                 (Exercise2.set_people (Exercise2.set_gen w g) (delete j l1))))
      with (delete j l1).
    lia.
  - right. right. split; [exact Hpos|]. exists ns. split; [exact Hns|].
    pose proof (census_insert F l1 i {| id := id p; state := ns; days := 1 |}
                  p1 Hl1) as Hf.
    simpl in Hf.
    destruct (health_eqb ns immune); simpl; split_and!; try reflexivity; lia.
Qed.

(** What the contact loops do to a census that counts no susceptible
    person: every new case adds one 'infected'. *)
Lemma E2_susceptible_contacts_census cfg (F : health -> bool) (k i : nat)
    (w w' : Exercise2.sim) (p : person) :
  (forall h, can_be_infected (Exercise2.health_table cfg h) = true -> F h = false) ->
  Exercise2.people w !! i = Some p ->
  can_be_infected (Exercise2.health_table cfg (state p)) = true ->
  Exercise2.susceptible_contacts cfg k i w = Ok w' ->
  census F (Exercise2.people w') - bit (F infected) * Exercise2.new_cases w'
  = census F (Exercise2.people w) - bit (F infected) * Exercise2.new_cases w.
Proof.
  intros HF Hp Hsus H.
  apply E2_susceptible_at_most_one in H as (_ & _ & _ & [[Hl Hn]|(p' & Hp' & Hl & Hn)]).
  - rewrite Hl, Hn. reflexivity.
  - rewrite Hl, Hn. rewrite Hp in Hp'. inversion Hp'; subst p'.
    pose proof (census_insert F (Exercise2.people w) i
                  {| id := id p; state := infected; days := 1 |} p Hp) as Hf.
    simpl in Hf. rewrite (HF _ Hsus) in Hf. destruct (F infected); lia.
Qed.

Lemma E2_contagious_contacts_census cfg (F : health -> bool) (k : nat)
    (w w' : Exercise2.sim) :
  (forall h, can_be_infected (Exercise2.health_table cfg h) = true -> F h = false) ->
  Exercise2.contagious_contacts cfg k w = Ok w' ->
  census F (Exercise2.people w') - bit (F infected) * Exercise2.new_cases w'
  = census F (Exercise2.people w) - bit (F infected) * Exercise2.new_cases w.
Proof.
  intros HF. revert w. induction k as [|k IH]; intros w H; simpl in H.
  - inversion H; subst. reflexivity.
  - inv_bind H. inv_bind H. inv_bind H.
    rename a into r, a0 into j, a1 into c, Ha into Hr, Ha0 into Hj, Ha1 into Hc.
    destruct (can_be_infected (Exercise2.health_table cfg (state c))) eqn:Hsus.
    + simpl in H. destruct (Qltb _ _).
      * apply IH in H. rewrite H. clear H. simpl.
        assert (Exercise2.people w !! j = Some c) as Hjc.
        { unfold py_get in Hc. rewrite Hj in Hc. simpl in Hc.
          destruct (Exercise2.people w !! j); [congruence|discriminate]. }
        pose proof (census_insert F (Exercise2.people w) j
                      {| id := id c; state := infected; days := 1 |} c Hjc) as Hf.
        simpl in Hf. rewrite (HF _ Hsus) in Hf. destruct (F infected); lia.
      * apply IH in H. exact H.
    + apply IH in H. exact H.
Qed.

Lemma E2_contact_loop_census cfg (F : health -> bool) (n i : nat)
    (w w' : Exercise2.sim) :
  (forall h, can_be_infected (Exercise2.health_table cfg h) = true -> F h = false) ->
  Exercise2.contact_loop cfg n i w = Ok w' ->
  census F (Exercise2.people w') - bit (F infected) * Exercise2.new_cases w'
  = census F (Exercise2.people w) - bit (F infected) * Exercise2.new_cases w.
Proof.
  intros HF. revert i w. induction n as [|n IH]; intros i w H; simpl in H.
  - inversion H; subst. reflexivity.
  - destruct (Exercise2.people w !! i) as [p|] eqn:Hp.
    2:{ inversion H; subst. reflexivity. }
    inv_bind H. rename a into w1, Ha into Hstep.
    apply IH in H. rewrite H. clear H.
    unfold Exercise2.contact_step in Hstep.
    destruct (can_be_infected (Exercise2.health_table cfg (state p))) eqn:Hsus.
    + eapply E2_susceptible_contacts_census; eassumption.
    + destruct (health_eqb (state p) contagious).
      * eapply E2_contagious_contacts_census; eassumption.
      * inversion Hstep; subst. reflexivity.
Qed.

Lemma E2_seeded_states cfg (g : rng) (w : Exercise2.sim) :
  E2Facts.seeded cfg g w ->
  Forall (fun p => state p = well \/ state p = contagious) (Exercise2.people w).
Proof.
  intros (l & g' & Hseed & ->). simpl.
  destruct (E2_initial_people_facts cfg) as (_ & Hall & _).
  apply E2_infect_initial_outcome in Hseed as (_ & _ & H3 & _).
  apply Forall_lookup. intros i p' Hp'.
  apply Forall2_same_length_lookup in H3 as [Hlen H3].
  destruct (lookup_lt_is_Some_2 (Exercise2.initial_people cfg) i) as [p Hp].
  { rewrite Hlen. eapply lookup_lt_Some; eassumption. }
  destruct (proj1 (Forall_lookup _ _) Hall i p Hp) as [Hw _].
  destruct (H3 i p p' Hp Hp') as [Hs|Hs]; [left; congruence|right; assumption].
Qed.

Lemma census_none (F : health -> bool) (l : list person) :
  Forall (fun p => F (state p) = false) l -> census F l = 0.
Proof.
  induction l as [|a l IH]; intros Hall; [reflexivity|].
  apply Forall_cons in Hall as [Ha Hall]. rewrite filter_cons.
  case_decide; [congruence|]. apply IH. assumption.
Qed.

(** ** [exercise_2.py]: the recoveries and the immune *)

Lemma E2_health_loop_immune cfg (n : nat) (w w' : Exercise2.sim) :
  E2Facts.recovery_is_final (Exercise2.health_table cfg) ->
  Exercise2.health_loop cfg n w = Ok w' ->
  Z.of_nat (E2Facts.in_state immune (Exercise2.people w'))
    - Exercise2.new_recoveries w'
  = Z.of_nat (E2Facts.in_state immune (Exercise2.people w))
    - Exercise2.new_recoveries w.
Proof.
  intros [Hd _]. revert w. induction n as [|n IH]; intros w H; simpl in H.
  - inversion H; subst. reflexivity.
  - destruct (Exercise2.people w !! n) as [p|] eqn:Hp.
    2:{ inversion H; subst. reflexivity. }
    inv_bind H. apply IH in H. rewrite H. clear H.
    unfold E2Facts.in_state.
    destruct (E2_health_step_census cfg (fun h => health_eqb h immune) n p w a Hp Ha)
      as [(C & R & _)|[(Hpos & C & R & _)|(Hpos & ns & Hns & C & R & _)]].
    + lia.
    + assert (health_eqb (state p) immune = false) as E.
      { destruct (state p); try reflexivity. lia. }
      rewrite E in C. lia.
    + assert (health_eqb (state p) immune = false) as E.
      { destruct (state p); try reflexivity. lia. }
      rewrite E in C. lia.
Qed.

(** X21.  Let the table be one in which an immune person stays immune (the
    state never elapses and cannot be infected; the table of the source is
    one).  Then at the end of a run of [exercise_2.py] the last entry of
    'cumulative recoveries' is the number of immune people in [people]:
    every recovery that was counted is a person who is still there and
    immune, and nobody is immune without having been counted. *)
Theorem recoveries_are_the_immune :
  forall cfg g w s,
    E2Facts.recovery_is_final (Exercise2.health_table cfg) ->
    Exercise2.run cfg g = Ok (w, s) ->
    Exercise2.cumulative_recoveries s !! range_len (Exercise2.SIMULATION_DAYS cfg)
      = Some (Z.of_nat (E2Facts.in_state immune (Exercise2.people w))).
Proof.
  intros cfg g w s Hfin H.
  apply (E2_run_rule cfg
    (fun (m : nat) w s =>
       Exercise2.cumulative_recoveries s !! m
         = Some (Z.of_nat (E2Facts.in_state immune (Exercise2.people w)))))
    with (g := g); try assumption.
  - intros m w1 s1 w2 w3 s' Hr Hs Hh Hc Ha.
    pose proof (E2_health_loop_immune cfg _ _ _ Hfin Hh) as I1. simpl in I1.
    pose proof (E2_contact_loop_census cfg (fun h => health_eqb h immune)
                  _ _ _ _
                  ltac:(intros h Hh'; destruct h; try reflexivity;
                        rewrite (proj2 Hfin) in Hh'; discriminate) Hc) as I2.
    simpl in I2.
    apply E2_contact_loop_frame in Hc as (_ & B2 & _).
    destruct (E2_append_stats_entries m w3 s1 s' (proj1 Hs) Ha)
      as (cc & ac & cr & cd & _ & _ & Hcr & _ & _ & _ & E3 & _).
    rewrite Hr in Hcr. inversion Hcr; subst cr. rewrite E3.
    destruct Hs as ((_ & _ & L3 & _) & _).
    rewrite (lookup_snoc_last _ _ (S m) L3). f_equal.
    unfold E2Facts.in_state in *. lia.
  - intros w1 Hseed. simpl. f_equal.
    unfold E2Facts.in_state.
    rewrite (census_none (fun h => health_eqb h immune)); [reflexivity|].
    eapply Forall_impl; [apply (E2_seeded_states cfg g w1 Hseed)|].
    intros p [-> | ->]; reflexivity.
Qed.

Lemma recoveries_are_the_immune_witness :
  exists w s,
    Exercise2.run Scenario.small_config Scenario.sample_rng = Ok (w, s) /\
    Exercise2.cumulative_recoveries s !! 8%nat
      = Some (Z.of_nat (E2Facts.in_state immune (Exercise2.people w))).
Proof.
  destruct (Exercise2.run Scenario.small_config Scenario.sample_rng)
    as [[w s]| |] eqn:Hrun; [|vm_compute in Hrun; discriminate ..].
  exists w, s. split; [reflexivity|].
  apply (recoveries_are_the_immune Scenario.small_config Scenario.sample_rng w s);
    [|exact Hrun].
  split; [simpl; lia|reflexivity].
Defined.

(** ** [exercise_2.py]: the active cases and the sick *)

Lemma E2_health_loop_sick cfg (n : nat) (w w' : Exercise2.sim) :
  E2Facts.infection_is_final (Exercise2.health_table cfg) ->
  E2Facts.recovery_is_final (Exercise2.health_table cfg) ->
  Exercise2.health_loop cfg n w = Ok w' ->
  Z.of_nat (E2Facts.sick cfg (Exercise2.people w'))
    + Exercise2.new_recoveries w' + Exercise2.new_deaths w'
  = Z.of_nat (E2Facts.sick cfg (Exercise2.people w))
    + Exercise2.new_recoveries w + Exercise2.new_deaths w.
Proof.
  intros (H1 & H2 & _) [Hd _].
  revert w. induction n as [|n IH]; intros w H; simpl in H.
  - inversion H; subst. reflexivity.
  - destruct (Exercise2.people w !! n) as [p|] eqn:Hp.
    2:{ inversion H; subst. reflexivity. }
    inv_bind H. apply IH in H. rewrite H. clear H.
    unfold E2Facts.sick.
    assert (0 < days_at_state (Exercise2.health_table cfg (state p)) ->
            negb (can_be_infected (Exercise2.health_table cfg (state p)))
            && negb (health_eqb (state p) immune) = true) as Hsick.
    { intros Hpos. apply andb_true_intro. split.
      - destruct (can_be_infected (Exercise2.health_table cfg (state p))) eqn:E;
          [|reflexivity].
        apply H1 in E. lia.
      - destruct (state p); try reflexivity. lia. }
    destruct (E2_health_step_census cfg
                (fun h => negb (can_be_infected (Exercise2.health_table cfg h))
                          && negb (health_eqb h immune)) n p w a Hp Ha)
      as [(C & R & D)|[(Hpos & C & R & D)|(Hpos & ns & Hns & C & R & D)]].
    + lia.
    + rewrite (Hsick Hpos) in C. lia.
    + rewrite (Hsick Hpos) in C. rewrite (H2 _ _ Hpos Hns) in C. simpl in C.
      destruct (health_eqb ns immune); simpl in C; lia.
Qed.

(** X22.  Let the table be one in which a susceptible state never elapses,
    no elapsing state leads back into a susceptible one, an infected person
    is not susceptible and an immune person stays immune (the table of the
    source is one).  Then at the end of a run of [exercise_2.py] the last
    entry of 'active cases' is the number of people in [people] who are
    neither susceptible nor immune, plus the number of seeding draws that
    did not make a new sick person: [INITIAL_INFECTION] minus the sick
    among the seeded people.  The list starts at [INITIAL_INFECTION]
    although the seeding may draw a person twice, and the day loop never
    corrects the difference. *)
Theorem active_cases_are_the_sick_plus_seeding_repeats :
  forall cfg g w s l0 g0,
    E2Facts.infection_is_final (Exercise2.health_table cfg) ->
    E2Facts.recovery_is_final (Exercise2.health_table cfg) ->
    Exercise2.infect_initial cfg
      (range_len (Exercise2.INITIAL_INFECTION cfg))
      (Exercise2.initial_people cfg) g = Ok (l0, g0) ->
    Exercise2.run cfg g = Ok (w, s) ->
    Exercise2.active_cases s !! range_len (Exercise2.SIMULATION_DAYS cfg)
      = Some (Z.of_nat (E2Facts.sick cfg (Exercise2.people w))
              + (Exercise2.INITIAL_INFECTION cfg - Z.of_nat (E2Facts.sick cfg l0))).
Proof.
  intros cfg g w s l0 g0 Hinf Hrec Hseed0 H.
  apply (E2_run_rule cfg
    (fun (m : nat) w s =>
       Exercise2.active_cases s !! m
         = Some (Z.of_nat (E2Facts.sick cfg (Exercise2.people w))
                 + (Exercise2.INITIAL_INFECTION cfg
                    - Z.of_nat (E2Facts.sick cfg l0)))))
    with (g := g); try assumption.
  - intros m w1 s1 w2 w3 s' Hr Hs Hh Hc Ha.
    pose proof (E2_health_loop_sick cfg _ _ _ Hinf Hrec Hh) as I1. simpl in I1.
    pose proof (E2_contact_loop_census cfg
                  (fun h => negb (can_be_infected (Exercise2.health_table cfg h))
                            && negb (health_eqb h immune))
                  _ _ _ _
                  ltac:(intros h Hh'; cbv beta; rewrite Hh'; reflexivity) Hc) as I2.
    simpl in I2.
    destruct Hinf as (_ & _ & Hi). rewrite Hi in I2. simpl in I2.
    apply E2_health_loop_counters in Hh as (A1 & _). simpl in A1.
    apply E2_contact_loop_frame in Hc as (_ & B2 & B3 & _).
    destruct (E2_append_stats_entries m w3 s1 s' (proj1 Hs) Ha)
      as (cc & ac & cr & cd & _ & Hac & _ & _ & _ & E2 & _).
    rewrite Hr in Hac. inversion Hac; subst ac. rewrite E2.
    destruct Hs as ((_ & L2 & _) & _).
    rewrite (lookup_snoc_last _ _ (S m) L2). f_equal.
    unfold E2Facts.sick in *. lia.
  - intros w1 (l & g' & Hseed & ->). simpl.
    rewrite Hseed0 in Hseed. inversion Hseed; subst l g'. f_equal. lia.
Qed.

Lemma active_cases_are_the_sick_plus_seeding_repeats_witness :
  exists w s l0 g0,
    Exercise2.infect_initial Scenario.small_config
      (range_len (Exercise2.INITIAL_INFECTION Scenario.small_config))
      (Exercise2.initial_people Scenario.small_config) Scenario.sample_rng
      = Ok (l0, g0) /\
    Exercise2.run Scenario.small_config Scenario.sample_rng = Ok (w, s) /\
    Exercise2.active_cases s !! 8%nat
      = Some (Z.of_nat (E2Facts.sick Scenario.small_config (Exercise2.people w))
              + (Exercise2.INITIAL_INFECTION Scenario.small_config
                 - Z.of_nat (E2Facts.sick Scenario.small_config l0))).
Proof.
  destruct (Exercise2.run Scenario.small_config Scenario.sample_rng)
    as [[w s]| |] eqn:Hrun; [|vm_compute in Hrun; discriminate ..].
  destruct (Exercise2.infect_initial Scenario.small_config
      (range_len (Exercise2.INITIAL_INFECTION Scenario.small_config))
      (Exercise2.initial_people Scenario.small_config) Scenario.sample_rng)
    as [[l0 g0]| |] eqn:Hseed; [|vm_compute in Hseed; discriminate ..].
  exists w, s, l0, g0. split; [reflexivity|]. split; [reflexivity|].
  apply (active_cases_are_the_sick_plus_seeding_repeats
           Scenario.small_config Scenario.sample_rng w s l0 g0);
    [| |exact Hseed|exact Hrun].
  - split_and!; [intros []; simpl; intros; try discriminate; lia
                |intros [] ns; simpl; intros Hp Hn; try lia;
                 inversion Hn; subst; reflexivity
                |reflexivity].
  - split; [simpl; lia|reflexivity].
Defined.
